(* ===== verification/_CoqProject ===== *)
-Q . S2P
Prelude.v
GoStrings.v
GoFlag.v
GoEncoding.v
GoUrl.v
Heap.v
DeepCopy.v
K8s.v
OperatorGo.v
Fakes.v
Api.v
ApiMemory.v
Zookeeper.v
Affinity.v
Krb5.v
Oidc.v
Service.v
ConfigMap.v
StatefulSet.v
Role.v
Version.v
Cluster.v
Controller.v
Main.v
