(* ===== verification/Prelude.v ===== *)
(** * A verification development for the Kubedoop operator of Apache HBase

    The program is a Kubernetes operator.  A manager ([cmd/main.go]) runs a
    controller ([internal/controller/hbasecluster_controller.go]) that, for
    each [HbaseCluster] object, builds a cluster reconciler
    ([internal/controller/cluster/cluster.go]), which builds one reconciler per
    role ([internal/controller/{master,regionserver,restserver}/role.go]), which
    builds four resources per role group: a stateful set, a service, a config
    map and a metrics service ([internal/controller/common/]).  Security
    settings come from [internal/controller/authz/].

    ** How Go is modelled

    - A function that returns [(T, error)] or may panic is a function to
      [outcome T] ([Ok], [Err], [Panic]).  A nil pointer is [None], and a
      dereference is [deref], which panics on [None].
    - A method that changes its receiver is a value of [M S A]: it returns the
      receiver also when it fails, since Go rolls nothing back.
    - A Go map is a [gmap]; one that may be nil is an [option] of it, and
      writing to a nil map panics.  The order of [range] over a map is a
      parameter, the class [MapRange]: what is proved for every instance holds
      for every order.
    - [int32] values are [Z]; the source does no arithmetic on them.  Strings are
      lists of bytes.  SHA-256 works on 32-bit words with their wrap-around.
    - Values stand for pointers wherever the code only reads through them.  The
      generated deep copies are about sharing, and are modelled over a store: [Heap]
      has typed variables, addresses that may lie inside a variable, slices as
      windows of arrays, and maps; [ApiMemory] has the API structs as they lie
      there.
    - The context argument and log lines are left out.

    ** Code outside the repository

    [OperatorGo] declares the operations of operator-go, controller-runtime and
    k8s.io the source calls, as classes without definitions; what the source
    relies on is in law classes ([PlatformLaws], [ImageLaws], [ContainerLaws],
    [StatefulSetLaws], [PodTemplateLaws], [ConfigMapLaws], [XMLLaws], [BasesLaws],
    [FullNameLaw]), and a theorem that needs one names it.  A merge of a role's
    configuration with a role group's may fail; [MergeTotal], which says that none
    does, is a case [Cluster.RegisterClusterResources_spec] looks at, and
    [Controller.Reconcile_registers_iff] does without it.  The Views show the part of an opaque
    object the laws speak of.  [Fakes] has in-memory instances of all of them, on
    which the witnesses compute.

    ** Files

    - [Prelude]: results, panics, state, maps, shared lemmas and tactics.
    - [GoStrings], [GoEncoding], [GoUrl], [GoFlag]: packages strings, strconv, path,
      encoding/hex, encoding/base64, crypto/sha256, net/url and flag, as far as used.
    - [Heap]: Go memory.  [DeepCopy]: the blocks controller-gen generates, the
      relation [rep] between a value in memory and what it stands for, and what it
      means to copy deeply ([copies]), block by block.
    - [K8s]: the API structs the source fills in.  [OperatorGo], [Fakes]: see above.
    - [Api]: [api/v1alpha1] as values, and the registration of the types.
    - [ApiMemory]: [api/v1alpha1] in memory and [zz_generated.deepcopy.go].  A copy
      stands for what the original stands for, shares no variable with it, and is
      as well typed; nil receivers; what copying a struct onto itself does.
    - [Zookeeper]: [common/zookeeper.go].  Parsing a connection string and reading
      it back; which strings are accepted; failures change nothing.
    - [Affinity]: [common/affinity.go].  The loop is a partition; bounds of weights.
    - [Krb5]: [authz/krb5.go].  Files lie in mounted directories; principals have
      keys; passwords agree.
    - [Oidc]: [authz/oidc.go].  The cookie secret, the issuer URL, the scopes and
      the environment of the side-car.
    - [Service]: [internal/constant], the [ports.go] files, [common/service.go],
      [internal/util/util.go].  Metrics ports and the metrics service.
    - [ConfigMap]: [common/configmap.go].  Each file of the config map; a
      reconciliation applies every expected file or nothing.
    - [StatefulSet]: [common/statefulset.go].  Every branch of [Build]; the pod is
      consistent; the two reconcilers of a role group agree; the side-car.
    - [Role]: the three [role.go] files, one definition over the class [RoleAPI],
      and [common/role.go].  Registration against a reference definition, its
      completeness and its independence of the iteration order.
    - [Version]: [internal/util/version/version.go], with encoding/json of strings.
    - [Cluster]: [cluster/cluster.go].  Registration of the roles; when the names of a
      cluster's services are distinct; the image.
    - [Controller]: the handler as a function and as a step relation, the
      refinement between them, the safety of a request, and exactly when it goes on
      to reconcile and check its resources.
    - [Main]: [cmd/main.go], from the arguments to how the process ends: the command
      line (that the program has an outcome for all arguments and when it panics,
      that the arguments can express every setting, where parsing stops, what those
      of the deployments mean), the options of the manager, and the exit status.

    A mapped definition has the name of the Go function, type or variable,
    up to [RegisterClusterResources], which is [Reconciler.RegisterResources] of
    package cluster, and [AppInfo_String], which is [AppInfo.String].
    Record modules hold a type [t] whose fields are those of the struct.

    ** Termination

    The loops over role groups, labels and elements are structural, over the list
    [map_range] gives or the indices of a slice, and registration and the deep copies
    are proved to succeed (not only to be right when they do) when their inputs are
    given.  One loop has fuel: [GoFlag.parse_loop], where one round more than there
    are arguments is enough, since each round uses up an argument
    ([GoFlag.parse_loop_Parse], [GoFlag.Parse_total]), so the program has an outcome
    for all arguments ([Main.program_panics_iff]).

    ** Not modelled

    controller-runtime's work queue, which hands a request to the handler again, and
    the phases [Reconcile] and [Ready] of operator-go's base cluster, which are
    parameters: how often a request comes back is not the source's to decide.  Config
    maps and authentication classes are read as they are during one run of the
    handler, not as functions of the world.  The logger and its options, what package flag writes to the standard error, the
    flags of other packages (parameters: [ForeignFlags]), and the tests, which start
    a cluster.  [rbac.go] is an empty file.  The [DeepCopyInto] methods of types
    declared elsewhere are parameters, with their documented behaviour as a law
    ([ForeignCopyLaws]).  A pointer held in a struct points at a variable of its
    own, not into another one; the decoder of the API makes no others.  The
    pointers a [StatefulSetBuilder] and its configuration share are read only, so
    values stand for them.  The kubebuilder comments, which generate the schema of
    the custom resource, are not program text.

    ** What the proofs found

    The discovery configuration misspells the master's principal
    ([Krb5.discovery_config_disagrees]); roles the API calls optional are
    dereferenced ([Controller.Reconcile_registers_iff]); the product version of
    the spec is ignored ([Cluster.GetImage_spec]); the example in the comment on
    [AddData] is rejected ([Zookeeper.AddData_documented_example_rejected]); the
    container port called metrics is not the metrics port
    ([Service.metrics_container_port_disagrees]); role groups [x] and [x-metrics] write the
    same service ([Cluster.service_names_distinct]); the Helm chart never turns on leader
    election ([Main.deployment_arguments]); Vector reads a log volume the main container
    does not mount ([StatefulSet.pod_consistent]); the JVM options of a role are
    set in a variable with a lower-case name ([ConfigMap.AddHbaseENVSh_spec]).

    ** Plan

    Next: the grammar package flag documents as a relation the parser refines, and
    the schemas of the custom resource's defaults and required fields as the
    hypotheses they establish for the controller. *)

From Stdlib Require Export ZArith Lia.
From stdpp Require Export base tactics gmap fin_maps strings pretty option.
From stdpp Require Export list.
From Stdlib Require Ascii String.
Export Stdlib.Strings.Ascii (ascii(..), ascii_of_N, N_of_ascii, ascii_N_embedding, N_ascii_embedding,
  N_ascii_bounded).
Export (notations) Stdlib.Strings.Ascii.

(** Notations and tactics of the development live in a scope of their own. *)
Declare Scope go_scope.
Delimit Scope go_scope with go.
Open Scope go_scope.

(** ** Errors, panics and results

    A Go function that returns [(T, error)] either returns a value, returns an
    error, or panics.  An error is made by the source itself ([errors.New],
    [fmt.Errorf]) or comes from a dependency. *)
Inductive error : Type :=
| GoError (msg : string)
| ExtError (reason : string).

#[export] Instance error_eq_dec : EqDecision error.
Proof. solve_decision. Defined.

Inductive outcome (A : Type) : Type :=
| Ok (a : A)
| Err (e : error)
| Panic (msg : string).
Arguments Ok {A} a.
Arguments Err {A} e.
Arguments Panic {A} msg.

#[export] Instance outcome_ret : MRet outcome := λ A a, Ok a.
#[export] Instance outcome_bind : MBind outcome := λ A B f x,
  match x with
  | Ok a => f a
  | Err e => Err e
  | Panic m => Panic m
  end.
#[export] Instance outcome_fmap : FMap outcome := λ A B f x,
  match x with
  | Ok a => Ok (f a)
  | Err e => Err e
  | Panic m => Panic m
  end.

(** Dereferencing a pointer: a nil pointer panics. *)
Definition nil_deref : string :=
  "runtime error: invalid memory address or nil pointer dereference".

Definition deref {A} (p : option A) : outcome A :=
  match p with
  | Some a => Ok a
  | None => Panic nil_deref
  end.

(** ** Methods that mutate their receiver

    [M S A] is a method whose receiver has state [S]: it returns the receiver
    as it is when the method returns, also when it returns an error or
    panics (Go does not roll a receiver back). *)
Definition M (S A : Type) : Type := S → S * outcome A.

#[export] Instance M_ret {S} : MRet (M S) := λ A a s, (s, Ok a).
#[export] Instance M_bind {S} : MBind (M S) := λ A B f c s,
  match c s with
  | (s', Ok a) => f a s'
  | (s', Err e) => (s', Err e)
  | (s', Panic m) => (s', Panic m)
  end.

Definition get {S} : M S S := λ s, (s, Ok s).
Definition modify {S} (f : S → S) : M S unit := λ s, (f s, Ok tt).
Definition lift {S A} (o : outcome A) : M S A := λ s, (s, o).

(** A method of an embedded or wrapped object: run [c] on the part of the state
    that [proj] reads and [upd] writes back. *)
Definition on_part {S T A} (proj : S → T) (upd : T → S → S) (c : M T A) : M S A := λ s,
  let '(t, r) := c (proj s) in (upd t s, r).

Notation "'do' x <- c1 ;; c2" := (mbind (λ x, c2) c1)
  (at level 100, x binder, c1 at next level, right associativity) : go_scope.
Notation "'do!' c1 ;; c2" := (mbind (λ _ : unit, c2) c1)
  (at level 100, c1 at next level, right associativity) : go_scope.

(** ** Go maps

    A Go map is a finite map; a field of map type may be nil.  Reading a nil
    map finds nothing, writing to it panics.  The iteration order of [range]
    over a map is unspecified: an instance of [MapRange] is one choice of
    orders, and a theorem proved for every instance holds for every order. *)
Definition nil_map_write : string := "assignment to entry in nil map".

Definition map_read {V} (m : option (gmap string V)) (k : string) : option V :=
  match m with Some m' => m' !! k | None => None end.

Definition map_write {V} (m : option (gmap string V)) (k : string) (v : V)
  : outcome (option (gmap string V)) :=
  match m with
  | Some m' => Ok (Some (<[k:=v]> m'))
  | None => Panic nil_map_write
  end.

Class MapRange := {
  map_range : ∀ {V : Type}, gmap string V → list (string * V);
  map_range_perm : ∀ {V : Type} (m : gmap string V), map_range m ≡ₚ map_to_list m
}.

(** Two orders an implementation may choose. *)
Definition range_forward : MapRange :=
  {| map_range := λ V m, map_to_list m; map_range_perm := λ V m, Permutation_refl _ |}.

Lemma reverse_map_to_list_perm {V} (m : gmap string V) :
  reverse (map_to_list m) ≡ₚ map_to_list m.
Proof. apply reverse_Permutation. Qed.

Definition range_backward : MapRange :=
  {| map_range := λ V m, reverse (map_to_list m);
     map_range_perm := @reverse_map_to_list_perm |}.

(** The double quote as a string. *)
Definition dq : string := String (ascii_of_N 34) "".

(** ** Shared lemmas *)
Section outcome_lemmas.
Context {A B : Type}.
Implicit Types (x : outcome A) (f : A → outcome B).

Lemma outcome_bind_Ok x f b :
  (x ≫= f) = Ok b ↔ ∃ a, x = Ok a ∧ f a = Ok b.
Proof. destruct x; simpl; naive_solver. Qed.

Lemma outcome_bind_Err x f e :
  (x ≫= f) = Err e ↔ x = Err e ∨ ∃ a, x = Ok a ∧ f a = Err e.
Proof. destruct x; simpl; naive_solver. Qed.

Lemma outcome_bind_Panic x f m :
  (x ≫= f) = Panic m ↔ x = Panic m ∨ ∃ a, x = Ok a ∧ f a = Panic m.
Proof. destruct x; simpl; naive_solver. Qed.

Lemma deref_Ok (p : option A) a : deref p = Ok a ↔ p = Some a.
Proof. destruct p; simpl; naive_solver. Qed.

Lemma deref_Some (a : A) : deref (Some a) = Ok a.
Proof. done. Qed.
End outcome_lemmas.

Section M_lemmas.
Context {S A B : Type}.
Implicit Types (c : M S A) (f : A → M S B).

Lemma M_bind_Ok c f s s' b :
  (c ≫= f) s = (s', Ok b) ↔ ∃ s1 a, c s = (s1, Ok a) ∧ f a s1 = (s', Ok b).
Proof. unfold mbind, M_bind. destruct (c s) as [? []]; naive_solver. Qed.

Lemma M_bind_Err c f s s' e :
  (c ≫= f) s = (s', Err e) ↔
    c s = (s', Err e) ∨ ∃ s1 a, c s = (s1, Ok a) ∧ f a s1 = (s', Err e).
Proof. unfold mbind, M_bind. destruct (c s) as [? []]; naive_solver. Qed.

Lemma M_bind_run c f s s1 a : c s = (s1, Ok a) → (c ≫= f) s = f a s1.
Proof. unfold mbind, M_bind. by intros ->. Qed.

Lemma M_bind_stop c f s s1 e : c s = (s1, Err e) → (c ≫= f) s = (s1, Err e).
Proof. unfold mbind, M_bind. by intros ->. Qed.

Lemma M_run_snd c s o : snd (c s) = o → c s = (fst (c s), o).
Proof. intros <-. apply surjective_pairing. Qed.

Lemma lift_bind (o : outcome A) f s a : o = Ok a → (lift o ≫= f) s = f a s.
Proof. by intros ->. Qed.
End M_lemmas.

(** Copying a map entry by entry with [range] gives the union, whatever the order. *)
Definition map_copy {V} `{!MapRange} (src dst : gmap string V) : gmap string V :=
  foldl (λ acc kv, <[kv.1 := kv.2]> acc) dst (map_range src).

Lemma foldl_insert_lookup {V} (l : list (string * V)) (m : gmap string V) k :
  NoDup l.*1 →
  foldl (λ acc kv, <[kv.1 := kv.2]> acc) m l !! k =
    match (list_to_map l : gmap string V) !! k with Some v => Some v | None => m !! k end.
Proof.
  revert m. induction l as [|[k' v'] l IH]; intros m Hnd; simpl; [done|].
  apply NoDup_cons in Hnd as [Hni Hnd]. simpl in *. rewrite IH by done.
  destruct (decide (k = k')) as [->|Hne].
  - rewrite lookup_insert_eq.
    rewrite not_elem_of_list_to_map_1 by done. by rewrite lookup_insert_eq.
  - by rewrite !lookup_insert_ne by congruence.
Qed.

Lemma map_copy_union {V} `{!MapRange} (src dst : gmap string V) :
  map_copy src dst = src ∪ dst.
Proof.
  apply map_eq. intros k. unfold map_copy.
  assert (NoDup (map_range src).*1) as Hnd.
  { rewrite map_range_perm. apply NoDup_fst_map_to_list. }
  rewrite foldl_insert_lookup by done.
  rewrite (list_to_map_proper _ _ Hnd (map_range_perm src)), list_to_map_to_list.
  rewrite lookup_union. by destruct (src !! k), (dst !! k).
Qed.

(** The only order of a map with one entry. *)
Lemma map_range_singleton {V} `{!MapRange} k (v : V) : map_range {[k := v]} = [(k, v)].
Proof.
  apply Permutation_singleton_r. by rewrite map_range_perm, map_to_list_singleton.
Qed.

Lemma string_app_assoc (s1 s2 s3 : string) : (s1 +:+ s2) +:+ s3 = s1 +:+ (s2 +:+ s3).
Proof. induction s1 as [|c s1 IH]; [done|]. exact (f_equal (String c) IH). Qed.

Lemma string_app_nil_r (s : string) : s +:+ "" = s.
Proof. induction s as [|c s IH]; [done|]. exact (f_equal (String c) IH). Qed.

Lemma string_app_nil_l (s : string) : "" +:+ s = s.
Proof. done. Qed.

Lemma string_length_app (s1 s2 : string) :
  String.length (s1 +:+ s2) = String.length s1 + String.length s2.
Proof. induction s1 as [|c s1 IH]; [done|]. exact (f_equal S IH). Qed.

(** ** Automation *)
Create HintDb go discriminated.
#[export] Hint Resolve map_copy_union string_app_assoc string_app_nil_r : go.
Create Rewrite HintDb go_string.
#[export] Hint Rewrite string_app_assoc string_app_nil_r string_app_nil_l : go_string.

(** Invert a successful chain of calls, one bind at a time. *)
Ltac go_invert :=
  repeat match goal with
  | H : (_ ≫= _) = Ok _ |- _ => apply outcome_bind_Ok in H as (? & ? & H)
  | H : deref _ = Ok _ |- _ => apply deref_Ok in H
  | H : Ok _ = Ok _ |- _ => injection H as H
  | H : Err _ = Ok _ |- _ => discriminate H
  | H : Panic _ = Ok _ |- _ => discriminate H
  | H : Ok _ = Err _ |- _ => discriminate H
  end; simplify_eq.

(** Run a chain of calls whose results are known. *)
Ltac go_run :=
  repeat (simpl in *; match goal with
  | H : ?x = Ok _ |- context [?x] => rewrite H
  | H : ?x = Err _ |- context [?x] => rewrite H
  | H : ?x = Some _ |- context [?x] => rewrite H
  | H : ?x = None |- context [?x] => rewrite H
  end); simpl; try done.
