(* ===== verification/GoStrings.v ===== *)
(** * The parts of Go's [strings], [strconv] and [path] the source uses

    Go strings are byte strings: a Rocq [string] is the list of its bytes.
    [Split] is [strings.Split] for a separator of one byte, the only kind the
    source uses; [Join] is [strings.Join]; [Itoa] is [strconv.Itoa]; [Clean]
    and [PathJoin] are [path.Clean] and [path.Join]. *)

From S2P Require Import Prelude.

(** ** strings.Split, strings.Join *)
Fixpoint Split (s : string) (sep : ascii) : list string :=
  match s with
  | EmptyString => [""]
  | String a s' =>
      if decide (a = sep) then "" :: Split s' sep
      else match Split s' sep with
           | h :: t => String a h :: t
           | [] => [String a ""]
           end
  end.

Fixpoint Join (elems : list string) (sep : string) : string :=
  match elems with
  | [] => ""
  | [x] => x
  | x :: l => x +:+ sep +:+ Join l sep
  end.

(** [has c s]: the byte [c] occurs in [s]. *)
Fixpoint has (c : ascii) (s : string) : bool :=
  match s with
  | EmptyString => false
  | String a s' => if decide (a = c) then true else has c s'
  end.

(** [count c s]: how often it occurs. *)
Fixpoint count (c : ascii) (s : string) : nat :=
  match s with
  | EmptyString => 0
  | String a s' => if decide (a = c) then S (count c s') else count c s'
  end.

(** ** strconv.Itoa *)
Definition Itoa (n : Z) : string := pretty n.

(** ** path.Clean, path.Join

    [Clean] is the lexical processing [path.Clean] documents: cut the path at
    its slashes, drop empty and [.] elements, let each [..] remove the element
    before it (at the root it is dropped, in a relative path that has nothing
    left to remove it is kept), and put the slashes back. *)
Definition rooted (p : string) : bool :=
  match p with String "/"%char _ => true | _ => false end.

Definition clean_step (root : bool) (stack : list string) (elem : string) : list string :=
  if decide (elem = "" ∨ elem = ".") then stack
  else if decide (elem = "..") then
    match stack with
    | top :: below => if decide (top = "..") then elem :: stack else below
    | [] => if root then [] else [elem]
    end
  else elem :: stack.

(** The elements left, innermost first. *)
Definition clean_stack (p : string) : list string :=
  foldl (clean_step (rooted p)) [] (Split p "/"%char).

Definition render (root : bool) (stack : list string) : string :=
  match root, stack with
  | true, _ => "/" +:+ Join (reverse stack) "/"
  | false, [] => "."
  | false, _ => Join (reverse stack) "/"
  end.

Definition Clean (p : string) : string := render (rooted p) (clean_stack p).

(** [path.Join] concatenates with slashes, leaving out leading empty elements,
    and cleans the result unless every element is empty. *)
Definition join_step (buf e : string) : string :=
  if decide (buf = "") then e else buf +:+ "/" +:+ e.

Definition PathJoin (elems : list string) : string :=
  if decide (Forall (λ e, e = "") elems) then ""
  else Clean (foldl join_step "" elems).

(** ** Lemmas *)

(** *** Split and Join *)
Lemma Split_not_nil s c : Split s c ≠ [].
Proof. destruct s; simpl; [done|]. case_decide; [done|]. by case_match. Qed.

Lemma Split_cons_sep s c : Split (String c s) c = "" :: Split s c.
Proof. simpl. by case_decide. Qed.

(** A piece without the separator is the first piece. *)
Lemma Split_app_sep s1 s2 c :
  has c s1 = false → Split (s1 +:+ String c s2) c = s1 :: Split s2 c.
Proof.
  induction s1 as [|a s1 IH]; intros Hno.
  - apply Split_cons_sep.
  - change (String a s1 +:+ String c s2) with (String a (s1 +:+ String c s2)).
    simpl in *. case_decide; [done|]. by rewrite IH.
Qed.

Lemma Split_no_sep s c : has c s = false → Split s c = [s].
Proof.
  induction s as [|a s IH]; intros Hno; [done|].
  simpl in *. case_decide; [done|]. by rewrite IH.
Qed.

Lemma Split_length s c : length (Split s c) = S (count c s).
Proof.
  induction s as [|a s IH]; [done|]. simpl. case_decide; simpl; [by rewrite IH|].
  destruct (Split s c) eqn:E; [by destruct (Split_not_nil s c)|]. done.
Qed.

Lemma Join_cons x l sep : l ≠ [] → Join (x :: l) sep = x +:+ sep +:+ Join l sep.
Proof. by destruct l. Qed.

(** Joining what [Split] returns gives the string back. *)
Lemma Join_Split s c : Join (Split s c) (String c "") = s.
Proof.
  induction s as [|a s IH]; [done|]. simpl. case_decide as Ha.
  - rewrite Join_cons by apply Split_not_nil. rewrite IH. by subst a.
  - destruct (Split s c) as [|h t] eqn:E; [by destruct (Split_not_nil s c)|].
    destruct t as [|h' t]; simpl in *; [by rewrite IH|].
    change (String a h +:+ ?x) with (String a (h +:+ x)). by rewrite IH.
Qed.

(** Splitting what [Join] returns gives the pieces back, when none holds the separator. *)
Lemma Split_Join l c :
  l ≠ [] → Forall (λ s, has c s = false) l → Split (Join l (String c "")) c = l.
Proof.
  induction l as [|x l IH]; [done|]. intros _ [Hx Hl]%Forall_cons.
  destruct l as [|y l]; [by apply Split_no_sep|].
  rewrite Join_cons by done.
  change (String c "" +:+ ?r) with (String c r).
  rewrite Split_app_sep by done. f_equal. by apply IH.
Qed.

Lemma has_count c s : has c s = false ↔ count c s = 0.
Proof. induction s as [|a s IH]; simpl; [done|]. by case_decide. Qed.

Lemma has_app c s1 s2 : has c (s1 +:+ s2) = has c s1 || has c s2.
Proof.
  induction s1 as [|a s1 IH]; [done|].
  change (String a s1 +:+ s2) with (String a (s1 +:+ s2)).
  simpl. by case_decide.
Qed.

Lemma count_app c s1 s2 : count c (s1 +:+ s2) = count c s1 + count c s2.
Proof.
  induction s1 as [|a s1 IH]; [done|].
  change (String a s1 +:+ s2) with (String a (s1 +:+ s2)).
  simpl. case_decide; simpl; by rewrite IH.
Qed.

(** No piece holds the separator. *)
Lemma Split_pieces s c : Forall (λ p, has c p = false) (Split s c).
Proof.
  induction s as [|a s IH]; simpl; [by repeat constructor|]. case_decide as Ha.
  - by constructor.
  - destruct (Split s c) as [|h t]; inversion IH; subst; [constructor|]; simpl.
    + by case_decide.
    + constructor.
    + constructor; [simpl; by case_decide|done].
Qed.

(** *** Itoa *)
#[export] Instance Itoa_inj : Inj (=) (=) Itoa.
Proof. apply _. Qed.

(** *** path.Clean *)

(** An element [Clean] keeps: it is not empty, not [.], and holds no slash. *)
Definition elem_ok (e : string) : Prop := e ≠ "" ∧ e ≠ "." ∧ has "/"%char e = false.

(** An ordinary file name. *)
Definition file_name (e : string) : Prop := elem_ok e ∧ e ≠ "..".

(** The stacks [clean_step] builds: [..] only below everything else, and never
    in a rooted path. *)
Inductive wf_stack (root : bool) : list string → Prop :=
| wf_nil : wf_stack root []
| wf_up st : root = false → Forall (λ e, e = "..") st → wf_stack root st → wf_stack root (".." :: st)
| wf_name e st : file_name e → wf_stack root st → wf_stack root (e :: st).

Lemma elem_ok_dotdot : elem_ok "..".
Proof. by repeat split. Qed.

Lemma wf_stack_elems root st : wf_stack root st → Forall elem_ok st.
Proof.
  induction 1 as [|st Hr Hall Hwf IH|e st [He _] Hwf IH].
  - by apply Forall_nil.
  - apply Forall_cons. split; [apply elem_ok_dotdot|done].
  - by apply Forall_cons.
Qed.

Lemma wf_stack_below root e st : wf_stack root (e :: st) → wf_stack root st.
Proof. by inversion 1. Qed.

Lemma wf_stack_up root st :
  wf_stack root (".." :: st) → root = false ∧ Forall (λ e, e = "..") st.
Proof. inversion 1 as [| |e st' [_ Hne]]; [done|]. done. Qed.

Lemma clean_step_wf root st e :
  has "/"%char e = false → wf_stack root st → wf_stack root (clean_step root st e).
Proof.
  intros Hsl Hwf. unfold clean_step. case_decide as H1; [done|]. case_decide as H2.
  - subst e. destruct st as [|top below].
    + destruct root; [constructor|]. by constructor.
    + case_decide as H3.
      * subst top. destruct (wf_stack_up _ _ Hwf). constructor; [done|by constructor|done].
      * by eapply wf_stack_below.
  - apply wf_name; [|done]. split; [|done]. split; [|split]; naive_solver.
Qed.

Lemma clean_fold_wf root l st :
  Forall (λ e, has "/"%char e = false) l → wf_stack root st →
  wf_stack root (foldl (clean_step root) st l).
Proof.
  revert st. induction l as [|e l IH]; intros st Hl Hwf; [done|].
  apply Forall_cons in Hl as [He Hl]. simpl. by apply IH, clean_step_wf.
Qed.

Lemma clean_stack_wf p : wf_stack (rooted p) (clean_stack p).
Proof. apply clean_fold_wf; [apply Split_pieces|constructor]. Qed.

(** Pushing an element a well-formed stack may hold on top just adds it. *)
Lemma clean_step_push root st e :
  wf_stack root (e :: st) → clean_step root st e = e :: st.
Proof.
  intros Hwf. pose proof (wf_stack_elems _ _ Hwf) as Hok.
  apply Forall_cons in Hok as [(He1 & He2 & _) _]. unfold clean_step.
  rewrite decide_False by naive_solver. case_decide as Hup; [|done]. subst e.
  destruct (wf_stack_up _ _ Hwf) as [-> Hall]. destruct st as [|top st]; [done|].
  apply Forall_cons in Hall as [-> _]. done.
Qed.

Lemma clean_fold_reverse root st :
  wf_stack root st → foldl (clean_step root) [] (reverse st) = st.
Proof.
  induction st as [|e st IH]; intros Hwf; [done|].
  rewrite reverse_cons, foldl_app. simpl. rewrite IH by (by eapply wf_stack_below).
  by apply clean_step_push.
Qed.

Lemma rooted_app s1 s2 : s1 ≠ "" → rooted (s1 +:+ s2) = rooted s1.
Proof. destruct s1 as [|c s1]; [done|]. intros _. reflexivity. Qed.

Lemma rooted_elem e : elem_ok e → rooted e = false.
Proof.
  intros (Hne & _ & Hsl). destruct e as [|c e]; [done|]. simpl in Hsl.
  case_decide as Hc; [done|]. unfold rooted. by repeat (case_match; try done).
Qed.

Lemma rooted_Join l : l ≠ [] → Forall elem_ok l → rooted (Join l "/") = false.
Proof.
  destruct l as [|x l]; [done|]. intros _ [Hx Hl]%Forall_cons.
  destruct l as [|y l]; [by apply rooted_elem|].
  rewrite Join_cons by done. rewrite rooted_app by apply Hx. by apply rooted_elem.
Qed.

Lemma Forall_reverse_elems st : Forall elem_ok st → Forall elem_ok (reverse st).
Proof. by rewrite Forall_reverse. Qed.

Lemma Split_Join_stack st :
  st ≠ [] → Forall elem_ok st → Split (Join (reverse st) "/") "/"%char = reverse st.
Proof.
  intros Hne Hok. apply Split_Join.
  - intros Heq. apply (f_equal reverse) in Heq. by rewrite reverse_involutive in Heq.
  - eapply Forall_impl; [by apply Forall_reverse_elems|]. by intros e (_ & _ & ?).
Qed.

Lemma reverse_not_nil {A} (l : list A) : l ≠ [] → reverse l ≠ [].
Proof. intros Hne Heq. apply (f_equal reverse) in Heq. by rewrite reverse_involutive in Heq. Qed.

Lemma rooted_render root st : wf_stack root st → rooted (render root st) = root.
Proof.
  intros Hwf. destruct root; [done|]. destruct st as [|e st]; [done|].
  unfold render. apply rooted_Join; [by apply reverse_not_nil|].
  by apply Forall_reverse_elems, wf_stack_elems with false.
Qed.

(** Processing a rendered stack gives the stack back. *)
Lemma clean_stack_render root st : wf_stack root st → clean_stack (render root st) = st.
Proof.
  intros Hwf. unfold clean_stack. rewrite rooted_render by done.
  pose proof (wf_stack_elems _ _ Hwf) as Hok.
  destruct st as [|e st]; [by destruct root|]. destruct root; unfold render.
  - change ("/" +:+ ?s) with (String "/"%char s). rewrite Split_cons_sep.
    rewrite Split_Join_stack by done. simpl. unfold clean_step at 2. simpl.
    by apply clean_fold_reverse.
  - rewrite Split_Join_stack by done. by apply clean_fold_reverse.
Qed.

(** [path.Clean] is idempotent. *)
Lemma Clean_idemp p : Clean (Clean p) = Clean p.
Proof.
  unfold Clean. rewrite rooted_render, clean_stack_render by apply clean_stack_wf. done.
Qed.

Lemma Split_app s1 s2 c :
  Split (s1 +:+ String c s2) c = Split s1 c ++ Split s2 c.
Proof.
  induction s1 as [|a s1 IH]; [apply Split_cons_sep|].
  change (String a s1 +:+ ?x) with (String a (s1 +:+ x)). simpl.
  case_decide; [by rewrite IH|]. rewrite IH.
  destruct (Split s1 c) eqn:E; [by destruct (Split_not_nil s1 c)|]. done.
Qed.

(** Adding a file name to a path: the name is pushed on the stack. *)
Lemma clean_stack_snoc p e :
  p ≠ "" → file_name e → clean_stack (p +:+ "/" +:+ e) = e :: clean_stack p.
Proof.
  intros Hp He. unfold clean_stack. rewrite rooted_app by done.
  change ("/" +:+ e) with (String "/"%char e).
  rewrite Split_app, foldl_app.
  destruct He as [(He1 & He2 & Hsl) Hup]. rewrite (Split_no_sep e) by done. simpl.
  unfold clean_step at 1. rewrite !decide_False by naive_solver. done.
Qed.

Lemma clean_stack_name e : file_name e → clean_stack e = [e].
Proof.
  intros [(He1 & He2 & Hsl) Hup]. unfold clean_stack. rewrite Split_no_sep by done.
  simpl. unfold clean_step. rewrite !decide_False by naive_solver. done.
Qed.

Lemma render_snoc root e st : st ≠ [] → render root (e :: st) = render root st +:+ "/" +:+ e.
Proof.
  intros Hne. assert (∀ l : list string, l ≠ [] →
    Join (l ++ [e]) "/" = Join l "/" +:+ "/" +:+ e) as Hj.
  { induction l as [|x l IH]; [done|]. intros _. destruct l as [|y l]; [done|].
    change ((x :: y :: l) ++ [e]) with (x :: ((y :: l) ++ [e])).
    rewrite (Join_cons x ((y :: l) ++ [e])) by done. rewrite IH by done.
    rewrite (Join_cons x (y :: l)) by done. by rewrite !string_app_assoc. }
  unfold render. rewrite reverse_cons. rewrite Hj by (by apply reverse_not_nil).
  by destruct root, st.
Qed.

Lemma elem_not_empty e : file_name e → e ≠ "".
Proof. by intros [[? _] _]. Qed.

Lemma PathJoin_2 p e : p ≠ "" → e ≠ "" → PathJoin [p; e] = Clean (p +:+ "/" +:+ e).
Proof.
  intros Hp He. unfold PathJoin. rewrite decide_False.
  2:{ intros Hall. by apply Forall_cons in Hall as [?%Hp _]. }
  simpl. unfold join_step. by repeat case_decide.
Qed.

Lemma PathJoin_empty_l e : file_name e → PathJoin [""; e] = e.
Proof.
  intros He. unfold PathJoin. rewrite decide_False.
  2:{ intros Hall. apply Forall_cons in Hall as [_ Hall].
      by apply Forall_cons in Hall as [?%(elem_not_empty _ He) _]. }
  simpl. unfold join_step at 2. simpl. unfold join_step. simpl. unfold Clean. rewrite clean_stack_name by done.
  rewrite rooted_elem by apply He. done.
Qed.

(** Joining a file name to any root pushes the name. *)
Lemma PathJoin_push root d :
  file_name d → ∃ r st, PathJoin [root; d] = render r (d :: st) ∧ wf_stack r (d :: st).
Proof.
  intros Hd. destruct (decide (root = "")) as [->|Hroot].
  - exists false, []. rewrite PathJoin_empty_l by done. split; [done|].
    repeat constructor; apply Hd.
  - exists (rooted root), (clean_stack root).
    rewrite PathJoin_2 by (done || by apply elem_not_empty). unfold Clean.
    rewrite clean_stack_snoc, rooted_app by done. split; [done|].
    constructor; [done|apply clean_stack_wf].
Qed.

(** The last element of a path made by joining a file name is that name. *)
Lemma PathJoin_head root d : file_name d → head (clean_stack (PathJoin [root; d])) = Some d.
Proof.
  intros Hd. destruct (PathJoin_push root d Hd) as (r & st & -> & Hwf).
  by rewrite clean_stack_render.
Qed.

Lemma PathJoin_inj root root' d d' :
  file_name d → file_name d' → PathJoin [root; d] = PathJoin [root'; d'] → d = d'.
Proof.
  intros Hd Hd' Heq. pose proof (PathJoin_head root d Hd) as Hh.
  rewrite Heq, PathJoin_head in Hh by done. by injection Hh.
Qed.

(** A directory made with [path.Join] from any root: the path of a file in it is the
    directory, a slash and the file name. *)
Lemma PathJoin_nested root d e :
  file_name d → file_name e →
  PathJoin [PathJoin [root; d]; e] = PathJoin [root; d] +:+ "/" +:+ e.
Proof.
  intros Hd He. destruct (PathJoin_push root d Hd) as (r & st & Heq & Hwf).
  assert (render r (d :: st) ≠ "") as Hne.
  { intros Hr. pose proof (clean_stack_render _ _ Hwf) as Hcs. rewrite Hr in Hcs. done. }
  rewrite Heq, PathJoin_2 by (done || by apply elem_not_empty). unfold Clean.
  rewrite rooted_app, clean_stack_snoc by done.
  rewrite rooted_render, clean_stack_render by done. by apply render_snoc.
Qed.

(** [all_chars f s]: every byte of [s] satisfies [f]. *)
Fixpoint all_chars (f : ascii → bool) (s : string) : bool :=
  match s with
  | EmptyString => true
  | String c s' => f c && all_chars f s'
  end.

Lemma all_chars_app f s1 s2 : all_chars f (s1 +:+ s2) = all_chars f s1 && all_chars f s2.
Proof.
  induction s1 as [|c s1 IH]; [done|].
  change (String c s1 +:+ s2) with (String c (s1 +:+ s2)). simpl. rewrite IH.
  by rewrite andb_assoc.
Qed.

Lemma all_chars_impl f g s :
  (∀ c, f c = true → g c = true) → all_chars f s = true → all_chars g s = true.
Proof.
  intros Hfg. induction s as [|c s IH]; [done|]. simpl.
  intros [Hc Hs]%andb_prop. rewrite (Hfg _ Hc). by apply IH.
Qed.

Lemma has_all_chars c s : has c s = negb (all_chars (λ a, negb (bool_decide (a = c))) s).
Proof.
  induction s as [|a s IH]; [done|]. simpl. rewrite IH.
  case_decide; [by rewrite bool_decide_true|by rewrite bool_decide_false].
Qed.

Definition is_digit (c : ascii) : bool := bool_decide (c ∈ String.list_ascii_of_string "0123456789").
Definition is_int_char (c : ascii) : bool := is_digit c || bool_decide (c = "-"%char).

Lemma pretty_N_char_digit n : is_digit (pretty_N_char n) = true.
Proof. unfold pretty_N_char. by repeat case_match. Qed.

Lemma pretty_N_go_digits n s : all_chars is_digit s = true → all_chars is_digit (pretty_N_go n s) = true.
Proof.
  revert s. induction (N.lt_wf_0 n) as [n _ IH]. intros s Hs.
  destruct (decide (n = 0%N)) as [->|Hn]; [by rewrite pretty_N_go_0|].
  rewrite pretty_N_go_step by lia. apply IH.
  - apply N.div_lt; lia.
  - simpl. by rewrite pretty_N_char_digit.
Qed.

Lemma pretty_N_digits (n : N) : all_chars is_digit (pretty n) = true.
Proof. unfold pretty, pretty_N. case_decide; [done|]. by apply pretty_N_go_digits. Qed.

(** [Itoa] writes digits, and a sign. *)
Lemma Itoa_chars z : all_chars is_int_char (Itoa z) = true.
Proof.
  assert (∀ n : N, all_chars is_int_char (pretty n) = true) as Hn.
  { intros n. eapply all_chars_impl; [|apply pretty_N_digits].
    intros c Hc. unfold is_int_char. by rewrite Hc. }
  unfold Itoa, pretty, pretty_Z. destruct z; [done|apply Hn|].
  simpl. apply Hn.
Qed.

(** A byte that is neither a digit nor a sign does not occur in a number. *)
Lemma Itoa_has z c : is_int_char c = false → has c (Itoa z) = false.
Proof.
  intros Hc. rewrite has_all_chars.
  rewrite (all_chars_impl is_int_char); [done| |apply Itoa_chars].
  intros a Ha. rewrite bool_decide_false; [done|]. intros ->. by rewrite Hc in Ha.
Qed.
