(* ===== verification/GoFlag.v ===== *)
(** * The parts of Go's [flag] package the source uses

    A flag set with [ExitOnError], over a state [V] that holds the variables the
    flags set: registration ([Var], which panics on a name that is taken), one
    step of the parser ([parseOne]) and the loop ([Parse]).  Usage texts and
    the messages written to the standard error are left out; which error it was is
    kept. *)

From S2P Require Import Prelude GoStrings.

(** [flag.Value] of a flag, with [IsBoolFlag]; [Set_] is the method [Set], which says
    whether the text was accepted. *)
Module Flag.
Record t {V : Type} := mk {
  Name : string;
  IsBoolFlag : bool;
  Set_ : string → V → V * bool
}.
Arguments t : clear implicits.
Arguments mk {_} _ _ _.
End Flag.

(** ** strconv.ParseBool *)
Definition true_words : list string := ["1"; "t"; "T"; "TRUE"; "true"; "True"].
Definition false_words : list string := ["0"; "f"; "F"; "FALSE"; "false"; "False"].

Definition ParseBool (s : string) : option bool :=
  if decide (s ∈ true_words) then Some true
  else if decide (s ∈ false_words) then Some false
  else None.

(** ** flag.StringVar and flag.BoolVar on a field of the variables

    A rejected text sets a boolean variable to false. *)
Definition StringVar {V} (name : string) (set : string → V → V) : Flag.t V :=
  Flag.mk name false (λ s v, (set s v, true)).

Definition BoolVar {V} (name : string) (set : bool → V → V) : Flag.t V :=
  Flag.mk name true (λ s v,
    match ParseBool s with
    | Some b => (set b v, true)
    | None => (set false v, false)
    end).

Section flags.
Context {V : Type}.
Implicit Types (formal : gmap string (Flag.t V)) (v : V) (args : list string).

(** ** Registration *)
Definition first_is (c : ascii) (s : string) : bool :=
  match s with String a _ => bool_decide (a = c) | EmptyString => false end.

Definition Var (formal : gmap string (Flag.t V)) (f : Flag.t V)
  : outcome (gmap string (Flag.t V)) :=
  let name := Flag.Name f in
  if first_is "-" name then Panic ("flag " +:+ dq +:+ name +:+ dq +:+ " begins with -")
  else if has "=" name then Panic ("flag " +:+ dq +:+ name +:+ dq +:+ " contains =")
  else match formal !! name with
       | Some _ => Panic ("flag redefined: " +:+ name)
       | None => Ok (<[name := f]> formal)
       end.

Fixpoint register (fs : list (Flag.t V)) formal : outcome (gmap string (Flag.t V)) :=
  match fs with
  | [] => Ok formal
  | f :: fs' => do formal' <- Var formal f;; register fs' formal'
  end.

(** ** One step of the parser *)
Inductive parse_error :=
| ErrHelp
| BadSyntax (s : string)
| NotDefined (name : string)
| InvalidBoolean (value name : string)
| NeedsArgument (name : string)
| InvalidValue (value name : string).

(** The argument is not a flag, or is one, or is wrong. *)
Inductive seen :=
| NoFlag (args : list string)
| SeenFlag (args : list string) (v : V)
| Failed (e : parse_error).

(** Cut at the first equals sign. *)
Fixpoint cut_equals (s : string) : string * option string :=
  match s with
  | EmptyString => ("", None)
  | String c s' =>
      if decide (c = "="%char) then ("", Some s')
      else let '(name, value) := cut_equals s' in (String c name, value)
  end.

(** Give a flag its value and go on with [args]. *)
Definition set_flag (f : Flag.t V) (value : string) (rejected : parse_error) args v : seen :=
  match Flag.Set_ f value v with
  | (v', true) => SeenFlag args v'
  | (_, false) => Failed rejected
  end.

(** The flag [name], perhaps with a value after an equals sign. *)
Definition parse_named formal (name : string) (value : option string) args v : seen :=
  match formal !! name with
  | None => Failed (if decide (name = "help" ∨ name = "h") then ErrHelp else NotDefined name)
  | Some f =>
      if Flag.IsBoolFlag f then
        let text := default "true" value in
        set_flag f text (InvalidBoolean text name) args v
      else
        match value, args with
        | Some text, _ => set_flag f text (InvalidValue text name) args v
        | None, text :: args' => set_flag f text (InvalidValue text name) args' v
        | None, [] => Failed (NeedsArgument name)
        end
  end.

(** What follows the dashes of [s]. *)
Definition parse_body formal (s body : string) args v : seen :=
  match body with
  | EmptyString => Failed (BadSyntax s)
  | String c body' =>
      if decide (c = "-"%char ∨ c = "="%char) then Failed (BadSyntax s)
      else let '(name, value) := cut_equals body' in parse_named formal (String c name) value args v
  end.

Definition parseOne formal args v : seen :=
  match args with
  | [] => NoFlag []
  | s :: rest =>
      match s with
      | String a (String b body) =>
          if decide (a = "-"%char) then
            if decide (b = "-"%char) then
              if decide (body = "") then NoFlag rest else parse_body formal s body rest v
            else parse_body formal s (String b body) rest v
          else NoFlag args
      | _ => NoFlag args
      end
  end.

(** ** The loop

    It ends with the arguments that are left and the variables, or with an error;
    [None] is for a loop that has not ended after [fuel] rounds. *)
Definition parsed : Type := (list string * V) + parse_error.

Fixpoint parse_loop (fuel : nat) formal args v : option parsed :=
  match fuel with
  | 0 => None
  | S fuel' =>
      match parseOne formal args v with
      | SeenFlag args' v' => parse_loop fuel' formal args' v'
      | NoFlag args' => Some (inl (args', v))
      | Failed e => Some (inr e)
      end
  end.

(** Each round uses up an argument: one round more than there are arguments is
    enough ([parse_loop_ends]). *)
Definition Parse formal args v : option parsed := parse_loop (S (length args)) formal args v.

(** ** Termination *)
Lemma parse_named_shorter formal name value args v args' v' :
  parse_named formal name value args v = SeenFlag args' v' → length args' ≤ length args.
Proof.
  unfold parse_named, set_flag.
  destruct (formal !! name) as [f|]; [|by case_decide].
  destruct (Flag.IsBoolFlag f).
  - destruct (Flag.Set_ f _ v) as [? []]; naive_solver.
  - destruct value as [text|], args as [|s args]; try done;
      destruct (Flag.Set_ f _ v) as [? []]; naive_solver.
Qed.

Lemma parse_body_shorter formal s body args v args' v' :
  parse_body formal s body args v = SeenFlag args' v' → length args' ≤ length args.
Proof.
  unfold parse_body. destruct body as [|c body]; [done|]. case_decide; [done|].
  destruct (cut_equals body). apply parse_named_shorter.
Qed.

Lemma parseOne_shorter formal args v args' v' :
  parseOne formal args v = SeenFlag args' v' → length args' < length args.
Proof.
  destruct args as [|s args]; [done|]. destruct s as [|a [|b body]]; try done.
  cbn [parseOne length].
  repeat case_decide; try done; intros Hs%parse_body_shorter; lia.
Qed.

(** Enough fuel ends the loop, and more does not change how. *)
Lemma parse_loop_fuel fuel formal args v :
  length args < fuel → ∃ r, ∀ fuel', length args < fuel' → parse_loop fuel' formal args v = Some r.
Proof.
  revert args v. induction fuel as [|fuel IH]; intros args v Hfuel; [lia|].
  destruct (parseOne formal args v) as [args'|args' v'|e] eqn:Hone.
  - exists (inl (args', v)). intros [|fuel'] Hfuel'; [lia|]. cbn. by rewrite Hone.
  - pose proof (parseOne_shorter _ _ _ _ _ Hone).
    destruct (IH args' v') as [r Hr]; [lia|]. exists r. intros [|fuel'] Hfuel'; [lia|]. cbn.
    rewrite Hone. apply Hr. lia.
  - exists (inr e). intros [|fuel'] Hfuel'; [lia|]. cbn. by rewrite Hone.
Qed.

Lemma parse_loop_Parse fuel formal args v :
  length args < fuel → parse_loop fuel formal args v = Parse formal args v.
Proof.
  intros Hfuel. destruct (parse_loop_fuel fuel formal args v Hfuel) as [r Hr]. unfold Parse.
  by rewrite !Hr by lia.
Qed.

Lemma Parse_total formal args v : ∃ r, Parse formal args v = Some r.
Proof.
  destruct (parse_loop_fuel (S (length args)) formal args v) as [r Hr]; [lia|].
  exists r. apply Hr. lia.
Qed.

(** The equation of the loop. *)
Lemma Parse_step formal args v :
  Parse formal args v =
    match parseOne formal args v with
    | SeenFlag args' v' => Parse formal args' v'
    | NoFlag args' => Some (inl (args', v))
    | Failed e => Some (inr e)
    end.
Proof.
  unfold Parse at 1. cbn [parse_loop].
  destruct (parseOne formal args v) as [| |] eqn:Hone; [done| |done].
  apply parse_loop_Parse. by eapply parseOne_shorter.
Qed.

(** ** What registration and the parser do *)
Lemma Var_Ok formal f formal' :
  Var formal f = Ok formal' →
  formal !! Flag.Name f = None ∧ formal' = <[Flag.Name f := f]> formal ∧
  first_is "-" (Flag.Name f) = false ∧ has "=" (Flag.Name f) = false.
Proof.
  unfold Var. destruct (first_is _ _); [done|]. destruct (has _ _); [done|].
  destruct (formal !! Flag.Name f) eqn:Hf; [done|]. by intros [= <-].
Qed.

(** A name [Var] accepts when it is not taken. *)
Definition accepted_name (name : string) : bool := negb (first_is "-" name) && negb (has "=" name).

(** Registration succeeds exactly when the names are accepted, new and different. *)
Lemma register_Ok_iff fs formal :
  (∃ formal', register fs formal = Ok formal') ↔
    NoDup (Flag.Name <$> fs) ∧ Forall (λ n, accepted_name n = true) (Flag.Name <$> fs) ∧
    ∀ n, n ∈ Flag.Name <$> fs → formal !! n = None.
Proof.
  revert formal. induction fs as [|f fs IH]; intros formal; cbn [register fmap list_fmap].
  - split; [|by eexists]. intros _. split_and!; [constructor..|]. by intros n ?%elem_of_nil.
  - rewrite NoDup_cons, Forall_cons. setoid_rewrite elem_of_cons. unfold Var, accepted_name at 1.
    destruct (first_is "-" (Flag.Name f)); [naive_solver|].
    destruct (has "=" (Flag.Name f)); [naive_solver|].
    destruct (formal !! Flag.Name f) eqn:Hf; [naive_solver|]. cbn [mbind outcome_bind].
    rewrite IH. setoid_rewrite lookup_insert_None. naive_solver.
Qed.

Lemma register_app fs fs' formal :
  register (fs ++ fs') formal = register fs formal ≫= register fs'.
Proof.
  revert formal. induction fs as [|f fs IH]; intros formal; [done|]. cbn.
  destruct (Var formal f); [|done..]. apply IH.
Qed.

(** Every flag registered is there in the end, under its name. *)
Lemma register_Ok fs formal formal' :
  register fs formal = Ok formal' →
  formal ⊆ formal' ∧ ∀ f, f ∈ fs → formal' !! Flag.Name f = Some f.
Proof.
  revert formal. induction fs as [|f fs IH]; intros formal; cbn.
  - intros [= <-]. split; [done|]. intros f Hf. by apply elem_of_nil in Hf.
  - intros (formal1 & HVar & Hrest)%outcome_bind_Ok. apply Var_Ok in HVar as (Hnone & -> & _).
    destruct (IH _ Hrest) as [Hsub Hin]. split.
    + etrans; [|exact Hsub]. by apply insert_subseteq.
    + intros g [->|Hg]%elem_of_cons; [|by apply Hin].
      eapply lookup_weaken; [|exact Hsub]. apply lookup_insert_eq.
Qed.

Lemma cut_equals_app name value :
  has "=" name = false → cut_equals (name +:+ "=" +:+ value) = (name, Some value).
Proof.
  induction name as [|c name IH]; cbn [has]; [done|]. case_decide as Hc; [done|]. intros Hname.
  change (String c name +:+ "=" +:+ value) with (String c (name +:+ "=" +:+ value)).
  cbn [cut_equals]. by rewrite decide_False, IH by done.
Qed.

(** A name a flag can have: [Var] accepts it, and it is not empty. *)
Definition good_name (name : string) : bool :=
  match name with
  | EmptyString => false
  | String _ _ => negb (first_is "-" name) && negb (has "=" name)
  end.

(** [--name=value] *)
Lemma parseOne_equals formal name value args v :
  good_name name →
  parseOne formal (("--" +:+ name +:+ "=" +:+ value) :: args) v =
    parse_named formal name (Some value) args v.
Proof.
  destruct name as [|c name]; [done|]. unfold good_name, first_is. cbn [has].
  intros [Hdash Heq]%andb_prop_elim.
  apply negb_prop_elim in Hdash, Heq. rewrite bool_decide_spec in Hdash.
  destruct (decide (c = "="%char)) as [|Hc]; [by destruct Heq|].
  change ("--" +:+ String c name +:+ "=" +:+ value) with
    (String "-" (String "-" (String c (name +:+ "=" +:+ value)))).
  unfold parseOne. rewrite decide_True, decide_True, decide_False by done.
  unfold parse_body. rewrite decide_False by tauto.
  by rewrite cut_equals_app by (by destruct (has "=" name)).
Qed.

(** [--name], for a boolean flag. *)
Lemma cut_equals_none name : has "=" name = false → cut_equals name = (name, None).
Proof.
  induction name as [|c name IH]; cbn [has cut_equals]; [done|].
  case_decide; [done|]. intros Hname. by rewrite IH.
Qed.

Lemma parseOne_bare formal name args v :
  good_name name →
  parseOne formal (("--" +:+ name) :: args) v = parse_named formal name None args v.
Proof.
  destruct name as [|c name]; [done|]. unfold good_name, first_is. cbn [has].
  intros [Hdash Heq]%andb_prop_elim.
  apply negb_prop_elim in Hdash, Heq. rewrite bool_decide_spec in Hdash.
  destruct (decide (c = "="%char)) as [|Hc]; [by destruct Heq|].
  change ("--" +:+ String c name) with (String "-" (String "-" (String c name))).
  unfold parseOne. rewrite decide_True, decide_True, decide_False by done.
  unfold parse_body. rewrite decide_False by tauto.
  by rewrite cut_equals_none by (by destruct (has "=" name)).
Qed.

(** ** Where parsing stops *)

(** An argument that is not a flag: it has no dash, or is a dash. *)
Definition positional (s : string) : bool :=
  match s with
  | String a (String _ _) => bool_decide (a ≠ "-"%char)
  | _ => true
  end.

Lemma parseOne_positional formal s args v :
  positional s → parseOne formal (s :: args) v = NoFlag (s :: args).
Proof.
  destruct s as [|a [|b s]]; [done..|]. unfold positional. rewrite bool_decide_spec. intros Ha.
  unfold parseOne. by rewrite decide_False.
Qed.

Lemma parse_named_app formal name value args v args' v' more :
  parse_named formal name value args v = SeenFlag args' v' →
  parse_named formal name value (args ++ more) v = SeenFlag (args' ++ more) v'.
Proof.
  unfold parse_named, set_flag. destruct (formal !! name) as [f|]; [|by case_decide].
  destruct (Flag.IsBoolFlag f).
  - destruct (Flag.Set_ f _ v) as [? []]; naive_solver.
  - destruct value as [text|], args as [|s args]; try done; cbn;
      destruct (Flag.Set_ f _ v) as [? []]; naive_solver.
Qed.

Lemma parse_body_app formal s body args v args' v' more :
  parse_body formal s body args v = SeenFlag args' v' →
  parse_body formal s body (args ++ more) v = SeenFlag (args' ++ more) v'.
Proof.
  unfold parse_body. destruct body as [|c body]; [done|]. case_decide; [done|].
  destruct (cut_equals body). apply parse_named_app.
Qed.

Lemma parseOne_app formal s args v more :
  match parseOne formal (s :: args) v with
  | SeenFlag args' v' => parseOne formal (s :: args ++ more) v = SeenFlag (args' ++ more) v'
  | NoFlag args' => parseOne formal (s :: args ++ more) v = NoFlag (args' ++ more)
  | Failed _ => True
  end.
Proof.
  destruct s as [|a [|b body]]; [done..|]. unfold parseOne.
  repeat case_decide; try done;
    match goal with |- context [parse_body formal ?s ?b args v] =>
      destruct (parse_body formal s b args v) as [| |] eqn:Hbody; try done end;
    try by apply parse_body_app.
  all: exfalso; revert Hbody; unfold parse_body; try destruct body; try done;
    repeat case_decide; try done; destruct (cut_equals _) as [? ?];
    unfold parse_named, set_flag; repeat case_match; naive_solver.
Qed.

(** Flags that parse on their own parse the same before an argument that is not a
    flag, and nothing after that argument is looked at. *)
Lemma Parse_positional formal args v v' s more :
  Parse formal args v = Some (inl ([], v')) → positional s →
  Parse formal (args ++ s :: more) v = Some (inl (s :: more, v')).
Proof.
  intros Hparse Hs. remember (length args) as n eqn:Hn. revert args v Hn Hparse.
  induction (lt_wf n) as [n _ IH]. intros args v ->. rewrite !(Parse_step formal _ v).
  destruct args as [|a args]; cbn [app].
  - rewrite parseOne_positional by done. cbn. by intros [= <-].
  - pose proof (parseOne_app formal a args v (s :: more)) as Happ.
    destruct (parseOne formal (a :: args) v) as [args'|args' w|e] eqn:Hone; [| |done].
    + rewrite Happ. by intros [= -> <-].
    + rewrite Happ. apply (IH (length args')); [|done]. by eapply parseOne_shorter.
Qed.
End flags.
Arguments seen : clear implicits.
Arguments parsed : clear implicits.
