(* ===== verification/GoEncoding.v ===== *)
(** * Go's [encoding/hex], [encoding/base64] and [crypto/sha256]

    Bytes are numbers below 256, 32-bit words are numbers below 2^32; [add32]
    wraps around.  [Sum256] is SHA-256 (FIPS 180-4), executable: the examples
    at the end compute the standard test vectors.  [B64Encode] is
    [base64.StdEncoding.EncodeToString], with a decoder that inverts it. *)

From S2P Require Import Prelude.
Local Open Scope N_scope.

Definition bytes_of_string (s : string) : list N := N_of_ascii <$> String.list_ascii_of_string s.
Definition string_of_bytes (l : list N) : string :=
  String.string_of_list_ascii (ascii_of_N <$> l).

Definition is_byte (n : N) : Prop := n < 256.

(** ** encoding/hex *)
Definition hex_digit (n : N) : N := if n <? 10 then 48 + n else 87 + n.
Definition HexEncode (l : list N) : list N := b ← l; [hex_digit (b / 16); hex_digit (b mod 16)].

(** ** encoding/base64 (standard alphabet, with padding) *)
Definition b64_char (n : N) : N :=
  if n <? 26 then 65 + n
  else if n <? 52 then 71 + n
  else if n <? 62 then n - 4
  else if n =? 62 then 43 else 47.

Definition pad : N := 61.

Fixpoint B64Encode (l : list N) : list N :=
  match l with
  | a :: b :: c :: rest =>
      b64_char (a / 4) :: b64_char (a mod 4 * 16 + b / 16)
      :: b64_char (b mod 16 * 4 + c / 64) :: b64_char (c mod 64) :: B64Encode rest
  | [a; b] =>
      [b64_char (a / 4); b64_char (a mod 4 * 16 + b / 16); b64_char (b mod 16 * 4); pad]
  | [a] => [b64_char (a / 4); b64_char (a mod 4 * 16); pad; pad]
  | [] => []
  end.

Definition b64_value (c : N) : option N :=
  if (65 <=? c) && (c <? 91) then Some (c - 65)
  else if (97 <=? c) && (c <? 123) then Some (c - 71)
  else if (48 <=? c) && (c <? 58) then Some (c + 4)
  else if c =? 43 then Some 62
  else if c =? 47 then Some 63
  else None.

Fixpoint B64Decode (l : list N) : option (list N) :=
  match l with
  | [] => Some []
  | w :: x :: y :: z :: rest =>
      a ← b64_value w; b ← b64_value x;
      if y =? pad then
        if z =? pad then (match rest with [] => Some [a * 4 + b / 16] | _ => None end) else None
      else
        c ← b64_value y;
        if z =? pad then
          match rest with
          | [] => Some [a * 4 + b / 16; b mod 16 * 16 + c / 4]
          | _ => None
          end
        else
          d ← b64_value z; tl ← B64Decode rest;
          Some (a * 4 + b / 16 :: b mod 16 * 16 + c / 4 :: c mod 4 * 64 + d :: tl)
  | _ => None
  end.

(** ** crypto/sha256 *)
Definition add32 (x y : N) : N := (x + y) mod 2 ^ 32.
Definition not32 (x : N) : N := 2 ^ 32 - 1 - x.
Definition rotr (n x : N) : N :=
  N.lor (N.shiftr x n) (N.shiftl x (32 - n) mod 2 ^ 32).

Definition Ch (x y z : N) : N := N.lxor (N.land x y) (N.land (not32 x) z).
Definition Maj (x y z : N) : N :=
  N.lxor (N.lxor (N.land x y) (N.land x z)) (N.land y z).
Definition Sigma0 (x : N) : N := N.lxor (N.lxor (rotr 2 x) (rotr 13 x)) (rotr 22 x).
Definition Sigma1 (x : N) : N := N.lxor (N.lxor (rotr 6 x) (rotr 11 x)) (rotr 25 x).
Definition sigma0 (x : N) : N := N.lxor (N.lxor (rotr 7 x) (rotr 18 x)) (N.shiftr x 3).
Definition sigma1 (x : N) : N := N.lxor (N.lxor (rotr 17 x) (rotr 19 x)) (N.shiftr x 10).

(** The constants are defined as in the standard: the first 32 bits of the
    fractional parts of the cube roots of the first 64 primes. *)
Definition prime (n : N) : bool :=
  forallb (λ d, negb (N.eqb (n mod N.of_nat d) 0)) (seq 2 (N.to_nat (N.sqrt n) - 1)).

Definition primes : list N := filter (λ n, prime n = true) (N.of_nat <$> seq 2 310).

(** The greatest [x] below [2 ^ bits] above [acc] with [x ^ k <= n], bit by bit. *)
Fixpoint root (k n : N) (bits : nat) (acc : N) : N :=
  match bits with
  | O => acc
  | S bits' =>
      let x := acc + 2 ^ N.of_nat bits' in
      root k n bits' (if N.leb (x ^ k) n then x else acc)
  end.

Definition root_fraction (k p : N) : N := root k (p * 2 ^ (32 * k)) 40 0 mod 2 ^ 32.

Definition K256 : list N := Eval vm_compute in root_fraction 3 <$> take 64 primes.

Record digest := Digest { hA : N; hB : N; hC : N; hD : N; hE : N; hF : N; hG : N; hH : N }.

(** The same of the square roots of the first eight. *)
Definition H256 : digest := Eval vm_compute in
  match root_fraction 2 <$> take 8 primes with
  | [a; b; c; d; e; f; g; h] => Digest a b c d e f g h
  | _ => Digest 0 0 0 0 0 0 0 0
  end.

(** A 32-bit word as four bytes, most significant first, and back. *)
Definition word_bytes (w : N) : list N :=
  [w / 2 ^ 24 mod 256; w / 2 ^ 16 mod 256; w / 2 ^ 8 mod 256; w mod 256].

Fixpoint words (l : list N) : list N :=
  match l with
  | a :: b :: c :: d :: rest => a * 2 ^ 24 + b * 2 ^ 16 + c * 2 ^ 8 + d :: words rest
  | _ => []
  end.

(** Padding: a 1 bit, zeros, and the length in bits as a 64-bit number. *)
Definition sha_pad (l : list N) : list N :=
  let n := length l in
  let bits := (8 * N.of_nat n) mod 2 ^ 64 in
  let zeros := ((119 - n mod 64) mod 64)%nat in
  l ++ [0x80] ++ replicate zeros 0
    ++ word_bytes (bits / 2 ^ 32) ++ word_bytes (bits mod 2 ^ 32).

(** The message schedule, latest word first. *)
Fixpoint schedule (n : nat) (w : list N) : list N :=
  match n with
  | O => w
  | S n' =>
      let at_ k := w !!! k in
      schedule n' (add32 (add32 (sigma1 (at_ 1%nat)) (at_ 6%nat))
                         (add32 (sigma0 (at_ 14%nat)) (at_ 15%nat)) :: w)
  end.

Definition round (s : digest) (kw : N * N) : digest :=
  let t1 := add32 (add32 (add32 (hH s) (Sigma1 (hE s))) (Ch (hE s) (hF s) (hG s)))
                  (add32 kw.1 kw.2) in
  let t2 := add32 (Sigma0 (hA s)) (Maj (hA s) (hB s) (hC s)) in
  Digest (add32 t1 t2) (hA s) (hB s) (hC s) (add32 (hD s) t1) (hE s) (hF s) (hG s).

Definition block (h : digest) (ws : list N) : digest :=
  let w := reverse (schedule 48 (reverse ws)) in
  let s := foldl round h (zip K256 w) in
  Digest (add32 (hA h) (hA s)) (add32 (hB h) (hB s)) (add32 (hC h) (hC s))
         (add32 (hD h) (hD s)) (add32 (hE h) (hE s)) (add32 (hF h) (hF s))
         (add32 (hG h) (hG s)) (add32 (hH h) (hH s)).

(** The blocks of 16 words, one after the other; [fuel] bounds their number. *)
Fixpoint blocks (fuel : nat) (h : digest) (ws : list N) : digest :=
  match fuel, ws with
  | S fuel', _ :: _ => blocks fuel' (block h (take 16 ws)) (drop 16 ws)
  | _, _ => h
  end.

Definition digest_bytes (h : digest) : list N :=
  mjoin (word_bytes <$> [hA h; hB h; hC h; hD h; hE h; hF h; hG h; hH h]).

Definition Sum256 (l : list N) : list N :=
  let ws := words (sha_pad l) in
  digest_bytes (blocks (length ws) H256 ws).

(** ** Lemmas *)
Lemma string_length_list s : String.length s = length (String.list_ascii_of_string s).
Proof. induction s as [|c s IH]; [done|]. exact (f_equal S IH). Qed.

Lemma length_bytes_of_string s : length (bytes_of_string s) = String.length s.
Proof. unfold bytes_of_string. by rewrite length_fmap, string_length_list. Qed.

Lemma length_string_of_bytes l : String.length (string_of_bytes l) = length l.
Proof.
  rewrite string_length_list. unfold string_of_bytes.
  by rewrite String.list_ascii_of_string_of_list_ascii, length_fmap.
Qed.

Lemma bytes_of_string_is_byte s : Forall is_byte (bytes_of_string s).
Proof.
  unfold bytes_of_string. rewrite Forall_fmap. apply Forall_true.
  intros c. apply N_ascii_bounded.
Qed.

Lemma bytes_of_string_of_bytes l : Forall is_byte l → bytes_of_string (string_of_bytes l) = l.
Proof.
  unfold bytes_of_string, string_of_bytes. intros Hl.
  rewrite String.list_ascii_of_string_of_list_ascii. rewrite <- list_fmap_compose.
  induction Hl as [|b l Hb Hl IH]; [done|]. cbn. rewrite N_ascii_embedding by done.
  f_equal. apply IH.
Qed.

(** Lists three at a time, as [B64Encode] takes them. *)
Lemma list_ind3 {A} (P : list A → Prop) :
  P [] → (∀ a, P [a]) → (∀ a b, P [a; b]) → (∀ a b c l, P l → P (a :: b :: c :: l)) →
  ∀ l, P l.
Proof.
  intros H0 H1 H2 H3 l. enough (P l ∧ (∀ a, P (a :: l)) ∧ (∀ a b, P (a :: b :: l))) by tauto.
  induction l as [|x l (IH0 & IH1 & IH2)]; [auto|]. split_and!; auto.
Qed.

(** A statement about the 64 values of a base64 digit, checked one by one. *)
Lemma below64 (P : N → Prop) `{!∀ n, Decision (P n)} :
  forallb (λ n, bool_decide (P n)) (N.of_nat <$> seq 0 64) = true → ∀ n, n < 64 → P n.
Proof.
  intros HP n Hn. rewrite List.forallb_forall in HP.
  apply (bool_decide_eq_true_1 (P n)), HP, list_elem_of_In.
  apply list_elem_of_fmap. exists (N.to_nat n). split; [lia|]. apply elem_of_seq. lia.
Qed.

Lemma b64_value_char n : n < 64 → b64_value (b64_char n) = Some n.
Proof.
  revert n. by apply (below64 (λ n, b64_value (b64_char n) = Some n)).
Qed.

Lemma b64_char_not_pad n : n < 64 → (b64_char n =? pad) = false.
Proof.
  revert n. by apply (below64 (λ n, (b64_char n =? pad) = false)).
Qed.

Lemma b64_char_is_byte n : n < 64 → is_byte (b64_char n).
Proof.
  revert n. by apply (below64 (λ n, b64_char n < 256)).
Qed.

Ltac forall_cons :=
  repeat match goal with
  | H : Forall _ (_ :: _) |- _ => apply Forall_cons in H as [? H]
  end; unfold is_byte in *.

(** The six-bit digits of three bytes, and the bytes they stand for. *)
Section base64_digits.
Implicit Types a b c : N.

Lemma digit1_bound a : a < 256 → a / 4 < 64.
Proof. intros. apply N.Div0.div_lt_upper_bound. lia. Qed.
Lemma digit2_bound a b : a < 256 → b < 256 → a mod 4 * 16 + b / 16 < 64.
Proof.
  intros. pose proof (N.mod_lt a 4). pose proof (N.Div0.div_lt_upper_bound b 16 16). lia.
Qed.
Lemma digit3_bound b c : b < 256 → c < 256 → b mod 16 * 4 + c / 64 < 64.
Proof.
  intros. pose proof (N.mod_lt b 16). pose proof (N.Div0.div_lt_upper_bound c 64 4). lia.
Qed.
Lemma digit4_bound c : c mod 64 < 64.
Proof. by apply N.mod_lt. Qed.
Lemma digit2_last_bound a : a mod 4 * 16 < 64.
Proof. pose proof (N.mod_lt a 4). lia. Qed.
Lemma digit3_last_bound b : b mod 16 * 4 < 64.
Proof. pose proof (N.mod_lt b 16). lia. Qed.

Lemma split_high k x y : y < k → (x * k + y) / k = x.
Proof. intros Hy. rewrite N.div_add_l by lia. rewrite N.div_small by done. lia. Qed.
Lemma split_low k x y : y < k → (x * k + y) mod k = y.
Proof. intros Hy. rewrite N.add_comm, N.Div0.mod_add. by apply N.mod_small. Qed.
Lemma join_parts k x : x / k * k + x mod k = x.
Proof. rewrite N.mul_comm. symmetry. apply N.Div0.div_mod. Qed.

Lemma byte1_digits a b : b < 256 → a / 4 * 4 + (a mod 4 * 16 + b / 16) / 16 = a.
Proof. intros. rewrite split_high by (apply N.Div0.div_lt_upper_bound; lia). apply join_parts. Qed.
Lemma byte1_last_digits a : a / 4 * 4 + a mod 4 * 16 / 16 = a.
Proof. rewrite N.div_mul by done. apply join_parts. Qed.
Lemma byte2_digits a b c :
  b < 256 → c < 256 →
  (a mod 4 * 16 + b / 16) mod 16 * 16 + (b mod 16 * 4 + c / 64) / 4 = b.
Proof.
  intros. rewrite split_low, split_high by (apply N.Div0.div_lt_upper_bound; lia).
  apply join_parts.
Qed.
Lemma byte2_last_digits a b : b < 256 →
  (a mod 4 * 16 + b / 16) mod 16 * 16 + b mod 16 * 4 / 4 = b.
Proof.
  intros. rewrite split_low by (apply N.Div0.div_lt_upper_bound; lia).
  rewrite N.div_mul by done. apply join_parts.
Qed.
Lemma byte3_digits b c : c < 256 →
  (b mod 16 * 4 + c / 64) mod 4 * 64 + c mod 64 = c.
Proof. intros. rewrite split_low by (apply N.Div0.div_lt_upper_bound; lia). apply join_parts. Qed.
End base64_digits.

#[local] Hint Resolve digit1_bound digit2_bound digit3_bound digit4_bound
  digit2_last_bound digit3_last_bound : go.

(** Decoding what [B64Encode] returns gives the bytes back. *)
Lemma B64_roundtrip l : Forall is_byte l → B64Decode (B64Encode l) = Some l.
Proof.
  induction l as [|a|a b|a b c l IH] using list_ind3; intros Hl; forall_cons.
  - done.
  - cbn [B64Encode B64Decode]. rewrite !b64_value_char by auto with go.
    cbn [mbind option_bind]. by rewrite byte1_last_digits.
  - cbn [B64Encode B64Decode]. rewrite !b64_value_char, b64_char_not_pad by auto with go.
    cbn [mbind option_bind]. by rewrite byte1_digits, byte2_last_digits by done.
  - cbn [B64Encode B64Decode]. rewrite !b64_value_char, !b64_char_not_pad by auto with go.
    cbn [mbind option_bind]. rewrite IH by done.
    cbn [mbind option_bind]. by rewrite byte1_digits, byte2_digits, byte3_digits by done.
Qed.

Lemma B64Encode_is_byte l : Forall is_byte l → Forall is_byte (B64Encode l).
Proof.
  induction l as [|a|a b|a b c l IH] using list_ind3; intros Hl; forall_cons;
    cbn [B64Encode];
    repeat (apply Forall_cons; split);
    try (apply b64_char_is_byte); try done; auto with go.
Qed.

(** Four characters for every three bytes begun. *)
Lemma length_B64Encode l : length (B64Encode l) = (4 * ((length l + 2) / 3))%nat.
Proof.
  induction l as [|a|a b|a b c l IH] using list_ind3; [done..|].
  cbn [B64Encode length]. rewrite IH.
  replace (S (S (S (length l))) + 2)%nat with (length l + 2 + 1 * 3)%nat by lia.
  rewrite Nat.div_add by done. lia.
Qed.

Lemma hex_digit_is_byte n : n < 16 → is_byte (hex_digit n).
Proof. unfold hex_digit, is_byte. intros. destruct (N.ltb_spec n 10); lia. Qed.

Lemma HexEncode_cons b l :
  HexEncode (b :: l) = hex_digit (b / 16) :: hex_digit (b mod 16) :: HexEncode l.
Proof. done. Qed.

Lemma length_HexEncode l : length (HexEncode l) = (2 * length l)%nat.
Proof. induction l as [|b l IH]; [done|]. rewrite HexEncode_cons. simpl. rewrite IH. lia. Qed.

Lemma HexEncode_is_byte l : Forall is_byte l → Forall is_byte (HexEncode l).
Proof.
  induction 1 as [|b l Hb Hl IH]; [by apply Forall_nil|]. rewrite HexEncode_cons.
  unfold is_byte in Hb. repeat (apply Forall_cons; split); try done; apply hex_digit_is_byte.
  - by apply N.Div0.div_lt_upper_bound.
  - by apply N.mod_lt.
Qed.

Lemma length_Sum256 l : length (Sum256 l) = 32%nat.
Proof. done. Qed.

Lemma word_bytes_is_byte w : Forall is_byte (word_bytes w).
Proof.
  unfold word_bytes, is_byte. repeat (apply Forall_cons; split); by apply N.mod_lt || done.
Qed.

Lemma Sum256_is_byte l : Forall is_byte (Sum256 l).
Proof.
  unfold Sum256, digest_bytes. apply Forall_join. rewrite Forall_fmap.
  apply Forall_true. intros w. apply word_bytes_is_byte.
Qed.

(** ** Test vectors *)
Example sha256_abc :
  string_of_bytes (HexEncode (Sum256 (bytes_of_string "abc"))) =
  "ba7816bf8f01cfea414140de5dae2223b00361a396177a9cb410ff61f20015ad".
Proof. vm_compute. reflexivity. Qed.

Example sha256_empty :
  string_of_bytes (HexEncode (Sum256 [])) =
  "e3b0c44298fc1c149afbf4c8996fb92427ae41e4649b934ca495991b7852b855".
Proof. vm_compute. reflexivity. Qed.

Example sha256_two_blocks :
  string_of_bytes (HexEncode (Sum256 (bytes_of_string
    "abcdbcdecdefdefgefghfghighijhijkijkljklmklmnlmnomnopnopq"))) =
  "248d6a61d20638b8e5c026930c3e6039a33ce45964ff2167f6ecedd419db06c1".
Proof. vm_compute. reflexivity. Qed.

Example base64_foob : string_of_bytes (B64Encode (bytes_of_string "foob")) = "Zm9vYg==".
Proof. vm_compute. reflexivity. Qed.

(** The hash is evaluated by [vm_compute] only. *)
#[global] Opaque Sum256.
