(* ===== verification/GoUrl.v ===== *)
(** * Go's [net/url], as far as the source uses it

    The source builds a [url.URL] from a scheme, a host and a path and calls
    [String].  The other fields of [url.URL] keep their zero values, so the
    branches of [String] that read them are never taken and are left out. *)

From S2P Require Import Prelude GoStrings.

Module URL.
Record t := mk { Scheme : string; Host : string; Path : string }.
End URL.

Inductive encoding := encodeHost | encodePath.

Definition one_of (cs : string) (c : ascii) : bool := has c cs.

Definition alnum (c : ascii) : bool :=
  let n := N_of_ascii c in
  ((97 <=? n) && (n <=? 122) || (65 <=? n) && (n <=? 90) || (48 <=? n) && (n <=? 57))%N.

(** The double quote, which [shouldEscape] lists among the host characters. *)
Definition dquote : ascii := ascii_of_N 34.

(** [net/url.shouldEscape] for the two modes [String] uses here. *)
Definition shouldEscape (c : ascii) (mode : encoding) : bool :=
  if alnum c then false
  else
    match mode with
    | encodeHost =>
        if one_of "!$&'()*+,;=:[]<>" c || bool_decide (c = dquote) then false
        else negb (one_of "-_.~" c)
    | encodePath =>
        if one_of "-_.~" c then false
        else if one_of "$&+,/:;=?@" c then bool_decide (c = "?"%char)
        else true
    end.

Definition upperhex (n : N) : ascii := ascii_of_N (if n <? 10 then 48 + n else 55 + n)%N.

Fixpoint escape (s : string) (mode : encoding) : string :=
  match s with
  | EmptyString => ""
  | String c s' =>
      if shouldEscape c mode then
        String "%"%char (String (upperhex (N_of_ascii c / 16))
          (String (upperhex (N_of_ascii c mod 16)) (escape s' mode)))
      else String c (escape s' mode)
  end.

(** [URL.EscapedPath] with an empty [RawPath]. *)
Definition EscapedPath (p : string) : string :=
  if decide (p = "*") then "*" else escape p encodePath.

(** [URL.String]. *)
Definition URLString (u : URL.t) : string :=
  let scheme := if decide (URL.Scheme u = "") then "" else URL.Scheme u +:+ ":" in
  let slashes :=
    if decide (URL.Scheme u = "" ∧ URL.Host u = "") then ""
    else if decide (URL.Host u = "" ∧ URL.Path u = "") then "" else "//" in
  let host := escape (URL.Host u) encodeHost in
  let path := EscapedPath (URL.Path u) in
  let buf := scheme +:+ slashes +:+ host in
  let sep := if decide (path ≠ "" ∧ rooted path = false ∧ URL.Host u ≠ "") then "/" else "" in
  let dot :=
    if decide (buf +:+ sep = "" ∧ has ":"%char (hd "" (Split path "/"%char)) = true)
    then "./" else "" in
  buf +:+ sep +:+ dot +:+ path.

(** ** Lemmas *)

(** [plain mode s]: no byte of [s] is escaped. *)
Definition plain (mode : encoding) (s : string) : bool :=
  all_chars (λ c, negb (shouldEscape c mode)) s.

Lemma escape_plain mode s : plain mode s = true → escape s mode = s.
Proof.
  unfold plain. induction s as [|c s IH]; [done|]. simpl.
  destruct (shouldEscape c mode); [done|]. intros Hs. by rewrite IH.
Qed.

Lemma plain_app mode s1 s2 : plain mode (s1 +:+ s2) = plain mode s1 && plain mode s2.
Proof. apply all_chars_app. Qed.

(** A number is written as it is. *)
Lemma plain_Itoa mode z : plain mode (Itoa z) = true.
Proof.
  eapply all_chars_impl; [|apply Itoa_chars]. intros c. unfold is_int_char, is_digit.
  intros [Hc%bool_decide_eq_true|Hc%bool_decide_eq_true]%orb_true_iff.
  - simpl in Hc. rewrite !elem_of_cons, elem_of_nil in Hc.
    destruct mode; destruct_or!; try done; by subst c.
  - by subst c; destruct mode.
Qed.

Lemma escape_app mode s1 s2 : escape (s1 +:+ s2) mode = escape s1 mode +:+ escape s2 mode.
Proof.
  induction s1 as [|c s1 IH]; [done|].
  change (String c s1 +:+ s2) with (String c (s1 +:+ s2)). simpl. rewrite IH.
  by destruct (shouldEscape c mode).
Qed.

(** An absolute URL with a host: the scheme, the escaped host and the escaped path. *)
Lemma URLString_absolute scheme host path :
  scheme ≠ "" → host ≠ "" → path ≠ "*" →
  URLString (URL.mk scheme host path) =
    scheme +:+ "://" +:+ escape host encodeHost
      +:+ (if decide (path = "" ∨ rooted path = true) then "" else "/")
      +:+ escape path encodePath.
Proof.
  intros Hs Hh Hp. unfold URLString, EscapedPath. cbn [URL.Scheme URL.Host URL.Path].
  rewrite !(decide_False (P := scheme = "")) by done.
  rewrite (decide_False (P := scheme = "" ∧ _)) by naive_solver.
  rewrite (decide_False (P := host = "" ∧ _)) by naive_solver.
  rewrite (decide_False (P := path = "*")) by done.
  assert (escape path encodePath ≠ "" ∧ rooted (escape path encodePath) = false ↔
          ¬ (path = "" ∨ rooted path = true)) as Hroot.
  { destruct path as [|c p]; [simpl; naive_solver|]. cbn [escape].
    destruct (decide (c = "/"%char)) as [->|Hc].
    - cbn. naive_solver.
    - assert (rooted (String c p) = false) as Hr
        by (unfold rooted; by repeat (case_match; try done)).
      rewrite Hr. destruct (shouldEscape c encodePath); [cbn; naive_solver|].
      assert (rooted (String c (escape p encodePath)) = false)
        by (unfold rooted; by repeat (case_match; try done)).
      naive_solver. }
  rewrite (decide_False (P := (_ +:+ _) = "" ∧ _)).
  2:{ intros [Heq _]. destruct scheme; [done|]. done. }
  destruct (decide (path = "" ∨ rooted path = true)) as [Hr|Hr].
  - rewrite decide_False by naive_solver. by rewrite !string_app_assoc.
  - rewrite decide_True by naive_solver. by rewrite !string_app_assoc.
Qed.

(** ** Examples *)
Example url_port :
  URLString (URL.mk "http" "keycloak.ns.svc.cluster.local:8080" "/realms/kubedoop") =
  "http://keycloak.ns.svc.cluster.local:8080/realms/kubedoop".
Proof. vm_compute. reflexivity. Qed.

Example url_escapes : URLString (URL.mk "http" "a b" "x?y") = "http://a%20b/x%3Fy".
Proof. vm_compute. reflexivity. Qed.
