(* ===== verification/Heap.v ===== *)
(** * Go memory

    The store that pointers, slices and maps point into, for the code that is
    about sharing: the generated deep copies.  A variable, a backing array and a
    map are each a cell of the store; a pointer held in a struct is the location
    of a cell, and [ref] is an address the code computes, which may lie inside a
    cell ([&in.Spec], the address of an element).  Everything is over the type of
    cells. *)

From S2P Require Import Prelude.

Abbreviation loc := positive (only parsing).

(** ** Fields of a struct *)
Record field (S P : Type) := Field { fget : S → P; fset : P → S → S }.
Arguments Field {_ _} _ _.
Arguments fget {_ _} _ _.
Arguments fset {_ _} _ _ _.

Class FieldLaws {S P} (L : field S P) : Prop := {
  fget_fset : ∀ p x, fget L (fset L p x) = p;
  fset_fget : ∀ x, fset L (fget L x) x = x;
  fset_fset : ∀ p q x, fset L p (fset L q x) = fset L p x
}.

(** Two different fields. *)
Class Indep {S P Q} (L : field S P) (K : field S Q) : Prop := {
  indep_get_l : ∀ q x, fget L (fset K q x) = fget L x;
  indep_get_r : ∀ p x, fget K (fset L p x) = fget K x;
  indep_comm : ∀ p q x, fset K q (fset L p x) = fset L p (fset K q x)
}.

Abbreviation heap_of cell := (gmap loc cell).

Section memory.
Context {cell : Type}.
Local Abbreviation heap := (heap_of cell).
Implicit Type h : heap.

(** ** Types that can be stored *)
Class Stored (T : Type) := {
  inj : T → cell;
  prj : cell → option T;
  prj_inj : ∀ x, prj (inj x) = Some x;
  inj_prj : ∀ c x, prj c = Some x → c = inj x
}.

(** The zero value of a type. *)
Class Zero (T : Type) := zero : T.

(** ** Addresses *)
Record ref (T : Type) := Ref {
  ref_loc : loc;
  ref_get : cell → option T;
  ref_put : T → cell → option cell;
  ref_put_get : ∀ c x, ref_get c = Some x → ref_put x c = Some c;
  ref_put_ok : ∀ c x y, ref_get c = Some x →
    ∃ c', ref_put y c = Some c' ∧ ref_get c' = Some y ∧ ∀ z, ref_put z c' = ref_put z c
}.
Arguments ref_loc {_} _.
Arguments ref_get {_} _ _.
Arguments ref_put {_} _ _ _.
Arguments ref_put_get {_} _.
Arguments ref_put_ok {_} _.

(** A value of type [*T] computed by the code. *)
Definition ptr (T : Type) : Type := option (ref T).

(** The address of a variable of its own. *)
Program Definition whole {T} `{!Stored T} (l : loc) : ref T := {|
  ref_loc := l;
  ref_get := prj;
  ref_put := λ x c, (λ _, inj x) <$> prj c
|}.
Next Obligation. intros T ? l c x Hc. cbn. rewrite Hc. cbn. by rewrite (inj_prj c x Hc). Qed.
Next Obligation.
  intros T ? l c x y Hc. cbn. rewrite Hc. eexists. split; [done|]. rewrite prj_inj.
  split; [done|]. intros z. cbn. by rewrite ?prj_inj.
Qed.

(** [&r.f] *)
Program Definition field_ref {S P} (L : field S P) `{!FieldLaws L} (r : ref S) : ref P := {|
  ref_loc := ref_loc r;
  ref_get := λ c, fget L <$> ref_get r c;
  ref_put := λ p c, ref_get r c ≫= λ x, ref_put r (fset L p x) c
|}.
Next Obligation.
  intros S P L ? r c p Hc. cbn in *. apply fmap_Some in Hc as (x & Hx & ->). rewrite Hx. cbn.
  rewrite fset_fget. by apply ref_put_get.
Qed.
Next Obligation.
  intros S P L ? r c p q Hc. cbn in *. apply fmap_Some in Hc as (x & Hx & ->). rewrite Hx. cbn.
  destruct (ref_put_ok r c x (fset L q x) Hx) as (c' & Hput & Hget & Hputs).
  exists c'. rewrite Hget. split; [done|]. cbn. split; [by rewrite fget_fset|].
  intros z. by rewrite fset_fset.
Qed.

(** [&a\[i\]] *)
Program Definition elem_ref {T} (i : nat) (r : ref (list T)) : ref T := {|
  ref_loc := ref_loc r;
  ref_get := λ c, ref_get r c ≫= (.!! i);
  ref_put := λ x c, ref_get r c ≫= λ a, a !! i ≫= λ _, ref_put r (<[i:=x]> a) c
|}.
Next Obligation.
  intros T i r c x Hc. cbn in *. apply bind_Some in Hc as (a & Ha & Hi). rewrite Ha. cbn.
  rewrite Hi. cbn. rewrite list_insert_id by done. by apply ref_put_get.
Qed.
Next Obligation.
  intros T i r c x y Hc. cbn in *. apply bind_Some in Hc as (a & Ha & Hi). rewrite Ha. cbn.
  rewrite Hi. cbn. destruct (ref_put_ok r c a (<[i:=y]> a) Ha) as (c' & Hput & Hget & Hputs).
  assert (<[i:=y]> a !! i = Some y) as Hins by (apply list_lookup_insert_eq; eauto using lookup_lt_Some).
  exists c'. rewrite Hget. split; [done|]. cbn. split; [done|].
  intros z. rewrite Hins. cbn. by rewrite list_insert_insert_eq.
Qed.

(** ** Operations of the language *)

(** An address where there is no value of its type: not a state of a Go program. *)
Definition bad_address : string := "unexpected fault address".

(** [*p] *)
Definition load {T} (p : ptr T) : M heap T := λ h,
  match p with
  | None => (h, Panic nil_deref)
  | Some r =>
      match h !! ref_loc r ≫= ref_get r with
      | Some x => (h, Ok x)
      | None => (h, Panic bad_address)
      end
  end.

(** [*p = x] *)
Definition store {T} (p : ptr T) (x : T) : M heap unit := λ h,
  match p with
  | None => (h, Panic nil_deref)
  | Some r =>
      match h !! ref_loc r ≫= ref_put r x with
      | Some c => (<[ref_loc r := c]> h, Ok tt)
      | None => (h, Panic bad_address)
      end
  end.

(** A fresh cell. *)
Definition alloc {T} `{!Stored T} (x : T) : M heap loc := λ h,
  let l := fresh (dom h) in (<[l := inj x]> h, Ok l).

(** [new(T)] *)
Definition new (T : Type) `{!Stored T, !Zero T} : M heap (option loc) :=
  do l <- alloc (zero : T);; mret (Some l).

(** A pointer held in a struct, as an address. *)
Definition ptr_at (T : Type) `{!Stored T} (p : option loc) : ptr T := whole <$> p.

(** [&p.f]; the address of a field of a nil struct panics where it is used. *)
Definition field_ptr {S P} (L : field S P) `{!FieldLaws L} (p : ptr S) : ptr P :=
  field_ref L <$> p.

(** ** Slices: a window of a backing array.  A nil slice is [None]. *)
Record slice := Slice { sl_array : loc; sl_off : nat; sl_len : nat }.

Definition slice_len (s : option slice) : nat :=
  match s with Some s => sl_len s | None => 0 end.

(** [make(\[\]T, n)] *)
Definition make_slice (T : Type) `{!Stored (list T), !Zero T} (n : nat) : M heap (option slice) :=
  do l <- alloc (replicate n (zero : T));; mret (Some (Slice l 0 n)).

Definition index_out_of_range : string := "runtime error: index out of range".

(** [&s\[i\]] *)
Definition index (T : Type) `{!Stored (list T)} (s : option slice) (i : nat) : M heap (ptr T) :=
  match s with
  | Some s' =>
      if decide (i < sl_len s') then
        mret (Some (elem_ref (sl_off s' + i) (whole (T := list T) (sl_array s'))))
      else lift (Panic index_out_of_range)
  | None => lift (Panic index_out_of_range)
  end.

(** [copy(dst, src)]: all elements are read before any is written. *)
Definition copy (T : Type) `{!Stored (list T)} (dst src : option slice) : M heap unit :=
  match dst, src with
  | Some d, Some s =>
      do a <- load (Some (whole (T := list T) (sl_array s)));;
      do b <- load (Some (whole (T := list T) (sl_array d)));;
      store (Some (whole (T := list T) (sl_array d)))
        (list_inserts (sl_off d) (take (sl_len d `min` sl_len s) (drop (sl_off s) a)) b)
  | _, _ => mret tt
  end.

(** ** Maps.  A nil map is [None]. *)

(** [make(map\[string\]T)] *)
Definition make_map (T : Type) `{!Stored (gmap string T)} : M heap (option loc) :=
  do l <- alloc (∅ : gmap string T);; mret (Some l).

(** The entries of a map: a nil map has none. *)
Definition map_entries (T : Type) `{!Stored (gmap string T)} (m : option loc)
  : M heap (gmap string T) :=
  match m with
  | Some l => load (Some (whole l))
  | None => mret ∅
  end.

(** [m\[k\] = x] *)
Definition map_assign {T} `{!Stored (gmap string T)} (m : option loc) (k : string) (x : T)
  : M heap unit :=
  match m with
  | Some l =>
      do entries <- load (Some (whole l));;
      store (Some (whole l)) (<[k:=x]> entries)
  | None => lift (Panic nil_map_write)
  end.

(** [for _, a := range l { body }] *)
Fixpoint for_each {A} (l : list A) (body : A → M heap unit) : M heap unit :=
  match l with
  | [] => mret tt
  | a :: l' => do! body a;; for_each l' body
  end.

(** ** What operations do to a heap *)

(** The value at an address. *)
Definition reads {T} h (r : ref T) (x : T) : Prop := h !! ref_loc r ≫= ref_get r = Some x.

(** From [h] to [h'], [y] is written at [r] and no other cell of [h] changes. *)
Record advances {T} h (r : ref T) (y : T) (h' : heap) : Prop := {
  adv_out : ∃ c c', h !! ref_loc r = Some c ∧ ref_put r y c = Some c' ∧ h' !! ref_loc r = Some c';
  adv_rest : ∀ l c, l ≠ ref_loc r → h !! l = Some c → h' !! l = Some c
}.

Lemma reads_loc {T} h (r : ref T) x : reads h r x → ref_loc r ∈ dom h.
Proof. intros (c & Hc & _)%bind_Some. by apply elem_of_dom_2 in Hc. Qed.

Lemma reads_whole {T} `{!Stored T} h l (x : T) : reads h (whole l) x ↔ h !! l = Some (inj x).
Proof.
  unfold reads. cbn. split.
  - intros (c & Hc & Hx)%bind_Some. by rewrite Hc, (inj_prj c x Hx).
  - intros ->. cbn. apply prj_inj.
Qed.

Lemma reads_field {S P} (L : field S P) `{!FieldLaws L} h r x :
  reads h r x → reads h (field_ref L r) (fget L x).
Proof. unfold reads. cbn. intros (c & -> & Hc)%bind_Some. cbn. by rewrite Hc. Qed.

Lemma reads_elem {T} h i (r : ref (list T)) a x :
  reads h r a → a !! i = Some x → reads h (elem_ref i r) x.
Proof. unfold reads. cbn. intros (c & -> & Hc)%bind_Some Hi. cbn. by rewrite Hc. Qed.

Lemma reads_sub {T} h h' (r : ref T) x :
  reads h r x → (∀ c, h !! ref_loc r = Some c → h' !! ref_loc r = Some c) → reads h' r x.
Proof. unfold reads. intros (c & Hc & Hx)%bind_Some Hsub. by rewrite (Hsub _ Hc). Qed.

Lemma advances_reads {T} h (r : ref T) x y h' : reads h r x → advances h r y h' → reads h' r y.
Proof.
  unfold reads. intros (c & Hc & Hx)%bind_Some [(c0 & c' & Hc0 & Hput & Hc') _].
  simplify_eq. rewrite Hc'. cbn. destruct (ref_put_ok r _ _ y Hx) as (? & ? & ? & _). by simplify_eq.
Qed.

Lemma advances_other {T U} h (r : ref T) y h' (r' : ref U) x :
  advances h r y h' → ref_loc r' ≠ ref_loc r → reads h r' x → reads h' r' x.
Proof. intros Hadv Hne Hr. eapply reads_sub; [done|]. intros c. by apply (adv_rest _ _ _ _ Hadv). Qed.

Lemma advances_dom {T} h (r : ref T) y h' : advances h r y h' → dom h ⊆ dom h'.
Proof.
  intros [(c & c' & Hc & _ & Hc') Hrest] l [d Hd]%elem_of_dom. apply elem_of_dom.
  destruct (decide (l = ref_loc r)) as [->|]; eauto.
Qed.

Lemma advances_refl {T} h (r : ref T) x : reads h r x → advances h r x h.
Proof.
  intros (c & Hc & Hx)%bind_Some. split; [|done]. exists c, c. split; [done|].
  split; [by apply ref_put_get|done].
Qed.

Lemma advances_trans {T} h (r : ref T) x y h' z h'' :
  reads h r x → advances h r y h' → advances h' r z h'' → advances h r z h''.
Proof.
  intros (c & Hc & Hx)%bind_Some [(c0 & c' & Hc0 & Hput & Hc') Hrest]
    [(c1 & c'' & Hc1 & Hput' & Hc'') Hrest'].
  assert (c0 = c) as -> by congruence. assert (c1 = c') as -> by congruence.
  destruct (ref_put_ok r _ _ y Hx) as (d & Hd & _ & Hputs).
  assert (d = c') as -> by congruence.
  split; [|eauto]. exists c, c''. by rewrite <- Hputs.
Qed.

Lemma advances_field {S P} (L : field S P) `{!FieldLaws L} h (r : ref S) x p h' :
  reads h r x → advances h (field_ref L r) p h' → advances h r (fset L p x) h'.
Proof.
  intros (c & Hc & Hx)%bind_Some [(c0 & c' & Hc0 & Hput & Hc') Hrest]. cbn in *.
  assert (c0 = c) as -> by congruence.
  rewrite Hx in Hput. split; [|done]. by exists c, c'.
Qed.

Lemma advances_elem {T} h i (r : ref (list T)) a x y h' :
  reads h r a → a !! i = Some x → advances h (elem_ref i r) y h' → advances h r (<[i:=y]> a) h'.
Proof.
  intros (c & Hc & Ha)%bind_Some Hi [(c0 & c' & Hc0 & Hput & Hc') Hrest]. cbn in *.
  assert (c0 = c) as -> by congruence.
  rewrite Ha in Hput. cbn in Hput. rewrite Hi in Hput. split; [|done]. by exists c, c'.
Qed.

(** Cells that are only added before or after do not matter. *)
Lemma advances_grow {T} h0 h (r : ref T) y h' :
  ref_loc r ∈ dom h0 → h0 ⊆ h → advances h r y h' → advances h0 r y h'.
Proof.
  intros [d Hd]%elem_of_dom Hsub [(c & c' & Hc & Hput & Hc') Hrest].
  pose proof (lookup_weaken _ _ _ _ Hd Hsub). assert (d = c) as -> by congruence.
  split; [by exists c, c'|]. intros l e Hl He. apply Hrest; [done|]. by eapply lookup_weaken.
Qed.

(** Writing to a cell that is newer than [h0] afterwards. *)
Lemma advances_newer {T U} h0 h (r : ref T) y (r' : ref U) z h' :
  advances h0 r y h → (ref_loc r' ∉ dom h0) → advances h r' z h' → advances h0 r y h'.
Proof.
  intros [(c & c' & Hc & Hput & Hc') Hrest] Hnew [_ Hrest']. split.
  - exists c, c'. split; [done|]. split; [done|]. apply Hrest'; [|done].
    intros Heq. apply Hnew. rewrite <- Heq. by apply elem_of_dom_2 in Hc.
  - intros l d Hl Hd. apply Hrest'; [|by apply Hrest].
    intros ->. apply Hnew. by apply elem_of_dom_2 in Hd.
Qed.

Lemma advances_grows {T} h0 h (r : ref T) y h' :
  advances h0 r y h → h ⊆ h' → advances h0 r y h'.
Proof.
  intros [(c & c' & Hc & Hput & Hc') Hrest] Hsub. split.
  - exists c, c'. split; [done|]. split; [done|]. by eapply lookup_weaken.
  - intros l d Hl Hd. eapply lookup_weaken; [|done]. by apply Hrest.
Qed.

Lemma load_reads {T} h (r : ref T) x : reads h r x → load (Some r) h = (h, Ok x).
Proof. unfold load, reads. by intros ->. Qed.

Lemma store_advances {T} h (r : ref T) x y :
  reads h r x → ∃ h', store (Some r) y h = (h', Ok tt) ∧ advances h r y h' ∧ dom h' = dom h.
Proof.
  unfold store. intros (c & Hc & Hx)%bind_Some. rewrite Hc. cbn.
  destruct (ref_put_ok r _ _ y Hx) as (c' & Hput & _). rewrite Hput. eexists. split; [done|].
  split; [split|].
  - exists c, c'. by rewrite lookup_insert_eq.
  - intros l d Hl Hd. by rewrite lookup_insert_ne.
  - rewrite dom_insert_L. apply elem_of_dom_2 in Hc. set_solver.
Qed.

Lemma alloc_grows {T} `{!Stored T} h (x : T) :
  ∃ l, (l ∉ dom h) ∧ alloc x h = (<[l := inj x]> h, Ok l) ∧ h ⊆ (<[l := inj x]> h).
Proof.
  exists (fresh (dom h)). pose proof (is_fresh (dom h)) as Hf. split; [done|]. split; [done|].
  apply insert_subseteq. by apply not_elem_of_dom.
Qed.
End memory.
Arguments Stored : clear implicits.
Arguments ref : clear implicits.
Arguments ptr : clear implicits.
Arguments ref_loc {_ _} _.
Arguments ref_get {_ _} _ _.
Arguments ref_put {_ _} _ _ _.
