(* ===== verification/DeepCopy.v ===== *)
(** * What controller-gen generates for a field, and when it copies deeply

    The blocks of [zz_generated.deepcopy.go], one definition per shape, over any
    type of cells; [rep], the relation between a value in memory and the value it
    stands for; and the lemmas that each block copies what its field stands
    for.  [ApiMemory] puts the blocks together as the generated functions do. *)

From S2P Require Import Prelude Heap.

#[local] Obligation Tactic := idtac.

Section deep_copy.
Context {cell : Type} `{!MapRange}.
Local Abbreviation heap := (heap_of cell).
Local Abbreviation Stored := (Stored cell).
Local Abbreviation ptr := (ptr cell).
Local Abbreviation ref := (ref cell).
Implicit Type h : heap.

(** ** The generated blocks *)

(** [*out = *in] *)
Definition assign {T} (in_ out : ptr T) : M heap unit :=
  do x <- load in_;; store out x.

(** [if in == nil { return nil }; out := new(T); in.DeepCopyInto(out); return out] *)
Definition deep_copy {T} `{!Stored T, !Zero T} (DeepCopyInto : ptr T → ptr T → M heap unit)
  (in_ : ptr T) : M heap (option loc) :=
  match in_ with
  | None => mret None
  | Some _ =>
      do out <- new T;;
      do! DeepCopyInto in_ (ptr_at T out);;
      mret out
  end.

(** A field of type [*T]: [if in.F != nil { in, out := &in.F, &out.F; *out =
    new(T); ... }] where the dots are [DeepCopyInto] between the pointers. *)
Definition copy_pointer {S T} (F : field S (option loc)) `{!FieldLaws F, !Stored T, !Zero T}
  (DeepCopyInto : ptr T → ptr T → M heap unit) (in_ out : ptr S) : M heap unit :=
  do p <- load (field_ptr F in_);;
  match p with
  | None => mret tt
  | Some _ =>
      do new_out <- new T;;
      do! store (field_ptr F out) new_out;;
      do p <- load (field_ptr F in_);;
      do q <- load (field_ptr F out);;
      DeepCopyInto (ptr_at T p) (ptr_at T q)
  end.

(** A struct inside a struct: [in.F.DeepCopyInto(&out.F)]. *)
Definition copy_inline {S T} (F : field S T) `{!FieldLaws F}
  (DeepCopyInto : ptr T → ptr T → M heap unit) (in_ out : ptr S) : M heap unit :=
  DeepCopyInto (field_ptr F in_) (field_ptr F out).

(** One round of the loop over a slice of structs. *)
Definition copy_element {S T} (F : field S (option slice)) `{!FieldLaws F, !Stored (list T)}
  (DeepCopyInto : ptr T → ptr T → M heap unit) (in_ out : ptr S) (i : nat) : M heap unit :=
  do s <- load (field_ptr F in_);;
  do p <- index T s i;;
  do t <- load (field_ptr F out);;
  do q <- index T t i;;
  DeepCopyInto p q.

(** A field of type slice of structs. *)
Definition copy_slice {S T} (F : field S (option slice)) `{!FieldLaws F, !Stored (list T), !Zero T}
  (DeepCopyInto : ptr T → ptr T → M heap unit) (in_ out : ptr S) : M heap unit :=
  do s <- load (field_ptr F in_);;
  match s with
  | None => mret tt
  | Some _ =>
      do s <- load (field_ptr F in_);;
      do made <- make_slice T (slice_len s);;
      do! store (field_ptr F out) made;;
      do s <- load (field_ptr F in_);;
      for_each (seq 0 (slice_len s)) (copy_element F DeepCopyInto in_ out)
  end.

(** A field of type slice of plain values: [make], then the builtin [copy]. *)
Definition copy_plain_slice {S} (T : Type) (F : field S (option slice))
  `{!FieldLaws F, !Stored (list T), !Zero T} (in_ out : ptr S) : M heap unit :=
  do s <- load (field_ptr F in_);;
  match s with
  | None => mret tt
  | Some _ =>
      do s <- load (field_ptr F in_);;
      do made <- make_slice T (slice_len s);;
      do! store (field_ptr F out) made;;
      do t <- load (field_ptr F out);;
      do s <- load (field_ptr F in_);;
      copy T t s
  end.

(** One round of the loop over a map: the entry is copied to the loop variable
    [val], whose address is the receiver of [DeepCopy]. *)
Definition copy_entry {S T} (F : field S (option loc)) `{!FieldLaws F, !Stored T, !Zero T,
  !Stored (gmap string T)} (DeepCopyInto : ptr T → ptr T → M heap unit) (out : ptr S)
  (entry : string * T) : M heap unit :=
  do val <- alloc (entry.2);;
  do c <- deep_copy DeepCopyInto (ptr_at T (Some val));;
  do x <- load (ptr_at T c);;
  do m <- load (field_ptr F out);;
  map_assign m entry.1 x.

(** A field of type map of structs. *)
Definition copy_map {S T} (F : field S (option loc)) `{!FieldLaws F, !Stored T, !Zero T,
  !Stored (gmap string T)} (DeepCopyInto : ptr T → ptr T → M heap unit) (in_ out : ptr S)
  : M heap unit :=
  do m <- load (field_ptr F in_);;
  match m with
  | None => mret tt
  | Some _ =>
      do made <- make_map T;;
      do! store (field_ptr F out) made;;
      do m <- load (field_ptr F in_);;
      do entries <- map_entries T m;;
      for_each (map_range entries) (copy_entry F DeepCopyInto out)
  end.

(** ** Representation

    [R h x v A]: in the heap [h] the value [x] stands for [v], and all cells one
    must read to see it are in [A].  Cells may be shared. *)
Record rep (T V : Type) := Rep {
  holds :> heap → T → V → gset loc → Prop;
  holds_mono : ∀ h h' x v A A', holds h x v A → A ⊆ A' →
    (∀ l c, l ∈ A → h !! l = Some c → h' !! l = Some c) → holds h' x v A'
}.
Arguments Rep {_ _} _ _.
Arguments holds {_ _} _ _ _ _ _.
Arguments holds_mono {_ _} _ {_ _ _ _ _ _} _ _ _.

(** A value without pointers stands for itself. *)
Program Definition plain (T : Type) : rep T T := {| holds := λ h x v A, x = v |}.
Next Obligation. done. Qed.

(** A pointer to a cell that stands for [v], or nil. *)
Definition pointer_holds {T V} `{!Stored T} (R : rep T V) h (p : option loc) (v : option V)
  (A : gset loc) : Prop :=
  match p, v with
  | None, None => True
  | Some l, Some v => ∃ x, h !! l = Some (inj x) ∧ l ∈ A ∧ R h x v A
  | _, _ => False
  end.

Lemma pointer_mono {T V} `{!Stored T} (R : rep T V) h h' p v A A' :
  pointer_holds R h p v A → A ⊆ A' → (∀ l c, l ∈ A → h !! l = Some c → h' !! l = Some c) →
  pointer_holds R h' p v A'.
Proof.
  destruct p as [l|], v as [v|]; try done. intros (x & Hx & Hl & HR) Hsub Hcells.
  exists x. split; [eauto|]. split; [set_solver|]. by eapply holds_mono.
Qed.

Definition pointer {T V} `{!Stored T} (R : rep T V) : rep (option loc) (option V) :=
  Rep (pointer_holds R) (pointer_mono R).

(** A slice whose elements stand for those of a list, or nil. *)
Definition slice_holds {T V} `{!Stored (list T)} (R : rep T V) h (s : option slice)
  (vs : option (list V)) (A : gset loc) : Prop :=
  match s, vs with
  | None, None => True
  | Some s, Some vs => ∃ a, h !! sl_array s = Some (inj a) ∧ sl_array s ∈ A ∧
      sl_len s = length vs ∧ sl_off s + sl_len s ≤ length a ∧
      ∀ i v, vs !! i = Some v → ∃ x, a !! (sl_off s + i) = Some x ∧ R h x v A
  | _, _ => False
  end.

Lemma slice_mono {T V} `{!Stored (list T)} (R : rep T V) h h' s vs A A' :
  slice_holds R h s vs A → A ⊆ A' → (∀ l c, l ∈ A → h !! l = Some c → h' !! l = Some c) →
  slice_holds R h' s vs A'.
Proof.
  destruct s as [s|], vs as [vs|]; try done. intros (a & Ha & Hl & Hlen & Hfit & Helems) Hsub Hcells.
  exists a. split; [eauto|]. split; [set_solver|]. split; [done|]. split; [done|].
  intros i v Hi. destruct (Helems i v Hi) as (x & Hx & HR).
  exists x. split; [done|]. by eapply holds_mono.
Qed.

Definition slice_of {T V} `{!Stored (list T)} (R : rep T V)
  : rep (option slice) (option (list V)) := Rep (slice_holds R) (slice_mono R).

(** A map whose entries stand for those of a finite map, or nil. *)
Definition map_holds {T V} `{!Stored (gmap string T)} (R : rep T V) h (p : option loc)
  (m : option (gmap string V)) (A : gset loc) : Prop :=
  match p, m with
  | None, None => True
  | Some l, Some m => ∃ e, h !! l = Some (inj e) ∧ l ∈ A ∧
      ∀ k, option_Forall2 (λ x v, R h x v A) (e !! k) (m !! k)
  | _, _ => False
  end.

Lemma map_mono {T V} `{!Stored (gmap string T)} (R : rep T V) h h' p m A A' :
  map_holds R h p m A → A ⊆ A' → (∀ l c, l ∈ A → h !! l = Some c → h' !! l = Some c) →
  map_holds R h' p m A'.
Proof.
  destruct p as [l|], m as [m|]; try done. intros (e & He & Hl & Hentries) Hsub Hcells.
  exists e. split; [eauto|]. split; [set_solver|].
  intros k. destruct (Hentries k); constructor. by eapply holds_mono.
Qed.

Definition map_of {T V} `{!Stored (gmap string T)} (R : rep T V)
  : rep (option loc) (option (gmap string V)) := Rep (map_holds R) (map_mono R).

(** Two fields taken together. *)
Definition both {S P Q} (F : field S P) (G : field S Q) : field S (P * Q) :=
  Field (λ x, (fget F x, fget G x)) (λ p x, fset G p.2 (fset F p.1 x)).

#[export] Instance both_laws {S P Q} (F : field S P) (G : field S Q) :
  FieldLaws F → FieldLaws G → Indep F G → FieldLaws (both F G).
Proof.
  intros HF HG [Hl Hr Hc]. split; cbn.
  - intros [p q] x. cbn. by rewrite Hl, fget_fset, fget_fset.
  - intros x. by rewrite fset_fget, fset_fget.
  - intros [p q] [p' q'] x. cbn. by rewrite <- Hc, !fset_fset.
Qed.

Program Definition rep_pair {P Q V W} (R : rep P V) (R' : rep Q W) : rep (P * Q) (V * W) := {|
  holds := λ h x v A, R h x.1 v.1 A ∧ R' h x.2 v.2 A
|}.
Next Obligation.
  intros P Q V W R R' h h' [p q] [v w] A A' [HR HR'] Hsub Hcells.
  split; by eapply holds_mono.
Qed.

(** A struct: what is in its field [F] stands for [view v], and the rest is [flat]. *)
Program Definition struct {S P V W} (F : field S P) (R : rep P W) (view : V → W)
  (flat : S → V → Prop) : rep S V := {|
  holds := λ h x v A, flat x v ∧ R h (fget F x) (view v) A
|}.
Next Obligation.
  intros S P V W F R view flat h h' x v A A' [Hflat HR] Hsub Hcells. split; [done|].
  by eapply holds_mono.
Qed.

#[export] Instance both_indep {S P Q O} (F : field S P) (G : field S Q) (K : field S O) :
  Indep F G → Indep F K → Indep F (both G K).
Proof.
  intros [Hl Hr Hc] [Hl' Hr' Hc']. split; cbn.
  - intros [q o] x. cbn. by rewrite Hl', Hl.
  - intros p x. by rewrite Hr, Hr'.
  - intros p [q o] x. cbn. by rewrite Hc, Hc'.
Qed.

(** ** Copying deeply

    [copies R f]: called on two different cells, [f] succeeds, changes no cell
    but the one it writes to, and writes there a value that stands for the same
    as the one it was given, through new cells only.  [copies_field] says it
    of a block, which changes one field of a value already copied. *)
Definition copies {T V} (R : rep T V) (f : ptr T → ptr T → M heap unit) : Prop :=
  ∀ h i o x y v A, reads h i x → reads h o y → ref_loc i ≠ ref_loc o → ref_loc o ∉ A →
    A ⊆ dom h → R h x v A →
  ∃ h' x', f (Some i) (Some o) h = (h', Ok tt) ∧ advances h o x' h' ∧
    R h' x' v (dom h' ∖ dom h).

Definition copies_field {S P V} (F : field S P) (R : rep P V)
  (f : ptr S → ptr S → M heap unit) : Prop :=
  ∀ h i o x y v A, reads h i x → reads h o y → ref_loc i ≠ ref_loc o → ref_loc o ∉ A →
    A ⊆ dom h → R h (fget F x) v A → fget F y = fget F x →
  ∃ h' p, f (Some i) (Some o) h = (h', Ok tt) ∧ advances h o (fset F p y) h' ∧
    R h' p v (dom h' ∖ dom h).

(** What stood for a value without the written cell still does. *)
Lemma advances_holds {T V U} (R : rep T V) h (r : ref U) y h' x v A A' :
  advances h r y h' → ref_loc r ∉ A → A ⊆ A' → R h x v A → R h' x v A'.
Proof.
  intros Hadv Hr HA HR. eapply holds_mono; [done..|]. intros l c Hl. apply (adv_rest _ _ _ _ Hadv).
  set_solver.
Qed.

Lemma grows_holds {T V} (R : rep T V) h h' x v A A' :
  h ⊆ h' → A ⊆ A' → R h x v A → R h' x v A'.
Proof. intros Hsub HA HR. eapply holds_mono; [done..|]. intros l c _ Hl. by eapply lookup_weaken. Qed.

Lemma grows_reads {T} h h' (r : ref T) x : h ⊆ h' → reads h r x → reads h' r x.
Proof. intros Hsub Hr. eapply reads_sub; [done|]. intros c Hc. by eapply lookup_weaken. Qed.

Lemma grows_dom h h' : h ⊆ h' → dom h ⊆ dom h'.
Proof. apply subseteq_dom. Qed.

Lemma copies_assign {T} : copies (plain T) assign.
Proof.
  intros h i o x y v A Hi Ho Hne HoA HA Hx. cbn in Hx. subst v.
  destruct (store_advances h o y x Ho) as (h' & Hstore & Hadv & _).
  exists h', x. split; [|done]. unfold assign. erewrite M_bind_run; [done|]. by apply load_reads.
Qed.

Lemma copies_inline {S T V} (F : field S T) `{!FieldLaws F} (R : rep T V) f :
  copies R f → copies_field F R (copy_inline F f).
Proof.
  intros Hf h i o x y v A Hi Ho Hne HoA HA HR _.
  destruct (Hf h (field_ref F i) (field_ref F o) (fget F x) (fget F y) v A)
    as (h' & p & Hrun & Hadv & Hp); try done; [by apply reads_field..|].
  exists h', p. split; [done|]. split; [by eapply advances_field|done].
Qed.

Lemma copies_both {S P Q V W} (F : field S P) (G : field S Q) `{!FieldLaws F, !FieldLaws G,
  !Indep F G} (R : rep P V) (R' : rep Q W) f g :
  copies_field F R f → copies_field G R' g →
  copies_field (both F G) (rep_pair R R') (λ i o, do! f i o;; g i o).
Proof.
  intros Hf Hg h i o x y [v w] A Hi Ho Hne HoA HA [HR HR'] [= HF HG].
  destruct (Hf h i o x y v A) as (h1 & p & Hrun1 & Hadv1 & Hp); try done.
  assert (reads h1 o (fset F p y)) as Ho1 by (by eapply advances_reads).
  destruct (Hg h1 i o x (fset F p y) w A) as (h2 & q & Hrun2 & Hadv2 & Hq); try done.
  - by eapply advances_other.
  - apply advances_dom in Hadv1. set_solver.
  - by eapply advances_holds.
  - by rewrite indep_get_r.
  - pose proof (reads_loc _ _ _ Ho). pose proof (advances_dom _ _ _ _ Hadv1).
    pose proof (advances_dom _ _ _ _ Hadv2).
    exists h2, (p, q). split; [by erewrite M_bind_run|]. split; [by eapply advances_trans|].
    split; cbn; [|eapply grows_holds; [done| |done]; set_solver].
    eapply advances_holds; [done| | |done]; set_solver.
Qed.

(** A struct is copied by assigning it and then copying its fields. *)
Lemma copies_struct {S P V W} (F : field S P) `{!FieldLaws F} (R : rep P W) (view : V → W)
  (flat : S → V → Prop) f :
  (∀ p x v, flat x v → flat (fset F p x) v) → copies_field F R f →
  copies (struct F R view flat) (λ i o, do! assign i o;; f i o).
Proof.
  intros Hflat Hf h i o x y v A Hi Ho Hne HoA HA [Hx HR].
  destruct (store_advances h o y x Ho) as (h1 & Hstore & Hadv1 & Hdom).
  assert (reads h1 o x) as Ho1 by (by eapply advances_reads).
  destruct (Hf h1 i o x x (view v) A) as (h2 & p & Hrun & Hadv2 & Hp); try done.
  - by eapply advances_other.
  - by rewrite Hdom.
  - by eapply advances_holds.
  - exists h2, (fset F p x). split; [|split; [by eapply advances_trans|]].
    + erewrite M_bind_run; [done|]. unfold assign. erewrite M_bind_run; [done|]. by apply load_reads.
    + split; [by apply Hflat|]. cbn. rewrite fget_fset, <- Hdom. done.
Qed.

(** A new variable, and the heap with it. *)
Lemma new_grows {T} `{!Stored T, !Zero T} h :
  ∃ l h', new T h = (h', Ok (Some l)) ∧ (l ∉ dom h) ∧ h ⊆ h' ∧ dom h' = {[l]} ∪ dom h ∧
    reads h' (whole l) (zero : T).
Proof.
  destruct (alloc_grows h (zero : T)) as (l & Hl & Hrun & Hsub).
  exists l, (<[l := inj zero]> h). split; [unfold new; by erewrite M_bind_run|].
  split; [done|]. split; [done|]. split; [apply dom_insert_L|].
  apply reads_whole. apply lookup_insert_eq.
Qed.

(** [DeepCopy] of a pointer: everything the heap had stays, and the new variable
    stands for the same through new cells. *)
Lemma deep_copy_copies {T V} `{!Stored T, !Zero T} (R : rep T V) f h r x v A :
  copies R f → reads h r x → A ⊆ dom h → R h x v A →
  ∃ h' l x', deep_copy f (Some r) h = (h', Ok (Some l)) ∧ (l ∉ dom h) ∧ h ⊆ h' ∧
    reads h' (whole l) x' ∧ R h' x' v (dom h' ∖ dom h).
Proof.
  intros Hf Hr HA HR. destruct (new_grows (T:=T) h) as (l & h1 & Hnew & Hl & Hsub & Hdom & Hz).
  pose proof (reads_loc _ _ _ Hr) as Hloc.
  destruct (Hf h1 r (whole l) x zero v A) as (h2 & x' & Hrun & Hadv & Hx'); try done.
  - by eapply grows_reads.
  - cbn. set_solver.
  - cbn. set_solver.
  - set_solver.
  - by eapply grows_holds.
  - exists h2, l, x'. cbn. split; [|split; [done|split; [|split]]].
    + erewrite M_bind_run; [|exact Hnew]. by erewrite M_bind_run.
    + apply map_subseteq_spec. intros k c Hk. apply (adv_rest _ _ _ _ Hadv); cbn.
      * apply elem_of_dom_2 in Hk. set_solver.
      * by eapply lookup_weaken.
    + by eapply advances_reads.
    + eapply grows_holds; [done| |done]. set_solver.
Qed.

(** After [*out.F = new_out] for a new cell [l]. *)
Lemma store_field_grows {S P} (F : field S P) `{!FieldLaws F} h h1 o y p :
  reads h o y → h ⊆ h1 →
  ∃ h2, store (field_ptr F (Some o)) p h1 = (h2, Ok tt) ∧ advances h o (fset F p y) h2 ∧
    reads h2 o (fset F p y) ∧ dom h2 = dom h1 ∧
    (∀ l c, l ≠ ref_loc o → h1 !! l = Some c → h2 !! l = Some c).
Proof.
  intros Ho Hsub. pose proof (grows_reads _ _ _ _ Hsub Ho) as Ho1.
  destruct (store_advances h1 (field_ref F o) (fget F y) p) as (h2 & Hrun & Hadv & Hdom);
    [by apply reads_field|].
  exists h2. split; [done|]. apply (advances_field F h1 o y) in Hadv; [|done].
  split; [eapply advances_grow; [|done..]; by eapply reads_loc|].
  split; [by eapply advances_reads|]. split; [done|]. apply Hadv.
Qed.

Lemma load_field {S P} (F : field S P) `{!FieldLaws F} h r x :
  reads h r x → load (field_ptr F (Some r)) h = (h, Ok (fget F x)).
Proof. intros Hr. apply load_reads. by apply reads_field. Qed.

Lemma copies_pointer {S T V} (F : field S (option loc)) `{!FieldLaws F, !Stored T, !Zero T}
  (R : rep T V) f :
  copies R f → copies_field F (pointer R) (copy_pointer F f).
Proof.
  intros Hf h i o x y v A Hi Ho Hne HoA HA HR Hy. unfold copy_pointer.
  erewrite M_bind_run; [|by apply load_field]. cbn in HR.
  destruct (fget F x) as [l|] eqn:Hl, v as [v|]; try done.
  2:{ exists h, None. split; [done|]. split; [|done]. rewrite <- Hy, fset_fget.
      by apply advances_refl. }
  destruct HR as (z & Hz & HlA & HR).
  destruct (new_grows (T:=T) h) as (k & h1 & Hnew & Hk & Hsub & Hdom1 & Hk1).
  destruct (store_field_grows F h h1 o y (Some k) Ho Hsub) as (h2 & Hst & Hadv & Ho2 & Hdom & Hrest).
  pose proof (reads_loc _ _ _ Ho) as Holoc. pose proof (reads_loc _ _ _ Hi) as Hiloc.
  assert (reads h2 (whole k) (zero : T)) as Hk2.
  { eapply reads_sub; [done|]. cbn. intros c. apply Hrest. set_solver. }
  destruct (Hf h2 (whole l) (whole k) z zero v A) as (h3 & z' & Hrun & Hadv3 & Hz'); cbn; [|done|..].
  { apply reads_whole. apply (adv_rest _ _ _ _ Hadv); [set_solver|done]. }
  { set_solver. } { set_solver. } { set_solver. } { by eapply advances_holds. }
  assert (advances h o (fset F (Some k) y) h3) as Hadv'.
  { by eapply advances_newer; [exact Hadv| |exact Hadv3]. }
  exists h3, (Some k). split; [|split; [done|]].
  - erewrite M_bind_run; [|exact Hnew]. erewrite M_bind_run; [|exact Hst].
    erewrite M_bind_run; [|apply load_field; by eapply advances_other].
    erewrite M_bind_run; [|by apply load_field]. by rewrite fget_fset, Hl.
  - exists z'. pose proof (advances_dom _ _ _ _ Hadv3).
    split; [apply reads_whole; by eapply advances_reads|]. split; [set_solver|].
    eapply grows_holds; [done| |done]. set_solver.
Qed.

(** ** The loop over a slice

    [k] is the new backing array; the elements before [j] are copied. *)
Record slice_copied {S T V} `{!Stored (list T)} (R : rep T V) h (o : ref S) (y : S) (k : loc)
  (vs : list V) (j : nat) h' : Prop := {
  sc_adv : advances h o y h';
  sc_out : reads h' o y;
  sc_array : ∃ b, h' !! k = Some (inj b) ∧ length b = length vs ∧
    ∀ i v, i < j → vs !! i = Some v →
      ∃ x, b !! i = Some x ∧ R h' x v (dom h' ∖ dom h ∖ {[k]})
}.

Section slice_loop.
Context {S T V : Type} (F : field S (option slice)) `{!FieldLaws F, !Stored (list T)}.
Context (R : rep T V) (f : ptr T → ptr T → M heap unit) (Hf : copies R f).
Context (h : heap) (i o : ref S) (x y : S) (s : slice) (a : list T) (vs : list V) (A : gset loc)
  (k : loc).
Hypothesis Hi : reads h i x.
Hypothesis Ho : ref_loc o ∈ dom h.
Hypothesis Hne : ref_loc i ≠ ref_loc o.
Hypothesis HoA : ref_loc o ∉ A.
Hypothesis HA : A ⊆ dom h.
Hypothesis Hs : fget F x = Some s.
Hypothesis Ha : h !! sl_array s = Some (inj a).
Hypothesis HsA : sl_array s ∈ A.
Hypothesis Hlen : sl_len s = length vs.
Hypothesis Helems : ∀ i v, vs !! i = Some v → ∃ x, a !! (sl_off s + i) = Some x ∧ R h x v A.
Hypothesis Hk : k ∉ dom h.
Hypothesis Hy : fget F y = Some (Slice k 0 (length vs)).

Lemma slice_round j h1 :
  j < length vs → slice_copied R h o y k vs j h1 →
  ∃ h2, copy_element F f (Some i) (Some o) j h1 = (h2, Ok tt) ∧
    slice_copied R h o y k vs (Datatypes.S j) h2.
Proof.
  intros Hj [Hadv Hout (b & Hb & Hlenb & Hdone)].
  destruct (lookup_lt_is_Some_2 vs j Hj) as [v Hv].
  destruct (lookup_lt_is_Some_2 b j) as [z Hz]; [lia|].
  destruct (Helems j v Hv) as (w & Hw & HR).
  pose proof (advances_dom _ _ _ _ Hadv) as Hdom1.
  assert (reads h1 (whole (T := list T) k) b) as Hkr by (by apply reads_whole).
  assert (sl_array s ≠ ref_loc o) as Hso by congruence.
  assert (sl_array s ≠ k) as Hsk by (intros <-; apply Hk, HA, HsA).
  assert (ref_loc o ≠ k) as Hok by (intros <-; apply Hk, Ho).
  assert (k ∉ A) as HkA by (intros HkA; apply Hk, HA, HkA).
  assert (reads h1 (whole (T := list T) (sl_array s)) a) as Har.
  { apply reads_whole. by apply (adv_rest _ _ _ _ Hadv). }
  set (p := elem_ref (sl_off s + j) (whole (T := list T) (sl_array s))).
  set (q := elem_ref j (whole (T := list T) k)).
  destruct (Hf h1 p q w z v A) as (h2 & z' & Hrun & Hadv2 & Hz').
  { by eapply reads_elem. } { by eapply reads_elem. }
  { done. } { done. } { by etrans. } { by eapply advances_holds. }
  pose proof (advances_dom _ _ _ _ Hadv2) as Hdom2. pose proof (reads_loc _ _ _ Hkr) as Hkd.
  cbn in Hkd.
  exists h2. split.
  - unfold copy_element. erewrite M_bind_run; [|apply load_field; by eapply advances_other].
    rewrite Hs. cbn [index]. rewrite decide_True by lia.
    erewrite M_bind_run; [|done]. erewrite M_bind_run; [|by apply load_field].
    rewrite Hy. cbn [index sl_len sl_off sl_array]. rewrite decide_True by done.
    by erewrite M_bind_run.
  - split.
    + by eapply advances_newer; [exact Hadv| |exact Hadv2].
    + by eapply advances_other.
    + exists (<[j:=z']> b). split; [|split].
      * apply (advances_elem h1 j (whole k) b z z' h2 Hkr Hz) in Hadv2.
        apply reads_whole. by eapply advances_reads.
      * by rewrite length_insert.
      * intros i' v' Hi' Hv'. destruct (decide (i' = j)) as [->|Hij].
        -- exists z'. rewrite Hv in Hv'. injection Hv' as <-.
           rewrite list_lookup_insert_eq by (by eapply lookup_lt_Some).
           split; [done|]. eapply grows_holds; [done| |done].
           clear -Hdom1 Hkd. set_solver.
        -- destruct (Hdone i' v') as (x' & Hx' & HR'); [lia|done|]. exists x'.
           rewrite list_lookup_insert_ne by done. split; [done|].
           eapply (advances_holds R h1 q z' h2); [exact Hadv2| | |exact HR'].
           ++ cbn. clear. set_solver.
           ++ clear -Hdom2. set_solver.
Qed.

Lemma slice_rounds m j h1 :
  j + m = length vs → slice_copied R h o y k vs j h1 →
  ∃ h2, for_each (seq j m) (copy_element F f (Some i) (Some o)) h1 = (h2, Ok tt) ∧
    slice_copied R h o y k vs (length vs) h2.
Proof.
  revert j h1. induction m as [|m IH]; intros j h1 Hj Hinv; cbn.
  - exists h1. split; [done|]. by replace (length vs) with j by lia.
  - destruct (slice_round j h1) as (h2 & Hrun & Hinv2); [lia|done|].
    destruct (IH (Datatypes.S j) h2) as (h3 & Hrun3 & Hinv3); [lia|done|].
    exists h3. split; [|done]. by erewrite M_bind_run.
Qed.
End slice_loop.

(** [make] in a field: the new backing array. *)
Lemma make_slice_grows {T} `{!Stored (list T), !Zero T} h n :
  ∃ k h', make_slice T n h = (h', Ok (Some (Slice k 0 n))) ∧ (k ∉ dom h) ∧ h ⊆ h' ∧
    dom h' = {[k]} ∪ dom h ∧ h' !! k = Some (inj (replicate n (zero : T))).
Proof.
  destruct (alloc_grows h (replicate n (zero : T))) as (k & Hk & Hrun & Hsub).
  eexists k, _. split; [unfold make_slice; by erewrite M_bind_run|].
  split; [done|]. split; [done|]. split; [apply dom_insert_L|]. apply lookup_insert_eq.
Qed.

Lemma copies_slice {S T V} (F : field S (option slice)) `{!FieldLaws F, !Stored (list T), !Zero T}
  (R : rep T V) f :
  copies R f → copies_field F (slice_of R) (copy_slice F f).
Proof.
  intros Hf h i o x y v A Hi Ho Hne HoA HA HR Hy. unfold copy_slice.
  erewrite M_bind_run; [|by apply load_field]. cbn in HR.
  destruct (fget F x) as [s|] eqn:Hs, v as [vs|]; try done.
  2:{ exists h, None. split; [done|]. split; [|done]. rewrite <- Hy, fset_fget.
      by apply advances_refl. }
  destruct HR as (a & Ha & HsA & Hlen & Hfit & Helems).
  destruct (make_slice_grows (T:=T) h (length vs)) as (k & h1 & Hmake & Hk & Hsub & Hdom1 & Hk1).
  set (made := Some (Slice k 0 (length vs))) in *.
  destruct (store_field_grows F h h1 o y made Ho Hsub) as (h2 & Hst & Hadv & Ho2 & Hdom & Hrest).
  pose proof (reads_loc _ _ _ Ho) as Holoc.
  destruct (slice_rounds F R f Hf h i o x (fset F made y) s a vs A k) with (m := length vs) (j := 0)
    (h1 := h2) as (h3 & Hrun & [Hadv3 Ho3 (b & Hb & Hlenb & Hdone)]); try done.
  { by rewrite fget_fset. }
  { split; [done..|]. exists (replicate (length vs) zero). split; [apply Hrest; [|done]; congruence|].
    rewrite length_replicate. split; [done|]. lia. }
  exists h3, made. split; [|split; [done|]].
  - erewrite M_bind_run; [|by apply load_field]. rewrite Hs. cbn [slice_len]. rewrite Hlen.
    erewrite M_bind_run; [|exact Hmake]. erewrite M_bind_run; [|exact Hst].
    erewrite M_bind_run; [|apply load_field; by eapply advances_other].
    rewrite Hs. cbn [slice_len]. by rewrite Hlen.
  - exists b. split; [done|]. pose proof (elem_of_dom_2 _ _ _ Hb) as Hkd.
    split; [clear -Hk Hkd; set_solver|]. split; [done|]. split; [cbn; lia|].
    intros j v Hj. destruct (Hdone j v) as (z & Hz & HRz); [by eapply lookup_lt_Some|done|].
    exists z. split; [done|]. eapply grows_holds; [done| |done]. clear. set_solver.
Qed.

Lemma copies_plain_slice {S T} (F : field S (option slice))
  `{!FieldLaws F, !Stored (list T), !Zero T} :
  copies_field F (slice_of (plain T)) (copy_plain_slice T F).
Proof.
  intros h i o x y v A Hi Ho Hne HoA HA HR Hy. unfold copy_plain_slice.
  erewrite M_bind_run; [|by apply load_field]. cbn in HR.
  destruct (fget F x) as [s|] eqn:Hs, v as [vs|]; try done.
  2:{ exists h, None. split; [done|]. split; [|done]. rewrite <- Hy, fset_fget.
      by apply advances_refl. }
  destruct HR as (a & Ha & HsA & Hlen & Hfit & Helems).
  destruct (make_slice_grows (T:=T) h (length vs)) as (k & h1 & Hmake & Hk & Hsub & Hdom1 & Hk1).
  set (made := Some (Slice k 0 (length vs))) in *.
  destruct (store_field_grows F h h1 o y made Ho Hsub) as (h2 & Hst & Hadv & Ho2 & Hdom & Hrest).
  pose proof (reads_loc _ _ _ Ho) as Holoc.
  assert (ref_loc o ≠ k) as Hok by congruence.
  assert (reads h2 (whole (T := list T) k) (replicate (length vs) (zero : T))) as Hk2.
  { apply reads_whole. by apply Hrest. }
  assert (reads h2 (whole (T := list T) (sl_array s)) a) as Ha2.
  { apply reads_whole. apply (adv_rest _ _ _ _ Hadv); [congruence|done]. }
  assert (take (length vs) (drop (sl_off s) a) = vs) as Hcopy.
  { apply list_eq. intros j. destruct (decide (j < length vs)) as [Hj|Hj].
    - rewrite lookup_take_lt by done. rewrite lookup_drop.
      destruct (lookup_lt_is_Some_2 vs j Hj) as [w Hw]. rewrite Hw.
      by destruct (Helems j w Hw) as (w' & Hw' & ->).
    - rewrite lookup_take_ge by lia. symmetry. apply lookup_ge_None. lia. }
  destruct (store_advances h2 (whole (T := list T) k) _ vs Hk2) as (h3 & Hst3 & Hadv3 & Hdom3).
  exists h3, made. split; [|split].
  - erewrite M_bind_run; [|by apply load_field]. rewrite Hs. cbn [slice_len]. rewrite Hlen.
    erewrite M_bind_run; [|exact Hmake]. erewrite M_bind_run; [|exact Hst].
    erewrite M_bind_run; [|by apply load_field].
    erewrite M_bind_run; [|apply load_field; by eapply advances_other].
    rewrite fget_fset, Hs. unfold made, copy.
    erewrite M_bind_run; [|by apply load_reads]. erewrite M_bind_run; [|by apply load_reads].
    cbn [sl_len sl_off sl_array]. rewrite Hlen, Nat.min_id, Hcopy, <- Hst3. f_equal.
    apply list_eq. intros j. destruct (decide (j < length vs)) as [Hj|Hj].
    + rewrite list_lookup_inserts by (rewrite ?length_replicate; lia). f_equal. lia.
    + rewrite list_lookup_inserts_ge by lia. rewrite lookup_ge_None_2 by (rewrite length_replicate; lia).
      symmetry. apply lookup_ge_None. lia.
  - by eapply advances_newer; [exact Hadv| |exact Hadv3].
  - exists vs. split; [apply reads_whole; by eapply advances_reads|].
    split; [rewrite Hdom3, Hdom, Hdom1; clear -Hk; set_solver|]. split; [done|]. split; [done|].
    intros j v Hj. by exists v.
Qed.

(** ** The loop over a map

    [k] is the new map; the entries with a key in [D] are copied. *)
Record map_copied {S T V} `{!Stored (gmap string T)} (R : rep T V) h (o : ref S) (y : S) (k : loc)
  (m : gmap string V) (D : list string) h' : Prop := {
  mc_adv : advances h o y h';
  mc_out : reads h' o y;
  mc_map : ∃ e, h' !! k = Some (inj e) ∧
    ∀ key, option_Forall2 (λ x v, R h' x v (dom h' ∖ dom h ∖ {[k]})) (e !! key)
      (if decide (key ∈ D) then m !! key else None)
}.

Section map_loop.
Context {S T V : Type} (F : field S (option loc)) `{!FieldLaws F, !Stored T, !Zero T,
  !Stored (gmap string T)}.
Context (R : rep T V) (f : ptr T → ptr T → M heap unit) (Hf : copies R f).
Context (h : heap) (o : ref S) (y : S) (m : gmap string V) (A : gset loc) (k : loc).
Hypothesis Ho : ref_loc o ∈ dom h.
Hypothesis HoA : ref_loc o ∉ A.
Hypothesis HA : A ⊆ dom h.
Hypothesis Hk : k ∉ dom h.
Hypothesis Hy : fget F y = Some k.

Lemma map_round key x v D h1 :
  m !! key = Some v → R h x v A → map_copied R h o y k m D h1 →
  ∃ h2, copy_entry F f (Some o) (key, x) h1 = (h2, Ok tt) ∧ map_copied R h o y k m (key :: D) h2.
Proof.
  intros Hv HR [Hadv Hout (e & He & Hdone)].
  pose proof (advances_dom _ _ _ _ Hadv) as Hdom1. pose proof (elem_of_dom_2 _ _ _ He) as Hkd.
  destruct (alloc_grows h1 x) as (val & Hval & Halloc & Hsub).
  set (h2 := <[val := inj x]> h1) in *.
  assert (reads h2 (whole val) x) as Hvr by (apply reads_whole, lookup_insert_eq).
  assert (R h2 x v A) as HR2 by (by eapply grows_holds, advances_holds).
  pose proof (grows_dom _ _ Hsub) as Hdom2.
  destruct (deep_copy_copies R f h2 (whole val) x v A Hf Hvr) as (h3 & l & z & Hrun & Hl & Hsub3 & Hlr & Hz);
    [by do 2 (etrans; [done|])|done|].
  pose proof (grows_dom _ _ Hsub3) as Hdom3.
  assert (reads h3 o y) as Ho3 by (by do 2 (eapply grows_reads; [done|])).
  assert (reads h3 (whole k) e) as Hk3.
  { do 2 (eapply grows_reads; [done|]). by apply reads_whole. }
  destruct (store_advances h3 (whole k) e (<[key := z]> e) Hk3) as (h4 & Hst & Hadv4 & Hdom4).
  exists h4. split.
  - unfold copy_entry. erewrite M_bind_run; [|exact Halloc]. erewrite M_bind_run; [|exact Hrun].
    erewrite M_bind_run; [|by apply load_reads]. erewrite M_bind_run; [|by apply load_field].
    rewrite Hy. cbn [map_assign]. by erewrite M_bind_run; [|by apply load_reads].
  - assert (ref_loc o ≠ k) as Hok by (intros <-; apply Hk, Ho). split.
    + eapply advances_newer; [| |exact Hadv4]; [|done]. by do 2 (eapply advances_grows; [|done]).
    + by eapply advances_other.
    + exists (<[key := z]> e). split; [apply reads_whole; by eapply advances_reads|].
      assert (∀ x v, R h1 x v (dom h1 ∖ dom h ∖ {[k]}) → R h4 x v (dom h4 ∖ dom h ∖ {[k]})) as Hkeep.
      { intros x' v' HR'. eapply (advances_holds R h3 (whole k) _ h4 _ _ (dom h1 ∖ dom h ∖ {[k]}));
          [exact Hadv4|cbn; clear; set_solver|rewrite Hdom4; clear -Hdom2 Hdom3; set_solver|].
        eapply grows_holds; [exact Hsub3|done|]. by eapply grows_holds. }
      intros key'. destruct (decide (key' = key)) as [->|Hkey].
      * rewrite lookup_insert_eq, decide_True by (by left). rewrite Hv. constructor.
        eapply (advances_holds R h3 (whole k) _ h4); [exact Hadv4| | |exact Hz].
        -- cbn. clear -Hkd Hdom2. set_solver.
        -- rewrite Hdom4. clear -Hdom1 Hdom2 Hkd. set_solver.
      * rewrite lookup_insert_ne by done. specialize (Hdone key').
        destruct (decide (key' ∈ D)) as [HD|HD].
        -- rewrite decide_True by (by right). destruct Hdone; constructor. by apply Hkeep.
        -- rewrite decide_False by (by intros [|]%elem_of_cons). inversion Hdone. constructor.
Qed.

Lemma map_rounds (l : list (string * T)) D h1 :
  (∀ key x, (key, x) ∈ l → ∃ v, m !! key = Some v ∧ R h x v A) →
  map_copied R h o y k m D h1 →
  ∃ h2, for_each l (copy_entry F f (Some o)) h1 = (h2, Ok tt) ∧
    map_copied R h o y k m (rev l.*1 ++ D) h2.
Proof.
  revert D h1. induction l as [|[key x] l IH]; intros D h1 Hl Hinv; cbn.
  - by exists h1.
  - destruct (Hl key x) as (v & Hv & HR); [by left|].
    destruct (map_round key x v D h1) as (h2 & Hrun & Hinv2); [done..|].
    destruct (IH (key :: D) h2) as (h3 & Hrun3 & Hinv3); [|done|].
    { intros key' x' Hin. apply Hl. by right. }
    exists h3. split; [by erewrite M_bind_run|]. by rewrite <- app_assoc.
Qed.
End map_loop.

Lemma make_map_grows {T} `{!Stored (gmap string T)} h :
  ∃ k h', make_map T h = (h', Ok (Some k)) ∧ (k ∉ dom h) ∧ h ⊆ h' ∧
    h' !! k = Some (inj (∅ : gmap string T)).
Proof.
  destruct (alloc_grows h (∅ : gmap string T)) as (k & Hk & Hrun & Hsub).
  eexists k, _. split; [unfold make_map; by erewrite M_bind_run|].
  split; [done|]. split; [done|]. apply lookup_insert_eq.
Qed.

Lemma map_range_keys {V} (m : gmap string V) key : key ∈ rev (map_range m).*1 ↔ is_Some (m !! key).
Proof.
  rewrite list_elem_of_In, <- in_rev, <- list_elem_of_In, map_range_perm, list_elem_of_fmap. split.
  - intros ([k v] & -> & Hin%elem_of_map_to_list). by exists v.
  - intros [v Hv]. exists (key, v). split; [done|]. by apply elem_of_map_to_list.
Qed.

Lemma copies_map {S T V} (F : field S (option loc)) `{!FieldLaws F, !Stored T, !Zero T,
  !Stored (gmap string T)} (R : rep T V) f :
  copies R f → copies_field F (map_of R) (copy_map F f).
Proof.
  intros Hf h i o x y v A Hi Ho Hne HoA HA HR Hy. unfold copy_map.
  erewrite M_bind_run; [|by apply load_field]. cbn in HR.
  destruct (fget F x) as [p|] eqn:Hp, v as [m|]; try done.
  2:{ exists h, None. split; [done|]. split; [|done]. rewrite <- Hy, fset_fget.
      by apply advances_refl. }
  destruct HR as (e & He & HpA & Hentries).
  destruct (make_map_grows (T:=T) h) as (k & h1 & Hmake & Hk & Hsub & Hk1).
  destruct (store_field_grows F h h1 o y (Some k) Ho Hsub) as (h2 & Hst & Hadv & Ho2 & Hdom & Hrest).
  pose proof (reads_loc _ _ _ Ho) as Holoc.
  destruct (map_rounds F R f Hf h o (fset F (Some k) y) m A k) with (l := map_range e)
    (D := @nil string) (h1 := h2)
    as (h3 & Hrun & [Hadv3 Ho3 (e' & He' & Hdone)]); try done.
  { by rewrite fget_fset. }
  { intros key z Hin. rewrite map_range_perm in Hin. apply elem_of_map_to_list in Hin.
    specialize (Hentries key). rewrite Hin in Hentries. inversion Hentries; eauto. }
  { split; [done..|]. exists ∅. split; [apply Hrest; [congruence|done]|].
    intros key. rewrite lookup_empty. rewrite decide_False by apply not_elem_of_nil. constructor. }
  exists h3, (Some k). split; [|split; [done|]].
  - erewrite M_bind_run; [|exact Hmake]. erewrite M_bind_run; [|exact Hst].
    erewrite M_bind_run; [|apply load_field; by eapply advances_other]. rewrite Hp.
    erewrite M_bind_run; [done|]. apply load_reads, reads_whole.
    apply (adv_rest _ _ _ _ Hadv); [congruence|done].
  - exists e'. split; [done|]. pose proof (elem_of_dom_2 _ _ _ He') as Hkd.
    split; [clear -Hk Hkd; set_solver|]. intros key. specialize (Hdone key).
    rewrite app_nil_r in Hdone. replace (m !! key) with
      (if decide (key ∈ rev (map_range e).*1) then m !! key else None).
    + destruct Hdone; constructor. eapply grows_holds; [done| |done]. clear. set_solver.
    + destruct (decide _) as [_|Hn]; [done|]. rewrite map_range_keys in Hn.
      destruct (Hentries key); [|done]. by destruct Hn.
Qed.

(** ** Typing

    What the type checker gives: a pointer that is not nil points to a variable
    of its type, and a slice lies within its array. *)
Definition shape (T : Type) : Type := heap → T → Prop.

Definition pointer_typed {T} `{!Stored T} (P : shape T) : shape (option loc) := λ h p,
  match p with
  | None => True
  | Some l => ∃ x, h !! l = Some (inj x) ∧ P h x
  end.

Definition slice_typed {T} `{!Stored (list T)} (P : shape T) : shape (option slice) := λ h s,
  match s with
  | None => True
  | Some s => ∃ a, h !! sl_array s = Some (inj a) ∧ sl_off s + sl_len s ≤ length a ∧
      ∀ i x, i < sl_len s → a !! (sl_off s + i) = Some x → P h x
  end.

Definition map_typed {T} `{!Stored (gmap string T)} (P : shape T) : shape (option loc) := λ h p,
  match p with
  | None => True
  | Some l => ∃ e, h !! l = Some (inj e) ∧ map_Forall (λ _ x, P h x) e
  end.

(** A typed value stands for something. *)
Definition stands {T V} (P : shape T) (R : rep T V) : Prop :=
  ∀ h x, P h x ↔ ∃ v, R h x v (dom h).

Lemma stands_plain {T} : stands (λ _ (_ : T), True) (plain T).
Proof. intros h x. split; [by exists x|done]. Qed.

Lemma stands_pointer {T V} `{!Stored T} (P : shape T) (R : rep T V) :
  stands P R → stands (pointer_typed P) (pointer R).
Proof.
  intros HP h [l|]; cbn; [|by split; [exists None|]]. split.
  - intros (x & Hx & Hv). apply HP in Hv as [v Hv]. exists (Some v), x.
    split; [done|]. by apply elem_of_dom_2 in Hx.
  - intros ([v|] & Hv); [|done]. destruct Hv as (x & Hx & _ & Hv). exists x.
    split; [done|]. apply HP. by exists v.
Qed.

Lemma list_choice {V} (n : nat) (Q : nat → V → Prop) :
  (∀ i, i < n → ∃ v, Q i v) → ∃ vs, length vs = n ∧ ∀ i v, vs !! i = Some v → Q i v.
Proof.
  revert Q. induction n as [|n IH]; intros Q HQ; [by exists []|].
  destruct (HQ 0) as [v Hv]; [lia|].
  destruct (IH (λ i, Q (Datatypes.S i))) as (vs & Hlen & Hvs); [intros i Hi; apply HQ; lia|].
  exists (v :: vs). split; [by cbn; rewrite Hlen|]. intros [|i] w; cbn; [congruence|apply Hvs].
Qed.

Lemma map_choice {T V} (Q : T → V → Prop) (m : gmap string T) :
  map_Forall (λ _ x, ∃ v, Q x v) m →
  ∃ mv : gmap string V, ∀ k, option_Forall2 Q (m !! k) (mv !! k).
Proof.
  induction m as [|k x m Hk IH] using map_ind; intros HQ.
  - exists ∅. intros k. rewrite !lookup_empty. constructor.
  - apply map_Forall_insert in HQ as [[v Hv] HQ]; [|done]. destruct (IH HQ) as [mv Hmv].
    exists (<[k := v]> mv). intros k'. destruct (decide (k' = k)) as [->|Hne].
    + rewrite !lookup_insert_eq. by constructor.
    + by rewrite !lookup_insert_ne.
Qed.

Lemma stands_slice {T V} `{!Stored (list T)} (P : shape T) (R : rep T V) :
  stands P R → stands (slice_typed P) (slice_of R).
Proof.
  intros HP h [s|]; cbn; [|by split; [exists None|]]. split.
  - intros (a & Ha & Hlen & Helems).
    destruct (list_choice (sl_len s) (λ i v, ∃ x, a !! (sl_off s + i) = Some x ∧ R h x v (dom h)))
      as (vs & Hvs & HR).
    { intros i Hi. destruct (lookup_lt_is_Some_2 a (sl_off s + i)) as [x Hx]; [lia|].
      destruct (proj1 (HP h x) (Helems i x Hi Hx)) as [v Hv]. by exists v, x. }
    exists (Some vs), a. split; [done|]. split; [by apply elem_of_dom_2 in Ha|].
    by split.
  - intros ([vs|] & Hv); [|done]. destruct Hv as (a & Ha & _ & Hlen & Hfit & Helems). exists a.
    split; [done|]. split; [done|]. intros i x Hi Hx.
    destruct (lookup_lt_is_Some_2 vs i) as [v Hv]; [lia|].
    destruct (Helems i v Hv) as (x' & Hx' & HR). apply HP. exists v. congruence.
Qed.

Lemma stands_map {T V} `{!Stored (gmap string T)} (P : shape T) (R : rep T V) :
  stands P R → stands (map_typed P) (map_of R).
Proof.
  intros HP h [l|]; cbn; [|by split; [exists None|]]. split.
  - intros (e & He & Hall). destruct (map_choice (λ x v, R h x v (dom h)) e) as [m Hm].
    { intros k x Hx. apply HP. by eapply Hall. }
    exists (Some m), e. split; [done|]. split; [by apply elem_of_dom_2 in He|done].
  - intros ([m|] & Hv); [|done]. destruct Hv as (e & He & _ & Hm). exists e.
    split; [done|]. intros k x Hx. specialize (Hm k). rewrite Hx in Hm.
    inversion Hm as [? v HR|]. subst. apply HP. by exists v.
Qed.

Lemma stands_pair {P Q V W} (A : shape P) (B : shape Q) (R : rep P V) (R' : rep Q W) :
  stands A R → stands B R' → stands (λ h x, A h x.1 ∧ B h x.2) (rep_pair R R').
Proof.
  intros HA HB h [p q]; cbn. rewrite (HA h p), (HB h q). split.
  - intros [[v Hv] [w Hw]]. by exists (v, w).
  - intros [[v w] [Hv Hw]]. split; [by exists v|by exists w].
Qed.

Lemma stands_struct {S P V W} (F : field S P) (A : shape P) (R : rep P W) (view : V → W)
  (flat : S → V → Prop) :
  stands A R → (∀ x w, ∃ v, view v = w ∧ flat x v) →
  stands (λ h x, A h (fget F x)) (struct F R view flat).
Proof.
  intros HA Hview h x. cbn. rewrite (HA h (fget F x)). split.
  - intros [w Hw]. destruct (Hview x w) as (v & <- & Hflat). by exists v.
  - intros (v & _ & Hv). by exists (view v).
Qed.

(** From [h] to [k] the variables in [A] may change, and new ones may appear. *)
Definition mutated (A : gset loc) h (k : heap) : Prop :=
  ∀ m c, m ∉ A → h !! m = Some c → k !! m = Some c.

Lemma mutated_holds {T V} (R : rep T V) (A B : gset loc) h k x v :
  mutated A h k → A ## B → R h x v B → R k x v B.
Proof.
  intros Hk HAB HR. eapply holds_mono; [done..|]. intros l c Hl. apply Hk. set_solver.
Qed.

Lemma mutated_reads {T} A h k (r : ref T) x :
  mutated A h k → (ref_loc r ∉ A) → reads h r x → reads k r x.
Proof. intros Hk Hr Hx. eapply reads_sub; [done|]. intros c. by apply Hk. Qed.

(** [DeepCopy] of a pointer, whatever reaches the value. *)
Lemma deep_copy_spec {T V} `{!Stored T, !Zero T} (R : rep T V) f h r x v :
  copies R f → reads h r x → R h x v (dom h) →
  ∃ h' l x', deep_copy f (Some r) h = (h', Ok (Some l)) ∧ (l ∉ dom h) ∧ h ⊆ h' ∧
    reads h' (whole l) x' ∧ R h' x' v (dom h' ∖ dom h).
Proof. intros Hf Hr HR. by eapply deep_copy_copies. Qed.

(** A typed value is copied to a typed value. *)
Lemma deep_copy_typed {T V} `{!Stored T, !Zero T} (P : shape T) (R : rep T V) f h r x :
  stands P R → copies R f → reads h r x → P h x →
  ∃ h' l x', deep_copy f (Some r) h = (h', Ok (Some l)) ∧ h ⊆ h' ∧
    reads h' (whole l) x' ∧ P h' x' ∧ P h' x.
Proof.
  intros HP Hf Hr Hx. apply HP in Hx as [v Hv].
  destruct (deep_copy_spec R f h r x v) as (h' & l & x' & Hrun & _ & Hsub & Hl & Hx'); [done..|].
  exists h', l, x'. do 3 (split; [done|]).
  split; apply HP; exists v.
  - eapply (grows_holds R h' h'); [done| |done]. set_solver.
  - eapply (grows_holds R h h'); [done| |done]. by apply grows_dom.
Qed.

(** A copy and its original do not share variables. *)
Lemma deep_copy_isolated {T V} `{!Stored T, !Zero T} (R : rep T V) f h r x v h' l k :
  copies R f → reads h r x → R h x v (dom h) → deep_copy f (Some r) h = (h', Ok (Some l)) →
  (mutated (dom h) h' k → ∃ y, reads k (whole l) y ∧ R k y v (dom h' ∖ dom h)) ∧
  (mutated (dom h' ∖ dom h) h' k → reads k r x ∧ R k x v (dom h)).
Proof.
  intros Hf Hr HR Hcopy.
  destruct (deep_copy_spec R f h r x v) as (h1 & l1 & y & Hrun & Hl & Hsub & Hy & HRy); [done..|].
  rewrite Hcopy in Hrun. injection Hrun as <- <-. split; intros Hk.
  - exists y. split; [by eapply mutated_reads|]. eapply mutated_holds; [done| |done]. set_solver.
  - pose proof (reads_loc _ _ _ Hr). split.
    + eapply mutated_reads; [done|set_solver|]. by eapply grows_reads.
    + eapply mutated_holds; [done| |by eapply grows_holds]. set_solver.
Qed.
End deep_copy.
Arguments rep : clear implicits.
Arguments holds {_ _ _} _ _ _ _ _.
Arguments shape : clear implicits.
