(* ===== verification/K8s.v ===== *)
(** * The Kubernetes API types the source builds values of

    The records have the fields the source sets or reads; a struct literal of
    the source leaves every other field at its zero value.  A pointer field is
    an [option], a slice is a list, an [int32] is a [Z].  Each struct has a
    module of its own so that field names are those of the Go API. *)

From S2P Require Import Prelude.

(** ** k8s.io/api/core/v1: containers *)
Module ContainerPort.
Record t := mk { Name : string; ContainerPort : Z; Protocol : string }.
End ContainerPort.

Module SecretKeySelector.
Record t := mk { Name : string; Key : string }.
End SecretKeySelector.

Module ObjectFieldSelector.
Record t := mk { FieldPath : string }.
End ObjectFieldSelector.

Module EnvVarSource.
Record t := mk {
  FieldRef : option ObjectFieldSelector.t;
  SecretKeyRef : option SecretKeySelector.t
}.
End EnvVarSource.

Module EnvVar.
Record t := mk { Name : string; Value : string; ValueFrom : option EnvVarSource.t }.
End EnvVar.

Module VolumeMount.
Record t := mk { Name : string; MountPath : string }.
End VolumeMount.

Inductive IntOrString := FromInt (n : Z) | FromString (s : string).

Module TCPSocketAction.
Record t := mk { Port : IntOrString }.
End TCPSocketAction.

Module ProbeHandler.
Record t := mk { TCPSocket : option TCPSocketAction.t }.
End ProbeHandler.

Module Probe.
Record t := mk {
  ProbeHandler : ProbeHandler.t;
  InitialDelaySeconds : Z;
  TimeoutSeconds : Z;
  PeriodSeconds : Z;
  FailureThreshold : Z
}.
End Probe.

Module Container.
Record t := mk {
  Name : string;
  Command : list string;
  Args : list string;
  Ports : list ContainerPort.t;
  Env : list EnvVar.t;
  VolumeMounts : list VolumeMount.t;
  LivenessProbe : option Probe.t;
  ReadinessProbe : option Probe.t;
  StartupProbe : option Probe.t
}.
End Container.

(** ** Volumes

    [Quantity] is [resource.Quantity]. *)
Module ConfigMapVolumeSource.
Record t := mk { Name : string; DefaultMode : option Z }.
End ConfigMapVolumeSource.

Module PersistentVolumeClaimTemplate.
Record t {Quantity : Type} := mk {
  Annotations : gmap string string;
  StorageClassName : option string;
  AccessModes : list string;
  Requests : gmap string Quantity
}.
Arguments t : clear implicits.
Arguments mk {_} _ _ _ _.
End PersistentVolumeClaimTemplate.

Module EphemeralVolumeSource.
Record t {Quantity : Type} := mk {
  VolumeClaimTemplate : option (PersistentVolumeClaimTemplate.t Quantity)
}.
Arguments t : clear implicits.
Arguments mk {_} _.
End EphemeralVolumeSource.

Module VolumeSource.
Record t {Quantity : Type} := mk {
  ConfigMap : option ConfigMapVolumeSource.t;
  Ephemeral : option (EphemeralVolumeSource.t Quantity)
}.
Arguments t : clear implicits.
Arguments mk {_} _ _.
End VolumeSource.

Module Volume.
Record t {Quantity : Type} := mk { Name : string; VolumeSource : VolumeSource.t Quantity }.
Arguments t : clear implicits.
Arguments mk {_} _ _.
End Volume.

(** ** Affinity *)
Module LabelSelector.
Record t := mk { MatchLabels : gmap string string }.
End LabelSelector.

Module PodAffinityTerm.
Record t := mk { LabelSelector : option LabelSelector.t; TopologyKey : string }.
End PodAffinityTerm.

Module WeightedPodAffinityTerm.
Record t := mk { Weight : Z; PodAffinityTerm : PodAffinityTerm.t }.
End WeightedPodAffinityTerm.

(** [corev1.PodAffinity] and [corev1.PodAntiAffinity] have the same two fields. *)
Module PodAffinityTerms.
Record t := mk {
  RequiredDuringSchedulingIgnoredDuringExecution : list PodAffinityTerm.t;
  PreferredDuringSchedulingIgnoredDuringExecution : list WeightedPodAffinityTerm.t
}.
End PodAffinityTerms.

Module Affinity.
Record t := mk {
  PodAffinity : option PodAffinityTerms.t;
  PodAntiAffinity : option PodAffinityTerms.t
}.
End Affinity.

(** ** Objects *)
Module ObjectMeta.
Record t := mk { Name : string; Namespace : string; UID : string }.
End ObjectMeta.

Module ListMeta.
Record t := mk {
  SelfLink : string;
  ResourceVersion : string;
  Continue : string;
  RemainingItemCount : option Z
}.
End ListMeta.

(** [metav1.Condition]; the transition time in nanoseconds. *)
Module Condition.
Record t := mk {
  Type_ : string;
  Status : string;
  ObservedGeneration : Z;
  LastTransitionTime : Z;
  Reason : string;
  Message : string
}.
End Condition.

Module GroupVersionKind.
Record t := mk { Group : string; Version : string; Kind : string }.
End GroupVersionKind.

Module ConfigMap.
(** [Data] may be a nil map. *)
Record t := mk { Name : string; Data : option (gmap string string) }.
End ConfigMap.

(** An [apps/v1.StatefulSet]: its pod template's containers and volumes, and the
    rest of the object, which the source does not look into. *)
Module StatefulSetObject.
Record t {Quantity Rest : Type} := mk {
  Containers : list Container.t;
  Volumes : list (Volume.t Quantity);
  rest : Rest
}.
Arguments t : clear implicits.
Arguments mk {_ _} _ _ _.
End StatefulSetObject.
