(* ===== verification/OperatorGo.v ===== *)
(** * Interfaces to code outside the repository

    The source is written against k8s.io packages, controller-runtime and
    [github.com/zncdatadev/operator-go].  Their code is not part of the
    repository: it enters the model as the operations of three classes, which
    the definitions take as arguments.  What the source relies on is stated in
    law classes, one per component; a theorem that needs a law names its class.
    The file [Fakes] has in-memory instances that satisfy every law. *)

From S2P Require Import Prelude K8s.

(** ** Structs of operator-go the source fills in or reads *)
Module ClusterInfo.
Record t := mk { GVK : option GroupVersionKind.t; ClusterName : string }.
End ClusterInfo.

Module RoleInfo.
Record t := mk { ClusterInfo : ClusterInfo.t; RoleName : string }.
End RoleInfo.

Module RoleGroupInfo.
Record t := mk { RoleInfo : RoleInfo.t; RoleGroupName : string }.
End RoleGroupInfo.

(** [builder.Options]. *)
Module Options.
Record t := mk {
  ClusterName : string;
  RoleName : string;
  RoleGroupName : string;
  Labels : gmap string string;
  Annotations : gmap string string
}.
Definition zero : t := mk "" "" "" ∅ ∅.
End Options.

(** [builder.ServiceBuilderOptions]. *)
Module ServiceBuilderOptions.
Record t := mk {
  Headless : bool;
  ListenerClass : string;
  ClusterName : string;
  RoleName : string;
  RoleGroupName : string;
  Labels : gmap string string;
  MatchingLabels : gmap string string;
  Annotations : gmap string string
}.
Definition zero : t := mk false "" "" "" "" ∅ ∅ ∅.
End ServiceBuilderOptions.

(** [util.ImageOptions]. *)
Module ImageOptions.
Record t := mk { Custom : string; Repo : string; PullPolicy : string }.
End ImageOptions.

(** [util.Image]: the field the source assigns, and the others. *)
Module Image.
Record t {Rest : Type} := mk { KubedoopVersion : string; rest : Rest }.
Arguments t : clear implicits.
Arguments mk {_} _ _.
End Image.

(** [productlogging.ConfigGeneratorOption]. *)
Module ConfigGeneratorOption.
Record t := mk { ConsoleHandlerFormatter : option string }.
End ConfigGeneratorOption.

(** [authv1alpha1.OIDCProvider] and [AuthenticationClass]; [OIDC] is the field
    [Spec.AuthenticationProvider.OIDC]. *)
Module OIDCProvider.
Record t := mk { Hostname : string; Port : Z; RootPath : string; ProviderHint : string }.
End OIDCProvider.

Module AuthenticationClass.
Record t := mk { OIDC : option OIDCProvider.t }.
End AuthenticationClass.

(** [client.Client]: a controller-runtime client and the object that owns what
    is created through it. *)
Module Client.
Record t {CtrlClient : Type} := mk { Client : CtrlClient; OwnerReference : ObjectMeta.t }.
Arguments t : clear implicits.
Arguments mk {_} _ _.
End Client.

(** ** Constants, opaque types and functions *)
Class Platform := {
  (* k8s.io/api/core/v1 *)
  ProtocolTCP : string;
  ReadWriteOnce : string;
  ResourceStorage : string;
  LabelHostname : string;
  DefaultHardPodAffinitySymmetricWeight : Z;
  (* k8s.io/apimachinery: resource.Quantity and resource.MustParse *)
  Quantity : Type;
  MustParse : string → Quantity;
  (* operator-go/pkg/constants *)
  KubedoopRoot : string;
  KubedoopConfigDir : string;
  KubedoopConfigDirMount : string;
  LabelKubernetesInstance : string;
  LabelKubernetesName : string;
  LabelKubernetesComponent : string;
  ClusterInternal : string;
  (* operator-go/pkg/util *)
  IndentTab4Spaces : string → string;
  ImageRest : Type;
  NewImage : string → string → string → list (ImageOptions.t → ImageOptions.t) → Image.t ImageRest;
  (* operator-go/pkg/apis/commons *)
  LoggingConfigSpec : Type;
  RoleGroupConfigRest : Type;
  OverridesSpec : Type;
  RoleConfigSpec : Type;
  ClusterOperationSpec : Type;
  (* operator-go/pkg/reconciler: the methods of RoleGroupInfo *)
  GetFullName : RoleGroupInfo.t → string;
  GetClusterName : RoleGroupInfo.t → string;
  GetRoleName : RoleGroupInfo.t → string;
  GetGroupName : RoleGroupInfo.t → string;
  GetLabels : RoleGroupInfo.t → gmap string string;
  GetAnnotations : RoleGroupInfo.t → gmap string string;
  (* operator-go/pkg/client *)
  CtrlClient : Type;
  (* k8s.io/apimachinery/pkg/runtime *)
  RuntimeScheme : Type;
  GetOwnerNamespace : Client.t CtrlClient → string;
  GetOwnerUID : Client.t CtrlClient → string;
  GetConfigMap : Client.t CtrlClient → string → outcome ConfigMap.t;
  GetAuthenticationClass : Client.t CtrlClient → string → outcome AuthenticationClass.t
}.

(** [MergeObject] merges a role's configuration with a role group's. *)
Class Merge := {
  MergeObject : ∀ {A : Type}, option A → option A → outcome (option A)
}.

(** Merges that do not fail: the case in which only the parts given decide whether
    registration succeeds. *)
Class MergeTotal `{!Merge} : Prop := {
  merge_total : ∀ {A : Type} (role group : option A), ∃ merged, MergeObject role group = Ok merged
}.

(** [commonsv1alpha1.LoggingSpec] and [RoleGroupConfigSpec], as far as read. *)
Module LoggingSpec.
Record t `{!Platform} := mk { Containers : option (gmap string LoggingConfigSpec) }.
Arguments mk {_} _.
End LoggingSpec.

Module RoleGroupConfigSpec.
Record t `{!Platform} := mk {
  Logging : option LoggingSpec.t;
  rest : RoleGroupConfigRest
}.
Arguments mk {_} _ _.
End RoleGroupConfigSpec.

Section operator_go.
Context `{!Platform}.

(** What is documented about the constants and the getters.  The three label
    names are keys of one map literal of the source, which Go compiles only
    when they differ. *)
Class PlatformLaws : Prop := {
  default_weight : DefaultHardPodAffinitySymmetricWeight = 1%Z;
  labels_differ : NoDup [LabelKubernetesInstance; LabelKubernetesName; LabelKubernetesComponent];
  GetRoleName_law : ∀ i, GetRoleName i = RoleInfo.RoleName (RoleGroupInfo.RoleInfo i);
  GetClusterName_law : ∀ i, GetClusterName i =
    ClusterInfo.ClusterName (RoleInfo.ClusterInfo (RoleGroupInfo.RoleInfo i));
  GetGroupName_law : ∀ i, GetGroupName i = RoleGroupInfo.RoleGroupName i
}.

(** The full name of a role group, as its documentation gives it. *)
Class FullNameLaw : Prop := {
  GetFullName_law : ∀ i, GetFullName i =
    ClusterInfo.ClusterName (RoleInfo.ClusterInfo (RoleGroupInfo.RoleInfo i)) +:+ "-" +:+
      RoleInfo.RoleName (RoleGroupInfo.RoleInfo i) +:+ "-" +:+ RoleGroupInfo.RoleGroupName i
}.

(** The fields of an image made by [util.NewImage], next to [KubedoopVersion]. *)
Class ImageView := {
  image_ProductName : ImageRest → string;
  image_ProductVersion : ImageRest → string;
  image_Custom : ImageRest → string;
  image_Repo : ImageRest → string;
  image_PullPolicy : ImageRest → string
}.

(** [NewImage] keeps the versions and the name it is given, and the options that are
    set; it may have defaults for those left empty. *)
Class ImageLaws `{!ImageView} : Prop := {
  NewImage_view name kubedoop product (o : ImageOptions.t) :
    let i := NewImage name kubedoop product [λ _, o] in
    Image.KubedoopVersion i = kubedoop ∧
    image_ProductName (Image.rest i) = name ∧ image_ProductVersion (Image.rest i) = product ∧
    (ImageOptions.Custom o ≠ "" → image_Custom (Image.rest i) = ImageOptions.Custom o) ∧
    (ImageOptions.Repo o ≠ "" → image_Repo (Image.rest i) = ImageOptions.Repo o) ∧
    (ImageOptions.PullPolicy o ≠ "" → image_PullPolicy (Image.rest i) = ImageOptions.PullPolicy o)
}.

(** *** Builders *)
Class Builders := {
  (* builder.Container *)
  ContainerBuilder : Type;
  NewContainer : string → Image.t ImageRest → ContainerBuilder;
  SetCommand : ContainerBuilder → list string → ContainerBuilder;
  SetArgs : ContainerBuilder → list string → ContainerBuilder;
  AddVolumeMounts : ContainerBuilder → list VolumeMount.t → ContainerBuilder;
  AddEnvVars : ContainerBuilder → list EnvVar.t → ContainerBuilder;
  AddPorts : ContainerBuilder → list ContainerPort.t → ContainerBuilder;
  SetStartupProbe : ContainerBuilder → option Probe.t → ContainerBuilder;
  SetLivenessProbe : ContainerBuilder → option Probe.t → ContainerBuilder;
  SetReadinessProbe : ContainerBuilder → option Probe.t → ContainerBuilder;
  BuildContainer : ContainerBuilder → Container.t;
  (* builder.StatefulSet *)
  StatefulSetBase : Type;
  StatefulSetRest : Type;
  NewStatefulSetBase : Client.t CtrlClient → string → option Z → Image.t ImageRest →
    option OverridesSpec → option RoleGroupConfigSpec.t → list (Options.t → Options.t) →
    StatefulSetBase;
  AddContainers : StatefulSetBase → list Container.t → StatefulSetBase;
  AddContainer : StatefulSetBase → Container.t → StatefulSetBase;
  AddVolumes : StatefulSetBase → list (Volume.t Quantity) → StatefulSetBase;
  SetAffinity : StatefulSetBase → Affinity.t → StatefulSetBase;
  GetObject : M StatefulSetBase (StatefulSetObject.t Quantity StatefulSetRest);
  sts_GetImage : StatefulSetBase → Image.t ImageRest;
  sts_GetName : StatefulSetBase → string;
  sts_GetClient : StatefulSetBase → Client.t CtrlClient;
  (* builder.Vector *)
  VectorBuilder : Type;
  NewVector : string → string → Image.t ImageRest → VectorBuilder;
  VectorContainer : VectorBuilder → Container.t;
  VectorVolumes : VectorBuilder → list (Volume.t Quantity);
  VectorConfigFile : string;
  (* builder.ConfigMapBuilder *)
  ConfigMapBase : Type;
  ConfigMapObject : Type;
  NewConfigMapBase : Client.t CtrlClient → string → list (Options.t → Options.t) → ConfigMapBase;
  AddData : ConfigMapBase → gmap string string → ConfigMapBase;
  AddItem : ConfigMapBase → string → string → ConfigMapBase;
  BuildConfigMap : M ConfigMapBase ConfigMapObject;
  cm_Client : ConfigMapBase → Client.t CtrlClient;
  (* pkg/config/xml *)
  XMLConfiguration : Type;
  NewXMLConfiguration : XMLConfiguration;
  NewXMLConfigurationFromMap : gmap string string → XMLConfiguration;
  AddPropertyWithString : XMLConfiguration → string → string → string → XMLConfiguration;
  AddPropertiesWithMap : XMLConfiguration → gmap string string → XMLConfiguration;
  Marshal : XMLConfiguration → outcome string;
  (* pkg/productlogging *)
  LogGenerator : Type;
  LogType : Type;
  LogTypeLog4j : LogType;
  NewConfigGenerator : option LoggingConfigSpec → string → string → LogType →
    list (ConfigGeneratorOption.t → ConfigGeneratorOption.t) → outcome LogGenerator;
  Content : LogGenerator → outcome string;
  MakeVectorYaml : CtrlClient → string → string → string → string → string → outcome string
}.
End operator_go.

Section builder_laws.
Context `{!Platform, !Builders}.

(** What the setters and adders of [builder.Container] do to the container
    [Build] returns: each touches one field, [Set] replaces, [Add] appends. *)
Class ContainerLaws : Prop := {
  NewContainer_law n i : BuildContainer (NewContainer n i) =
    Container.mk n [] [] [] [] [] None None None;
  SetCommand_law b x : BuildContainer (SetCommand b x) =
    let c := BuildContainer b in
    Container.mk (Container.Name c) x (Container.Args c) (Container.Ports c) (Container.Env c)
      (Container.VolumeMounts c) (Container.LivenessProbe c) (Container.ReadinessProbe c)
      (Container.StartupProbe c);
  SetArgs_law b x : BuildContainer (SetArgs b x) =
    let c := BuildContainer b in
    Container.mk (Container.Name c) (Container.Command c) x (Container.Ports c) (Container.Env c)
      (Container.VolumeMounts c) (Container.LivenessProbe c) (Container.ReadinessProbe c)
      (Container.StartupProbe c);
  AddPorts_law b x : BuildContainer (AddPorts b x) =
    let c := BuildContainer b in
    Container.mk (Container.Name c) (Container.Command c) (Container.Args c)
      (Container.Ports c ++ x) (Container.Env c) (Container.VolumeMounts c)
      (Container.LivenessProbe c) (Container.ReadinessProbe c) (Container.StartupProbe c);
  AddEnvVars_law b x : BuildContainer (AddEnvVars b x) =
    let c := BuildContainer b in
    Container.mk (Container.Name c) (Container.Command c) (Container.Args c) (Container.Ports c)
      (Container.Env c ++ x) (Container.VolumeMounts c) (Container.LivenessProbe c)
      (Container.ReadinessProbe c) (Container.StartupProbe c);
  AddVolumeMounts_law b x : BuildContainer (AddVolumeMounts b x) =
    let c := BuildContainer b in
    Container.mk (Container.Name c) (Container.Command c) (Container.Args c) (Container.Ports c)
      (Container.Env c) (Container.VolumeMounts c ++ x) (Container.LivenessProbe c)
      (Container.ReadinessProbe c) (Container.StartupProbe c);
  SetLivenessProbe_law b x : BuildContainer (SetLivenessProbe b x) =
    let c := BuildContainer b in
    Container.mk (Container.Name c) (Container.Command c) (Container.Args c) (Container.Ports c)
      (Container.Env c) (Container.VolumeMounts c) x (Container.ReadinessProbe c)
      (Container.StartupProbe c);
  SetReadinessProbe_law b x : BuildContainer (SetReadinessProbe b x) =
    let c := BuildContainer b in
    Container.mk (Container.Name c) (Container.Command c) (Container.Args c) (Container.Ports c)
      (Container.Env c) (Container.VolumeMounts c) (Container.LivenessProbe c) x
      (Container.StartupProbe c);
  SetStartupProbe_law b x : BuildContainer (SetStartupProbe b x) =
    let c := BuildContainer b in
    Container.mk (Container.Name c) (Container.Command c) (Container.Args c) (Container.Ports c)
      (Container.Env c) (Container.VolumeMounts c) (Container.LivenessProbe c)
      (Container.ReadinessProbe c) x
}.

(** A view of the containers, volumes and affinity a [builder.StatefulSet]
    has collected, and of the overrides it was made with: adders append, and nothing
    else changes it. *)
Class StatefulSetView := {
  sts_Containers : StatefulSetBase → list Container.t;
  sts_Volumes : StatefulSetBase → list (Volume.t Quantity);
  sts_Affinity : StatefulSetBase → option Affinity.t;
  sts_Overrides : StatefulSetBase → option OverridesSpec
}.

Class StatefulSetLaws `{!StatefulSetView} : Prop := {
  NewStatefulSet_view c n r i o g os :
    let s := NewStatefulSetBase c n r i o g os in
    sts_Containers s = [] ∧ sts_Volumes s = [] ∧ sts_Affinity s = None ∧
    sts_GetImage s = i ∧ sts_GetName s = n ∧ sts_GetClient s = c ∧ sts_Overrides s = o;
  AddContainers_view s x : let s' := AddContainers s x in
    sts_Containers s' = sts_Containers s ++ x ∧ sts_Volumes s' = sts_Volumes s ∧
    sts_Affinity s' = sts_Affinity s ∧ sts_GetImage s' = sts_GetImage s ∧
    sts_GetName s' = sts_GetName s ∧ sts_GetClient s' = sts_GetClient s ∧
    sts_Overrides s' = sts_Overrides s;
  AddContainer_view s x : let s' := AddContainer s x in
    sts_Containers s' = sts_Containers s ++ [x] ∧ sts_Volumes s' = sts_Volumes s ∧
    sts_Affinity s' = sts_Affinity s ∧ sts_GetImage s' = sts_GetImage s ∧
    sts_GetName s' = sts_GetName s ∧ sts_GetClient s' = sts_GetClient s ∧
    sts_Overrides s' = sts_Overrides s;
  AddVolumes_view s x : let s' := AddVolumes s x in
    sts_Containers s' = sts_Containers s ∧ sts_Volumes s' = sts_Volumes s ++ x ∧
    sts_Affinity s' = sts_Affinity s ∧ sts_GetImage s' = sts_GetImage s ∧
    sts_GetName s' = sts_GetName s ∧ sts_GetClient s' = sts_GetClient s ∧
    sts_Overrides s' = sts_Overrides s;
  SetAffinity_view s x : let s' := SetAffinity s x in
    sts_Containers s' = sts_Containers s ∧ sts_Volumes s' = sts_Volumes s ∧
    sts_Affinity s' = Some x ∧ sts_GetImage s' = sts_GetImage s ∧
    sts_GetName s' = sts_GetName s ∧ sts_GetClient s' = sts_GetClient s ∧
    sts_Overrides s' = sts_Overrides s;
  GetObject_view s : sts_GetImage (fst (GetObject s)) = sts_GetImage s
}.

(** The object's pod is made of what was collected; overrides are applied to it
    afterwards, so without any it has exactly the containers and volumes collected. *)
Class PodTemplateLaws `{!StatefulSetView} : Prop := {
  GetObject_pod s s' obj :
    sts_Overrides s = None → GetObject s = (s', Ok obj) →
    StatefulSetObject.Containers obj = sts_Containers s ∧
    StatefulSetObject.Volumes obj = sts_Volumes s
}.

(** The name a [builder.ConfigMapBuilder] builds an object of, and the data it has
    collected. *)
Class ConfigMapView := {
  cm_Name : ConfigMapBase → string;
  cm_Data : ConfigMapBase → gmap string string
}.

Class ConfigMapLaws `{!ConfigMapView} : Prop := {
  NewConfigMap_view c n os :
    cm_Data (NewConfigMapBase c n os) = ∅ ∧ cm_Client (NewConfigMapBase c n os) = c ∧
    cm_Name (NewConfigMapBase c n os) = n;
  AddData_view s m :
    cm_Data (AddData s m) = m ∪ cm_Data s ∧ cm_Client (AddData s m) = cm_Client s ∧
    cm_Name (AddData s m) = cm_Name s;
  AddItem_view s k v :
    cm_Data (AddItem s k v) = <[k := v]> (cm_Data s) ∧
    cm_Client (AddItem s k v) = cm_Client s ∧ cm_Name (AddItem s k v) = cm_Name s
}.

(** The value a Hadoop-style configuration gives a property: a later property
    of the same name overrides an earlier one. *)
Class XMLView := { xml_Get : XMLConfiguration → string → option string }.

Class XMLLaws `{!XMLView} : Prop := {
  NewXML_view k : xml_Get NewXMLConfiguration k = None;
  FromMap_view m k : xml_Get (NewXMLConfigurationFromMap m) k = m !! k;
  AddProperty_view x n v d k :
    xml_Get (AddPropertyWithString x n v d) k = if decide (k = n) then Some v else xml_Get x k;
  AddProperties_view x m k :
    xml_Get (AddPropertiesWithMap x m) k =
      match m !! k with Some v => Some v | None => xml_Get x k end
}.
End builder_laws.

(** ** Reconcilers

    [World] is what lies outside the process: the API server's objects.
    [Result] is controller-runtime's [ctrl.Result]. *)
Class Reconcilers `{!Platform, !Builders} := {
  World : Type;
  Result : Type;
  ZeroResult : Result;
  IsZero : Result → bool;
  (* reconciler.GenericResourceReconciler.ResourceReconcile *)
  ResourceReconcile : Client.t CtrlClient → ConfigMapObject →
    World → World * (Result * option error)
}.

(** [reconciler.BaseRoleReconciler] and [reconciler.BaseCluster]: [S] is the type
    of the spec they point to, [R] that of the resources they hold. *)
Class Bases `{!Platform} := {
  RoleBase : Type → Type → Type;
  NewBaseRoleReconciler : ∀ {S R : Type},
    Client.t CtrlClient → bool → RoleInfo.t → option S → RoleBase S R;
  rb_Client : ∀ {S R : Type}, RoleBase S R → Client.t CtrlClient;
  rb_ClusterStopped : ∀ {S R : Type}, RoleBase S R → bool;
  rb_RoleInfo : ∀ {S R : Type}, RoleBase S R → RoleInfo.t;
  rb_Spec : ∀ {S R : Type}, RoleBase S R → option S;
  rb_GetClusterName : ∀ {S R : Type}, RoleBase S R → string;
  rb_AddResource : ∀ {S R : Type}, RoleBase S R → R → RoleBase S R;
  ClusterBase : Type → Type → Type;
  NewBaseCluster : ∀ {S R : Type},
    Client.t CtrlClient → ClusterInfo.t → option ClusterOperationSpec → option S → ClusterBase S R;
  cb_Client : ∀ {S R : Type}, ClusterBase S R → Client.t CtrlClient;
  cb_IsStopped : ∀ {S R : Type}, ClusterBase S R → bool;
  cb_ClusterInfo : ∀ {S R : Type}, ClusterBase S R → ClusterInfo.t;
  cb_Spec : ∀ {S R : Type}, ClusterBase S R → option S;
  cb_AddResource : ∀ {S R : Type}, ClusterBase S R → R → ClusterBase S R
}.

(** The resources added so far, in order; [AddResource] appends and changes nothing else. *)
Class BasesView `{!Platform, !Bases} := {
  rb_Resources : ∀ {S R : Type}, RoleBase S R → list R;
  cb_Resources : ∀ {S R : Type}, ClusterBase S R → list R
}.

Class BasesLaws `{!Platform, !Bases, !BasesView} : Prop := {
  NewBaseRole_view {S R : Type} c stopped info (spec : option S) :
    let b := NewBaseRoleReconciler (R := R) c stopped info spec in
    rb_Resources b = [] ∧ rb_Client b = c ∧ rb_ClusterStopped b = stopped ∧
    rb_RoleInfo b = info ∧ rb_Spec b = spec ∧
    rb_GetClusterName b = ClusterInfo.ClusterName (RoleInfo.ClusterInfo info);
  rb_AddResource_view {S R : Type} (b : RoleBase S R) r :
    let b' := rb_AddResource b r in
    rb_Resources b' = rb_Resources b ++ [r] ∧ rb_Client b' = rb_Client b ∧
    rb_ClusterStopped b' = rb_ClusterStopped b ∧ rb_RoleInfo b' = rb_RoleInfo b ∧
    rb_Spec b' = rb_Spec b ∧ rb_GetClusterName b' = rb_GetClusterName b;
  NewBaseCluster_view {S R : Type} c info op (spec : option S) :
    let b := NewBaseCluster (R := R) c info op spec in
    cb_Resources b = [] ∧ cb_Client b = c ∧ cb_ClusterInfo b = info ∧ cb_Spec b = spec;
  cb_AddResource_view {S R : Type} (b : ClusterBase S R) r :
    let b' := cb_AddResource b r in
    cb_Resources b' = cb_Resources b ++ [r] ∧ cb_Client b' = cb_Client b ∧
    cb_IsStopped b' = cb_IsStopped b ∧ cb_ClusterInfo b' = cb_ClusterInfo b ∧
    cb_Spec b' = cb_Spec b
}.
