(* ===== verification/Fakes.v ===== *)
(** * In-memory instances of the interfaces

    Concrete values for every operation the model takes from outside the
    repository, with proofs that they satisfy the laws.  They show that the
    laws can hold together, and the witnesses of the development compute with
    them. *)

From S2P Require Import Prelude K8s OperatorGo.

(** ** Platform *)
Definition fake_GetFullName (i : RoleGroupInfo.t) : string :=
  let r := RoleGroupInfo.RoleInfo i in
  ClusterInfo.ClusterName (RoleInfo.ClusterInfo r) +:+ "-" +:+ RoleInfo.RoleName r
    +:+ "-" +:+ RoleGroupInfo.RoleGroupName i.

Definition fake_GetLabels (i : RoleGroupInfo.t) : gmap string string :=
  {[ "app.kubernetes.io/component" := RoleInfo.RoleName (RoleGroupInfo.RoleInfo i) ]}.

#[export] Instance fake_platform : Platform := {
  ProtocolTCP := "TCP";
  ReadWriteOnce := "ReadWriteOnce";
  ResourceStorage := "storage";
  LabelHostname := "kubernetes.io/hostname";
  DefaultHardPodAffinitySymmetricWeight := 1;
  Quantity := string;
  MustParse := λ s, s;
  KubedoopRoot := "/kubedoop/";
  KubedoopConfigDir := "/kubedoop/config";
  KubedoopConfigDirMount := "/kubedoop/mount/config";
  LabelKubernetesInstance := "app.kubernetes.io/instance";
  LabelKubernetesName := "app.kubernetes.io/name";
  LabelKubernetesComponent := "app.kubernetes.io/component";
  ClusterInternal := "cluster-internal";
  IndentTab4Spaces := λ s, s;
  ImageRest := (string * string) * ImageOptions.t;
  NewImage := λ name kubedoop product opts,
    Image.mk kubedoop ((name, product), foldl (λ o f, f o) (ImageOptions.mk "" "" "") opts);
  LoggingConfigSpec := unit;
  RoleGroupConfigRest := unit;
  OverridesSpec := unit;
  RoleConfigSpec := unit;
  ClusterOperationSpec := unit;
  GetFullName := fake_GetFullName;
  GetClusterName := λ i, ClusterInfo.ClusterName (RoleInfo.ClusterInfo (RoleGroupInfo.RoleInfo i));
  GetRoleName := λ i, RoleInfo.RoleName (RoleGroupInfo.RoleInfo i);
  GetGroupName := RoleGroupInfo.RoleGroupName;
  GetLabels := fake_GetLabels;
  GetAnnotations := λ _, ∅;
  CtrlClient := (string → outcome ConfigMap.t) * (string → outcome AuthenticationClass.t);
  RuntimeScheme := list (string * string);
  GetOwnerNamespace := λ c, ObjectMeta.Namespace (Client.OwnerReference c);
  GetOwnerUID := λ c, ObjectMeta.UID (Client.OwnerReference c);
  GetConfigMap := λ c, fst (Client.Client c);
  GetAuthenticationClass := λ c, snd (Client.Client c)
}.

#[export] Instance fake_platform_laws : PlatformLaws.
Proof. split; try done. by apply (bool_decide_unpack _). Qed.

#[export] Instance fake_full_name_law : FullNameLaw.
Proof. by split. Qed.

#[export] Instance fake_image_view : ImageView := {
  image_ProductName := λ i, i.1.1;
  image_ProductVersion := λ i, i.1.2;
  image_Custom := λ i, ImageOptions.Custom i.2;
  image_Repo := λ i, ImageOptions.Repo i.2;
  image_PullPolicy := λ i, ImageOptions.PullPolicy i.2
}.

#[export] Instance fake_image_laws : ImageLaws.
Proof. by split. Qed.

(** Role group configuration overrides role configuration as a whole. *)
#[export] Instance fake_merge : Merge := {
  MergeObject := λ A role group, Ok (match group with Some _ => group | None => role end)
}.

#[export] Instance fake_merge_total : MergeTotal.
Proof. split. intros A role group. by eexists. Qed.

(** ** Builders: each records what it is given *)
Module FakeStatefulSet.
Record t := mk {
  Name : string;
  Client : Client.t CtrlClient;
  Image : Image.t ImageRest;
  Containers : list Container.t;
  Volumes : list (Volume.t Quantity);
  Affinity : option Affinity.t;
  Overrides : option OverridesSpec
}.
End FakeStatefulSet.
Module FS := FakeStatefulSet.

Module FakeConfigMap.
Record t := mk { Client : Client.t CtrlClient; Name : string; Data : gmap string string }.
End FakeConfigMap.
Module FC := FakeConfigMap.

Definition fake_marshal (x : gmap string string) : outcome string :=
  Ok (foldr (λ kv acc, kv.1 +:+ "=" +:+ kv.2 +:+ ";" +:+ acc) "" (map_to_list x)).

#[export] Instance fake_builders : Builders := {
  ContainerBuilder := Container.t;
  NewContainer := λ n _, Container.mk n [] [] [] [] [] None None None;
  SetCommand := λ c x, Container.mk (Container.Name c) x (Container.Args c) (Container.Ports c)
    (Container.Env c) (Container.VolumeMounts c) (Container.LivenessProbe c)
    (Container.ReadinessProbe c) (Container.StartupProbe c);
  SetArgs := λ c x, Container.mk (Container.Name c) (Container.Command c) x (Container.Ports c)
    (Container.Env c) (Container.VolumeMounts c) (Container.LivenessProbe c)
    (Container.ReadinessProbe c) (Container.StartupProbe c);
  AddVolumeMounts := λ c x, Container.mk (Container.Name c) (Container.Command c)
    (Container.Args c) (Container.Ports c) (Container.Env c) (Container.VolumeMounts c ++ x)
    (Container.LivenessProbe c) (Container.ReadinessProbe c) (Container.StartupProbe c);
  AddEnvVars := λ c x, Container.mk (Container.Name c) (Container.Command c) (Container.Args c)
    (Container.Ports c) (Container.Env c ++ x) (Container.VolumeMounts c)
    (Container.LivenessProbe c) (Container.ReadinessProbe c) (Container.StartupProbe c);
  AddPorts := λ c x, Container.mk (Container.Name c) (Container.Command c) (Container.Args c)
    (Container.Ports c ++ x) (Container.Env c) (Container.VolumeMounts c)
    (Container.LivenessProbe c) (Container.ReadinessProbe c) (Container.StartupProbe c);
  SetStartupProbe := λ c x, Container.mk (Container.Name c) (Container.Command c)
    (Container.Args c) (Container.Ports c) (Container.Env c) (Container.VolumeMounts c)
    (Container.LivenessProbe c) (Container.ReadinessProbe c) x;
  SetLivenessProbe := λ c x, Container.mk (Container.Name c) (Container.Command c)
    (Container.Args c) (Container.Ports c) (Container.Env c) (Container.VolumeMounts c)
    x (Container.ReadinessProbe c) (Container.StartupProbe c);
  SetReadinessProbe := λ c x, Container.mk (Container.Name c) (Container.Command c)
    (Container.Args c) (Container.Ports c) (Container.Env c) (Container.VolumeMounts c)
    (Container.LivenessProbe c) x (Container.StartupProbe c);
  BuildContainer := λ c, c;
  StatefulSetBase := FS.t;
  StatefulSetRest := string;
  NewStatefulSetBase := λ c n _ i o _ _, FS.mk n c i [] [] None o;
  AddContainers := λ s x, FS.mk (FS.Name s) (FS.Client s) (FS.Image s) (FS.Containers s ++ x)
    (FS.Volumes s) (FS.Affinity s) (FS.Overrides s);
  AddContainer := λ s x, FS.mk (FS.Name s) (FS.Client s) (FS.Image s) (FS.Containers s ++ [x])
    (FS.Volumes s) (FS.Affinity s) (FS.Overrides s);
  AddVolumes := λ s x, FS.mk (FS.Name s) (FS.Client s) (FS.Image s) (FS.Containers s)
    (FS.Volumes s ++ x) (FS.Affinity s) (FS.Overrides s);
  SetAffinity := λ s x, FS.mk (FS.Name s) (FS.Client s) (FS.Image s) (FS.Containers s)
    (FS.Volumes s) (Some x) (FS.Overrides s);
  GetObject := λ s, (s, Ok (StatefulSetObject.mk (FS.Containers s) (FS.Volumes s) (FS.Name s)));
  sts_GetImage := FS.Image;
  sts_GetName := FS.Name;
  sts_GetClient := FS.Client;
  VectorBuilder := string * string;
  NewVector := λ config log _, (config, log);
  VectorContainer := λ v, Container.mk "vector" [] [] [] []
    [VolumeMount.mk v.1 "/config"; VolumeMount.mk v.2 "/log"] None None None;
  VectorVolumes := λ v, [Volume.mk v.2 (VolumeSource.mk None None)];
  VectorConfigFile := "vector.yaml";
  ConfigMapBase := FC.t;
  ConfigMapObject := gmap string string;
  NewConfigMapBase := λ c n _, FC.mk c n ∅;
  AddData := λ s m, FC.mk (FC.Client s) (FC.Name s) (m ∪ FC.Data s);
  AddItem := λ s k v, FC.mk (FC.Client s) (FC.Name s) (<[k := v]> (FC.Data s));
  BuildConfigMap := λ s, (s, Ok (FC.Data s));
  cm_Client := FC.Client;
  XMLConfiguration := gmap string string;
  NewXMLConfiguration := ∅;
  NewXMLConfigurationFromMap := λ m, m;
  AddPropertyWithString := λ x n v _, <[n := v]> x;
  AddPropertiesWithMap := λ x m, m ∪ x;
  Marshal := fake_marshal;
  LogGenerator := string;
  LogType := unit;
  LogTypeLog4j := tt;
  NewConfigGenerator := λ _ role file _ _, Ok (role +:+ "/" +:+ file);
  Content := λ g, Ok g;
  MakeVectorYaml := λ _ ns cluster role group cm,
    Ok (ns +:+ cluster +:+ role +:+ group +:+ cm)
}.

#[export] Instance fake_container_laws : ContainerLaws.
Proof. by split. Qed.

#[export] Instance fake_statefulset_view : StatefulSetView := {
  sts_Containers := FS.Containers;
  sts_Volumes := FS.Volumes;
  sts_Affinity := FS.Affinity;
  sts_Overrides := FS.Overrides
}.

#[export] Instance fake_statefulset_laws : StatefulSetLaws.
Proof. by split. Qed.

(** The fake applies no overrides. *)
#[export] Instance fake_pod_template_laws : PodTemplateLaws.
Proof. split. intros s s' obj _. by intros [= _ <-]. Qed.

#[export] Instance fake_configmap_view : ConfigMapView := { cm_Name := FC.Name; cm_Data := FC.Data }.

#[export] Instance fake_configmap_laws : ConfigMapLaws.
Proof. by split. Qed.

#[export] Instance fake_xml_view : XMLView := { xml_Get := λ x k, x !! k }.

#[export] Instance fake_xml_laws : XMLLaws.
Proof.
  split; cbn.
  - intros k. apply lookup_empty.
  - done.
  - intros x n v d k. rewrite lookup_insert. by repeat case_decide.
  - intros x m k. rewrite lookup_union. by destruct (m !! k), (x !! k).
Qed.

(** ** A client over two tables *)
Definition no_such_object : error := ExtError "NotFound".

Definition fake_client (cms : gmap string ConfigMap.t)
  (classes : gmap string AuthenticationClass.t) : Client.t CtrlClient :=
  Client.mk
    ((λ n, match cms !! n with Some c => Ok c | None => Err no_such_object end),
     (λ n, match classes !! n with Some c => Ok c | None => Err no_such_object end))
    (ObjectMeta.mk "hbase" "default" "0f8ba74a-7fb1-4d0a-81a5-7259a56defda").

(** ** A world that lists the config maps applied to it *)
#[export] Instance fake_reconcilers : Reconcilers := {
  World := list (gmap string string);
  Result := nat;
  ZeroResult := 0;
  IsZero := λ n, bool_decide (n = 0);
  ResourceReconcile := λ _ o w, (w ++ [o], (0, None))
}.

(** ** Reconcilers that list their resources *)
Module FakeRole.
Record t {S R : Type} := mk {
  Client : Client.t CtrlClient;
  Stopped : bool;
  RoleInfo : RoleInfo.t;
  Spec : option S;
  Resources : list R
}.
Arguments t : clear implicits.
Arguments mk {_ _} _ _ _ _ _.
End FakeRole.
Module FR := FakeRole.

Module FakeCluster.
Record t {S R : Type} := mk {
  Client : Client.t CtrlClient;
  ClusterInfo : ClusterInfo.t;
  Spec : option S;
  Resources : list R
}.
Arguments t : clear implicits.
Arguments mk {_ _} _ _ _ _.
End FakeCluster.
Module FCl := FakeCluster.

#[export] Instance fake_bases : Bases := {
  RoleBase := FR.t;
  NewBaseRoleReconciler := λ S R c st i s, FR.mk c st i s [];
  rb_Client := λ S R, FR.Client;
  rb_ClusterStopped := λ S R, FR.Stopped;
  rb_RoleInfo := λ S R, FR.RoleInfo;
  rb_Spec := λ S R, FR.Spec;
  rb_GetClusterName := λ S R b, ClusterInfo.ClusterName (RoleInfo.ClusterInfo (FR.RoleInfo b));
  rb_AddResource := λ S R b r, FR.mk (FR.Client b) (FR.Stopped b) (FR.RoleInfo b) (FR.Spec b)
    (FR.Resources b ++ [r]);
  ClusterBase := FCl.t;
  NewBaseCluster := λ S R c i _ s, FCl.mk c i s [];
  cb_Client := λ S R, FCl.Client;
  cb_IsStopped := λ S R _, false;
  cb_ClusterInfo := λ S R, FCl.ClusterInfo;
  cb_Spec := λ S R, FCl.Spec;
  cb_AddResource := λ S R b r, FCl.mk (FCl.Client b) (FCl.ClusterInfo b) (FCl.Spec b)
    (FCl.Resources b ++ [r])
}.

#[export] Instance fake_bases_view : BasesView := {
  rb_Resources := λ S R, FR.Resources;
  cb_Resources := λ S R, FCl.Resources
}.

#[export] Instance fake_bases_laws : BasesLaws.
Proof. by split. Qed.
