(* ===== verification/Api.v ===== *)
(** * The API types of [api/v1alpha1]

    One module per Go struct.  [omitempty] pointers are options; a
    [map\[string\]T] that may be nil is an optional finite map. *)

From S2P Require Import Prelude K8s OperatorGo.

(** ** image_types.go *)
Definition DefaultRepository : string := "quay.io/zncdatadev".
Definition DefaultProductVersion : string := "2.6.1".
Definition DefaultProductName : string := "hbase".

Module ImageSpec.
Record t := mk {
  Custom : string;
  Repo : string;
  KubedoopVersion : string;
  ProductVersion : string;
  PullPolicy : string;
  PullSecretName : string
}.
End ImageSpec.

(** ** groupversion_info.go *)
Module GroupVersion.
Definition Group : string := "hbase.kubedoop.dev".
Definition Version : string := "v1alpha1".
End GroupVersion.

(** ** hbasecluster_types.go: the cluster configuration *)
Module OidcSpec.
Record t := mk { ClientCredentialsSecret : string; ExtraScopes : option (list string) }.
End OidcSpec.

Module AuthenticationSpec.
Record t := mk {
  AuthenticationClass : string;
  Oidc : option OidcSpec.t;
  KerberosSecretClass : string;
  TlsSecretClass : string
}.
End AuthenticationSpec.

Module ClusterConfigSpec.
Record t := mk {
  ZookeeperConfigMapName : string;
  HdfsConfigMapName : string;
  ListenerClass : string;
  Authentication : option AuthenticationSpec.t;
  VectorAggregatorConfigMapName : string
}.
End ClusterConfigSpec.

(** ** master_types.go, regionserver_types.go, restserver_types.go

    The embedded [*commonsv1alpha1.OverridesSpec] and
    [*commonsv1alpha1.RoleGroupConfigSpec] are fields named after their type. *)
Module MasterConfigSpec.
Record t `{!Platform} := mk { RoleGroupConfigSpec : option RoleGroupConfigSpec.t }.
Arguments mk {_} _.
End MasterConfigSpec.

Module MasterRoleGroupSpec.
Record t `{!Platform} := mk {
  Replicas : option Z;
  Config : option MasterConfigSpec.t;
  OverridesSpec : option OverridesSpec
}.
Arguments mk {_} _ _ _.
End MasterRoleGroupSpec.

Module MasterSpec.
Record t `{!Platform} := mk {
  Config : option MasterConfigSpec.t;
  RoleGroups : option (gmap string MasterRoleGroupSpec.t);
  RoleConfig : option RoleConfigSpec;
  OverridesSpec : option OverridesSpec
}.
Arguments mk {_} _ _ _ _.
End MasterSpec.

Module RegionConfigSpec.
Record t `{!Platform} := mk { RoleGroupConfigSpec : option RoleGroupConfigSpec.t }.
Arguments mk {_} _.
End RegionConfigSpec.

Module RegionServerRoleGroupSpec.
Record t `{!Platform} := mk {
  Replicas : option Z;
  Config : option RegionConfigSpec.t;
  OverridesSpec : option OverridesSpec
}.
Arguments mk {_} _ _ _.
End RegionServerRoleGroupSpec.

Module RegionServerSpec.
Record t `{!Platform} := mk {
  Config : option RegionConfigSpec.t;
  RoleGroups : option (gmap string RegionServerRoleGroupSpec.t);
  RoleConfig : option RoleConfigSpec;
  OverridesSpec : option OverridesSpec
}.
Arguments mk {_} _ _ _ _.
End RegionServerSpec.

Module RestServerConfigSpec.
Record t `{!Platform} := mk { RoleGroupConfigSpec : option RoleGroupConfigSpec.t }.
Arguments mk {_} _.
End RestServerConfigSpec.

Module RestServerRoleGroupSpec.
Record t `{!Platform} := mk {
  Replicas : option Z;
  Config : option RestServerConfigSpec.t;
  OverridesSpec : option OverridesSpec
}.
Arguments mk {_} _ _ _.
End RestServerRoleGroupSpec.

Module RestServerSpec.
Record t `{!Platform} := mk {
  Config : option RestServerConfigSpec.t;
  RoleGroups : option (gmap string RestServerRoleGroupSpec.t);
  RoleConfig : option RoleConfigSpec;
  OverridesSpec : option OverridesSpec
}.
Arguments mk {_} _ _ _ _.
End RestServerSpec.

(** ** hbasecluster_types.go: the cluster *)
Module HbaseClusterSpec.
Record t `{!Platform} := mk {
  Image : option ImageSpec.t;
  ClusterConfigSpec : option ClusterConfigSpec.t;
  ClusterOperationSpec : option ClusterOperationSpec;
  MasterSpec : option MasterSpec.t;
  RegionServerSpec : option RegionServerSpec.t;
  RestServerSpec : option RestServerSpec.t
}.
Arguments mk {_} _ _ _ _ _ _.
End HbaseClusterSpec.

(** Nothing in the repository reads or writes the conditions. *)
Module HbaseClusterStatus.
Record t := mk { Conditions : option (list Condition.t) }.
End HbaseClusterStatus.

Module HbaseCluster.
Record t `{!Platform} := mk {
  TypeMeta : GroupVersionKind.t;
  ObjectMeta : ObjectMeta.t;
  Spec : HbaseClusterSpec.t;
  Status : HbaseClusterStatus.t
}.
Arguments mk {_} _ _ _ _.
End HbaseCluster.

Module HbaseClusterList.
Record t `{!Platform} := mk {
  TypeMeta : GroupVersionKind.t;
  ListMeta : ListMeta.t;
  Items : option (list HbaseCluster.t)
}.
Arguments mk {_} _ _ _.
End HbaseClusterList.

(** ** Registration of the types: [SchemeBuilder] and [AddToScheme]

    The two empty objects [init] registers, and the operations of
    controller-runtime's [scheme.Builder]. *)
Inductive RuntimeObject := EmptyHbaseCluster | EmptyHbaseClusterList.

Class SchemePackage `{!Platform} := {
  Builder : Type;
  NewBuilder : string → string → Builder;
  Register_ : Builder → list RuntimeObject → Builder;
  Builder_AddToScheme : Builder → RuntimeScheme → RuntimeScheme * option error
}.

Definition SchemeBuilder `{!Platform, !SchemePackage} : Builder :=
  Register_ (NewBuilder GroupVersion.Group GroupVersion.Version)
    [EmptyHbaseCluster; EmptyHbaseClusterList].

Definition AddToScheme `{!Platform, !SchemePackage} : RuntimeScheme → RuntimeScheme * option error :=
  Builder_AddToScheme SchemeBuilder.

(** ** The admission methods are stubs *)
Definition unimplemented {A} : outcome A := Panic "unimplemented".
Definition ValidateCreate `{!Platform} (r : HbaseCluster.t) : outcome (list string) := unimplemented.
Definition ValidateDelete `{!Platform} (r : HbaseCluster.t) : outcome (list string) := unimplemented.
Definition ValidateUpdate `{!Platform} (r : HbaseCluster.t) : outcome (list string) := unimplemented.
Definition Default `{!Platform} (r : HbaseCluster.t) : outcome unit := unimplemented.
