(* ===== verification/ApiMemory.v ===== *)
(** * The API types in memory and their deep copies

    [api/v1alpha1] once more, as the structs lie in memory: a pointer, a slice or a
    map of a struct is the location of a cell.  The operations are
    [zz_generated.deepcopy.go]; what is proved relates them to the values of
    [Api].  The three roles have types of the same shape, so their functions are
    written once, over the role.  A pointer held in a struct points at a variable
    of its own, as those the API machinery decodes into do. *)

From S2P Require Import Prelude K8s OperatorGo Fakes Api Heap DeepCopy.
From Stdlib Require Import Eqdep_dec.

Inductive role_kind := Master | RegionServer | RestServer.

#[export] Instance role_kind_eq_dec : EqDecision role_kind.
Proof. solve_decision. Defined.

(** The types declared outside the repository, as they lie in memory, with their
    zero values, and the cells only those types use. *)
Class MemoryTypes `{!Platform} := {
  ObjectMeta_mem : Type;
  ListMeta_mem : Type;
  Condition_mem : Type;
  RoleGroupConfigSpec_mem : Type;
  OverridesSpec_mem : Type;
  RoleConfigSpec_mem : Type;
  foreign_cell : Type;
  zero_ObjectMeta : ObjectMeta_mem;
  zero_ListMeta : ListMeta_mem;
  zero_Condition : Condition_mem;
  zero_RoleGroupConfigSpec : RoleGroupConfigSpec_mem;
  zero_OverridesSpec : OverridesSpec_mem;
  zero_RoleConfigSpec : RoleConfigSpec_mem;
  zero_ClusterOperationSpec : ClusterOperationSpec
}.

(** ** The structs *)
Module Mem.

Module OidcSpec.
Record t := mk { ClientCredentialsSecret : string; ExtraScopes : option slice }.
End OidcSpec.

Module AuthenticationSpec.
Record t := mk {
  AuthenticationClass : string;
  Oidc : option loc;
  KerberosSecretClass : string;
  TlsSecretClass : string
}.
End AuthenticationSpec.

Module ClusterConfigSpec.
Record t := mk {
  ZookeeperConfigMapName : string;
  HdfsConfigMapName : string;
  ListenerClass : string;
  Authentication : option loc;
  VectorAggregatorConfigMapName : string
}.
End ClusterConfigSpec.

(** [MasterConfigSpec], [RegionConfigSpec], [RestServerConfigSpec] *)
Module ConfigSpec.
Record t (r : role_kind) := mk { RoleGroupConfigSpec : option loc }.
Arguments mk {_} _.
Arguments RoleGroupConfigSpec {_} _.
End ConfigSpec.

(** [MasterRoleGroupSpec], [RegionServerRoleGroupSpec], [RestServerRoleGroupSpec] *)
Module RoleGroupSpec.
Record t (r : role_kind) := mk {
  Replicas : option loc;
  Config : option loc;
  OverridesSpec : option loc
}.
Arguments mk {_} _ _ _.
Arguments Replicas {_} _.
Arguments Config {_} _.
Arguments OverridesSpec {_} _.
End RoleGroupSpec.

(** [MasterSpec], [RegionServerSpec], [RestServerSpec] *)
Module RoleSpec.
Record t (r : role_kind) := mk {
  Config : option loc;
  RoleGroups : option loc;
  RoleConfig : option loc;
  OverridesSpec : option loc
}.
Arguments mk {_} _ _ _ _.
Arguments Config {_} _.
Arguments RoleGroups {_} _.
Arguments RoleConfig {_} _.
Arguments OverridesSpec {_} _.
End RoleSpec.

Module HbaseClusterSpec.
Record t := mk {
  Image : option loc;
  ClusterConfigSpec : option loc;
  ClusterOperationSpec : option loc;
  MasterSpec : option loc;
  RegionServerSpec : option loc;
  RestServerSpec : option loc
}.
End HbaseClusterSpec.

Module HbaseClusterStatus.
Record t := mk { Conditions : option slice }.
End HbaseClusterStatus.

Module HbaseCluster.
Record t `{!Platform, !MemoryTypes} := mk {
  TypeMeta : GroupVersionKind.t;
  ObjectMeta : ObjectMeta_mem;
  Spec : HbaseClusterSpec.t;
  Status : HbaseClusterStatus.t
}.
Arguments mk {_ _} _ _ _ _.
End HbaseCluster.

Module HbaseClusterList.
Record t `{!Platform, !MemoryTypes} := mk {
  TypeMeta : GroupVersionKind.t;
  ListMeta : ListMeta_mem;
  Items : option slice
}.
Arguments mk {_ _} _ _ _.
End HbaseClusterList.
End Mem.

(** ** The fields that hold pointers, or structs that do *)
#[export] Hint Extern 0 (FieldLaws _) =>
  solve [split; [intros; reflexivity|intros []; reflexivity|intros; reflexivity]] : typeclass_instances.
#[export] Hint Extern 0 (Indep _ _) => solve [split; intros; reflexivity] : typeclass_instances.

Module Fields.
Import Mem.

Definition ExtraScopes : field OidcSpec.t (option slice) :=
  Field OidcSpec.ExtraScopes (λ p x, OidcSpec.mk (OidcSpec.ClientCredentialsSecret x) p).

Definition Oidc : field AuthenticationSpec.t (option loc) :=
  Field AuthenticationSpec.Oidc (λ p x,
    AuthenticationSpec.mk (AuthenticationSpec.AuthenticationClass x) p
      (AuthenticationSpec.KerberosSecretClass x) (AuthenticationSpec.TlsSecretClass x)).

Definition Authentication : field ClusterConfigSpec.t (option loc) :=
  Field ClusterConfigSpec.Authentication (λ p x,
    ClusterConfigSpec.mk (ClusterConfigSpec.ZookeeperConfigMapName x)
      (ClusterConfigSpec.HdfsConfigMapName x) (ClusterConfigSpec.ListenerClass x) p
      (ClusterConfigSpec.VectorAggregatorConfigMapName x)).

Definition RoleGroupConfigSpec {r} : field (ConfigSpec.t r) (option loc) :=
  Field ConfigSpec.RoleGroupConfigSpec (λ p x, ConfigSpec.mk p).

Definition group_Replicas {r} : field (RoleGroupSpec.t r) (option loc) :=
  Field RoleGroupSpec.Replicas (λ p x,
    RoleGroupSpec.mk p (RoleGroupSpec.Config x) (RoleGroupSpec.OverridesSpec x)).
Definition group_Config {r} : field (RoleGroupSpec.t r) (option loc) :=
  Field RoleGroupSpec.Config (λ p x,
    RoleGroupSpec.mk (RoleGroupSpec.Replicas x) p (RoleGroupSpec.OverridesSpec x)).
Definition group_OverridesSpec {r} : field (RoleGroupSpec.t r) (option loc) :=
  Field RoleGroupSpec.OverridesSpec (λ p x,
    RoleGroupSpec.mk (RoleGroupSpec.Replicas x) (RoleGroupSpec.Config x) p).

Definition spec_Config {r} : field (RoleSpec.t r) (option loc) :=
  Field RoleSpec.Config (λ p x,
    RoleSpec.mk p (RoleSpec.RoleGroups x) (RoleSpec.RoleConfig x) (RoleSpec.OverridesSpec x)).
Definition spec_RoleGroups {r} : field (RoleSpec.t r) (option loc) :=
  Field RoleSpec.RoleGroups (λ p x,
    RoleSpec.mk (RoleSpec.Config x) p (RoleSpec.RoleConfig x) (RoleSpec.OverridesSpec x)).
Definition spec_RoleConfig {r} : field (RoleSpec.t r) (option loc) :=
  Field RoleSpec.RoleConfig (λ p x,
    RoleSpec.mk (RoleSpec.Config x) (RoleSpec.RoleGroups x) p (RoleSpec.OverridesSpec x)).
Definition spec_OverridesSpec {r} : field (RoleSpec.t r) (option loc) :=
  Field RoleSpec.OverridesSpec (λ p x,
    RoleSpec.mk (RoleSpec.Config x) (RoleSpec.RoleGroups x) (RoleSpec.RoleConfig x) p).

Definition Image : field HbaseClusterSpec.t (option loc) :=
  Field HbaseClusterSpec.Image (λ p x, HbaseClusterSpec.mk p
    (HbaseClusterSpec.ClusterConfigSpec x) (HbaseClusterSpec.ClusterOperationSpec x)
    (HbaseClusterSpec.MasterSpec x) (HbaseClusterSpec.RegionServerSpec x)
    (HbaseClusterSpec.RestServerSpec x)).
Definition ClusterConfig : field HbaseClusterSpec.t (option loc) :=
  Field HbaseClusterSpec.ClusterConfigSpec (λ p x, HbaseClusterSpec.mk (HbaseClusterSpec.Image x)
    p (HbaseClusterSpec.ClusterOperationSpec x)
    (HbaseClusterSpec.MasterSpec x) (HbaseClusterSpec.RegionServerSpec x)
    (HbaseClusterSpec.RestServerSpec x)).
Definition ClusterOperation : field HbaseClusterSpec.t (option loc) :=
  Field HbaseClusterSpec.ClusterOperationSpec (λ p x, HbaseClusterSpec.mk
    (HbaseClusterSpec.Image x) (HbaseClusterSpec.ClusterConfigSpec x) p
    (HbaseClusterSpec.MasterSpec x) (HbaseClusterSpec.RegionServerSpec x)
    (HbaseClusterSpec.RestServerSpec x)).
Definition MasterSpec : field HbaseClusterSpec.t (option loc) :=
  Field HbaseClusterSpec.MasterSpec (λ p x, HbaseClusterSpec.mk
    (HbaseClusterSpec.Image x) (HbaseClusterSpec.ClusterConfigSpec x)
    (HbaseClusterSpec.ClusterOperationSpec x) p (HbaseClusterSpec.RegionServerSpec x)
    (HbaseClusterSpec.RestServerSpec x)).
Definition RegionServerSpec : field HbaseClusterSpec.t (option loc) :=
  Field HbaseClusterSpec.RegionServerSpec (λ p x, HbaseClusterSpec.mk
    (HbaseClusterSpec.Image x) (HbaseClusterSpec.ClusterConfigSpec x)
    (HbaseClusterSpec.ClusterOperationSpec x) (HbaseClusterSpec.MasterSpec x) p
    (HbaseClusterSpec.RestServerSpec x)).
Definition RestServerSpec : field HbaseClusterSpec.t (option loc) :=
  Field HbaseClusterSpec.RestServerSpec (λ p x, HbaseClusterSpec.mk
    (HbaseClusterSpec.Image x) (HbaseClusterSpec.ClusterConfigSpec x)
    (HbaseClusterSpec.ClusterOperationSpec x) (HbaseClusterSpec.MasterSpec x)
    (HbaseClusterSpec.RegionServerSpec x) p).

Definition Conditions : field HbaseClusterStatus.t (option slice) :=
  Field HbaseClusterStatus.Conditions (λ p x, HbaseClusterStatus.mk p).

Section fields.
Context `{!Platform, !MemoryTypes}.

Definition TypeMeta : field HbaseCluster.t GroupVersionKind.t :=
  Field HbaseCluster.TypeMeta (λ p x, HbaseCluster.mk p
    (HbaseCluster.ObjectMeta x) (HbaseCluster.Spec x) (HbaseCluster.Status x)).
Definition ObjectMeta : field HbaseCluster.t ObjectMeta_mem :=
  Field HbaseCluster.ObjectMeta (λ p x, HbaseCluster.mk (HbaseCluster.TypeMeta x) p
    (HbaseCluster.Spec x) (HbaseCluster.Status x)).
Definition Spec : field HbaseCluster.t HbaseClusterSpec.t :=
  Field HbaseCluster.Spec (λ p x, HbaseCluster.mk (HbaseCluster.TypeMeta x)
    (HbaseCluster.ObjectMeta x) p (HbaseCluster.Status x)).
Definition Status : field HbaseCluster.t HbaseClusterStatus.t :=
  Field HbaseCluster.Status (λ p x, HbaseCluster.mk (HbaseCluster.TypeMeta x)
    (HbaseCluster.ObjectMeta x) (HbaseCluster.Spec x) p).

Definition list_TypeMeta : field HbaseClusterList.t GroupVersionKind.t :=
  Field HbaseClusterList.TypeMeta (λ p x, HbaseClusterList.mk p
    (HbaseClusterList.ListMeta x) (HbaseClusterList.Items x)).
Definition ListMeta : field HbaseClusterList.t ListMeta_mem :=
  Field HbaseClusterList.ListMeta (λ p x, HbaseClusterList.mk (HbaseClusterList.TypeMeta x) p
    (HbaseClusterList.Items x)).
Definition Items : field HbaseClusterList.t (option slice) :=
  Field HbaseClusterList.Items (λ p x, HbaseClusterList.mk (HbaseClusterList.TypeMeta x)
    (HbaseClusterList.ListMeta x) p).
End fields.
End Fields.

(** ** Cells

    The types of the variables, backing arrays and maps there are. *)
Inductive ty :=
| TInt32 | TStrings | TImageSpec | TOidcSpec | TAuthenticationSpec | TClusterConfigSpec
| TClusterOperationSpec | TConfigSpec (r : role_kind) | TRoleGroupSpec (r : role_kind)
| TRoleGroups (r : role_kind) | TRoleSpec (r : role_kind) | TRoleGroupConfigSpec
| TOverridesSpec | TRoleConfigSpec | THbaseClusterSpec | TConditions | THbaseClusterStatus
| THbaseCluster | THbaseClusters | THbaseClusterList | TForeign.

#[export] Instance ty_eq_dec : EqDecision ty.
Proof. solve_decision. Defined.

Section cells.
Context `{!Platform, !MemoryTypes}.

Definition denote (t : ty) : Type :=
  match t with
  | TInt32 => Z
  | TStrings => list string
  | TImageSpec => ImageSpec.t
  | TOidcSpec => Mem.OidcSpec.t
  | TAuthenticationSpec => Mem.AuthenticationSpec.t
  | TClusterConfigSpec => Mem.ClusterConfigSpec.t
  | TClusterOperationSpec => ClusterOperationSpec
  | TConfigSpec r => Mem.ConfigSpec.t r
  | TRoleGroupSpec r => Mem.RoleGroupSpec.t r
  | TRoleGroups r => gmap string (Mem.RoleGroupSpec.t r)
  | TRoleSpec r => Mem.RoleSpec.t r
  | TRoleGroupConfigSpec => RoleGroupConfigSpec_mem
  | TOverridesSpec => OverridesSpec_mem
  | TRoleConfigSpec => RoleConfigSpec_mem
  | THbaseClusterSpec => Mem.HbaseClusterSpec.t
  | TConditions => list Condition_mem
  | THbaseClusterStatus => Mem.HbaseClusterStatus.t
  | THbaseCluster => Mem.HbaseCluster.t
  | THbaseClusters => list Mem.HbaseCluster.t
  | THbaseClusterList => Mem.HbaseClusterList.t
  | TForeign => foreign_cell
  end.

(** A cell holds a value of its type. *)
Definition cell : Type := {t : ty & denote t}.

Definition cell_prj (t : ty) (c : cell) : option (denote t) :=
  match decide (projT1 c = t) with
  | left e => Some (eq_rect (projT1 c) denote (projT2 c) t e)
  | right _ => None
  end.

Lemma cell_prj_inj t x : cell_prj t (existT t x) = Some x.
Proof.
  unfold cell_prj. cbn. destruct (decide (t = t)) as [e|]; [|done].
  by rewrite (UIP_dec ty_eq_dec e eq_refl).
Qed.

Lemma cell_inj_prj t c x : cell_prj t c = Some x → c = existT t x.
Proof.
  unfold cell_prj. destruct c as [t' y]. cbn. destruct (decide (t' = t)) as [<-|]; [|done].
  cbn. by intros [= ->].
Qed.

Definition stored_as (t : ty) : Stored cell (denote t) :=
  {| inj := λ x, existT t x; prj := cell_prj t; prj_inj := cell_prj_inj t;
     inj_prj := cell_inj_prj t |}.

#[export] Instance stored_int32 : Stored cell Z := stored_as TInt32.
#[export] Instance stored_strings : Stored cell (list string) := stored_as TStrings.
#[export] Instance stored_ImageSpec : Stored cell ImageSpec.t := stored_as TImageSpec.
#[export] Instance stored_OidcSpec : Stored cell Mem.OidcSpec.t := stored_as TOidcSpec.
#[export] Instance stored_AuthenticationSpec : Stored cell Mem.AuthenticationSpec.t :=
  stored_as TAuthenticationSpec.
#[export] Instance stored_ClusterConfigSpec : Stored cell Mem.ClusterConfigSpec.t :=
  stored_as TClusterConfigSpec.
#[export] Instance stored_ClusterOperationSpec : Stored cell ClusterOperationSpec :=
  stored_as TClusterOperationSpec.
#[export] Instance stored_ConfigSpec r : Stored cell (Mem.ConfigSpec.t r) :=
  stored_as (TConfigSpec r).
#[export] Instance stored_RoleGroupSpec r : Stored cell (Mem.RoleGroupSpec.t r) :=
  stored_as (TRoleGroupSpec r).
#[export] Instance stored_RoleGroups r : Stored cell (gmap string (Mem.RoleGroupSpec.t r)) :=
  stored_as (TRoleGroups r).
#[export] Instance stored_RoleSpec r : Stored cell (Mem.RoleSpec.t r) := stored_as (TRoleSpec r).
#[export] Instance stored_RoleGroupConfigSpec : Stored cell RoleGroupConfigSpec_mem :=
  stored_as TRoleGroupConfigSpec.
#[export] Instance stored_OverridesSpec : Stored cell OverridesSpec_mem :=
  stored_as TOverridesSpec.
#[export] Instance stored_RoleConfigSpec : Stored cell RoleConfigSpec_mem :=
  stored_as TRoleConfigSpec.
#[export] Instance stored_HbaseClusterSpec : Stored cell Mem.HbaseClusterSpec.t :=
  stored_as THbaseClusterSpec.
#[export] Instance stored_Conditions : Stored cell (list Condition_mem) := stored_as TConditions.
#[export] Instance stored_HbaseClusterStatus : Stored cell Mem.HbaseClusterStatus.t :=
  stored_as THbaseClusterStatus.
#[export] Instance stored_HbaseCluster : Stored cell Mem.HbaseCluster.t :=
  stored_as THbaseCluster.
#[export] Instance stored_HbaseClusters : Stored cell (list Mem.HbaseCluster.t) :=
  stored_as THbaseClusters.
#[export] Instance stored_HbaseClusterList : Stored cell Mem.HbaseClusterList.t :=
  stored_as THbaseClusterList.
#[export] Instance stored_foreign : Stored cell foreign_cell := stored_as TForeign.
End cells.

(** ** Zero values: what [new] and [make] put in a variable *)
Section zeros.
Context `{!Platform, !MemoryTypes}.

#[export] Instance zero_int32 : Zero Z := 0%Z.
#[export] Instance zero_string : Zero string := "".
#[export] Instance zero_ImageSpec : Zero ImageSpec.t := ImageSpec.mk "" "" "" "" "" "".
#[export] Instance zero_operation : Zero ClusterOperationSpec := zero_ClusterOperationSpec.
#[export] Instance zero_role_group_config : Zero RoleGroupConfigSpec_mem :=
  zero_RoleGroupConfigSpec.
#[export] Instance zero_overrides : Zero OverridesSpec_mem := zero_OverridesSpec.
#[export] Instance zero_role_config : Zero RoleConfigSpec_mem := zero_RoleConfigSpec.
#[export] Instance zero_condition : Zero Condition_mem := zero_Condition.
#[export] Instance zero_OidcSpec : Zero Mem.OidcSpec.t := Mem.OidcSpec.mk "" None.
#[export] Instance zero_AuthenticationSpec : Zero Mem.AuthenticationSpec.t :=
  Mem.AuthenticationSpec.mk "" None "" "".
#[export] Instance zero_ClusterConfigSpec : Zero Mem.ClusterConfigSpec.t :=
  Mem.ClusterConfigSpec.mk "" "" "" None "".
#[export] Instance zero_ConfigSpec r : Zero (Mem.ConfigSpec.t r) := Mem.ConfigSpec.mk None.
#[export] Instance zero_RoleGroupSpec r : Zero (Mem.RoleGroupSpec.t r) :=
  Mem.RoleGroupSpec.mk None None None.
#[export] Instance zero_RoleSpec r : Zero (Mem.RoleSpec.t r) :=
  Mem.RoleSpec.mk None None None None.
#[export] Instance zero_HbaseClusterSpec : Zero Mem.HbaseClusterSpec.t :=
  Mem.HbaseClusterSpec.mk None None None None None None.
#[export] Instance zero_HbaseClusterStatus : Zero Mem.HbaseClusterStatus.t :=
  Mem.HbaseClusterStatus.mk None.
#[export] Instance zero_HbaseCluster : Zero Mem.HbaseCluster.t :=
  Mem.HbaseCluster.mk (GroupVersionKind.mk "" "" "") zero_ObjectMeta zero zero.
#[export] Instance zero_HbaseClusterList : Zero Mem.HbaseClusterList.t :=
  Mem.HbaseClusterList.mk (GroupVersionKind.mk "" "" "") zero_ListMeta None.
End zeros.

(** The [DeepCopyInto] methods of the types declared outside the repository. *)
Class ForeignCopies `{!Platform, !MemoryTypes} := {
  ObjectMeta_DeepCopyInto : ptr cell ObjectMeta_mem → ptr cell ObjectMeta_mem → M (heap_of cell) unit;
  ListMeta_DeepCopyInto : ptr cell ListMeta_mem → ptr cell ListMeta_mem → M (heap_of cell) unit;
  Condition_DeepCopyInto : ptr cell Condition_mem → ptr cell Condition_mem → M (heap_of cell) unit;
  RoleGroupConfigSpec_DeepCopyInto :
    ptr cell RoleGroupConfigSpec_mem → ptr cell RoleGroupConfigSpec_mem → M (heap_of cell) unit;
  OverridesSpec_DeepCopyInto :
    ptr cell OverridesSpec_mem → ptr cell OverridesSpec_mem → M (heap_of cell) unit;
  RoleConfigSpec_DeepCopyInto :
    ptr cell RoleConfigSpec_mem → ptr cell RoleConfigSpec_mem → M (heap_of cell) unit
}.

(** ** zz_generated.deepcopy.go *)
Section generated.
Context `{!Platform, !MemoryTypes, !ForeignCopies, !MapRange}.
Local Abbreviation ptr := (ptr cell).
Local Abbreviation heap := (heap_of cell).
Local Abbreviation into T := (ptr T → ptr T → M heap unit).
Local Abbreviation copier T := (ptr T → M heap (option loc)).

Definition OidcSpec_DeepCopyInto (in_ out : ptr Mem.OidcSpec.t) : M heap unit :=
  do! assign in_ out;;
  copy_plain_slice string Fields.ExtraScopes in_ out.
Definition OidcSpec_DeepCopy (in_ : ptr Mem.OidcSpec.t) : M heap (option loc) :=
  deep_copy OidcSpec_DeepCopyInto in_.

Definition AuthenticationSpec_DeepCopyInto (in_ out : ptr Mem.AuthenticationSpec.t)
  : M heap unit :=
  do! assign in_ out;;
  copy_pointer Fields.Oidc OidcSpec_DeepCopyInto in_ out.
Definition AuthenticationSpec_DeepCopy (in_ : ptr Mem.AuthenticationSpec.t)
  : M heap (option loc) := deep_copy AuthenticationSpec_DeepCopyInto in_.

Definition ClusterConfigSpec_DeepCopyInto (in_ out : ptr Mem.ClusterConfigSpec.t)
  : M heap unit :=
  do! assign in_ out;;
  copy_pointer Fields.Authentication AuthenticationSpec_DeepCopyInto in_ out.
Definition ClusterConfigSpec_DeepCopy (in_ : ptr Mem.ClusterConfigSpec.t) : M heap (option loc) :=
  deep_copy ClusterConfigSpec_DeepCopyInto in_.

Definition ImageSpec_DeepCopyInto (in_ out : ptr ImageSpec.t) : M heap unit := assign in_ out.
Definition ImageSpec_DeepCopy (in_ : ptr ImageSpec.t) : M heap (option loc) :=
  deep_copy ImageSpec_DeepCopyInto in_.

(** The three roles *)
Definition ConfigSpec_DeepCopyInto {r} (in_ out : ptr (Mem.ConfigSpec.t r)) : M heap unit :=
  do! assign in_ out;;
  copy_pointer Fields.RoleGroupConfigSpec RoleGroupConfigSpec_DeepCopyInto in_ out.
Definition ConfigSpec_DeepCopy {r} (in_ : ptr (Mem.ConfigSpec.t r)) : M heap (option loc) :=
  deep_copy ConfigSpec_DeepCopyInto in_.

Definition RoleGroupSpec_DeepCopyInto {r} (in_ out : ptr (Mem.RoleGroupSpec.t r)) : M heap unit :=
  do! assign in_ out;;
  do! copy_pointer (T:=Z) Fields.group_Replicas assign in_ out;;
  do! copy_pointer (T:=Mem.ConfigSpec.t r) Fields.group_Config ConfigSpec_DeepCopyInto in_ out;;
  copy_pointer Fields.group_OverridesSpec OverridesSpec_DeepCopyInto in_ out.
Definition RoleGroupSpec_DeepCopy {r} (in_ : ptr (Mem.RoleGroupSpec.t r)) : M heap (option loc) :=
  deep_copy RoleGroupSpec_DeepCopyInto in_.

Definition RoleSpec_DeepCopyInto {r} (in_ out : ptr (Mem.RoleSpec.t r)) : M heap unit :=
  do! assign in_ out;;
  do! copy_pointer (T:=Mem.ConfigSpec.t r) Fields.spec_Config ConfigSpec_DeepCopyInto in_ out;;
  do! copy_map (T:=Mem.RoleGroupSpec.t r) Fields.spec_RoleGroups RoleGroupSpec_DeepCopyInto in_ out;;
  do! copy_pointer Fields.spec_RoleConfig RoleConfigSpec_DeepCopyInto in_ out;;
  copy_pointer Fields.spec_OverridesSpec OverridesSpec_DeepCopyInto in_ out.
Definition RoleSpec_DeepCopy {r} (in_ : ptr (Mem.RoleSpec.t r)) : M heap (option loc) :=
  deep_copy RoleSpec_DeepCopyInto in_.

(** The generated functions of each role. *)
Definition MasterConfigSpec_DeepCopyInto : into (Mem.ConfigSpec.t Master) := ConfigSpec_DeepCopyInto.
Definition MasterConfigSpec_DeepCopy : copier (Mem.ConfigSpec.t Master) := ConfigSpec_DeepCopy.
Definition MasterRoleGroupSpec_DeepCopyInto : into (Mem.RoleGroupSpec.t Master) :=
  RoleGroupSpec_DeepCopyInto.
Definition MasterRoleGroupSpec_DeepCopy : copier (Mem.RoleGroupSpec.t Master) :=
  RoleGroupSpec_DeepCopy.
Definition MasterSpec_DeepCopyInto : into (Mem.RoleSpec.t Master) := RoleSpec_DeepCopyInto.
Definition MasterSpec_DeepCopy : copier (Mem.RoleSpec.t Master) := RoleSpec_DeepCopy.
Definition RegionConfigSpec_DeepCopyInto : into (Mem.ConfigSpec.t RegionServer) :=
  ConfigSpec_DeepCopyInto.
Definition RegionConfigSpec_DeepCopy : copier (Mem.ConfigSpec.t RegionServer) := ConfigSpec_DeepCopy.
Definition RegionServerRoleGroupSpec_DeepCopyInto : into (Mem.RoleGroupSpec.t RegionServer) :=
  RoleGroupSpec_DeepCopyInto.
Definition RegionServerRoleGroupSpec_DeepCopy : copier (Mem.RoleGroupSpec.t RegionServer) :=
  RoleGroupSpec_DeepCopy.
Definition RegionServerSpec_DeepCopyInto : into (Mem.RoleSpec.t RegionServer) :=
  RoleSpec_DeepCopyInto.
Definition RegionServerSpec_DeepCopy : copier (Mem.RoleSpec.t RegionServer) := RoleSpec_DeepCopy.
Definition RestServerConfigSpec_DeepCopyInto : into (Mem.ConfigSpec.t RestServer) :=
  ConfigSpec_DeepCopyInto.
Definition RestServerConfigSpec_DeepCopy : copier (Mem.ConfigSpec.t RestServer) :=
  ConfigSpec_DeepCopy.
Definition RestServerRoleGroupSpec_DeepCopyInto : into (Mem.RoleGroupSpec.t RestServer) :=
  RoleGroupSpec_DeepCopyInto.
Definition RestServerRoleGroupSpec_DeepCopy : copier (Mem.RoleGroupSpec.t RestServer) :=
  RoleGroupSpec_DeepCopy.
Definition RestServerSpec_DeepCopyInto : into (Mem.RoleSpec.t RestServer) := RoleSpec_DeepCopyInto.
Definition RestServerSpec_DeepCopy : copier (Mem.RoleSpec.t RestServer) := RoleSpec_DeepCopy.

Definition HbaseClusterSpec_DeepCopyInto (in_ out : ptr Mem.HbaseClusterSpec.t) : M heap unit :=
  do! assign in_ out;;
  do! copy_pointer (T:=ImageSpec.t) Fields.Image assign in_ out;;
  do! copy_pointer Fields.ClusterConfig ClusterConfigSpec_DeepCopyInto in_ out;;
  do! copy_pointer (T:=ClusterOperationSpec) Fields.ClusterOperation assign in_ out;;
  do! copy_pointer Fields.MasterSpec MasterSpec_DeepCopyInto in_ out;;
  do! copy_pointer Fields.RegionServerSpec RegionServerSpec_DeepCopyInto in_ out;;
  copy_pointer Fields.RestServerSpec RestServerSpec_DeepCopyInto in_ out.
Definition HbaseClusterSpec_DeepCopy (in_ : ptr Mem.HbaseClusterSpec.t) : M heap (option loc) :=
  deep_copy HbaseClusterSpec_DeepCopyInto in_.

Definition HbaseClusterStatus_DeepCopyInto (in_ out : ptr Mem.HbaseClusterStatus.t)
  : M heap unit :=
  do! assign in_ out;;
  copy_slice Fields.Conditions Condition_DeepCopyInto in_ out.
Definition HbaseClusterStatus_DeepCopy (in_ : ptr Mem.HbaseClusterStatus.t)
  : M heap (option loc) := deep_copy HbaseClusterStatus_DeepCopyInto in_.

Definition HbaseCluster_DeepCopyInto (in_ out : ptr Mem.HbaseCluster.t) : M heap unit :=
  do! assign in_ out;;
  do! copy_inline Fields.TypeMeta assign in_ out;;
  do! copy_inline Fields.ObjectMeta ObjectMeta_DeepCopyInto in_ out;;
  do! copy_inline Fields.Spec HbaseClusterSpec_DeepCopyInto in_ out;;
  copy_inline Fields.Status HbaseClusterStatus_DeepCopyInto in_ out.
Definition HbaseCluster_DeepCopy (in_ : ptr Mem.HbaseCluster.t) : M heap (option loc) :=
  deep_copy HbaseCluster_DeepCopyInto in_.

Definition HbaseClusterList_DeepCopyInto (in_ out : ptr Mem.HbaseClusterList.t) : M heap unit :=
  do! assign in_ out;;
  do! copy_inline Fields.list_TypeMeta assign in_ out;;
  do! copy_inline Fields.ListMeta ListMeta_DeepCopyInto in_ out;;
  copy_slice Fields.Items HbaseCluster_DeepCopyInto in_ out.
Definition HbaseClusterList_DeepCopy (in_ : ptr Mem.HbaseClusterList.t) : M heap (option loc) :=
  deep_copy HbaseClusterList_DeepCopyInto in_.

(** [runtime.Object]: nil, or a pointer together with its type; the pointer itself
    may be nil. *)
Inductive object :=
| ClusterObject (p : option loc)
| ClusterListObject (p : option loc).

Definition HbaseCluster_DeepCopyObject (in_ : ptr Mem.HbaseCluster.t) : M heap (option object) :=
  do c <- HbaseCluster_DeepCopy in_;;
  match c with Some _ => mret (Some (ClusterObject c)) | None => mret None end.

Definition HbaseClusterList_DeepCopyObject (in_ : ptr Mem.HbaseClusterList.t)
  : M heap (option object) :=
  do c <- HbaseClusterList_DeepCopy in_;;
  match c with Some _ => mret (Some (ClusterListObject c)) | None => mret None end.
End generated.


(** ** What the structs stand for *)

(** The relation between a value of a type declared outside the repository and what
    it stands for; its [DeepCopyInto] copies deeply, as documented. *)
Class ForeignReps `{!Platform, !MemoryTypes} := {
  ObjectMeta_rep : rep cell ObjectMeta_mem ObjectMeta.t;
  ListMeta_rep : rep cell ListMeta_mem ListMeta.t;
  Condition_rep : rep cell Condition_mem Condition.t;
  RoleGroupConfigSpec_rep : rep cell RoleGroupConfigSpec_mem RoleGroupConfigSpec.t;
  OverridesSpec_rep : rep cell OverridesSpec_mem OverridesSpec;
  RoleConfigSpec_rep : rep cell RoleConfigSpec_mem RoleConfigSpec
}.

Class ForeignCopyLaws `{!Platform, !MemoryTypes, !ForeignCopies, !ForeignReps} : Prop := {
  ObjectMeta_copies : copies ObjectMeta_rep ObjectMeta_DeepCopyInto;
  ListMeta_copies : copies ListMeta_rep ListMeta_DeepCopyInto;
  Condition_copies : copies Condition_rep Condition_DeepCopyInto;
  RoleGroupConfigSpec_copies : copies RoleGroupConfigSpec_rep RoleGroupConfigSpec_DeepCopyInto;
  OverridesSpec_copies : copies OverridesSpec_rep OverridesSpec_DeepCopyInto;
  RoleConfigSpec_copies : copies RoleConfigSpec_rep RoleConfigSpec_DeepCopyInto
}.

(** The types of [Api] for each role, and their fields. *)
Section role_values.
Context `{!Platform}.

Definition ConfigV (r : role_kind) : Type :=
  match r with
  | Master => MasterConfigSpec.t
  | RegionServer => RegionConfigSpec.t
  | RestServer => RestServerConfigSpec.t
  end.
Definition config_view {r} : ConfigV r → option RoleGroupConfigSpec.t :=
  match r with
  | Master => MasterConfigSpec.RoleGroupConfigSpec
  | RegionServer => RegionConfigSpec.RoleGroupConfigSpec
  | RestServer => RestServerConfigSpec.RoleGroupConfigSpec
  end.

Definition RoleGroupV (r : role_kind) : Type :=
  match r with
  | Master => MasterRoleGroupSpec.t
  | RegionServer => RegionServerRoleGroupSpec.t
  | RestServer => RestServerRoleGroupSpec.t
  end.
Definition group_view {r} : RoleGroupV r → option Z * (option (ConfigV r) * option OverridesSpec) :=
  match r with
  | Master => λ v, (MasterRoleGroupSpec.Replicas v,
      (MasterRoleGroupSpec.Config v, MasterRoleGroupSpec.OverridesSpec v))
  | RegionServer => λ v, (RegionServerRoleGroupSpec.Replicas v,
      (RegionServerRoleGroupSpec.Config v, RegionServerRoleGroupSpec.OverridesSpec v))
  | RestServer => λ v, (RestServerRoleGroupSpec.Replicas v,
      (RestServerRoleGroupSpec.Config v, RestServerRoleGroupSpec.OverridesSpec v))
  end.

Definition RoleV (r : role_kind) : Type :=
  match r with
  | Master => MasterSpec.t
  | RegionServer => RegionServerSpec.t
  | RestServer => RestServerSpec.t
  end.
Definition role_view {r} : RoleV r → option (ConfigV r) * (option (gmap string (RoleGroupV r)) *
    (option RoleConfigSpec * option OverridesSpec)) :=
  match r with
  | Master => λ v, (MasterSpec.Config v, (MasterSpec.RoleGroups v,
      (MasterSpec.RoleConfig v, MasterSpec.OverridesSpec v)))
  | RegionServer => λ v, (RegionServerSpec.Config v, (RegionServerSpec.RoleGroups v,
      (RegionServerSpec.RoleConfig v, RegionServerSpec.OverridesSpec v)))
  | RestServer => λ v, (RestServerSpec.Config v, (RestServerSpec.RoleGroups v,
      (RestServerSpec.RoleConfig v, RestServerSpec.OverridesSpec v)))
  end.
End role_values.

Section reps.
Context `{!Platform, !MemoryTypes, !ForeignReps}.
Local Abbreviation rep := (rep cell).

(** A struct all of whose fields are pointers. *)
Definition all_pointers {S V} (x : S) (v : V) : Prop := True.

Definition OidcSpec_rep : rep Mem.OidcSpec.t OidcSpec.t :=
  struct Fields.ExtraScopes (slice_of (plain string)) OidcSpec.ExtraScopes (λ x v,
    Mem.OidcSpec.ClientCredentialsSecret x = OidcSpec.ClientCredentialsSecret v).

Definition AuthenticationSpec_rep : rep Mem.AuthenticationSpec.t AuthenticationSpec.t :=
  struct Fields.Oidc (pointer OidcSpec_rep) AuthenticationSpec.Oidc (λ x v,
    Mem.AuthenticationSpec.AuthenticationClass x = AuthenticationSpec.AuthenticationClass v ∧
    Mem.AuthenticationSpec.KerberosSecretClass x = AuthenticationSpec.KerberosSecretClass v ∧
    Mem.AuthenticationSpec.TlsSecretClass x = AuthenticationSpec.TlsSecretClass v).

Definition ClusterConfigSpec_rep : rep Mem.ClusterConfigSpec.t ClusterConfigSpec.t :=
  struct Fields.Authentication (pointer AuthenticationSpec_rep) ClusterConfigSpec.Authentication
    (λ x v,
    Mem.ClusterConfigSpec.ZookeeperConfigMapName x = ClusterConfigSpec.ZookeeperConfigMapName v ∧
    Mem.ClusterConfigSpec.HdfsConfigMapName x = ClusterConfigSpec.HdfsConfigMapName v ∧
    Mem.ClusterConfigSpec.ListenerClass x = ClusterConfigSpec.ListenerClass v ∧
    Mem.ClusterConfigSpec.VectorAggregatorConfigMapName x =
      ClusterConfigSpec.VectorAggregatorConfigMapName v).

Definition ConfigSpec_rep {r} : rep (Mem.ConfigSpec.t r) (ConfigV r) :=
  struct Fields.RoleGroupConfigSpec (pointer RoleGroupConfigSpec_rep) config_view all_pointers.

Definition RoleGroupSpec_rep {r} : rep (Mem.RoleGroupSpec.t r) (RoleGroupV r) :=
  struct (both Fields.group_Replicas (both Fields.group_Config Fields.group_OverridesSpec))
    (rep_pair (pointer (plain Z)) (rep_pair (pointer ConfigSpec_rep) (pointer OverridesSpec_rep)))
    group_view all_pointers.

Definition RoleSpec_rep {r} : rep (Mem.RoleSpec.t r) (RoleV r) :=
  struct (both Fields.spec_Config (both Fields.spec_RoleGroups
      (both Fields.spec_RoleConfig Fields.spec_OverridesSpec)))
    (rep_pair (pointer ConfigSpec_rep) (rep_pair (map_of RoleGroupSpec_rep)
      (rep_pair (pointer RoleConfigSpec_rep) (pointer OverridesSpec_rep))))
    role_view all_pointers.

Definition cluster_view (v : HbaseClusterSpec.t) :=
  (HbaseClusterSpec.Image v, (HbaseClusterSpec.ClusterConfigSpec v,
    (HbaseClusterSpec.ClusterOperationSpec v, (HbaseClusterSpec.MasterSpec v : option (RoleV Master),
      (HbaseClusterSpec.RegionServerSpec v : option (RoleV RegionServer),
        HbaseClusterSpec.RestServerSpec v : option (RoleV RestServer)))))).

Definition HbaseClusterSpec_rep : rep Mem.HbaseClusterSpec.t HbaseClusterSpec.t :=
  struct (both Fields.Image (both Fields.ClusterConfig (both Fields.ClusterOperation
      (both Fields.MasterSpec (both Fields.RegionServerSpec Fields.RestServerSpec)))))
    (rep_pair (pointer (plain ImageSpec.t)) (rep_pair (pointer ClusterConfigSpec_rep)
      (rep_pair (pointer (plain ClusterOperationSpec)) (rep_pair (pointer RoleSpec_rep)
        (rep_pair (pointer RoleSpec_rep) (pointer RoleSpec_rep))))))
    cluster_view all_pointers.

Definition HbaseClusterStatus_rep : rep Mem.HbaseClusterStatus.t HbaseClusterStatus.t :=
  struct Fields.Conditions (slice_of Condition_rep) HbaseClusterStatus.Conditions all_pointers.

Definition HbaseCluster_rep : rep Mem.HbaseCluster.t HbaseCluster.t :=
  struct (both Fields.TypeMeta (both Fields.ObjectMeta (both Fields.Spec Fields.Status)))
    (rep_pair (plain _) (rep_pair ObjectMeta_rep
      (rep_pair HbaseClusterSpec_rep HbaseClusterStatus_rep)))
    (λ v, (HbaseCluster.TypeMeta v, (HbaseCluster.ObjectMeta v, (HbaseCluster.Spec v,
      HbaseCluster.Status v)))) all_pointers.

Definition HbaseClusterList_rep : rep Mem.HbaseClusterList.t HbaseClusterList.t :=
  struct (both Fields.list_TypeMeta (both Fields.ListMeta Fields.Items))
    (rep_pair (plain _) (rep_pair ListMeta_rep (slice_of HbaseCluster_rep)))
    (λ v, (HbaseClusterList.TypeMeta v, (HbaseClusterList.ListMeta v, HbaseClusterList.Items v)))
    all_pointers.
End reps.

(** ** The generated functions copy deeply *)
Create HintDb copies discriminated.
#[export] Hint Constants Opaque : copies.
#[export] Hint Resolve copies_assign ObjectMeta_copies ListMeta_copies Condition_copies
  RoleGroupConfigSpec_copies OverridesSpec_copies RoleConfigSpec_copies : copies.

(** Take a generated function apart into its blocks, whose [DeepCopyInto] is known to
    copy. *)
Ltac solve_copies :=
  lazymatch goal with
  | |- FieldLaws _ => apply _
  | |- Indep _ _ => apply _
  | |- copies _ _ =>
      first [solve [typeclasses eauto with copies]
            |apply copies_struct; [apply _|intros p x v; exact id|solve_copies]]
  | |- copies_field (both _ _) _ _ => apply copies_both; solve_copies
  | |- copies_field _ (slice_of (plain _)) _ => apply copies_plain_slice; solve_copies
  | |- copies_field _ (slice_of _) _ => apply copies_slice; solve_copies
  | |- copies_field _ (map_of _) _ => apply copies_map; solve_copies
  | |- copies_field _ (pointer _) _ => apply copies_pointer; solve_copies
  | |- copies_field _ _ _ => apply copies_inline; solve_copies
  end.

Section copied.
Context `{!Platform, !MemoryTypes, !ForeignCopies, !ForeignReps, !ForeignCopyLaws, !MapRange}.

Lemma ImageSpec_copies : copies (plain ImageSpec.t) ImageSpec_DeepCopyInto.
Proof. apply copies_assign. Qed.
#[local] Hint Resolve ImageSpec_copies : copies.

Lemma OidcSpec_copies : copies OidcSpec_rep OidcSpec_DeepCopyInto.
Proof. solve_copies. Qed.
#[local] Hint Resolve OidcSpec_copies : copies.

Lemma AuthenticationSpec_copies : copies AuthenticationSpec_rep AuthenticationSpec_DeepCopyInto.
Proof. solve_copies. Qed.
#[local] Hint Resolve AuthenticationSpec_copies : copies.

Lemma ClusterConfigSpec_copies : copies ClusterConfigSpec_rep ClusterConfigSpec_DeepCopyInto.
Proof. solve_copies. Qed.
#[local] Hint Resolve ClusterConfigSpec_copies : copies.

Lemma ConfigSpec_copies r : copies (ConfigSpec_rep (r:=r)) ConfigSpec_DeepCopyInto.
Proof. solve_copies. Qed.
#[local] Hint Resolve ConfigSpec_copies : copies.

Lemma RoleGroupSpec_copies r : copies (RoleGroupSpec_rep (r:=r)) RoleGroupSpec_DeepCopyInto.
Proof. solve_copies. Qed.
#[local] Hint Resolve RoleGroupSpec_copies : copies.

Lemma RoleSpec_copies r : copies (RoleSpec_rep (r:=r)) RoleSpec_DeepCopyInto.
Proof. solve_copies. Qed.
#[local] Hint Resolve RoleSpec_copies : copies.

Lemma MasterSpec_copies : copies RoleSpec_rep MasterSpec_DeepCopyInto.
Proof. apply RoleSpec_copies. Qed.
#[local] Hint Resolve MasterSpec_copies : copies.

Lemma RegionServerSpec_copies : copies RoleSpec_rep RegionServerSpec_DeepCopyInto.
Proof. apply RoleSpec_copies. Qed.
#[local] Hint Resolve RegionServerSpec_copies : copies.

Lemma RestServerSpec_copies : copies RoleSpec_rep RestServerSpec_DeepCopyInto.
Proof. apply RoleSpec_copies. Qed.
#[local] Hint Resolve RestServerSpec_copies : copies.

Lemma HbaseClusterSpec_copies : copies HbaseClusterSpec_rep HbaseClusterSpec_DeepCopyInto.
Proof. solve_copies. Qed.
#[local] Hint Resolve HbaseClusterSpec_copies : copies.

Lemma HbaseClusterStatus_copies : copies HbaseClusterStatus_rep HbaseClusterStatus_DeepCopyInto.
Proof. solve_copies. Qed.
#[local] Hint Resolve HbaseClusterStatus_copies : copies.

Lemma HbaseCluster_copies : copies HbaseCluster_rep HbaseCluster_DeepCopyInto.
Proof. solve_copies. Qed.
#[local] Hint Resolve HbaseCluster_copies : copies.

Lemma HbaseClusterList_copies : copies HbaseClusterList_rep HbaseClusterList_DeepCopyInto.
Proof. solve_copies. Qed.
#[local] Hint Resolve HbaseClusterList_copies : copies.
End copied.

(** ** Typing

    A value of a type declared outside the repository is well typed when it stands
    for something. *)
Section typing.
Context `{!Platform, !MemoryTypes, !ForeignReps}.
Local Abbreviation shape := (shape cell).

Definition foreign_typed {T V} (R : rep cell T V) : shape T := λ h x, ∃ v, R h x v (dom h).
Definition plain_typed {T} : shape T := λ _ _, True.

Definition OidcSpec_typed : shape Mem.OidcSpec.t := λ h x,
  slice_typed (T:=string) plain_typed h (Mem.OidcSpec.ExtraScopes x).
Definition AuthenticationSpec_typed : shape Mem.AuthenticationSpec.t := λ h x,
  pointer_typed OidcSpec_typed h (Mem.AuthenticationSpec.Oidc x).
Definition ClusterConfigSpec_typed : shape Mem.ClusterConfigSpec.t := λ h x,
  pointer_typed AuthenticationSpec_typed h (Mem.ClusterConfigSpec.Authentication x).
Definition ConfigSpec_typed {r} : shape (Mem.ConfigSpec.t r) := λ h x,
  pointer_typed (foreign_typed RoleGroupConfigSpec_rep) h (Mem.ConfigSpec.RoleGroupConfigSpec x).
Definition RoleGroupSpec_typed {r} : shape (Mem.RoleGroupSpec.t r) := λ h x,
  pointer_typed (T:=Z) plain_typed h (Mem.RoleGroupSpec.Replicas x) ∧
  pointer_typed (T:=Mem.ConfigSpec.t r) ConfigSpec_typed h (Mem.RoleGroupSpec.Config x) ∧
  pointer_typed (foreign_typed OverridesSpec_rep) h (Mem.RoleGroupSpec.OverridesSpec x).
Definition RoleSpec_typed {r} : shape (Mem.RoleSpec.t r) := λ h x,
  pointer_typed (T:=Mem.ConfigSpec.t r) ConfigSpec_typed h (Mem.RoleSpec.Config x) ∧
  map_typed (T:=Mem.RoleGroupSpec.t r) RoleGroupSpec_typed h (Mem.RoleSpec.RoleGroups x) ∧
  pointer_typed (foreign_typed RoleConfigSpec_rep) h (Mem.RoleSpec.RoleConfig x) ∧
  pointer_typed (foreign_typed OverridesSpec_rep) h (Mem.RoleSpec.OverridesSpec x).
Definition HbaseClusterSpec_typed : shape Mem.HbaseClusterSpec.t := λ h x,
  pointer_typed (T:=ImageSpec.t) plain_typed h (Mem.HbaseClusterSpec.Image x) ∧
  pointer_typed ClusterConfigSpec_typed h (Mem.HbaseClusterSpec.ClusterConfigSpec x) ∧
  pointer_typed (T:=ClusterOperationSpec) plain_typed h (Mem.HbaseClusterSpec.ClusterOperationSpec x) ∧
  pointer_typed (T:=Mem.RoleSpec.t Master) RoleSpec_typed h (Mem.HbaseClusterSpec.MasterSpec x) ∧
  pointer_typed (T:=Mem.RoleSpec.t RegionServer) RoleSpec_typed h
    (Mem.HbaseClusterSpec.RegionServerSpec x) ∧
  pointer_typed (T:=Mem.RoleSpec.t RestServer) RoleSpec_typed h
    (Mem.HbaseClusterSpec.RestServerSpec x).
Definition HbaseClusterStatus_typed : shape Mem.HbaseClusterStatus.t := λ h x,
  slice_typed (foreign_typed Condition_rep) h (Mem.HbaseClusterStatus.Conditions x).
Definition HbaseCluster_typed : shape Mem.HbaseCluster.t := λ h x,
  foreign_typed ObjectMeta_rep h (Mem.HbaseCluster.ObjectMeta x) ∧
  HbaseClusterSpec_typed h (Mem.HbaseCluster.Spec x) ∧
  HbaseClusterStatus_typed h (Mem.HbaseCluster.Status x).
Definition HbaseClusterList_typed : shape Mem.HbaseClusterList.t := λ h x,
  foreign_typed ListMeta_rep h (Mem.HbaseClusterList.ListMeta x) ∧
  slice_typed HbaseCluster_typed h (Mem.HbaseClusterList.Items x).

Lemma stands_foreign {T V} (R : rep cell T V) : stands (foreign_typed R) R.
Proof. done. Qed.

Lemma OidcSpec_stands : stands OidcSpec_typed OidcSpec_rep.
Proof.
  refine (stands_struct Fields.ExtraScopes _ _ _ _ (stands_slice _ _ stands_plain) _).
  intros x w. by exists (OidcSpec.mk (Mem.OidcSpec.ClientCredentialsSecret x) w).
Qed.

Lemma AuthenticationSpec_stands : stands AuthenticationSpec_typed AuthenticationSpec_rep.
Proof.
  refine (stands_struct Fields.Oidc _ _ _ _ (stands_pointer _ _ OidcSpec_stands) _).
  intros x w. by exists (AuthenticationSpec.mk (Mem.AuthenticationSpec.AuthenticationClass x) w
    (Mem.AuthenticationSpec.KerberosSecretClass x) (Mem.AuthenticationSpec.TlsSecretClass x)).
Qed.

Lemma ClusterConfigSpec_stands : stands ClusterConfigSpec_typed ClusterConfigSpec_rep.
Proof.
  refine (stands_struct Fields.Authentication _ _ _ _ (stands_pointer _ _ AuthenticationSpec_stands) _).
  intros x w. by exists (ClusterConfigSpec.mk (Mem.ClusterConfigSpec.ZookeeperConfigMapName x)
    (Mem.ClusterConfigSpec.HdfsConfigMapName x) (Mem.ClusterConfigSpec.ListenerClass x) w
    (Mem.ClusterConfigSpec.VectorAggregatorConfigMapName x)).
Qed.

Lemma ConfigSpec_stands r : stands (ConfigSpec_typed (r:=r)) ConfigSpec_rep.
Proof.
  refine (stands_struct Fields.RoleGroupConfigSpec _ _ _ _ (stands_pointer _ _ (stands_foreign _)) _). intros x w.
  destruct r; [by exists (MasterConfigSpec.mk w)|by exists (RegionConfigSpec.mk w)|
    by exists (RestServerConfigSpec.mk w)].
Qed.

Lemma RoleGroupSpec_stands r : stands (RoleGroupSpec_typed (r:=r)) RoleGroupSpec_rep.
Proof.
  refine (stands_struct (both Fields.group_Replicas (both Fields.group_Config Fields.group_OverridesSpec)) _ _ _ _ (stands_pair _ _ _ _ (stands_pointer _ _ stands_plain)
    (stands_pair _ _ _ _ (stands_pointer _ _ (ConfigSpec_stands r))
      (stands_pointer _ _ (stands_foreign _)))) _).
  intros x (n & c & o). destruct r; [by exists (MasterRoleGroupSpec.mk n c o)|
    by exists (RegionServerRoleGroupSpec.mk n c o)|by exists (RestServerRoleGroupSpec.mk n c o)].
Qed.

Lemma RoleSpec_stands r : stands (RoleSpec_typed (r:=r)) RoleSpec_rep.
Proof.
  refine (stands_struct (both Fields.spec_Config (both Fields.spec_RoleGroups
    (both Fields.spec_RoleConfig Fields.spec_OverridesSpec))) _ _ _ _ (stands_pair _ _ _ _ (stands_pointer _ _ (ConfigSpec_stands r))
    (stands_pair _ _ _ _ (stands_map _ _ (RoleGroupSpec_stands r))
      (stands_pair _ _ _ _ (stands_pointer _ _ (stands_foreign _))
        (stands_pointer _ _ (stands_foreign _))))) _).
  intros x (c & g & rc & o). destruct r; [by exists (MasterSpec.mk c g rc o)|
    by exists (RegionServerSpec.mk c g rc o)|by exists (RestServerSpec.mk c g rc o)].
Qed.

Lemma HbaseClusterSpec_stands : stands HbaseClusterSpec_typed HbaseClusterSpec_rep.
Proof.
  refine (stands_struct (both Fields.Image (both Fields.ClusterConfig (both Fields.ClusterOperation
    (both Fields.MasterSpec (both Fields.RegionServerSpec Fields.RestServerSpec))))) _ _ _ _ (stands_pair _ _ _ _ (stands_pointer _ _ stands_plain)
    (stands_pair _ _ _ _ (stands_pointer _ _ ClusterConfigSpec_stands)
      (stands_pair _ _ _ _ (stands_pointer _ _ stands_plain)
        (stands_pair _ _ _ _ (stands_pointer _ _ (RoleSpec_stands _))
          (stands_pair _ _ _ _ (stands_pointer _ _ (RoleSpec_stands _))
            (stands_pointer _ _ (RoleSpec_stands _))))))) _).
  intros x (i & c & o & m & rs & re). by exists (HbaseClusterSpec.mk i c o m rs re).
Qed.

Lemma HbaseClusterStatus_stands : stands HbaseClusterStatus_typed HbaseClusterStatus_rep.
Proof.
  refine (stands_struct Fields.Conditions _ _ _ _ (stands_slice _ _ (stands_foreign _)) _).
  intros x w. by exists (HbaseClusterStatus.mk w).
Qed.

Lemma HbaseCluster_stands : stands HbaseCluster_typed HbaseCluster_rep.
Proof.
  intros h x. etrans; [|refine (stands_struct (both Fields.TypeMeta (both Fields.ObjectMeta (both Fields.Spec Fields.Status))) _ _ _ _ (stands_pair _ _ _ _ stands_plain
    (stands_pair _ _ _ _ (stands_foreign _)
      (stands_pair _ _ _ _ HbaseClusterSpec_stands HbaseClusterStatus_stands))) _ h x)].
  - cbn. split; [by intros (? & ? & ?)|by intros (_ & ? & ? & ?)].
  - intros y (t & m & s & st). by exists (HbaseCluster.mk t m s st).
Qed.

Lemma HbaseClusterList_stands : stands HbaseClusterList_typed HbaseClusterList_rep.
Proof.
  intros h x. etrans; [|refine (stands_struct (both Fields.list_TypeMeta (both Fields.ListMeta Fields.Items)) _ _ _ _ (stands_pair _ _ _ _ stands_plain
    (stands_pair _ _ _ _ (stands_foreign _) (stands_slice _ _ HbaseCluster_stands))) _ h x)].
  - cbn. split; [by intros (? & ?)|by intros (_ & ? & ?)].
  - intros y (t & m & i). by exists (HbaseClusterList.mk t m i).
Qed.
End typing.

(** ** Properties *)
Section properties.
Context `{!Platform, !MemoryTypes, !ForeignCopies, !ForeignReps, !ForeignCopyLaws, !MapRange}.

(** C10: [HbaseCluster.DeepCopyObject] copies deeply.  Given the address of any
    cluster that stands for [v], it returns an object that is a pointer to a new
    cluster, which stands for [v] through new variables only, and every
    variable there was before is as it was.  This holds for every order in which
    [range] visits the role groups, and however the original shares variables. *)
Theorem HbaseCluster_DeepCopyObject_spec h r x v :
  reads h r x → HbaseCluster_rep h x v (dom h) →
  ∃ h' l x', HbaseCluster_DeepCopyObject (Some r) h = (h', Ok (Some (ClusterObject (Some l)))) ∧
    (l ∉ dom h) ∧ h ⊆ h' ∧ reads h' (whole l) x' ∧ HbaseCluster_rep h' x' v (dom h' ∖ dom h).
Proof.
  intros Hr Hv. destruct (deep_copy_spec HbaseCluster_rep HbaseCluster_DeepCopyInto h r x v)
    as (h' & l & x' & Hrun & Hcopy); [apply HbaseCluster_copies|done..|].
  exists h', l, x'. split; [|done]. unfold HbaseCluster_DeepCopyObject.
  by erewrite M_bind_run; [|exact Hrun].
Qed.

(** C11: a copy is independent of its original.  After [HbaseCluster.DeepCopy], whatever
    is later done to variables that existed before, the copy stands for the same
    cluster; and whatever is done to the copy's variables, the original does. *)
Theorem HbaseCluster_DeepCopy_isolated h r x v h' l k :
  reads h r x → HbaseCluster_rep h x v (dom h) →
  HbaseCluster_DeepCopy (Some r) h = (h', Ok (Some l)) →
  (mutated (dom h) h' k →
     ∃ y, reads k (whole l) y ∧ HbaseCluster_rep k y v (dom h' ∖ dom h)) ∧
  (mutated (dom h' ∖ dom h) h' k → reads k r x ∧ HbaseCluster_rep k x v (dom h)).
Proof. apply deep_copy_isolated, HbaseCluster_copies. Qed.

(** C12: [HbaseClusterList.DeepCopyObject] copies the list and each cluster in it deeply,
    in their order. *)
Theorem HbaseClusterList_DeepCopyObject_spec h r x v :
  reads h r x → HbaseClusterList_rep h x v (dom h) →
  ∃ h' l x', HbaseClusterList_DeepCopyObject (Some r) h =
      (h', Ok (Some (ClusterListObject (Some l)))) ∧
    (l ∉ dom h) ∧ h ⊆ h' ∧ reads h' (whole l) x' ∧
    HbaseClusterList_rep h' x' v (dom h' ∖ dom h).
Proof.
  intros Hr Hv. destruct (deep_copy_spec HbaseClusterList_rep HbaseClusterList_DeepCopyInto h r x v)
    as (h' & l & x' & Hrun & Hcopy); [apply HbaseClusterList_copies|done..|].
  exists h', l, x'. split; [|done]. unfold HbaseClusterList_DeepCopyObject.
  by erewrite M_bind_run; [|exact Hrun].
Qed.

(** C13: type safety of the deep copies.  Where every pointer of a list of clusters is nil or
    points to a variable of its type, and every slice lies within its array,
    [DeepCopy] does not panic, the copy is typed in the same way, and so is
    the original still. *)
Theorem HbaseClusterList_DeepCopy_typed h r x :
  reads h r x → HbaseClusterList_typed h x →
  ∃ h' l x', HbaseClusterList_DeepCopy (Some r) h = (h', Ok (Some l)) ∧ h ⊆ h' ∧
    reads h' (whole l) x' ∧ HbaseClusterList_typed h' x' ∧ HbaseClusterList_typed h' x.
Proof.
  apply (deep_copy_typed _ HbaseClusterList_rep);
    [apply HbaseClusterList_stands|apply HbaseClusterList_copies].
Qed.

(** Nil receivers.  The copy of a nil pointer is nil, as an object it is the nil
    interface and not an interface holding a nil pointer, and [DeepCopyInto] of a
    nil pointer panics, as its comment warns; no variable changes. *)
Theorem nil_receivers h (out : ptr cell Mem.HbaseCluster.t) :
  HbaseCluster_DeepCopy None h = (h, Ok None) ∧
  HbaseCluster_DeepCopyObject None h = (h, Ok None) ∧
  HbaseClusterList_DeepCopyObject None h = (h, Ok None) ∧
  HbaseCluster_DeepCopyInto None out h = (h, Panic nil_deref).
Proof. done. Qed.

(** [DeepCopyInto] must be given two variables.  Called with the same variable as
    receiver and argument, [OidcSpec.DeepCopyInto] succeeds and keeps the name of
    the secret and the number of scopes, but every scope becomes empty: the new
    array is assigned before the old one is read. *)
Theorem OidcSpec_DeepCopyInto_in_place h r x v A :
  reads h r x → OidcSpec_rep h x v A →
  ∃ h' x', OidcSpec_DeepCopyInto (Some r) (Some r) h = (h', Ok tt) ∧ reads h' r x' ∧
    OidcSpec_rep h' x' (OidcSpec.mk (OidcSpec.ClientCredentialsSecret v)
      ((λ scopes, replicate (length scopes) "") <$> OidcSpec.ExtraScopes v)) (dom h').
Proof.
  intros Hr [Hsecret Hv].
  destruct (store_advances h r x x Hr) as (h1 & Hst & Hadv & _).
  assert (reads h1 r x) as Hr1 by (by eapply advances_reads).
  unfold OidcSpec_DeepCopyInto, assign, copy_plain_slice.
  erewrite M_bind_run; [|erewrite M_bind_run; [exact Hst|by apply load_reads]].
  erewrite M_bind_run; [|by apply load_field].
  destruct v as [secret scopes], x as [secret' s]. cbn in Hsecret, Hv |- *. subst secret'.
  destruct s as [s|], scopes as [scopes|]; try done; [|by exists h1, (Mem.OidcSpec.mk secret None)].
  destruct Hv as (a & _ & _ & Hlen & _).
  destruct (make_slice_grows (T:=string) h1 (length scopes)) as (k & h2 & Hmake & Hk & Hsub & _ & Hk2).
  set (made := Some (Slice k 0 (length scopes))) in *.
  destruct (store_field_grows Fields.ExtraScopes h1 h2 r _ made Hr1 Hsub)
    as (h3 & Hst3 & _ & Hr3 & _ & Hrest).
  pose proof (reads_loc _ _ _ Hr1) as Hloc.
  assert (reads h3 (whole (T := list string) k) (replicate (length scopes) "")) as Hk3.
  { apply reads_whole, Hrest; [congruence|done]. }
  destruct (store_advances h3 _ _ (replicate (length scopes) "") Hk3) as (h4 & Hst4 & Hadv4 & _).
  exists h4, (Mem.OidcSpec.mk secret made). split; [|split].
  - erewrite M_bind_run; [|by apply load_field]. cbn [slice_len fget Fields.ExtraScopes
      Mem.OidcSpec.ExtraScopes]. rewrite Hlen.
    erewrite M_bind_run; [|exact Hmake]. erewrite M_bind_run; [|exact Hst3].
    do 2 (erewrite M_bind_run; [|by apply load_field]). cbn. unfold copy.
    do 2 (erewrite M_bind_run; [|by apply load_reads]). cbn [sl_len sl_off].
    rewrite Nat.min_id, drop_0, take_ge by (by rewrite length_replicate). rewrite <- Hst4. f_equal.
    apply list_eq. intros j. destruct (decide (j < length scopes)) as [Hj|Hj].
    + rewrite list_lookup_inserts by (rewrite ?length_replicate; lia). f_equal. lia.
    + by rewrite list_lookup_inserts_ge by (rewrite length_replicate; lia).
  - eapply advances_other; [exact Hadv4|cbn; congruence|done].
  - split; [done|]. exists (replicate (length scopes) "").
    assert (h4 !! k = Some (inj (replicate (length scopes) ""))) as Hk4.
    { apply reads_whole. by eapply advances_reads. }
    split; [done|]. split; [by apply elem_of_dom_2 in Hk4|]. cbn. rewrite length_replicate.
    split; [done|]. split; [done|]. intros j w Hj. by exists w.
Qed.
End properties.

(** ** Memory of the types declared outside, for the witnesses

    The UID of an object is behind a pointer; the other types have none. *)
Definition meta_mem : Type := string * (string * option loc).

#[local] Instance fake_memory_types : MemoryTypes := {
  ObjectMeta_mem := meta_mem;
  ListMeta_mem := ListMeta.t;
  Condition_mem := Condition.t;
  RoleGroupConfigSpec_mem := RoleGroupConfigSpec.t;
  OverridesSpec_mem := unit;
  RoleConfigSpec_mem := unit;
  foreign_cell := string;
  zero_ObjectMeta := ("", ("", None));
  zero_ListMeta := ListMeta.mk "" "" "" None;
  zero_Condition := Condition.mk "" "" 0 0 "" "";
  zero_RoleGroupConfigSpec := RoleGroupConfigSpec.mk None tt;
  zero_OverridesSpec := tt;
  zero_RoleConfigSpec := tt;
  zero_ClusterOperationSpec := tt
}.

Definition UID_field : field meta_mem (option loc) :=
  Field (λ x, x.2.2) (λ p x, (x.1, (x.2.1, p))).

#[local] Instance UID_field_laws : FieldLaws UID_field.
Proof. split; [done|by intros (? & ? & ?)|done]. Qed.

#[local] Instance fake_foreign_copies : ForeignCopies := {
  ObjectMeta_DeepCopyInto := λ i o,
    do! assign i o;; copy_pointer (T:=string) UID_field (Stored0 := stored_foreign) assign i o;
  ListMeta_DeepCopyInto := assign;
  Condition_DeepCopyInto := assign;
  RoleGroupConfigSpec_DeepCopyInto := assign;
  OverridesSpec_DeepCopyInto := assign;
  RoleConfigSpec_DeepCopyInto := assign
}.

#[local] Instance fake_foreign_reps : ForeignReps := {
  ObjectMeta_rep := struct UID_field (pointer (Stored0 := stored_foreign) (plain string))
    (λ v, if decide (ObjectMeta.UID v = "") then None else Some (ObjectMeta.UID v))
    (λ x v, x.1 = ObjectMeta.Name v ∧ x.2.1 = ObjectMeta.Namespace v);
  ListMeta_rep := plain _;
  Condition_rep := plain _;
  RoleGroupConfigSpec_rep := plain _;
  OverridesSpec_rep := plain unit;
  RoleConfigSpec_rep := plain unit
}.

#[local] Instance fake_foreign_laws : ForeignCopyLaws.
Proof.
  split; [|apply copies_assign..].
  apply (copies_struct UID_field); [done|]. apply copies_pointer, copies_assign.
Qed.

(** ** Witnesses: a list with one cluster

    The role group shares its configuration with the role, and the scopes are a
    window of a longer array. *)
#[local] Existing Instance range_forward.

Definition sample_cell (t : ty) (x : denote t) : cell := existT t x.

Definition sample_cluster_mem : Mem.HbaseCluster.t := Mem.HbaseCluster.mk
  (GroupVersionKind.mk GroupVersion.Group GroupVersion.Version "HbaseCluster")
  ("hb", ("default", Some 1%positive))
  (Mem.HbaseClusterSpec.mk (Some 2%positive) (Some 3%positive) None (Some 7%positive) None None)
  (Mem.HbaseClusterStatus.mk (Some (Slice 12 0 1))).

Definition sample_list_mem : Mem.HbaseClusterList.t := Mem.HbaseClusterList.mk
  (GroupVersionKind.mk GroupVersion.Group GroupVersion.Version "HbaseClusterList")
  (ListMeta.mk "" "42" "" None) (Some (Slice 14 0 1)).

Definition sample_image : ImageSpec.t := ImageSpec.mk "" "quay.io/zncdatadev" "" "2.6.1" "" "".
Definition sample_condition : Condition.t := Condition.mk "Available" "True" 1 0 "Ready" "".
Definition sample_config : RoleGroupConfigSpec.t := RoleGroupConfigSpec.mk None tt.

Definition sample_heap : heap_of cell := list_to_map [
  (1%positive, sample_cell TForeign "uid");
  (2%positive, sample_cell TImageSpec sample_image);
  (3%positive, sample_cell TClusterConfigSpec
     (Mem.ClusterConfigSpec.mk "zk" "hdfs" "cluster-internal" (Some 4%positive) ""));
  (4%positive, sample_cell TAuthenticationSpec
     (Mem.AuthenticationSpec.mk "oidc" (Some 5%positive) "kerberos" "tls"));
  (5%positive, sample_cell TOidcSpec (Mem.OidcSpec.mk "client" (Some (Slice 6 1 2))));
  (6%positive, sample_cell TStrings ["unused"; "email"; "groups"]);
  (7%positive, sample_cell (TRoleSpec Master)
     (Mem.RoleSpec.mk (Some 10%positive) (Some 8%positive) None None));
  (8%positive, sample_cell (TRoleGroups Master)
     {[ "default" := Mem.RoleGroupSpec.mk (Some 9%positive) (Some 10%positive) None ]});
  (9%positive, sample_cell TInt32 2%Z);
  (10%positive, sample_cell (TConfigSpec Master) (Mem.ConfigSpec.mk (Some 11%positive)));
  (11%positive, sample_cell TRoleGroupConfigSpec sample_config);
  (12%positive, sample_cell TConditions [sample_condition]);
  (13%positive, sample_cell THbaseCluster sample_cluster_mem);
  (14%positive, sample_cell THbaseClusters [sample_cluster_mem]);
  (15%positive, sample_cell THbaseClusterList sample_list_mem)
].

(** What the cluster and the list in it stand for. *)
Definition sample_master_config : MasterConfigSpec.t := MasterConfigSpec.mk (Some sample_config).

Definition sample_cluster_value : HbaseCluster.t := HbaseCluster.mk
  (GroupVersionKind.mk GroupVersion.Group GroupVersion.Version "HbaseCluster")
  (ObjectMeta.mk "hb" "default" "uid")
  (HbaseClusterSpec.mk (Some sample_image)
     (Some (ClusterConfigSpec.mk "zk" "hdfs" "cluster-internal"
        (Some (AuthenticationSpec.mk "oidc"
           (Some (OidcSpec.mk "client" (Some ["email"; "groups"]))) "kerberos" "tls")) ""))
     None
     (Some (MasterSpec.mk (Some sample_master_config)
        (Some {[ "default" := MasterRoleGroupSpec.mk (Some 2%Z) (Some sample_master_config) None ]})
        None None)) None None)
  (HbaseClusterStatus.mk (Some [sample_condition])).

Definition sample_list_value : HbaseClusterList.t := HbaseClusterList.mk
  (GroupVersionKind.mk GroupVersion.Group GroupVersion.Version "HbaseClusterList")
  (ListMeta.mk "" "42" "" None) (Some [sample_cluster_value]).

(** Follow a pointer of the sample. *)
Ltac follow :=
  eexists; split; [reflexivity|split; [by apply elem_of_dom; eexists; reflexivity|]].

Lemma sample_config_holds :
  pointer (T:=Mem.ConfigSpec.t Master) ConfigSpec_rep sample_heap (Some 10%positive)
    (Some sample_master_config) (dom sample_heap).
Proof. follow. split; [done|]. cbn. by follow. Qed.

Lemma sample_authentication_holds :
  pointer AuthenticationSpec_rep sample_heap (Some 4%positive)
    (Some (AuthenticationSpec.mk "oidc"
       (Some (OidcSpec.mk "client" (Some ["email"; "groups"]))) "kerberos" "tls")) (dom sample_heap).
Proof.
  follow. split; [done|]. cbn. follow. split; [done|]. cbn. follow.
  split; [done|]. split; [cbn; lia|].
  intros [|[|i]] v Hv; cbn in Hv; [by eexists|by eexists|done].
Qed.

Lemma sample_master_holds :
  pointer (T:=Mem.RoleSpec.t Master) (RoleSpec_rep (r:=Master)) sample_heap (Some 7%positive)
    (HbaseClusterSpec.MasterSpec (HbaseCluster.Spec sample_cluster_value)) (dom sample_heap).
Proof.
  follow. split; [done|]. split; [apply sample_config_holds|]. split; [|done]. cbn. follow.
  intros k. destruct (decide (k = "default")) as [->|Hk].
  - rewrite !lookup_singleton_eq. constructor. split; [done|]. split; [by follow|].
    split; [apply sample_config_holds|done].
  - rewrite !lookup_singleton_ne by done. constructor.
Qed.

Lemma sample_cluster_holds :
  HbaseCluster_rep sample_heap sample_cluster_mem sample_cluster_value (dom sample_heap).
Proof.
  split; [done|]. split; [done|]. split; [split; [done|]; by follow|]. split.
  - split; [done|]. split; [by follow|]. split.
    + follow. split; [done|]. apply sample_authentication_holds.
    + split; [done|]. split; [apply sample_master_holds|done].
  - split; [done|]. cbn. follow. split; [done|]. split; [cbn; lia|].
    intros [|i] v Hv; cbn in Hv; [by eexists|done].
Qed.

Lemma sample_list_holds :
  HbaseClusterList_rep sample_heap sample_list_mem sample_list_value (dom sample_heap).
Proof.
  split; [done|]. split; [done|]. split; [done|]. cbn. follow. split; [done|].
  split; [cbn; lia|]. intros [|i] v Hv; cbn in Hv; [|done]. injection Hv as <-.
  exists sample_cluster_mem. split; [done|]. apply sample_cluster_holds.
Qed.

Definition sample_cluster_ref : ref cell Mem.HbaseCluster.t := elem_ref 0 (whole 14).
Definition sample_list_ref : ref cell Mem.HbaseClusterList.t := whole 15.

Lemma sample_cluster_reads : reads sample_heap sample_cluster_ref sample_cluster_mem.
Proof. vm_compute. reflexivity. Qed.

Lemma sample_list_reads : reads sample_heap sample_list_ref sample_list_mem.
Proof. vm_compute. reflexivity. Qed.

Lemma HbaseCluster_DeepCopyObject_spec_witness :
  ∃ h' l x', HbaseCluster_DeepCopyObject (Some sample_cluster_ref) sample_heap =
      (h', Ok (Some (ClusterObject (Some l)))) ∧ (l ∉ dom sample_heap) ∧ sample_heap ⊆ h' ∧
    reads h' (whole l) x' ∧
    HbaseCluster_rep h' x' sample_cluster_value (dom h' ∖ dom sample_heap).
Proof.
  exact (HbaseCluster_DeepCopyObject_spec sample_heap sample_cluster_ref sample_cluster_mem
    sample_cluster_value sample_cluster_reads sample_cluster_holds).
Defined.

Lemma HbaseClusterList_DeepCopyObject_spec_witness :
  ∃ h' l x', HbaseClusterList_DeepCopyObject (Some sample_list_ref) sample_heap =
      (h', Ok (Some (ClusterListObject (Some l)))) ∧ (l ∉ dom sample_heap) ∧ sample_heap ⊆ h' ∧
    reads h' (whole l) x' ∧
    HbaseClusterList_rep h' x' sample_list_value (dom h' ∖ dom sample_heap).
Proof.
  exact (HbaseClusterList_DeepCopyObject_spec sample_heap sample_list_ref sample_list_mem
    sample_list_value sample_list_reads sample_list_holds).
Defined.

Lemma sample_list_typed : HbaseClusterList_typed sample_heap sample_list_mem.
Proof. apply HbaseClusterList_stands. exists sample_list_value. apply sample_list_holds. Qed.

Lemma HbaseClusterList_DeepCopy_typed_witness :
  ∃ h' l x', HbaseClusterList_DeepCopy (Some sample_list_ref) sample_heap = (h', Ok (Some l)) ∧
    sample_heap ⊆ h' ∧ reads h' (whole l) x' ∧
    HbaseClusterList_typed h' x' ∧ HbaseClusterList_typed h' sample_list_mem.
Proof.
  exact (HbaseClusterList_DeepCopy_typed sample_heap sample_list_ref sample_list_mem
    sample_list_reads sample_list_typed).
Defined.

(** The heap after the copy, and then with another image in the original. *)
Definition copied_heap : heap_of cell :=
  fst (HbaseCluster_DeepCopy (Some sample_cluster_ref) sample_heap).
Definition edited_heap : heap_of cell :=
  <[2%positive := sample_cell TImageSpec (ImageSpec.mk "edited" "" "" "" "" "")]> copied_heap.

Lemma edited_heap_mutated : mutated (dom sample_heap) copied_heap edited_heap.
Proof.
  intros m c Hm Hc. unfold edited_heap. rewrite lookup_insert_ne; [done|]. intros <-. apply Hm.
  apply elem_of_dom. by eexists.
Qed.

Lemma sample_copy_runs : HbaseCluster_DeepCopy (Some sample_cluster_ref) sample_heap =
  (copied_heap, Ok (Some 16%positive)).
Proof.
  assert (snd (HbaseCluster_DeepCopy (Some sample_cluster_ref) sample_heap) = Ok (Some 16%positive))
    as Hs by (vm_compute; reflexivity).
  unfold copied_heap. rewrite <- Hs. apply surjective_pairing.
Qed.

Lemma HbaseCluster_DeepCopy_isolated_witness :
  ∃ y, reads edited_heap (whole 16) y ∧
    HbaseCluster_rep edited_heap y sample_cluster_value (dom copied_heap ∖ dom sample_heap).
Proof.
  exact (proj1 (HbaseCluster_DeepCopy_isolated sample_heap sample_cluster_ref sample_cluster_mem
    sample_cluster_value copied_heap 16 edited_heap sample_cluster_reads sample_cluster_holds
    sample_copy_runs) edited_heap_mutated).
Defined.

Lemma sample_oidc_holds : OidcSpec_rep sample_heap (Mem.OidcSpec.mk "client" (Some (Slice 6 1 2)))
  (OidcSpec.mk "client" (Some ["email"; "groups"])) (dom sample_heap).
Proof.
  split; [done|]. cbn. follow. split; [done|]. split; [cbn; lia|].
  intros [|[|i]] v Hv; cbn in Hv; [by eexists|by eexists|done].
Qed.

Lemma OidcSpec_DeepCopyInto_in_place_witness :
  ∃ h' x', OidcSpec_DeepCopyInto (Some (whole 5)) (Some (whole 5)) sample_heap = (h', Ok tt) ∧
    reads h' (whole 5) x' ∧
    OidcSpec_rep h' x' (OidcSpec.mk "client" (Some [""; ""])) (dom h').
Proof.
  apply (OidcSpec_DeepCopyInto_in_place sample_heap (whole 5)
    (Mem.OidcSpec.mk "client" (Some (Slice 6 1 2)))
    (OidcSpec.mk "client" (Some ["email"; "groups"])) (dom sample_heap));
    [vm_compute; reflexivity|apply sample_oidc_holds].
Defined.
