(* ===== verification/Zookeeper.v ===== *)
(** * The ZooKeeper discovery configuration: [internal/controller/common/zookeeper.go]

    [ZnodeConfiguration] wraps a config map whose data is a Go map, possibly
    nil.  [AddData] parses a connection string into the map, the getters read
    the map. *)

From S2P Require Import Prelude GoStrings K8s.

Definition ZookeeperHostsKey : string := "ZOOKEEPER_HOSTS".
Definition ZookeeperClientPortKey : string := "ZOOKEEPER_PORT".
Definition ZookeeperChrootKey : string := "ZOOKEEPER_CHROOT".
Definition ZookeeperKey : string := "zookeeper".

Module ZnodeConfiguration.
Record t := mk { ConfigMap : ConfigMap.t }.
End ZnodeConfiguration.

Definition Data (c : ZnodeConfiguration.t) : option (gmap string string) :=
  ConfigMap.Data (ZnodeConfiguration.ConfigMap c).

(** [c.ConfigMap.Data\[key\] = value] *)
Definition set_Data (key value : string) : M ZnodeConfiguration.t unit := λ c,
  match map_write (Data c) key value with
  | Ok d => (ZnodeConfiguration.mk
               (ConfigMap.mk (ConfigMap.Name (ZnodeConfiguration.ConfigMap c)) d), Ok tt)
  | Err e => (c, Err e)
  | Panic m => (c, Panic m)
  end.

Definition invalid_zookeeper : error := GoError "invalid zookeeper string".
Definition invalid_host_port : error := GoError "invalid host and port".

Definition AddData (zookeeper : string) : M ZnodeConfiguration.t unit :=
  let parts := Split zookeeper "/"%char in
  match parts with
  | [p0; _; p2] =>
      let hostAndPort := Split p0 ":"%char in
      match hostAndPort with
      | [host; port] =>
          do! set_Data ZookeeperHostsKey host;;
          do! set_Data ZookeeperClientPortKey port;;
          do! set_Data ZookeeperChrootKey p2;;
          set_Data ZookeeperKey zookeeper
      | _ => lift (Err invalid_host_port)
      end
  | _ => lift (Err invalid_zookeeper)
  end.

Definition key_not_found (key : string) : error :=
  GoError ("key " +:+ key +:+ " not found in configmap").

Definition lookup_key (c : ZnodeConfiguration.t) (key : string) : outcome string :=
  match map_read (Data c) key with
  | Some value => Ok value
  | None => Err (key_not_found key)
  end.

Definition GetQuorum (c : ZnodeConfiguration.t) : outcome string :=
  lookup_key c ZookeeperHostsKey.
Definition GetClientPort (c : ZnodeConfiguration.t) : outcome string :=
  lookup_key c ZookeeperClientPortKey.
Definition GetChroot (c : ZnodeConfiguration.t) : outcome string :=
  lookup_key c ZookeeperChrootKey.
Definition GetZookeeper (c : ZnodeConfiguration.t) : outcome string :=
  lookup_key c ZookeeperKey.

(** ** Lemmas *)

(** The connection string of a host, a port, a middle part and a chroot. *)
Definition connection (host port mid chroot : string) : string :=
  host +:+ ":" +:+ port +:+ "/" +:+ mid +:+ "/" +:+ chroot.

(** The parts of a connection string hold no separator of theirs. *)
Record clean_parts (host port mid chroot : string) : Prop := {
  host_slash : has "/"%char host = false;
  host_colon : has ":"%char host = false;
  port_slash : has "/"%char port = false;
  port_colon : has ":"%char port = false;
  mid_slash : has "/"%char mid = false;
  chroot_slash : has "/"%char chroot = false
}.

Lemma Split_3_iff s c p0 p1 p2 :
  Split s c = [p0; p1; p2] ↔
    s = p0 +:+ String c (p1 +:+ String c p2) ∧
    has c p0 = false ∧ has c p1 = false ∧ has c p2 = false.
Proof.
  split.
  - intros Hs. pose proof (Split_pieces s c) as Hp. pose proof (Join_Split s c) as Hj.
    rewrite Hs in Hp, Hj. rewrite !Forall_cons in Hp. destruct Hp as (? & ? & ? & _).
    split_and!; [by rewrite <-Hj|done..].
  - intros (-> & H0 & H1 & H2).
    by rewrite Split_app_sep, Split_app_sep, Split_no_sep by done.
Qed.

Lemma Split_2_iff s c p0 p1 :
  Split s c = [p0; p1] ↔ s = p0 +:+ String c p1 ∧ has c p0 = false ∧ has c p1 = false.
Proof.
  split.
  - intros Hs. pose proof (Split_pieces s c) as Hp. pose proof (Join_Split s c) as Hj.
    rewrite Hs in Hp, Hj. rewrite !Forall_cons in Hp. destruct Hp as (? & ? & _).
    split_and!; [by rewrite <-Hj|done..].
  - intros (-> & H0 & H1). by rewrite Split_app_sep, Split_no_sep by done.
Qed.

(** What [AddData] leaves in the map when it succeeds. *)
Definition stored (host port chroot zookeeper : string) (d : gmap string string)
  : gmap string string :=
  <[ZookeeperKey := zookeeper]> (<[ZookeeperChrootKey := chroot]>
    (<[ZookeeperClientPortKey := port]> (<[ZookeeperHostsKey := host]> d))).

(** Read a key of the map [stored]. *)
Ltac solve_stored :=
  unfold GetQuorum, GetClientPort, GetChroot, GetZookeeper, lookup_key, map_read, Data, stored;
  cbn [ZnodeConfiguration.ConfigMap ConfigMap.Data];
  repeat first [rewrite lookup_insert_eq | rewrite lookup_insert_ne by (done || congruence)];
  done.

Lemma AddData_connection name d host port mid chroot :
  clean_parts host port mid chroot →
  AddData (connection host port mid chroot) (ZnodeConfiguration.mk (ConfigMap.mk name (Some d))) =
    (ZnodeConfiguration.mk (ConfigMap.mk name
       (Some (stored host port chroot (connection host port mid chroot) d))), Ok tt).
Proof.
  intros Hc. assert (Split (connection host port mid chroot) "/"%char =
    [host +:+ String ":"%char port; mid; chroot]) as Hs.
  { apply Split_3_iff. split_and!; try apply Hc.
    - unfold connection. by rewrite string_app_assoc.
    - rewrite has_app. simpl. by rewrite (host_slash _ _ _ _ Hc), (port_slash _ _ _ _ Hc). }
  unfold AddData. rewrite Hs.
  rewrite Split_app_sep, Split_no_sep by apply Hc. done.
Qed.

(** The four ways [AddData] can go. *)
Lemma AddData_cases z c :
  (∃ host port mid chroot d, z = connection host port mid chroot ∧
     clean_parts host port mid chroot ∧ Data c = Some d) ∨
  (∃ host port mid chroot, z = connection host port mid chroot ∧
     clean_parts host port mid chroot ∧ AddData z c = (c, Panic nil_map_write)) ∨
  AddData z c = (c, Err invalid_host_port) ∨
  AddData z c = (c, Err invalid_zookeeper).
Proof.
  unfold AddData. destruct (Split z "/"%char) as [|p0 [|p1 [|p2 [|]]]] eqn:Hs; auto.
  apply Split_3_iff in Hs as (-> & H0 & H1 & H2).
  destruct (Split p0 ":"%char) as [|host [|port [|]]] eqn:Hh; auto.
  apply Split_2_iff in Hh as (-> & H3 & H4).
  rewrite has_app in H0. apply orb_false_iff in H0 as [H5 H6]. simpl in H6.
  assert (clean_parts host port p1 p2) as Hc by done.
  assert ((host +:+ String ":"%char port) +:+ String "/"%char (p1 +:+ String "/"%char p2)
    = connection host port p1 p2) as Heq by (unfold connection; by rewrite string_app_assoc).
  destruct (Data c) as [d|] eqn:Hd; [left; by eauto 10|].
  right; left. exists host, port, p1, p2. split_and!; try done.
  unfold set_Data, mbind, M_bind. by rewrite Hd.
Qed.

(** [AddData] inspects the number of slashes first. *)
Lemma AddData_slashes z c :
  AddData z c = (c, Err invalid_zookeeper) ↔ count "/"%char z ≠ 2.
Proof.
  pose proof (Split_length z "/"%char) as Hlen. split.
  - intros Ha Hc. rewrite Hc in Hlen. unfold AddData in Ha.
    destruct (Split z "/"%char) as [|p0 [|p1 [|p2 [|]]]]; try discriminate Hlen.
    destruct (Split p0 ":"%char) as [|host [|port [|]]]; try discriminate Ha.
    unfold set_Data, mbind, M_bind in Ha. by destruct c as [[name [d|]]].
  - intros Hc. unfold AddData.
    destruct (Split z "/"%char) as [|p0 [|p1 [|p2 [|]]]]; try done.
    simpl in Hlen. lia.
Qed.

(** ** Properties *)

(** C20: parsing a connection string [host:port/mid/chroot] and reading the
    configuration back gives the host, the port, the chroot and the string
    itself, and every other key keeps its value. *)
Theorem AddData_roundtrip name d host port mid chroot
  (Hparts : clean_parts host port mid chroot) :
  let z := connection host port mid chroot in
  ∃ c', AddData z (ZnodeConfiguration.mk (ConfigMap.mk name (Some d))) = (c', Ok tt) ∧
    GetQuorum c' = Ok host ∧ GetClientPort c' = Ok port ∧ GetChroot c' = Ok chroot ∧
    GetZookeeper c' = Ok z ∧
    ∀ key, key ∉ [ZookeeperHostsKey; ZookeeperClientPortKey; ZookeeperChrootKey; ZookeeperKey] →
      lookup_key c' key = lookup_key (ZnodeConfiguration.mk (ConfigMap.mk name (Some d))) key.
Proof.
  intros z. eexists. split; [by apply AddData_connection|].
  split_and!; [solve_stored..|]. intros key Hkey. rewrite !not_elem_of_cons in Hkey.
  destruct Hkey as (H0 & H1 & H2 & H3 & _). solve_stored.
Qed.

Example AddData_roundtrip_witness :
  let d : gmap string string := {["other" := "kept"]} in
  clean_parts "zk-0.zk.default.svc" "2181" "" "znode-1" ∧
  ∃ c', AddData "zk-0.zk.default.svc:2181//znode-1"
          (ZnodeConfiguration.mk (ConfigMap.mk "znode" (Some d))) = (c', Ok tt) ∧
    GetQuorum c' = Ok "zk-0.zk.default.svc" ∧ lookup_key c' "other" = Ok "kept".
Proof.
  assert (clean_parts "zk-0.zk.default.svc" "2181" "" "znode-1") as Hp by (by constructor).
  split; [exact Hp|].
  destruct (AddData_roundtrip "znode" {["other" := "kept"]} _ _ _ _ Hp)
    as (c' & Ha & Hq & _ & _ & _ & Hother).
  exists c'. split_and!; [exact Ha|exact Hq|].
  rewrite Hother; [reflexivity|]. by apply (bool_decide_unpack _).
Defined.

(** C21: on a config map whose data map exists, [AddData] succeeds exactly on the
    strings with two slashes whose first part has one colon. *)
Theorem AddData_accepts_iff z name d :
  (∃ c', AddData z (ZnodeConfiguration.mk (ConfigMap.mk name (Some d))) = (c', Ok tt)) ↔
  ∃ host port mid chroot, z = connection host port mid chroot ∧ clean_parts host port mid chroot.
Proof.
  split.
  - intros [c' Ha].
    destruct (AddData_cases z (ZnodeConfiguration.mk (ConfigMap.mk name (Some d))))
      as [(h & p & m & r & ? & -> & Hc & _)|[(h & p & m & r & -> & Hc & _)|[He|He]]];
      [by eauto 6..|by rewrite He in Ha|by rewrite He in Ha].
  - intros (h & p & m & r & -> & Hc). eexists. by apply AddData_connection.
Qed.

(** [AddData] changes the configuration only when it succeeds: when it
    returns an error, or panics on a nil data map, the receiver is unchanged. *)
Theorem AddData_failure_unchanged z c c' r
  (Hrun : AddData z c = (c', r)) (Hfail : r ≠ Ok tt) :
  c' = c ∧ (r = Err invalid_zookeeper ∨ r = Err invalid_host_port ∨
            (r = Panic nil_map_write ∧ Data c = None)).
Proof.
  destruct c as [[name d]].
  destruct (AddData_cases z (ZnodeConfiguration.mk (ConfigMap.mk name d)))
    as [(h & p & m & q & d' & -> & Hc & Hd)|[(h & p & m & q & -> & Hc & Hp)|[He|He]]].
  - cbn in Hd. subst d. rewrite AddData_connection in Hrun by done. by simplify_eq.
  - destruct d as [d|]; [rewrite AddData_connection in Hp by done; simplify_eq|].
    rewrite Hp in Hrun. simplify_eq. auto.
  - rewrite He in Hrun. simplify_eq. auto.
  - rewrite He in Hrun. simplify_eq. auto.
Qed.

Example AddData_failure_unchanged_witness :
  let c := ZnodeConfiguration.mk (ConfigMap.mk "znode" None) in
  AddData "zk:2181//z" c = (c, Panic nil_map_write) ∧ Data c = None.
Proof.
  intros c. split; [reflexivity|].
  destruct (AddData_failure_unchanged "zk:2181//z" c c (Panic nil_map_write)) as [_ Hr];
    [reflexivity|discriminate|].
  destruct Hr as [Hr|[Hr|[_ Hr]]]; [discriminate Hr|discriminate Hr|exact Hr].
Defined.

(** The string the comment above [AddData] gives as an example. *)
Definition documented_example : string :=
  "simple-zk-server-primary-0.simple-zk-server-primary.default.svc.cluster.local:2181/znode-0f8ba74a-7fb1-4d0a-81a5-7259a56defda".

(** A string that does not have exactly two slashes is rejected as an
    invalid ZooKeeper string; the example in the comment on [AddData] has one
    slash, so it is rejected, on every configuration. *)
Theorem AddData_documented_example_rejected c :
  (∀ z, AddData z c = (c, Err invalid_zookeeper) ↔ count "/"%char z ≠ 2) ∧
  AddData documented_example c = (c, Err invalid_zookeeper).
Proof.
  split; [intros z; apply AddData_slashes|]. apply AddData_slashes. by vm_compute.
Qed.
