(* ===== verification/Affinity.v ===== *)
(** * Pod affinity: [internal/controller/common/affinity.go] *)

From S2P Require Import Prelude K8s OperatorGo Fakes.

Module PodAffinity.
Record t := mk {
  affinityRequired : bool;
  anti : bool;
  weight : Z;
  labels : gmap string string
}.
End PodAffinity.

Definition NewPodAffinity (labels : gmap string string) (affinityRequired anti : bool)
  : PodAffinity.t :=
  PodAffinity.mk affinityRequired anti 0 labels.

Definition Weight (p : PodAffinity.t) (weight : Z) : PodAffinity.t :=
  PodAffinity.mk (PodAffinity.affinityRequired p) (PodAffinity.anti p) weight
    (PodAffinity.labels p).

Module NodeAffinity.
Record t := mk { weight : Z }.
Definition Weight (n : t) (weight : Z) : t := mk weight.
End NodeAffinity.

Module AffinityBuilder.
Record t := mk { PodAffinity : list PodAffinity.t }.
End AffinityBuilder.

Definition NewAffinityBuilder (podAffinity : list PodAffinity.t) : AffinityBuilder.t :=
  AffinityBuilder.mk podAffinity.

Definition AddPodAffinity (a : AffinityBuilder.t) (podAffinity : PodAffinity.t)
  : AffinityBuilder.t :=
  AffinityBuilder.mk (AffinityBuilder.PodAffinity a ++ [podAffinity]).

(** The four slices the loop of [buildPodAffinity] appends to. *)
Module Terms.
Record t := mk {
  preferTerms : list WeightedPodAffinityTerm.t;
  requireTerms : list PodAffinityTerm.t;
  antiPreferTerms : list WeightedPodAffinityTerm.t;
  antiRequireTerms : list PodAffinityTerm.t
}.
Definition empty : t := mk [] [] [] [].
End Terms.

Section affinity.
Context `{!Platform}.

Definition require_term (pa : PodAffinity.t) : PodAffinityTerm.t :=
  PodAffinityTerm.mk (Some (LabelSelector.mk (PodAffinity.labels pa))) "".

(** [pa] is the loop's copy: setting the default weight does not reach the
    builder's slice. *)
Definition prefer_term (pa : PodAffinity.t) : WeightedPodAffinityTerm.t :=
  let weight :=
    if decide (PodAffinity.weight pa = 0%Z) then DefaultHardPodAffinitySymmetricWeight
    else PodAffinity.weight pa in
  WeightedPodAffinityTerm.mk weight
    (PodAffinityTerm.mk (Some (LabelSelector.mk (PodAffinity.labels pa))) LabelHostname).

Definition affinity_step (acc : Terms.t) (pa : PodAffinity.t) : Terms.t :=
  let '(Terms.mk pr rq apr arq) := acc in
  if PodAffinity.affinityRequired pa then
    let term := require_term pa in
    if PodAffinity.anti pa then Terms.mk pr rq apr (arq ++ [term])
    else Terms.mk pr (rq ++ [term]) apr arq
  else
    let weightTerm := prefer_term pa in
    if PodAffinity.anti pa then Terms.mk pr rq (apr ++ [weightTerm]) arq
    else Terms.mk (pr ++ [weightTerm]) rq apr arq.

Definition buildPodAffinity (a : AffinityBuilder.t)
  : PodAffinityTerms.t * PodAffinityTerms.t :=
  let acc := foldl affinity_step Terms.empty (AffinityBuilder.PodAffinity a) in
  (PodAffinityTerms.mk (Terms.requireTerms acc) (Terms.preferTerms acc),
   PodAffinityTerms.mk (Terms.antiRequireTerms acc) (Terms.antiPreferTerms acc)).

Definition Build (a : AffinityBuilder.t) : Affinity.t :=
  let '(podAffinity, podAntiAffinity) := buildPodAffinity a in
  Affinity.mk (Some podAffinity) (Some podAntiAffinity).

(** ** Lemmas *)

(** Reference definition: the entries of one kind, in order, each turned into a term. *)
Definition of_kind (required anti : bool) (l : list PodAffinity.t) : list PodAffinity.t :=
  filter (λ pa, PodAffinity.affinityRequired pa = required ∧ PodAffinity.anti pa = anti) l.

Lemma affinity_fold l acc :
  foldl affinity_step acc l =
    Terms.mk (Terms.preferTerms acc ++ (prefer_term <$> of_kind false false l))
             (Terms.requireTerms acc ++ (require_term <$> of_kind true false l))
             (Terms.antiPreferTerms acc ++ (prefer_term <$> of_kind false true l))
             (Terms.antiRequireTerms acc ++ (require_term <$> of_kind true true l)).
Proof.
  revert acc. induction l as [|pa l IH]; intros [pr rq apr arq].
  - by rewrite !app_nil_r.
  - cbn [foldl]. rewrite IH. unfold of_kind. rewrite !filter_cons.
    destruct pa as [[] [] w lb]; simpl; by rewrite <-?app_assoc.
Qed.

Lemma of_kind_length l :
  length (of_kind false false l) + length (of_kind true false l) +
  (length (of_kind false true l) + length (of_kind true true l)) = length l.
Proof.
  induction l as [|pa l IH]; [done|]. unfold of_kind in *. rewrite !filter_cons.
  destruct pa as [[] [] w lb]; simpl; lia.
Qed.

(** The terms of an [Affinity] value. *)
Definition preferred (a : Affinity.t) : list WeightedPodAffinityTerm.t :=
  default [] (PodAffinityTerms.PreferredDuringSchedulingIgnoredDuringExecution <$> Affinity.PodAffinity a)
  ++ default [] (PodAffinityTerms.PreferredDuringSchedulingIgnoredDuringExecution <$> Affinity.PodAntiAffinity a).

Definition required (a : Affinity.t) : list PodAffinityTerm.t :=
  default [] (PodAffinityTerms.RequiredDuringSchedulingIgnoredDuringExecution <$> Affinity.PodAffinity a)
  ++ default [] (PodAffinityTerms.RequiredDuringSchedulingIgnoredDuringExecution <$> Affinity.PodAntiAffinity a).

Lemma Build_reference a :
  let l := AffinityBuilder.PodAffinity a in
  Build a = Affinity.mk
    (Some (PodAffinityTerms.mk (require_term <$> of_kind true false l)
                               (prefer_term <$> of_kind false false l)))
    (Some (PodAffinityTerms.mk (require_term <$> of_kind true true l)
                               (prefer_term <$> of_kind false true l))).
Proof. unfold Build, buildPodAffinity. by rewrite affinity_fold. Qed.

Lemma preferred_Build a :
  preferred (Build a) = prefer_term <$>
    (of_kind false false (AffinityBuilder.PodAffinity a)
     ++ of_kind false true (AffinityBuilder.PodAffinity a)).
Proof. rewrite Build_reference. by rewrite fmap_app. Qed.

Lemma required_Build a :
  required (Build a) = require_term <$>
    (of_kind true false (AffinityBuilder.PodAffinity a)
     ++ of_kind true true (AffinityBuilder.PodAffinity a)).
Proof. rewrite Build_reference. by rewrite fmap_app. Qed.

(** ** Properties *)

(** C31: one pass over the entries gives, in each of the four slices, exactly
    the terms of the entries of that kind in their order, and every entry
    lands in exactly one slice. *)
Theorem Build_partitions a :
  let l := AffinityBuilder.PodAffinity a in
  Build a = Affinity.mk
    (Some (PodAffinityTerms.mk (require_term <$> of_kind true false l)
                               (prefer_term <$> of_kind false false l)))
    (Some (PodAffinityTerms.mk (require_term <$> of_kind true true l)
                               (prefer_term <$> of_kind false true l))) ∧
  length (preferred (Build a)) + length (required (Build a)) = length l.
Proof.
  intros l. split; [apply Build_reference|].
  rewrite preferred_Build, required_Build, !length_fmap, !length_app.
  pose proof (of_kind_length l). fold l. lia.
Qed.

(** A preferred term never has weight zero, selects by the host name and
    keeps the weight of its entry when one was set; entries whose weights
    were set between 1 and 100 give weights between 1 and 100. *)
Theorem Build_preferred_weights `{!PlatformLaws} a t (Ht : t ∈ preferred (Build a)) :
  PodAffinityTerm.TopologyKey (WeightedPodAffinityTerm.PodAffinityTerm t) = LabelHostname ∧
  WeightedPodAffinityTerm.Weight t ≠ 0%Z ∧
  (Forall (λ pa, 0 ≤ PodAffinity.weight pa ≤ 100)%Z (AffinityBuilder.PodAffinity a) →
   (1 ≤ WeightedPodAffinityTerm.Weight t ≤ 100)%Z).
Proof.
  rewrite preferred_Build in Ht. apply list_elem_of_fmap in Ht as (pa & -> & Hpa).
  assert (pa ∈ AffinityBuilder.PodAffinity a) as Hin.
  { apply elem_of_app in Hpa as [Hpa|Hpa]; by apply list_elem_of_filter in Hpa as [_ ?]. }
  unfold prefer_term. cbn. split; [done|]. pose proof default_weight as Hdef.
  case_decide as Hz.
  - rewrite Hdef. split; [done|]. intros _. lia.
  - split; [done|]. rewrite Forall_forall. intros Hall. specialize (Hall _ Hin). lia.
Qed.

(** A required term has an empty topology key, whereas a preferred one
    spreads over host names. *)
Theorem Build_required_topology a :
  Forall (λ t, PodAffinityTerm.TopologyKey t = "") (required (Build a)) ∧
  Forall (λ t, PodAffinityTerm.TopologyKey (WeightedPodAffinityTerm.PodAffinityTerm t)
               = LabelHostname) (preferred (Build a)).
Proof.
  rewrite preferred_Build, required_Build, !Forall_fmap. split; by apply Forall_true.
Qed.
End affinity.

(** ** Witnesses *)
Example Build_preferred_weights_witness :
  let a := NewAffinityBuilder [NewPodAffinity {["app" := "hbase"]} false false;
                               Weight (NewPodAffinity ∅ false true) 70] in
  let t := prefer_term (Weight (NewPodAffinity ∅ false true) 70) in
  (t ∈ preferred (Build a)) ∧ (1 ≤ WeightedPodAffinityTerm.Weight t ≤ 100)%Z.
Proof.
  intros a t. assert (t ∈ preferred (Build a)) as Ht by (by right; left).
  split; [exact Ht|].
  destruct (Build_preferred_weights a t Ht) as (_ & _ & Hall). apply Hall.
  repeat constructor; cbn; lia.
Defined.
