(* ===== verification/Krb5.v ===== *)
(** * Kerberos: [internal/controller/authz/krb5.go]

    [HbaseKerberosConfig] yields, for a cluster with a Kerberos and a TLS secret
    class, the site properties, SSL settings, environment, volumes, mounts and
    shell commands the other components add to what they build. *)

From S2P Require Import Prelude GoStrings K8s OperatorGo Fakes.

Module HbaseKerberosConfig.
Record t := mk {
  Namespace : string;
  ClusterName : string;
  KerberosSecretClass : string;
  TlsSecretClass : string
}.
End HbaseKerberosConfig.

Definition TlsStorePassword : string := "changeit".
Definition TrustoreType : string := "pkcs12".
Definition KeystoreType : string := "pkcs12".
Definition AuthenticationType : string := "kerberos".

(** [rolename] and [rolegroupname] are not used. *)
Definition NewHbaseKerberosConfig
  (namespace clustername rolename rolegroupname kerberosSecretClass tlsSecretClass : string)
  : HbaseKerberosConfig.t :=
  HbaseKerberosConfig.mk namespace clustername kerberosSecretClass tlsSecretClass.

Section krb5.
Context `{!Platform}.
Implicit Type c : HbaseKerberosConfig.t.

Definition TlsStoreDir : string := PathJoin [KubedoopRoot; "tls"].
Definition TrustoreFile : string := PathJoin [TlsStoreDir; "truststore.p12"].
Definition KeystoreFile : string := PathJoin [TlsStoreDir; "keystore.p12"].
Definition ConfigDir : string := PathJoin [KubedoopRoot; "conf"].
Definition KerberosDir : string := PathJoin [KubedoopRoot; "kerberos"].
Definition Krb5ConfigFile : string := PathJoin [KerberosDir; "krb5.conf"].
Definition KetytabFile : string := PathJoin [KerberosDir; "keytab"].

Definition getPrincipal c (service : string) : string :=
  let host := HbaseKerberosConfig.ClusterName c +:+ "." +:+ HbaseKerberosConfig.Namespace c
                +:+ ".svc.cluster.local" in
  service +:+ "/" +:+ host +:+ "@${env.KERBEROS_REALM}".

Definition GetJVMOPTS c : gmap string string :=
  {[ "java.security.krb5.conf" := Krb5ConfigFile ]}.

Definition GetContainerEnvvars c : list EnvVar.t :=
  [ EnvVar.mk "KRB5_CONFIG" Krb5ConfigFile None;
    EnvVar.mk "HBASE_OPTS" ("-Djava.security.krb5.conf=" +:+ Krb5ConfigFile) None ].

Definition GetHbaseSite c : gmap string string := list_to_map [
  ("hbase.security.authentication", AuthenticationType);
  ("hbase.security.authorization", "true");
  ("hbase.rpc.protection", "privacy");
  ("dfs.data.transfer.protection", "privacy");
  ("hbase.rpc.engine", "org.apache.hadoop.hbase.ipc.SecureRpcEngine");

  ("hbase.master.kerberos.principal", getPrincipal c "hbase");
  ("hbase.regionserver.kerberos.principal", getPrincipal c "hbase");
  ("hbase.rest.kerberos.principal", getPrincipal c "HTTP");

  ("hbase.master.keytab.file", KetytabFile);
  ("hbase.regionserver.keytab.file", KetytabFile);
  ("hbase.rest.keytab.file", KetytabFile);

  ("hbase.coprocessor.master.classes", "org.apache.hadoop.hbase.security.access.AccessController");
  ("hbase.coprocessor.region.classes", "org.apache.hadoop.hbase.security.token.TokenProvider,org.apache.hadoop.hbase.security.access.AccessController");

  ("hbase.rest.authentication.type", AuthenticationType);
  ("hbase.rest.authentication.kerberos.principal", getPrincipal c "HTTP");
  ("hbase.rest.authentication.kerberos.keytab", KetytabFile);

  ("hbase.ssl.enabled", "true");
  ("hbase.http.policy", "HTTPS_ONLY");
  ("hbase.http.filter.no-store.enable", "true");

  ("hbase.rest.ssl.enabled", "true");
  ("hbase.rest.ssl.keystore.store", PathJoin [TlsStoreDir; "keystore.p12"]);
  ("hbase.rest.ssl.keystore.password", TlsStorePassword);
  ("hbase.rest.ssl.keystore.type", "pkcs12") ].

Definition GetDiscoveryConfig c : gmap string string := list_to_map [
  ("hbase.security.authentication", AuthenticationType);
  ("hbase.rpc.protection", "privacy");
  ("hbase.ssl.enabled", "true");
  ("hbase.maser.kerberos.principal", getPrincipal c "hbase");
  ("hbase.regionserver.kerberos.principal", getPrincipal c "hbase");
  ("hbase.rest.kerberos.principal", getPrincipal c "hbase") ].

Definition GetSSLServerSttings c : gmap string string := list_to_map [
  ("ssl.server.truststore.location", TrustoreFile);
  ("ssl.server.truststore.type", TrustoreType);
  ("ssl.server.truststore.password", TlsStorePassword);
  ("ssl.server.keystore.location", KeystoreFile);
  ("ssl.server.keystore.type", KeystoreType);
  ("ssl.server.keystore.password", TlsStorePassword) ].

Definition GetSSLClientSettings c : gmap string string := list_to_map [
  ("ssl.client.truststore.location", TrustoreFile);
  ("ssl.client.truststore.type", TrustoreType);
  ("ssl.client.truststore.password", TlsStorePassword) ].

Definition GetVolumeMounts c : list VolumeMount.t :=
  [ VolumeMount.mk "kerberos" KerberosDir; VolumeMount.mk "tls" TlsStoreDir ].

(** The claim template both volumes have, up to its annotations. *)
Definition secret_claim (annotations : gmap string string)
  : VolumeSource.t Quantity :=
  VolumeSource.mk None (Some (EphemeralVolumeSource.mk (Some
    (PersistentVolumeClaimTemplate.mk annotations
       (Some "secrets.kubedoop.dev")
       [ReadWriteOnce]
       {[ ResourceStorage := MustParse "1Mi" ]})))).

Definition GetVolumes c : list (Volume.t Quantity) :=
  [ Volume.mk "kerberos" (secret_claim (list_to_map [
      ("secrets.kubedoop.dev/class", HbaseKerberosConfig.KerberosSecretClass c);
      ("secrets.kubedoop.dev/scope", "service=" +:+ HbaseKerberosConfig.ClusterName c);
      ("secrets.kubedoop.dev/kerberosServiceNames", "HTTP,hbase") ]));
    Volume.mk "tls" (secret_claim (list_to_map [
      ("secrets.kubedoop.dev/class", HbaseKerberosConfig.TlsSecretClass c);
      ("secrets.kubedoop.dev/scope", "node,pod");
      ("secrets.kubedoop.dev/format", "tls-p12");
      ("secrets.kubedoop.dev/tlsPKCS12Password", TlsStorePassword) ])) ].

Definition krb5_commands : string :=
"
export KERBEROS_REALM=$(grep -oP 'default_realm = \K.*' " +:+ Krb5ConfigFile +:+ ")
sed -i -e 's/${env.KERBEROS_REALM}/'" +:+ dq +:+ "$KERBEROS_REALM/g" +:+ dq +:+ " " +:+ PathJoin [KubedoopConfigDir; "core-site.xml"] +:+ "
sed -i -e 's/${env.KERBEROS_REALM}/'" +:+ dq +:+ "$KERBEROS_REALM/g" +:+ dq +:+ "  " +:+ PathJoin [KubedoopConfigDir; "hdfs-site.xml"] +:+ "
sed -i -e 's/${env.KERBEROS_REALM}/'" +:+ dq +:+ "$KERBEROS_REALM/g" +:+ dq +:+ "  " +:+ PathJoin [KubedoopConfigDir; "hbase-site.xml"] +:+ "
".

Definition GetContainerCommands c : string := IndentTab4Spaces krb5_commands.

(** ** Lemmas *)
Lemma file_name_by_computation e :
  bool_decide (e ≠ "" ∧ e ≠ "." ∧ has "/"%char e = false ∧ e ≠ "..") = true → file_name e.
Proof. intros Hb. apply bool_decide_eq_true in Hb. by destruct Hb as (? & ? & ? & ?). Qed.

(** [f] is the path of a file in the directory [dir]. *)
Definition file_in (dir f : string) : Prop :=
  ∃ e, file_name e ∧ f = dir +:+ "/" +:+ e.

Lemma PathJoin_file_in root d e :
  file_name d → file_name e → file_in (PathJoin [root; d]) (PathJoin [PathJoin [root; d]; e]).
Proof. intros Hd He. exists e. by rewrite PathJoin_nested. Qed.

Lemma kerberos_files : file_in KerberosDir Krb5ConfigFile ∧ file_in KerberosDir KetytabFile.
Proof. split; by apply PathJoin_file_in; apply file_name_by_computation. Qed.

Lemma tls_files : file_in TlsStoreDir TrustoreFile ∧ file_in TlsStoreDir KeystoreFile.
Proof. split; by apply PathJoin_file_in; apply file_name_by_computation. Qed.

Lemma KetytabFile_in_KerberosDir : file_in KerberosDir KetytabFile.
Proof. apply kerberos_files. Qed.

(** An annotation of the claim a volume is provisioned from. *)
Definition volume_annotation (v : Volume.t Quantity) (key : string) : option string :=
  e ← VolumeSource.Ephemeral (Volume.VolumeSource v);
  t ← EphemeralVolumeSource.VolumeClaimTemplate e;
  PersistentVolumeClaimTemplate.Annotations t !! key.

Definition volume_named c (n : string) : option (Volume.t Quantity) :=
  snd <$> list_find (λ v, Volume.Name v = n) (GetVolumes c).

Definition keytab_keys : list string :=
  [ "hbase.master.keytab.file"; "hbase.regionserver.keytab.file";
    "hbase.rest.keytab.file"; "hbase.rest.authentication.kerberos.keytab" ].

(** The principals of the site and the service each is for. *)
Definition principal_keys : list (string * string) :=
  [ ("hbase.master.kerberos.principal", "hbase");
    ("hbase.regionserver.kerberos.principal", "hbase");
    ("hbase.rest.kerberos.principal", "HTTP");
    ("hbase.rest.authentication.kerberos.principal", "HTTP") ].

(** ** Properties *)

(** C28: whatever the root directory is, every keytab, Kerberos configuration,
    keystore and trust store the settings point to is a file of a directory
    that [GetVolumeMounts] mounts, and the mounts are those of the volumes
    [GetVolumes] declares, name by name. *)
Theorem krb5_files_are_mounted c :
  (∀ k, k ∈ keytab_keys → ∃ p, GetHbaseSite c !! k = Some p ∧ file_in KerberosDir p) ∧
  (∀ k p, (k, p) ∈ map_to_list (GetJVMOPTS c) → file_in KerberosDir p) ∧
  (∃ p, GetHbaseSite c !! "hbase.rest.ssl.keystore.store" = Some p ∧ file_in TlsStoreDir p) ∧
  (∀ k, k ∈ ["ssl.server.truststore.location"; "ssl.server.keystore.location"] →
     ∃ p, GetSSLServerSttings c !! k = Some p ∧ file_in TlsStoreDir p) ∧
  (∃ p, GetSSLClientSettings c !! "ssl.client.truststore.location" = Some p ∧
     file_in TlsStoreDir p) ∧
  GetVolumeMounts c = [VolumeMount.mk "kerberos" KerberosDir; VolumeMount.mk "tls" TlsStoreDir] ∧
  Volume.Name <$> GetVolumes c = VolumeMount.Name <$> GetVolumeMounts c.
Proof.
  destruct kerberos_files as [Hconf Htab], tls_files as [Htrust Hkey].
  split_and!; try reflexivity.
  - intros k Hk. exists KetytabFile. split; [|done].
    repeat (apply elem_of_cons in Hk as [->|Hk]; [reflexivity|]). by apply elem_of_nil in Hk.
  - intros k p Hp. unfold GetJVMOPTS in Hp. rewrite map_to_list_singleton in Hp.
    apply list_elem_of_singleton in Hp. by simplify_eq.
  - exists KeystoreFile. by split.
  - intros k Hk. apply elem_of_cons in Hk as [->|Hk]; [by exists TrustoreFile|].
    apply list_elem_of_singleton in Hk as ->. by exists KeystoreFile.
  - exists TrustoreFile. by split.
Qed.

(** The password the [tls] volume's PKCS12 stores are made with is the
    password every SSL setting that opens one of them gives. *)
Theorem tls_password_agrees c :
  ∃ v, volume_named c "tls" = Some v ∧
    volume_annotation v "secrets.kubedoop.dev/format" = Some "tls-p12" ∧
    let password := volume_annotation v "secrets.kubedoop.dev/tlsPKCS12Password" in
    password ≠ None ∧
    GetSSLServerSttings c !! "ssl.server.truststore.password" = password ∧
    GetSSLServerSttings c !! "ssl.server.keystore.password" = password ∧
    GetSSLClientSettings c !! "ssl.client.truststore.password" = password ∧
    GetHbaseSite c !! "hbase.rest.ssl.keystore.password" = password.
Proof. eexists. split_and!; reflexivity || done. Qed.

(** C29: every principal of the secured site is [service/cluster.namespace.svc.cluster.local]
    in the realm placeholder, the service is one the [kerberos] volume asks a
    key for, and the volume is scoped to the cluster the principal's host names. *)
Theorem principals_have_keys c k service (Hk : (k, service) ∈ principal_keys) :
  GetHbaseSite c !! k = Some (service +:+ "/" +:+ HbaseKerberosConfig.ClusterName c +:+ "." +:+
    HbaseKerberosConfig.Namespace c +:+ ".svc.cluster.local@${env.KERBEROS_REALM}") ∧
  ∃ v names, volume_named c "kerberos" = Some v ∧
    volume_annotation v "secrets.kubedoop.dev/kerberosServiceNames" = Some names ∧
    service ∈ Split names ","%char ∧
    volume_annotation v "secrets.kubedoop.dev/scope" =
      Some ("service=" +:+ HbaseKerberosConfig.ClusterName c).
Proof.
  assert (∀ s, getPrincipal c s = s +:+ "/" +:+ HbaseKerberosConfig.ClusterName c +:+ "." +:+
    HbaseKerberosConfig.Namespace c +:+ ".svc.cluster.local@${env.KERBEROS_REALM}") as Hp.
  { intros s. unfold getPrincipal. by autorewrite with go_string. }
  assert (GetHbaseSite c !! k = Some (getPrincipal c service) ∧ service ∈ ["HTTP"; "hbase"])
    as [Hsite Hs].
  { repeat (apply elem_of_cons in Hk as [Hk|Hk];
      [simplify_eq; split; [reflexivity|by apply (bool_decide_unpack _)]|]).
    by apply elem_of_nil in Hk. }
  rewrite <-Hp. split; [done|]. do 2 eexists. split_and!; try reflexivity. done.
Qed.

(** The discovery configuration has no principal of the master under the
    name HBase reads: its key is misspelt.  The principal it gives for the REST
    server is not the one the REST server runs with. *)
Theorem discovery_config_disagrees c :
  GetDiscoveryConfig c !! "hbase.master.kerberos.principal" = None ∧
  GetDiscoveryConfig c !! "hbase.maser.kerberos.principal" =
    GetHbaseSite c !! "hbase.master.kerberos.principal" ∧
  GetDiscoveryConfig c !! "hbase.regionserver.kerberos.principal" =
    GetHbaseSite c !! "hbase.regionserver.kerberos.principal" ∧
  GetDiscoveryConfig c !! "hbase.rest.kerberos.principal" ≠
    GetHbaseSite c !! "hbase.rest.kerberos.principal".
Proof.
  split_and!; [reflexivity..|].
  change (Some (getPrincipal c "hbase") ≠ Some (getPrincipal c "HTTP")).
  unfold getPrincipal. intros Heq. discriminate Heq.
Qed.
End krb5.

Example principals_have_keys_witness :
  let c := NewHbaseKerberosConfig "ns" "hb" "restserver" "default" "kerberos" "tls" in
  GetHbaseSite c !! "hbase.rest.kerberos.principal" =
    Some "HTTP/hb.ns.svc.cluster.local@${env.KERBEROS_REALM}".
Proof.
  intros c.
  destruct (principals_have_keys c "hbase.rest.kerberos.principal" "HTTP") as [Hs _];
    [by apply (bool_decide_unpack _)|]. exact Hs.
Defined.
