(* ===== verification/Oidc.v ===== *)
(** * The OIDC proxy side-car: [internal/controller/authz/oidc.go] *)

From S2P Require Import Prelude GoStrings GoEncoding GoUrl K8s OperatorGo Fakes Api.

Section oidc_data.
Context `{!Platform}.

Definition OidcContainerPort : ContainerPort.t := ContainerPort.mk "oidc" 4180 ProtocolTCP.
End oidc_data.

(** [Oidc] and [OidcProvider] are pointers that [NewOidc]'s only caller has
    checked; [o.Oidc.ExtraScopes] dereferences them. *)
Module Oidc.
Record t `{!Platform} := mk {
  Image : Image.t ImageRest;
  ClusterUid : string;
  UpstreamPort : Z;
  Oidc : option OidcSpec.t;
  OidcProvider : option OIDCProvider.t
}.
Arguments mk {_} _ _ _ _ _.
End Oidc.

Section oidc.
Context `{!Platform}.

Definition NewOidc (clusterUid : string) (image : Image.t ImageRest) (upstreamPort : Z)
  (oidc : option OidcSpec.t) (oidcProvider : option OIDCProvider.t) : Oidc.t :=
  Oidc.mk image clusterUid upstreamPort oidc oidcProvider.

Definition getCommands (o : Oidc.t) : list string :=
  [ "sh"; "-c"; "/kubedoop/oauth2-proxy/oauth2-proxy --upstream=${UPSTREAM}" ].

Definition scopes (extra : option (list string)) : list string :=
  let scopes := ["openid"; "email"; "profile"] in
  match extra with Some l => scopes ++ l | None => scopes end.

Definition issuer (p : OIDCProvider.t) : URL.t :=
  let host :=
    if decide (OIDCProvider.Port p ≠ 0 ∧ OIDCProvider.Port p ≠ 80)%Z
    then OIDCProvider.Hostname p +:+ ":" +:+ Itoa (OIDCProvider.Port p)
    else OIDCProvider.Hostname p in
  URL.mk "http" host (OIDCProvider.RootPath p).

Definition provider_hint (p : OIDCProvider.t) : string :=
  if decide (OIDCProvider.ProviderHint p = "keycloak") then "keycloak-oidc"
  else OIDCProvider.ProviderHint p.

(** [base64(base64(hex(sha256(uid))[:16]))]. *)
Definition cookie_secret (clusterUid : string) : string :=
  let hash := Sum256 (bytes_of_string clusterUid) in
  let hashStr := HexEncode hash in
  let tokenBytes := take 16 hashStr in
  string_of_bytes (B64Encode (bytes_of_string (string_of_bytes (B64Encode tokenBytes)))).

Definition env_value (name value : string) : EnvVar.t := EnvVar.mk name value None.

Definition env_secret (name secret key : string) : EnvVar.t :=
  EnvVar.mk name "" (Some (EnvVarSource.mk None (Some (SecretKeySelector.mk secret key)))).

Definition env_field (name path : string) : EnvVar.t :=
  EnvVar.mk name "" (Some (EnvVarSource.mk (Some (ObjectFieldSelector.mk path)) None)).

Definition getEnvVars (o : Oidc.t) : outcome (list EnvVar.t) :=
  do oidc <- deref (Oidc.Oidc o);;
  do provider <- deref (Oidc.OidcProvider o);;
  let clientCredentialsSecretName := OidcSpec.ClientCredentialsSecret oidc in
  Ok [
    env_value "OAUTH2_PROXY_COOKIE_SECRET" (cookie_secret (Oidc.ClusterUid o));
    env_secret "OAUTH2_PROXY_CLIENT_ID" clientCredentialsSecretName "CLIENT_ID";
    env_secret "OAUTH2_PROXY_CLIENT_SECRET" clientCredentialsSecretName "CLIENT_SECRET";
    env_field "POD_IP" "status.podIP";
    env_value "OAUTH2_PROXY_OIDC_ISSUER_URL" (URLString (issuer provider));
    env_value "OAUTH2_PROXY_SCOPE" (Join (scopes (OidcSpec.ExtraScopes oidc)) " ");
    env_value "OAUTH2_PROXY_PROVIDER" (provider_hint provider);
    env_value "UPSTREAM" ("http://$(POD_IP):" +:+ Itoa (Oidc.UpstreamPort o));
    env_value "OAUTH2_PROXY_HTTP_ADDRESS"
      ("0.0.0.0:" +:+ Itoa (ContainerPort.ContainerPort OidcContainerPort));
    env_value "OAUTH2_PROXY_REDIRECT_URL" "http://localhost:4180/oauth2/callback";
    env_value "OAUTH2_PROXY_CODE_CHALLENGE_METHOD" "S256";
    env_value "OAUTH2_PROXY_EMAIL_DOMAINS" "*" ].

Definition GetContainer `{!Builders} (o : Oidc.t) : outcome Container.t :=
  let container := NewContainer "oidc" (Oidc.Image o) in
  do env <- getEnvVars o;;
  Ok (BuildContainer
        (AddPorts (SetCommand (AddEnvVars container env) (getCommands o)) [OidcContainerPort])).

(** ** Lemmas *)

(** The first binding of a name in a container's environment. *)
Definition env_get (l : list EnvVar.t) (name : string) : option EnvVar.t :=
  snd <$> list_find (λ e, EnvVar.Name e = name) l.

Lemma cookie_token_length uid :
  length (take 16 (HexEncode (Sum256 (bytes_of_string uid)))) = 16.
Proof. rewrite length_take, length_HexEncode, length_Sum256. lia. Qed.

Lemma cookie_token_is_byte uid :
  Forall is_byte (take 16 (HexEncode (Sum256 (bytes_of_string uid)))).
Proof. apply Forall_take, HexEncode_is_byte, Sum256_is_byte. Qed.

(** The text of a variable whose value is given as it is, and where a variable stands. *)
Definition env_text (l : list EnvVar.t) (name : string) : option string :=
  e ← env_get l name; match EnvVar.ValueFrom e with None => Some (EnvVar.Value e) | Some _ => None end.

Definition env_index (l : list EnvVar.t) (name : string) : option nat :=
  fst <$> list_find (λ e, EnvVar.Name e = name) l.

Lemma cookie_secret_decodes uid :
  String.length (cookie_secret uid) = 32 ∧
  (B64Decode (bytes_of_string (cookie_secret uid)) ≫= B64Decode) =
    Some (take 16 (HexEncode (Sum256 (bytes_of_string uid)))).
Proof.
  unfold cookie_secret. pose proof (cookie_token_is_byte uid) as Htok.
  pose proof (B64Encode_is_byte _ Htok) as Hb64.
  rewrite (bytes_of_string_of_bytes (B64Encode (take 16 _))) by done. split.
  - rewrite length_string_of_bytes, !length_B64Encode, cookie_token_length. done.
  - rewrite bytes_of_string_of_bytes by (by apply B64Encode_is_byte).
    rewrite B64_roundtrip by done. simpl. by apply B64_roundtrip.
Qed.

(** A provider whose host name and root path need no escaping, and whose path is
    absolute. *)
Definition plain_provider (p : OIDCProvider.t) : Prop :=
  (OIDCProvider.Hostname p ≠ "" ∧ plain encodeHost (OIDCProvider.Hostname p) = true) ∧
  rooted (OIDCProvider.RootPath p) = true ∧ plain encodePath (OIDCProvider.RootPath p) = true.

Lemma issuer_text p :
  plain_provider p →
  URLString (issuer p) =
    "http://" +:+ OIDCProvider.Hostname p +:+
    (if decide (OIDCProvider.Port p = 0 ∨ OIDCProvider.Port p = 80)%Z then ""
     else ":" +:+ Itoa (OIDCProvider.Port p)) +:+ OIDCProvider.RootPath p.
Proof.
  intros [[Hne Hh] [Hr Hp]]. unfold issuer.
  assert (OIDCProvider.RootPath p ≠ "*") as Hstar by (intros Heq; by rewrite Heq in Hr).
  destruct (decide (OIDCProvider.Port p = 0 ∨ OIDCProvider.Port p = 80)%Z) as [Hport|Hport].
  - rewrite decide_False by lia. rewrite URLString_absolute by done.
    rewrite decide_True by auto. rewrite !escape_plain by done.
    by autorewrite with go_string.
  - rewrite decide_True by lia. rewrite URLString_absolute; [|done| |done].
    2:{ by destruct (OIDCProvider.Hostname p). }
    rewrite decide_True by auto. rewrite !escape_plain; [|done|].
    + by autorewrite with go_string.
    + rewrite !plain_app, Hh, plain_Itoa. done.
Qed.

Lemma scopes_split extra :
  Forall (λ s, has " "%char s = false) (default [] extra) →
  Split (Join (scopes extra) " ") " "%char = ["openid"; "email"; "profile"] ++ default [] extra.
Proof.
  intros Hspace. assert (scopes extra = ["openid"; "email"; "profile"] ++ default [] extra) as ->.
  { unfold scopes. by destruct extra. }
  apply Split_Join; [done|]. by repeat (apply Forall_cons; split).
Qed.

(** ** Properties *)




(** C27: the side-car's environment read back.  Without the cluster's OIDC settings or a
    provider making it panics.  Otherwise it has twelve distinct variables: the
    client id and secret come from the two keys of the configured secret; the cookie
    secret has 32 bytes and decodes twice to the first 16 hex digits of the hash of
    the cluster's UID; the issuer is the provider's URL; the scopes split back into
    the default and the extra ones; the provider is the hint, [keycloak] spelt
    [keycloak-oidc]; the upstream is the given port of the pod's own address, which
    is read from the pod's status by a variable that stands before it, as Kubernetes
    expands only variables defined earlier; the proxy listens on, and is redirected
    to, the port its container declares; the code challenge is S256 and every e-mail
    domain is let in. *)
Theorem sidecar_environment o :
  match Oidc.Oidc o, Oidc.OidcProvider o with
  | Some oidc, Some provider =>
      ∃ env cookie scope, getEnvVars o = Ok env ∧ length env = 12 ∧ NoDup (EnvVar.Name <$> env) ∧
      (let secret := OidcSpec.ClientCredentialsSecret oidc in
       env_get env "OAUTH2_PROXY_CLIENT_ID" =
         Some (env_secret "OAUTH2_PROXY_CLIENT_ID" secret "CLIENT_ID") ∧
       env_get env "OAUTH2_PROXY_CLIENT_SECRET" =
         Some (env_secret "OAUTH2_PROXY_CLIENT_SECRET" secret "CLIENT_SECRET")) ∧
      (env_text env "OAUTH2_PROXY_COOKIE_SECRET" = Some cookie ∧ String.length cookie = 32 ∧
       (B64Decode (bytes_of_string cookie) ≫= B64Decode) =
         Some (take 16 (HexEncode (Sum256 (bytes_of_string (Oidc.ClusterUid o)))))) ∧
      (env_text env "OAUTH2_PROXY_OIDC_ISSUER_URL" = Some (URLString (issuer provider)) ∧
       (plain_provider provider →
        env_text env "OAUTH2_PROXY_OIDC_ISSUER_URL" = Some ("http://" +:+
          OIDCProvider.Hostname provider +:+
          (if decide (OIDCProvider.Port provider = 0 ∨ OIDCProvider.Port provider = 80)%Z then ""
           else ":" +:+ Itoa (OIDCProvider.Port provider)) +:+ OIDCProvider.RootPath provider))) ∧
      (env_text env "OAUTH2_PROXY_SCOPE" = Some scope ∧
       (Forall (λ s, has " "%char s = false) (default [] (OidcSpec.ExtraScopes oidc)) →
        Split scope " "%char =
          ["openid"; "email"; "profile"] ++ default [] (OidcSpec.ExtraScopes oidc))) ∧
      env_text env "OAUTH2_PROXY_PROVIDER" =
        Some (if decide (OIDCProvider.ProviderHint provider = "keycloak") then "keycloak-oidc"
              else OIDCProvider.ProviderHint provider) ∧
      (env_get env "POD_IP" = Some (env_field "POD_IP" "status.podIP") ∧
       env_text env "UPSTREAM" = Some ("http://$(POD_IP):" +:+ Itoa (Oidc.UpstreamPort o)) ∧
       ∃ i j, env_index env "POD_IP" = Some i ∧ env_index env "UPSTREAM" = Some j ∧ i < j) ∧
      (let port := Itoa (ContainerPort.ContainerPort OidcContainerPort) in
       env_text env "OAUTH2_PROXY_HTTP_ADDRESS" = Some ("0.0.0.0:" +:+ port) ∧
       env_text env "OAUTH2_PROXY_REDIRECT_URL" =
         Some ("http://localhost:" +:+ port +:+ "/oauth2/callback")) ∧
      env_text env "OAUTH2_PROXY_CODE_CHALLENGE_METHOD" = Some "S256" ∧
      env_text env "OAUTH2_PROXY_EMAIL_DOMAINS" = Some "*"
  | _, _ => getEnvVars o = Panic nil_deref
  end.
Proof.
  unfold getEnvVars.
  destruct (Oidc.Oidc o) as [oidc|]; [|done]. destruct (Oidc.OidcProvider o) as [provider|]; [|done].
  cbn [deref mbind outcome_bind]. do 3 eexists. split; [reflexivity|].
  split; [done|]. split; [by apply (bool_decide_unpack _)|].
  split; [done|]. split; [split; [reflexivity|apply cookie_secret_decodes]|].
  split; [split; [reflexivity|intros Hp; by rewrite <-(issuer_text _ Hp)]|].
  split; [split; [reflexivity|apply scopes_split]|]. split; [reflexivity|].
  split; [|by repeat split]. split; [reflexivity|]. split; [reflexivity|].
  do 2 eexists. do 2 (split; [reflexivity|]). cbn; lia.
Qed.
End oidc.

(** ** Witnesses *)
Definition sample_provider (port : Z) : OIDCProvider.t :=
  OIDCProvider.mk "keycloak.test.svc.cluster.local" port "/realms/kubedoop" "keycloak".

Definition sample_oidc : Oidc.t :=
  NewOidc "uid" (Image.mk "" (("hbase", "2.6.1"), ImageOptions.mk "" "" "")) 16010
    (Some (OidcSpec.mk "oidc-credentials" (Some ["groups"]))) (Some (sample_provider 8443)).



Example sidecar_environment_witness :
  ∃ env, getEnvVars sample_oidc = Ok env ∧ NoDup (EnvVar.Name <$> env) ∧
    env_text env "OAUTH2_PROXY_OIDC_ISSUER_URL" =
      Some "http://keycloak.test.svc.cluster.local:8443/realms/kubedoop" ∧
    env_text env "OAUTH2_PROXY_PROVIDER" = Some "keycloak-oidc".
Proof.
  destruct (sidecar_environment sample_oidc)
    as (env & cookie & scope & He & _ & Hnd & _ & _ & [_ Hi] & _ & Hp & _).
  exists env. split_and!; [exact He|exact Hnd| |exact Hp].
  assert (plain_provider (sample_provider 8443)) as Hplain by by split_and!.
  rewrite (Hi Hplain). reflexivity.
Defined.
