(* ===== verification/Service.v ===== *)
(** * Roles, ports and the metrics service

    Role names and metrics ports ([internal/constant/constant.go]), the
    container ports of the three roles ([internal/controller/*/ports.go]), and
    the headless metrics service of a role group
    ([internal/controller/common/service.go], [internal/util/util.go]). *)

From S2P Require Import Prelude GoStrings K8s OperatorGo Fakes.

(** ** internal/constant *)
Definition MASTER_ROLE : string := "master".
Definition REGIONSERVER_ROLE : string := "regionserver".
Definition RESTSERVER_ROLE : string := "restserver".

Definition HBASE_METRICS_PORT_NAME : string := "metrics".
Definition HBASE_MASTER_METRICS_PORT : Z := 16010.
Definition HBASE_REGIONSERVER_METRICS_PORT : Z := 16030.
Definition HBASE_REST_METRICS_PORT : Z := 8085.

(** ** The ports of each role's containers *)
Module MasterPorts.
Definition Ports `{!Platform} : list ContainerPort.t :=
  [ ContainerPort.mk "master" 16000 ProtocolTCP;
    ContainerPort.mk "ui-http" 16010 ProtocolTCP ].
End MasterPorts.

Module RegionServerPorts.
Definition Ports `{!Platform} : list ContainerPort.t :=
  [ ContainerPort.mk "regionserver" 16020 ProtocolTCP;
    ContainerPort.mk "ui-http" 16030 ProtocolTCP;
    ContainerPort.mk "metrics" 9100 ProtocolTCP ].
End RegionServerPorts.

Module RestServerPorts.
Definition Ports `{!Platform} : list ContainerPort.t :=
  [ ContainerPort.mk "rest-http" 8080 ProtocolTCP;
    ContainerPort.mk "ui-http" 8085 ProtocolTCP;
    ContainerPort.mk "metrics" 9100 ProtocolTCP ].
End RestServerPorts.

(** ** Metrics *)
Definition GetMetricsPort (roleName : string) : outcome Z :=
  if decide (roleName = MASTER_ROLE) then Ok HBASE_MASTER_METRICS_PORT
  else if decide (roleName = REGIONSERVER_ROLE) then Ok HBASE_REGIONSERVER_METRICS_PORT
  else if decide (roleName = RESTSERVER_ROLE) then Ok HBASE_REST_METRICS_PORT
  else Err (GoError ("unknown role name: " +:+ roleName)).

(** [err.Error()]. *)
Definition error_text (e : error) : string :=
  match e with GoError s => s | ExtError s => s end.

(** What [builder.NewServiceBuilder] is called with. *)
Module ServiceBuilder.
Record t `{!Platform} := mk {
  Client : Client.t CtrlClient;
  Name : string;
  Ports : list ContainerPort.t;
  Options : list (ServiceBuilderOptions.t → ServiceBuilderOptions.t)
}.
Arguments mk {_} _ _ _ _.
End ServiceBuilder.

Section service.
Context `{!Platform, !MapRange}.

Definition CreateServiceMetricsName (roleGroupInfo : RoleGroupInfo.t) : string :=
  GetFullName roleGroupInfo +:+ "-metrics".

(** The labels and annotations of the role group with those Prometheus reads. *)
Definition metrics_labels (i : RoleGroupInfo.t) : gmap string string :=
  let labels := map_copy (GetLabels i) ∅ in
  <["prometheus.io/scrape" := "true"]> labels.

Definition metrics_annotations (i : RoleGroupInfo.t) (metricsPort : Z) (scheme : string)
  : gmap string string :=
  let annotations := map_copy (GetAnnotations i) ∅ in
  let annotations := <["prometheus.io/scrape" := "true"]> annotations in
  let annotations := <["prometheus.io/path" := "/prometheus"]> annotations in
  let annotations := <["prometheus.io/port" := Itoa metricsPort]> annotations in
  <["prometheus.io/scheme" := scheme]> annotations.

Definition NewRoleGroupMetricsService (client : Client.t CtrlClient)
  (roleGroupInfo : RoleGroupInfo.t) : outcome ServiceBuilder.t :=
  let roleName := GetRoleName roleGroupInfo in
  match GetMetricsPort roleName with
  | Ok metricsPort =>
      let servicePorts :=
        [ ContainerPort.mk HBASE_METRICS_PORT_NAME metricsPort ProtocolTCP ] in
      let serviceName := CreateServiceMetricsName roleGroupInfo in
      let scheme := "http" in
      let labels := metrics_labels roleGroupInfo in
      let annotations := metrics_annotations roleGroupInfo metricsPort scheme in
      Ok (ServiceBuilder.mk client serviceName servicePorts
        [ λ sbo, ServiceBuilderOptions.mk true ClusterInternal
                   (ServiceBuilderOptions.ClusterName sbo) (ServiceBuilderOptions.RoleName sbo)
                   (ServiceBuilderOptions.RoleGroupName sbo)
                   labels (GetLabels roleGroupInfo) annotations ])
  | Err err =>
      Panic ("role " +:+ roleName +:+ " failed to get metrics port: " +:+ error_text err)
  | Panic m => Panic m
  end.

(** ** Lemmas *)

(** The container ports of a role, by the role's name. *)
Definition role_ports (roleName : string) : option (list ContainerPort.t) :=
  if decide (roleName = MASTER_ROLE) then Some MasterPorts.Ports
  else if decide (roleName = REGIONSERVER_ROLE) then Some RegionServerPorts.Ports
  else if decide (roleName = RESTSERVER_ROLE) then Some RestServerPorts.Ports
  else None.

Definition port_named (ports : list ContainerPort.t) (name : string) : option Z :=
  ContainerPort.ContainerPort ∘ snd <$> list_find (λ p, ContainerPort.Name p = name) ports.

Lemma GetMetricsPort_cases roleName :
  (∃ p ports, GetMetricsPort roleName = Ok p ∧ role_ports roleName = Some ports ∧
     port_named ports "ui-http" = Some p ∧ roleName ∈ [MASTER_ROLE; REGIONSERVER_ROLE; RESTSERVER_ROLE]) ∨
  (GetMetricsPort roleName = Err (GoError ("unknown role name: " +:+ roleName)) ∧
   role_ports roleName = None ∧ roleName ∉ [MASTER_ROLE; REGIONSERVER_ROLE; RESTSERVER_ROLE]).
Proof.
  unfold GetMetricsPort, role_ports.
  destruct (decide (roleName = MASTER_ROLE)) as [->|H1];
    [left; do 2 eexists; split_and!; try reflexivity; by apply (bool_decide_unpack _)|].
  destruct (decide (roleName = REGIONSERVER_ROLE)) as [->|H2];
    [left; do 2 eexists; split_and!; try reflexivity; by apply (bool_decide_unpack _)|].
  destruct (decide (roleName = RESTSERVER_ROLE)) as [->|H3];
    [left; do 2 eexists; split_and!; try reflexivity; by apply (bool_decide_unpack _)|].
  right. split_and!; [done..|]. rewrite !not_elem_of_cons. auto using not_elem_of_nil.
Qed.

Lemma metrics_labels_eq i :
  metrics_labels i = <["prometheus.io/scrape" := "true"]> (GetLabels i).
Proof. unfold metrics_labels. by rewrite map_copy_union, map_union_empty. Qed.

Lemma metrics_annotations_lookup i p scheme k :
  metrics_annotations i p scheme !! k =
    match (list_to_map [("prometheus.io/scheme", scheme); ("prometheus.io/port", Itoa p);
                        ("prometheus.io/path", "/prometheus");
                        ("prometheus.io/scrape", "true")] : gmap string string) !! k with
    | Some v => Some v
    | None => GetAnnotations i !! k
    end.
Proof.
  unfold metrics_annotations. rewrite map_copy_union, map_union_empty. simpl.
  rewrite !lookup_insert, lookup_empty. by repeat case_decide.
Qed.

(** ** Properties *)

(** The metrics port of a role is the port its containers call [ui-http]:
    [GetMetricsPort] returns it for the three roles and an error for every other name. *)
Theorem metrics_port_is_ui_port roleName p :
  (GetMetricsPort roleName = Ok p ↔
     ∃ ports, role_ports roleName = Some ports ∧ port_named ports "ui-http" = Some p) ∧
  (role_ports roleName = None ↔
     GetMetricsPort roleName = Err (GoError ("unknown role name: " +:+ roleName))).
Proof.
  destruct (GetMetricsPort_cases roleName)
    as [(q & ports & -> & Hr & Hu & _)|(-> & Hr & _)]; rewrite Hr; naive_solver.
Qed.

(** C30: the metrics service panics exactly on an unknown role name; otherwise it
    is a headless service of the role group's client, named after the role group,
    with one port [metrics] and the role group's own labels as its selector.  Its
    labels are the role group's with [prometheus.io/scrape]; its annotations
    tell Prometheus to scrape the port's number at [/prometheus] over http,
    whatever the role group says under these four keys, and are the role group's under
    every other key; all this whatever the order the maps are iterated in. *)
Theorem metrics_service_spec `{!PlatformLaws} client i :
  let role := RoleInfo.RoleName (RoleGroupInfo.RoleInfo i) in
  match NewRoleGroupMetricsService client i with
  | Ok s => ∃ p, GetMetricsPort role = Ok p ∧ ServiceBuilder.Client s = client ∧
      ServiceBuilder.Name s = GetFullName i +:+ "-metrics" ∧
      ServiceBuilder.Ports s = [ContainerPort.mk "metrics" p ProtocolTCP] ∧
      ∀ d, let o := foldl (λ o f, f o) d (ServiceBuilder.Options s) in
        ServiceBuilderOptions.Headless o = true ∧
        ServiceBuilderOptions.ListenerClass o = ClusterInternal ∧
        ServiceBuilderOptions.MatchingLabels o = GetLabels i ∧
        ServiceBuilderOptions.Labels o = <["prometheus.io/scrape" := "true"]> (GetLabels i) ∧
        ServiceBuilderOptions.Annotations o !! "prometheus.io/scrape" = Some "true" ∧
        ServiceBuilderOptions.Annotations o !! "prometheus.io/path" = Some "/prometheus" ∧
        ServiceBuilderOptions.Annotations o !! "prometheus.io/port" = Some (Itoa p) ∧
        ServiceBuilderOptions.Annotations o !! "prometheus.io/scheme" = Some "http" ∧
        ∀ k, k ∉ ["prometheus.io/scrape"; "prometheus.io/path"; "prometheus.io/port";
                  "prometheus.io/scheme"] →
          ServiceBuilderOptions.Annotations o !! k = GetAnnotations i !! k
  | Err _ => False
  | Panic m => (role ∉ [MASTER_ROLE; REGIONSERVER_ROLE; RESTSERVER_ROLE]) ∧
      m = ("role " +:+ role +:+ " failed to get metrics port: unknown role name: " +:+ role)
  end.
Proof.
  intros role. unfold NewRoleGroupMetricsService. rewrite GetRoleName_law. fold role.
  destruct (GetMetricsPort_cases role) as [(p & ports & Hp & _)|(Hp & _ & Hni)]; rewrite Hp.
  - exists p. split_and!; [done..|]. intros d. cbn.
    split_and!; try done; [apply metrics_labels_eq|by rewrite metrics_annotations_lookup..|].
    intros k Hk. rewrite metrics_annotations_lookup. rewrite !not_elem_of_cons in Hk.
    destruct Hk as (? & ? & ? & ? & _). simpl.
    by rewrite !lookup_insert_ne, lookup_empty by congruence.
  - split; [done|]. done.
Qed.

(** The container port called [metrics] is not where the metrics are: on the
    region server and the REST server it is 9100, another port than the metrics
    service's, and the master declares no port of that name. *)
Theorem metrics_container_port_disagrees :
  port_named RegionServerPorts.Ports HBASE_METRICS_PORT_NAME = Some 9100%Z ∧
  GetMetricsPort REGIONSERVER_ROLE = Ok 16030%Z ∧
  port_named RestServerPorts.Ports HBASE_METRICS_PORT_NAME = Some 9100%Z ∧
  GetMetricsPort RESTSERVER_ROLE = Ok 8085%Z ∧
  port_named MasterPorts.Ports HBASE_METRICS_PORT_NAME = None ∧
  GetMetricsPort MASTER_ROLE = Ok 16010%Z.
Proof. done. Qed.
End service.

Example metrics_service_spec_witness :
  let i := RoleGroupInfo.mk (RoleInfo.mk (ClusterInfo.mk None "hb") "master") "default" in
  ∃ s, @NewRoleGroupMetricsService _ range_backward (fake_client ∅ ∅) i = Ok s ∧
    ServiceBuilder.Name s = "hb-master-default-metrics" ∧
    ServiceBuilder.Ports s = [ContainerPort.mk "metrics" 16010 "TCP"].
Proof.
  intros i. eexists. split; [reflexivity|].
  destruct (@metrics_service_spec _ range_backward _ (fake_client ∅ ∅) i)
    as (p & Hp & _ & Hn & Hports & _).
  split; [exact Hn|]. rewrite Hports. by injection Hp as <-.
Defined.
