(* ===== verification/ConfigMap.v ===== *)
(** * The config map of a role group: [internal/controller/common/configmap.go]

    [ConfigMapBuilder] embeds operator-go's builder and adds the HBase files to
    it one by one; [ConfigMapReconciler.Reconcile] runs the additions in order,
    stopping at the first error.  Log lines are left out. *)

From S2P Require Import Prelude GoStrings K8s OperatorGo Fakes Api Zookeeper Krb5.

Definition HbaseKey : string := "hbase-site.xml".
Definition LogKey : string := "log4j.properties".
Definition SSLClientFileName : string := "ssl-client.xml".
Definition SSLServerFileName : string := "ssl-server.xml".

Module ConfigMapBuilder.
Record t `{!Platform, !Builders} := mk {
  base : ConfigMapBase;
  LoggingConfig : option LoggingConfigSpec;
  VectorConfigMapName : string;
  ClusterName : string;
  RoleName : string;
  RolegroupName : string;
  krb5Config : option HbaseKerberosConfig.t
}.
Arguments mk {_ _} _ _ _ _ _ _ _.
End ConfigMapBuilder.

Section configmap.
Context `{!Platform, !Builders, !MapRange}.
Implicit Type b : ConfigMapBuilder.t.

(** Run the [options] on a zero [builder.Options]. *)
Definition apply_options (options : list (Options.t → Options.t)) : Options.t :=
  foldl (λ o f, f o) Options.zero options.

(** Kerberos is configured when both secret classes are named. *)
Definition new_krb5Config (client : Client.t CtrlClient) (o : Options.t)
  (krb5SecretClass tlsSecretClass : string) : option HbaseKerberosConfig.t :=
  if decide (krb5SecretClass ≠ "" ∧ tlsSecretClass ≠ "") then
    Some (NewHbaseKerberosConfig (GetOwnerNamespace client) (Options.ClusterName o)
            (Options.RoleName o) (Options.RoleGroupName o) krb5SecretClass tlsSecretClass)
  else None.

Definition NewConfigMapBuilder (client : Client.t CtrlClient) (name : string)
  (loggingConfig : option LoggingConfigSpec)
  (vectorConfigMapName krb5SecretClass tlsSecretClass : string)
  (options : list (Options.t → Options.t)) : ConfigMapBuilder.t :=
  let builderOptions := apply_options options in
  let krb5Config := new_krb5Config client builderOptions krb5SecretClass tlsSecretClass in
  ConfigMapBuilder.mk
    (NewConfigMapBase client name
       [ λ o, Options.mk (Options.ClusterName o) (Options.RoleName o) (Options.RoleGroupName o)
                (Options.Labels builderOptions) (Options.Annotations builderOptions) ])
    loggingConfig vectorConfigMapName
    (Options.ClusterName builderOptions) (Options.RoleName builderOptions)
    (Options.RoleGroupName builderOptions) krb5Config.

(** The embedded builder's methods, on the outer builder. *)
Definition set_base (base : ConfigMapBase) b : ConfigMapBuilder.t :=
  ConfigMapBuilder.mk base (ConfigMapBuilder.LoggingConfig b)
    (ConfigMapBuilder.VectorConfigMapName b) (ConfigMapBuilder.ClusterName b)
    (ConfigMapBuilder.RoleName b) (ConfigMapBuilder.RolegroupName b)
    (ConfigMapBuilder.krb5Config b).

Definition b_AddData (m : gmap string string) : M ConfigMapBuilder.t unit :=
  modify (λ b, set_base (OperatorGo.AddData (ConfigMapBuilder.base b) m) b).
Definition b_AddItem (k v : string) : M ConfigMapBuilder.t unit :=
  modify (λ b, set_base (AddItem (ConfigMapBuilder.base b) k v) b).
Definition b_Build : M ConfigMapBuilder.t ConfigMapObject :=
  on_part ConfigMapBuilder.base set_base BuildConfigMap.

(** *** hbase-env.sh *)
Definition getJVMOPTS b : string :=
  let opts :=
    match ConfigMapBuilder.krb5Config b with
    | Some c => (λ kv, "-D" +:+ kv.1 +:+ "=" +:+ kv.2) <$> map_range (GetJVMOPTS c)
    | None => []
    end in
  "export HBASE_" +:+ ConfigMapBuilder.RoleName b +:+ "_OPTS=" +:+ dq +:+ "$HBASE_OPTS "
    +:+ Join opts " " +:+ dq.

Definition AddHbaseENVSh : M ConfigMapBuilder.t unit :=
  do b <- get;;
  let jvmOpts := getJVMOPTS b in
  let hbaseENVSh := "
export HBASE_MANAGES_ZK=false
" +:+ jvmOpts +:+ "

" in
  b_AddData {[ "hbase-env.sh" := IndentTab4Spaces hbaseENVSh ]}.

(** *** log4j.properties *)
Definition AddLog4jProperties : M ConfigMapBuilder.t unit :=
  do b <- get;;
  do logGenerator <- lift (NewConfigGenerator (ConfigMapBuilder.LoggingConfig b)
    (ConfigMapBuilder.RoleName b) "hbase.log4j.xml" LogTypeLog4j
    [ λ _, ConfigGeneratorOption.mk (Some "%d{ISO8601} %-5p [%t] %c{2}: %.1000m%n") ]);;
  do s <- lift (Content logGenerator);;
  b_AddItem LogKey s.

(** *** ssl-client.xml, ssl-server.xml *)
Definition AddSSLClientXML : M ConfigMapBuilder.t unit :=
  do b <- get;;
  match ConfigMapBuilder.krb5Config b with
  | Some c =>
      let sslClientXML := NewXMLConfigurationFromMap (GetSSLClientSettings c) in
      do sslClientXMLXML <- lift (Marshal sslClientXML);;
      b_AddData {[ SSLClientFileName := sslClientXMLXML ]}
  | None => mret tt
  end.

Definition AddSSLServerXML : M ConfigMapBuilder.t unit :=
  do b <- get;;
  match ConfigMapBuilder.krb5Config b with
  | Some c =>
      let serverXML := NewXMLConfigurationFromMap (GetSSLServerSttings c) in
      do serverXMLXML <- lift (Marshal serverXML);;
      b_AddData {[ SSLServerFileName := serverXMLXML ]}
  | None => mret tt
  end.

(** *** hbase-site.xml *)
Definition hbaseSite b (quorum chroot clientPort : string) : XMLConfiguration :=
  let hbaseSite := NewXMLConfiguration in
  let hbaseSite := AddPropertyWithString hbaseSite "hbase.zookeeper.quorum" quorum "" in
  let hbaseSite := AddPropertyWithString hbaseSite "zookeeper.znode.parent" (chroot +:+ "/hbase") "" in
  let hbaseSite :=
    AddPropertyWithString hbaseSite "hbase.zookeeper.property.clientPort" clientPort "" in
  let hbaseSite := AddPropertyWithString hbaseSite "hbase.cluster.distributed" "true" "" in
  let hbaseSite := AddPropertyWithString hbaseSite "hbase.rootdir" "/hbase" "" in
  let hbaseSite := AddPropertyWithString hbaseSite
    "hbase.unsafe.regionserver.hostname.disable.master.reversedns" "true" "" in
  match ConfigMapBuilder.krb5Config b with
  | Some c => AddPropertiesWithMap hbaseSite (GetHbaseSite c)
  | None => hbaseSite
  end.

Definition AddHbaseSite (znode : ZnodeConfiguration.t) : M ConfigMapBuilder.t unit :=
  do b <- get;;
  do quorum <- lift (GetQuorum znode);;
  do chroot <- lift (GetChroot znode);;
  do clientPort <- lift (GetClientPort znode);;
  do hbaseSiteXML <- lift (Marshal (hbaseSite b quorum chroot clientPort));;
  b_AddData {[ HbaseKey := hbaseSiteXML ]}.

(** *** vector.yaml *)
Definition AddVectorConfig : M ConfigMapBuilder.t unit :=
  do b <- get;;
  if decide (ConfigMapBuilder.VectorConfigMapName b = "") then mret tt
  else
    let client := cm_Client (ConfigMapBuilder.base b) in
    do s <- lift (MakeVectorYaml (Client.Client client) (GetOwnerNamespace client)
      (ConfigMapBuilder.ClusterName b) (ConfigMapBuilder.RoleName b)
      (ConfigMapBuilder.RolegroupName b) (ConfigMapBuilder.VectorConfigMapName b));;
    b_AddItem VectorConfigFile s.
End configmap.

(** ** The reconciler *)
Module ConfigMapReconciler.
Record t `{!Platform, !Builders} := mk {
  Client : Client.t CtrlClient;
  Builder : ConfigMapBuilder.t;
  ClusterConfig : option ClusterConfigSpec.t
}.
Arguments mk {_ _} _ _ _.
End ConfigMapReconciler.

Section reconciler.
Context `{!Platform, !Builders, !MapRange}.
Implicit Type r : ConfigMapReconciler.t.

Definition GetZKZnodeConfig r : outcome ZnodeConfiguration.t :=
  do clusterConfig <- deref (ConfigMapReconciler.ClusterConfig r);;
  let name := ClusterConfigSpec.ZookeeperConfigMapName clusterConfig in
  do obj <- GetConfigMap (ConfigMapReconciler.Client r) name;;
  Ok (ZnodeConfiguration.mk obj).

(** [if err := c; err != nil { return ctrl.Result{}, err }], then [k]. *)
Definition check `{!Reconcilers} {S A} (c : M S A) (k : A → M S (Result * option error))
  : M S (Result * option error) := λ s,
  match c s with
  | (s', Ok a) => k a s'
  | (s', Err e) => (s', Ok (ZeroResult, Some e))
  | (s', Panic m) => (s', Panic m)
  end.

(** A call on the builder, in a state of the world and the builder. *)
Definition call `{!Reconcilers} {A} (c : M ConfigMapBuilder.t A)
  : M (World * ConfigMapBuilder.t) A :=
  on_part snd (λ b s, (fst s, b)) c.

Definition Reconcile `{!Reconcilers} r : M (World * ConfigMapBuilder.t) (Result * option error) :=
  check (lift (GetZKZnodeConfig r)) (λ znode,
  check (call (AddHbaseSite znode)) (λ _,
  check (call AddHbaseENVSh) (λ _,
  check (call AddLog4jProperties) (λ _,
  check (call AddSSLClientXML) (λ _,
  check (call AddSSLServerXML) (λ _,
  check (call AddVectorConfig) (λ _,
  check (call b_Build) (λ resource s,
    let '(w', res) := ResourceReconcile (ConfigMapReconciler.Client r) resource (fst s) in
    ((w', snd s), Ok res))))))))).

Definition NewConfigMapReconciler (client : Client.t CtrlClient)
  (clusterConfig : option ClusterConfigSpec.t) (loggingConfig : option LoggingConfigSpec)
  (options : RoleGroupInfo.t) : outcome ConfigMapReconciler.t :=
  do config <- deref clusterConfig;;
  let '(krb5SecretClass, tlsSecretClass) :=
    match ClusterConfigSpec.Authentication config with
    | Some a => (AuthenticationSpec.KerberosSecretClass a, AuthenticationSpec.TlsSecretClass a)
    | None => ("", "")
    end in
  let cmBuilder := NewConfigMapBuilder client (GetFullName options) loggingConfig
    (ClusterConfigSpec.VectorAggregatorConfigMapName config) krb5SecretClass tlsSecretClass
    [ λ _, Options.mk (GetClusterName options) (GetRoleName options) (GetGroupName options)
             (GetLabels options) (GetAnnotations options) ] in
  Ok (ConfigMapReconciler.mk client cmBuilder clusterConfig).
End reconciler.

(** ** Lemmas *)
Section lemmas.
Context `{!Platform, !Builders, !MapRange, !ConfigMapView, !ConfigMapLaws}.
Implicit Type b : ConfigMapBuilder.t.

(** The data added so far, and the rest of the builder, which no addition changes. *)
Definition data b : gmap string string := cm_Data (ConfigMapBuilder.base b).
Definition settings b :=
  (ConfigMapBuilder.LoggingConfig b, ConfigMapBuilder.VectorConfigMapName b,
   ConfigMapBuilder.ClusterName b, ConfigMapBuilder.RoleName b,
   ConfigMapBuilder.RolegroupName b, ConfigMapBuilder.krb5Config b,
   cm_Client (ConfigMapBuilder.base b), cm_Name (ConfigMapBuilder.base b)).

(** From the builder [b], [c] adds exactly the files [K], or fails and changes nothing. *)
Definition adds (K : gset string) (c : M ConfigMapBuilder.t unit) b : Prop :=
  match c b with
  | (b', Ok _) => settings b' = settings b ∧ dom (data b') = K ∪ dom (data b)
  | (b', _) => b' = b
  end.

Lemma b_AddData_run m b :
  ∃ b', b_AddData m b = (b', Ok tt) ∧ settings b' = settings b ∧ data b' = m ∪ data b.
Proof.
  eexists. split; [reflexivity|]. unfold settings, data. cbn.
  destruct (AddData_view (ConfigMapBuilder.base b) m) as (-> & -> & ->). by destruct b.
Qed.

Lemma b_AddItem_run k v b :
  ∃ b', b_AddItem k v b = (b', Ok tt) ∧ settings b' = settings b ∧ data b' = <[k := v]> (data b).
Proof.
  eexists. split; [reflexivity|]. unfold settings, data. cbn.
  destruct (AddItem_view (ConfigMapBuilder.base b) k v) as (-> & -> & ->). by destruct b.
Qed.

(** [adds] follows the structure of an addition. *)
Lemma adds_get K (f : ConfigMapBuilder.t → M ConfigMapBuilder.t unit) b :
  adds K (f b) b → adds K (get ≫= f) b.
Proof. done. Qed.

Lemma adds_lift {A} K (o : outcome A) (f : A → M ConfigMapBuilder.t unit) b :
  (∀ a, adds K (f a) b) → adds K (lift o ≫= f) b.
Proof. intros Hf. unfold adds, lift, mbind, M_bind. destruct o; [apply Hf|done..]. Qed.

Lemma adds_data k v b : adds {[k]} (b_AddData {[k := v]}) b.
Proof.
  unfold adds. destruct (b_AddData_run {[k := v]} b) as (b' & -> & Hs & ->).
  split; [done|]. by rewrite dom_union_L, dom_singleton_L.
Qed.

Lemma adds_item k v b : adds {[k]} (b_AddItem k v) b.
Proof.
  unfold adds. destruct (b_AddItem_run k v b) as (b' & -> & Hs & ->).
  split; [done|]. by rewrite dom_insert_L.
Qed.

Lemma adds_nothing b : adds ∅ (mret tt) b.
Proof. unfold adds. cbn. split; [done|]. set_solver. Qed.

(** The files of each kind. *)
Definition secured b : bool :=
  match ConfigMapBuilder.krb5Config b with Some _ => true | None => false end.
Definition ssl_client_keys b : gset string := if secured b then {[SSLClientFileName]} else ∅.
Definition ssl_server_keys b : gset string := if secured b then {[SSLServerFileName]} else ∅.
Definition vector_keys b : gset string :=
  if decide (ConfigMapBuilder.VectorConfigMapName b = "") then ∅ else {[VectorConfigFile]}.

(** All the files of the config map of a builder. *)
Definition expected_files b : gset string :=
  vector_keys b ∪ (ssl_server_keys b ∪ (ssl_client_keys b ∪
    ({[LogKey]} ∪ ({["hbase-env.sh"]} ∪ {[HbaseKey]})))).

Ltac solve_adds :=
  repeat first [apply adds_get | apply adds_lift; intros ?
    | apply adds_data | apply adds_item | apply adds_nothing].

Lemma AddHbaseENVSh_adds b : adds {["hbase-env.sh"]} AddHbaseENVSh b.
Proof. unfold AddHbaseENVSh. solve_adds. Qed.

Lemma AddHbaseSite_adds znode b : adds {[HbaseKey]} (AddHbaseSite znode) b.
Proof. unfold AddHbaseSite. solve_adds. Qed.

Lemma AddLog4jProperties_adds b : adds {[LogKey]} AddLog4jProperties b.
Proof. unfold AddLog4jProperties. solve_adds. Qed.

Lemma AddSSLClientXML_adds b : adds (ssl_client_keys b) AddSSLClientXML b.
Proof.
  unfold AddSSLClientXML, ssl_client_keys, secured. apply adds_get.
  destruct (ConfigMapBuilder.krb5Config b); solve_adds.
Qed.

Lemma AddSSLServerXML_adds b : adds (ssl_server_keys b) AddSSLServerXML b.
Proof.
  unfold AddSSLServerXML, ssl_server_keys, secured. apply adds_get.
  destruct (ConfigMapBuilder.krb5Config b); solve_adds.
Qed.

Lemma AddVectorConfig_adds b : adds (vector_keys b) AddVectorConfig b.
Proof. unfold AddVectorConfig, vector_keys. apply adds_get. case_decide; solve_adds. Qed.

(** The files depend on the settings only. *)
Lemma expected_settings b b' :
  settings b' = settings b →
  ssl_client_keys b' = ssl_client_keys b ∧ ssl_server_keys b' = ssl_server_keys b ∧
  vector_keys b' = vector_keys b.
Proof.
  unfold settings, ssl_client_keys, ssl_server_keys, vector_keys, secured.
  intros Hs. injection Hs as _ Hv _ _ _ Hk _ _. by rewrite Hv, Hk.
Qed.

(** How a run that starts in the world [w] may end: with an error or a panic and the
    world untouched, or by applying the object built from a builder with the
    settings of [b0] and the files [F]. *)
Definition applies_files `{!Reconcilers} (client : Client.t CtrlClient) (w : World)
  (b0 : ConfigMapBuilder.t) (F : gset string)
  (run : (World * ConfigMapBuilder.t) * outcome (Result * option error)) : Prop :=
  let '((w', b'), out) := run in
  (w' = w ∧ ((∃ e, out = Ok (ZeroResult, Some e)) ∨ ∃ m, out = Panic m)) ∨
  (∃ b1 obj res, settings b1 = settings b0 ∧ dom (data b1) = F ∧
     snd (BuildConfigMap (ConfigMapBuilder.base b1)) = Ok obj ∧
     ResourceReconcile client obj w = (w', res) ∧ out = Ok res).

Lemma applies_check_call `{!Reconcilers} client w b0 F K c k b :
  adds K c b →
  (∀ b1, settings b1 = settings b → dom (data b1) = K ∪ dom (data b) →
     applies_files client w b0 F (k tt (w, b1))) →
  applies_files client w b0 F (check (call c) k (w, b)).
Proof.
  intros Hc Hk. unfold check, call, on_part. cbn [snd]. unfold adds in Hc.
  destruct (c b) as [b1 [[]|e|m]].
  - destruct Hc as [Hs Hd]. by apply Hk.
  - left. eauto.
  - left. eauto.
Qed.

Lemma Reconcile_applies `{!Reconcilers} r w b :
  applies_files (ConfigMapReconciler.Client r) w b (expected_files b ∪ dom (data b))
    (Reconcile r (w, b)).
Proof.
  unfold Reconcile. unfold check at 1, lift.
  destruct (GetZKZnodeConfig r) as [znode|e|m]; [|left; eauto..].
  eapply applies_check_call; [apply AddHbaseSite_adds|]. intros b1 Hs1 Hd1.
  eapply applies_check_call; [apply AddHbaseENVSh_adds|]. intros b2 Hs2 Hd2.
  eapply applies_check_call; [apply AddLog4jProperties_adds|]. intros b3 Hs3 Hd3.
  eapply applies_check_call; [apply AddSSLClientXML_adds|]. intros b4 Hs4 Hd4.
  eapply applies_check_call; [apply AddSSLServerXML_adds|]. intros b5 Hs5 Hd5.
  eapply applies_check_call; [apply AddVectorConfig_adds|]. intros b6 Hs6 Hd6.
  assert (settings b3 = settings b) as Hb3 by congruence.
  assert (settings b4 = settings b) as Hb4 by congruence.
  assert (settings b5 = settings b) as Hb5 by congruence.
  destruct (expected_settings b b3 Hb3) as (Hc & _ & _).
  destruct (expected_settings b b4 Hb4) as (_ & Hv & _).
  destruct (expected_settings b b5 Hb5) as (_ & _ & Hy).
  rewrite Hc in Hd4. rewrite Hv in Hd5. rewrite Hy in Hd6.
  unfold check, call, on_part, b_Build, on_part. cbn [snd fst].
  destruct (BuildConfigMap (ConfigMapBuilder.base b6)) as [base' [obj|e|m]] eqn:Hbuild;
    [|left; eauto..].
  destruct (ResourceReconcile (ConfigMapReconciler.Client r) obj w) as [w' res] eqn:Hres.
  cbn [fst snd]. rewrite Hres. right. exists b6, obj, res. rewrite Hbuild.
  split_and!; [congruence| |done..].
  rewrite Hd6, Hd5, Hd4, Hd3, Hd2, Hd1. unfold expected_files. by rewrite !(assoc_L (∪)).
Qed.
End lemmas.

(** ** The site file *)
Section site.
Context `{!Platform, !Builders, !MapRange, !ConfigMapView, !ConfigMapLaws, !XMLView, !XMLLaws}.
Implicit Type b : ConfigMapBuilder.t.

(** The properties every cluster has. *)
Definition base_properties (quorum chroot clientPort : string) : list (string * string) := [
  ("hbase.zookeeper.quorum", quorum);
  ("zookeeper.znode.parent", chroot +:+ "/hbase");
  ("hbase.zookeeper.property.clientPort", clientPort);
  ("hbase.cluster.distributed", "true");
  ("hbase.rootdir", "/hbase");
  ("hbase.unsafe.regionserver.hostname.disable.master.reversedns", "true") ].

Definition base_site (quorum chroot clientPort : string) : gmap string string :=
  list_to_map (base_properties quorum chroot clientPort).

Definition kerberos_site b : gmap string string :=
  match ConfigMapBuilder.krb5Config b with Some c => GetHbaseSite c | None => ∅ end.

(** No property of the secured site has a name the base site uses. *)
Lemma sites_disjoint quorum chroot clientPort c :
  base_site quorum chroot clientPort ##ₘ GetHbaseSite c.
Proof. apply map_disjoint_list_to_map_l. repeat constructor. Qed.

(** A chain of [AddPropertyWithString] calls, the last added first. *)
Definition add_properties (x : XMLConfiguration) (l : list (string * string)) : XMLConfiguration :=
  foldr (λ kv x, AddPropertyWithString x kv.1 kv.2 "") x l.

Lemma add_properties_Get l k :
  xml_Get (add_properties NewXMLConfiguration l) k = (list_to_map l : gmap string string) !! k.
Proof.
  induction l as [|[k' v] l IH]; simpl; [by rewrite NewXML_view, lookup_empty|].
  rewrite AddProperty_view, IH, lookup_insert. by repeat case_decide.
Qed.

Lemma hbaseSite_unfold b quorum chroot clientPort :
  hbaseSite b quorum chroot clientPort =
    let base := add_properties NewXMLConfiguration
      (reverse (base_properties quorum chroot clientPort)) in
    match ConfigMapBuilder.krb5Config b with
    | Some c => AddPropertiesWithMap base (GetHbaseSite c)
    | None => base
    end.
Proof. done. Qed.

Lemma base_Get quorum chroot clientPort k :
  xml_Get (add_properties NewXMLConfiguration
             (reverse (base_properties quorum chroot clientPort))) k =
    base_site quorum chroot clientPort !! k.
Proof. rewrite add_properties_Get. reflexivity. Qed.

Lemma hbaseSite_Get b quorum chroot clientPort k :
  xml_Get (hbaseSite b quorum chroot clientPort) k =
    (kerberos_site b ∪ base_site quorum chroot clientPort) !! k.
Proof.
  assert (∀ x m, (∀ k', xml_Get x k' = base_site quorum chroot clientPort !! k') →
    xml_Get (AddPropertiesWithMap x m) k = (m ∪ base_site quorum chroot clientPort) !! k) as Hm.
  { intros x m Hx. rewrite AddProperties_view, Hx, lookup_union.
    by destruct (m !! k), (base_site quorum chroot clientPort !! k). }
  rewrite hbaseSite_unfold. unfold kerberos_site. destruct (ConfigMapBuilder.krb5Config b) as [c|].
  - apply Hm. intros k'. apply base_Get.
  - rewrite map_empty_union. apply base_Get.
Qed.

(** The JVM options do not depend on the order the options' map is iterated in. *)
Lemma getJVMOPTS_eq b :
  getJVMOPTS b = "export HBASE_" +:+ ConfigMapBuilder.RoleName b +:+ "_OPTS=" +:+ dq +:+
    "$HBASE_OPTS " +:+
    match ConfigMapBuilder.krb5Config b with
    | Some _ => "-Djava.security.krb5.conf=" +:+ Krb5ConfigFile
    | None => ""
    end +:+ dq.
Proof.
  unfold getJVMOPTS. destruct (ConfigMapBuilder.krb5Config b) as [c|]; [|done].
  unfold GetJVMOPTS. by rewrite map_range_singleton.
Qed.

(** ** Properties *)

(** C18: the site file of a role group gives every property exactly one value:
    the six ZooKeeper and cluster properties, computed from the discovery
    config map, and with Kerberos the secured properties; no secured property
    has the name of a base property, so neither hides the other. *)
Theorem hbaseSite_spec b quorum chroot clientPort k :
  xml_Get (hbaseSite b quorum chroot clientPort) k =
    (base_site quorum chroot clientPort ∪ kerberos_site b) !! k ∧
  base_site quorum chroot clientPort ##ₘ kerberos_site b.
Proof.
  assert (base_site quorum chroot clientPort ##ₘ kerberos_site b) as Hd.
  { unfold kerberos_site. destruct (ConfigMapBuilder.krb5Config b);
      [apply sites_disjoint|apply map_disjoint_empty_r]. }
  split; [|done]. rewrite hbaseSite_Get. by rewrite map_union_comm.
Qed.

(** [hbase-env.sh] turns Kerberos on through the JVM options of the role
    exactly when the builder has a Kerberos configuration, and its text does not
    depend on the order the options are iterated in. *)
Theorem AddHbaseENVSh_spec b :
  ∃ b', AddHbaseENVSh b = (b', Ok tt) ∧ settings b' = settings b ∧
    data b' = <["hbase-env.sh" := IndentTab4Spaces
      ("
export HBASE_MANAGES_ZK=false
export HBASE_" +:+ ConfigMapBuilder.RoleName b +:+ "_OPTS=" +:+ dq +:+ "$HBASE_OPTS " +:+
       match ConfigMapBuilder.krb5Config b with
       | Some _ => "-Djava.security.krb5.conf=" +:+ Krb5ConfigFile
       | None => ""
       end +:+ dq +:+ "

")]> (data b).
Proof.
  unfold AddHbaseENVSh, get, mbind, M_bind. rewrite getJVMOPTS_eq.
  match goal with |- context [b_AddData ?m b] => destruct (b_AddData_run m b) as (b' & -> & Hs & Hd) end.
  exists b'. split_and!; [done..|]. rewrite Hd, <-insert_union_singleton_l.
  by autorewrite with go_string.
Qed.

(** C19: the site file is added exactly when the discovery config map has the
    hosts, the chroot and the client port and the XML can be marshalled;
    otherwise the error names the first of the three keys that is missing, in
    that order, and the builder is unchanged. *)
Theorem AddHbaseSite_spec znode b :
  match lookup_key znode ZookeeperHostsKey, lookup_key znode ZookeeperChrootKey,
        lookup_key znode ZookeeperClientPortKey with
  | Ok quorum, Ok chroot, Ok clientPort =>
      match Marshal (hbaseSite b quorum chroot clientPort) with
      | Ok text => ∃ b', AddHbaseSite znode b = (b', Ok tt) ∧ settings b' = settings b ∧
          data b' = <[HbaseKey := text]> (data b)
      | Err e => AddHbaseSite znode b = (b, Err e)
      | Panic m => AddHbaseSite znode b = (b, Panic m)
      end
  | Ok _, Ok _, _ => AddHbaseSite znode b = (b, Err (key_not_found ZookeeperClientPortKey))
  | Ok _, _, _ => AddHbaseSite znode b = (b, Err (key_not_found ZookeeperChrootKey))
  | _, _, _ => AddHbaseSite znode b = (b, Err (key_not_found ZookeeperHostsKey))
  end.
Proof.
  unfold AddHbaseSite, GetQuorum, GetChroot, GetClientPort, lookup_key.
  destruct (map_read (Data znode) ZookeeperHostsKey) as [quorum|]; [|done].
  destruct (map_read (Data znode) ZookeeperChrootKey) as [chroot|]; [|done].
  destruct (map_read (Data znode) ZookeeperClientPortKey) as [clientPort|]; [|done].
  unfold get, lift, mbind, M_bind.
  destruct (Marshal _) as [text|e|m]; [|done..].
  destruct (b_AddData_run {[HbaseKey := text]} b) as (b' & -> & Hs & Hd).
  exists b'. split_and!; [done..|]. by rewrite Hd, <-insert_union_singleton_l.
Qed.
End site.

Section reconcile.
Context `{!Platform, !Builders, !MapRange, !ConfigMapView, !ConfigMapLaws, !Reconcilers}.

(** Kerberos is on when both secret classes are named. *)
Definition kerberos_on (c : ClusterConfigSpec.t) : bool :=
  match ClusterConfigSpec.Authentication c with
  | Some a => bool_decide (AuthenticationSpec.KerberosSecretClass a ≠ "" ∧
                           AuthenticationSpec.TlsSecretClass a ≠ "")
  | None => false
  end.

Lemma new_krb5Config_on client o k t :
  match new_krb5Config client o k t with Some _ => true | None => false end = bool_decide (k ≠ "" ∧ t ≠ "").
Proof. unfold new_krb5Config. by case_decide; case_bool_decide. Qed.

Lemma NewConfigMapReconciler_fresh client cc lc info r :
  NewConfigMapReconciler client (Some cc) lc info = Ok r →
  let b := ConfigMapReconciler.Builder r in
  ConfigMapReconciler.Client r = client ∧ ConfigMapReconciler.ClusterConfig r = Some cc ∧
  data b = ∅ ∧ secured b = kerberos_on cc ∧
  ConfigMapBuilder.VectorConfigMapName b = ClusterConfigSpec.VectorAggregatorConfigMapName cc ∧
  ConfigMapBuilder.RoleName b = GetRoleName info.
Proof.
  unfold NewConfigMapReconciler, NewConfigMapBuilder. intros Hr. cbn in Hr.
  unfold kerberos_on. destruct (ClusterConfigSpec.Authentication cc) as [a|];
    injection Hr as <-; cbn; unfold data; cbn;
    (split_and!; [done|done|apply NewConfigMap_view| |done|done]).
  - apply new_krb5Config_on.
  - reflexivity.
Qed.

(** The files a role group's config map has. *)
Definition role_group_files (cc : ClusterConfigSpec.t) : gset string :=
  {[HbaseKey; "hbase-env.sh"; LogKey]} ∪
  (if kerberos_on cc then {[SSLClientFileName; SSLServerFileName]} else ∅) ∪
  (if decide (ClusterConfigSpec.VectorAggregatorConfigMapName cc = "") then ∅
   else {[VectorConfigFile]}).

Lemma expected_role_group_files b cc :
  secured b = kerberos_on cc →
  ConfigMapBuilder.VectorConfigMapName b = ClusterConfigSpec.VectorAggregatorConfigMapName cc →
  expected_files b = role_group_files cc.
Proof.
  intros Hs Hv. unfold expected_files, role_group_files, vector_keys, ssl_server_keys,
    ssl_client_keys. rewrite Hs, Hv. destruct (kerberos_on cc); case_decide; set_solver.
Qed.

(** C14: a reconciliation of a role group's config map is all or nothing.
    Either some file could not be generated, and then nothing is applied, the
    world is untouched and the result is zero with the error; or the object
    applied was built with every file the cluster's configuration asks for and
    no other ([hbase-site.xml], [hbase-env.sh], [log4j.properties], the two SSL
    files with Kerberos, [vector.yaml] with a Vector aggregator), and the result
    is that of applying it. *)
Theorem Reconcile_all_or_nothing client cc lc info r
  (Hr : NewConfigMapReconciler client (Some cc) lc info = Ok r) w :
  let '((w', _), out) := Reconcile r (w, ConfigMapReconciler.Builder r) in
  (w' = w ∧ ((∃ e, out = Ok (ZeroResult, Some e)) ∨ ∃ m, out = Panic m)) ∨
  (∃ b obj res, dom (data b) = role_group_files cc ∧
     snd (BuildConfigMap (ConfigMapBuilder.base b)) = Ok obj ∧
     ResourceReconcile client obj w = (w', res) ∧ out = Ok res).
Proof.
  destruct (NewConfigMapReconciler_fresh _ _ _ _ _ Hr) as (Hc & _ & Hd & Hsec & Hvec & _).
  pose proof (Reconcile_applies r w (ConfigMapReconciler.Builder r)) as Happ.
  unfold applies_files in Happ.
  destruct (Reconcile r (w, ConfigMapReconciler.Builder r)) as [[w' b'] out].
  destruct Happ as [Hno|(b & obj & res & _ & Hdom & Hb & Hres & Hout)]; [by left|].
  right. exists b, obj, res. rewrite Hc in Hres. split_and!; [|done..].
  rewrite Hdom, Hd, dom_empty_L, (right_id_L ∅ (∪)). by apply expected_role_group_files.
Qed.

(** Building the reconciler panics exactly when the cluster has no
    [clusterConfig]; otherwise the builder starts without data and is secured
    exactly when both secret classes are named, whatever else the
    authentication says. *)
Theorem NewConfigMapReconciler_spec client clusterConfig lc info :
  match clusterConfig with
  | None => NewConfigMapReconciler client clusterConfig lc info = Panic nil_deref
  | Some cc => ∃ r, NewConfigMapReconciler client clusterConfig lc info = Ok r ∧
      data (ConfigMapReconciler.Builder r) = ∅ ∧
      secured (ConfigMapReconciler.Builder r) = kerberos_on cc
  end.
Proof.
  destruct clusterConfig as [cc|]; [|done].
  destruct (NewConfigMapReconciler client (Some cc) lc info) as [r|e|m] eqn:Hr.
  - exists r. split; [done|]. by destruct (NewConfigMapReconciler_fresh _ _ _ _ _ Hr) as (_ & _ & ? & ? & _).
  - unfold NewConfigMapReconciler in Hr. cbn in Hr. by destruct (ClusterConfigSpec.Authentication cc).
  - unfold NewConfigMapReconciler in Hr. cbn in Hr. by destruct (ClusterConfigSpec.Authentication cc).
Qed.
End reconcile.

(** ** Witnesses *)
Definition sample_znode : ConfigMap.t := ConfigMap.mk "hbase-znode" (Some (list_to_map [
  (ZookeeperHostsKey, "zk-0.zk"); (ZookeeperClientPortKey, "2181"); (ZookeeperChrootKey, "/znode-1") ])).

Definition sample_client : Client.t CtrlClient :=
  fake_client {[ "hbase-znode" := sample_znode ]}
    {[ "oidc" := AuthenticationClass.mk
         (Some (OIDCProvider.mk "keycloak" 8080 "/realms/kubedoop" "keycloak")) ]}.

(** A cluster with Kerberos, OIDC and a Vector aggregator. *)
Definition sample_config : ClusterConfigSpec.t :=
  ClusterConfigSpec.mk "hbase-znode" "hdfs" "cluster-internal"
    (Some (AuthenticationSpec.mk "oidc" (Some (OidcSpec.mk "credentials" None)) "kerberos" "tls"))
    "vector-aggregator".

Definition sample_group (role : string) : RoleGroupInfo.t :=
  RoleGroupInfo.mk (RoleInfo.mk (ClusterInfo.mk None "hb") role) "default".

Example hbaseSite_spec_witness :
  let b := NewConfigMapBuilder sample_client "hb-master-default" None "" "kerberos" "tls"
    [λ o, Options.mk "hb" "master" "default" ∅ ∅] in
  xml_Get (hbaseSite b "zk-0.zk" "/znode-1" "2181") "zookeeper.znode.parent" =
    Some "/znode-1/hbase" ∧
  xml_Get (hbaseSite b "zk-0.zk" "/znode-1" "2181") "hbase.master.kerberos.principal" =
    Some "hbase/hb.default.svc.cluster.local@${env.KERBEROS_REALM}".
Proof.
  intros b. pose proof (hbaseSite_spec b "zk-0.zk" "/znode-1" "2181") as Hs. split.
  - rewrite (proj1 (Hs _)). reflexivity.
  - rewrite (proj1 (Hs _)). reflexivity.
Defined.

Example AddHbaseENVSh_spec_witness :
  let b := NewConfigMapBuilder sample_client "hb-master-default" None "" "" ""
    [λ o, Options.mk "hb" "master" "default" ∅ ∅] in
  ∃ b', @AddHbaseENVSh _ _ range_backward b = (b', Ok tt) ∧
    data b' !! "hbase-env.sh" = Some ("
export HBASE_MANAGES_ZK=false
export HBASE_master_OPTS=" +:+ dq +:+ "$HBASE_OPTS " +:+ dq +:+ "

").
Proof.
  intros b. destruct (@AddHbaseENVSh_spec _ _ range_backward _ _ b) as (b' & Hb & _ & Hd).
  exists b'. split; [exact Hb|]. rewrite Hd. reflexivity.
Defined.

Example AddHbaseSite_spec_witness :
  let b := NewConfigMapBuilder sample_client "hb-master-default" None "" "" ""
    [λ o, Options.mk "hb" "master" "default" ∅ ∅] in
  AddHbaseSite (ZnodeConfiguration.mk (ConfigMap.mk "hbase-znode" None)) b =
    (b, Err (GoError "key ZOOKEEPER_HOSTS not found in configmap")).
Proof.
  intros b. exact (AddHbaseSite_spec (ZnodeConfiguration.mk (ConfigMap.mk "hbase-znode" None)) b).
Defined.

Example Reconcile_all_or_nothing_witness :
  ∃ r, @NewConfigMapReconciler _ _ sample_client (Some sample_config) None
         (sample_group "master") = Ok r ∧
  let '((w', _), out) := @Reconcile _ _ range_forward _ r ([], ConfigMapReconciler.Builder r) in
  ∃ o, w' = [o] ∧ out = Ok (0, None).
Proof.
  eexists. split; [reflexivity|].
  pose proof (@Reconcile_all_or_nothing _ _ range_forward _ _ _ sample_client sample_config None
    (sample_group "master") _ eq_refl []) as H.
  destruct (Reconcile _ _) as [[w' b'] out] eqn:Hrun.
  destruct H as [[_ [[e He]|[m Hm]]]|(b & o & res & _ & _ & Hres & Hout)].
  - exfalso. rewrite He in Hrun. apply (f_equal snd) in Hrun. vm_compute in Hrun. discriminate Hrun.
  - exfalso. rewrite Hm in Hrun. apply (f_equal snd) in Hrun. vm_compute in Hrun. discriminate Hrun.
  - exists o. cbn in Hres. injection Hres as <- <-. split; [reflexivity|exact Hout].
Defined.

Example NewConfigMapReconciler_spec_witness :
  ∃ r, NewConfigMapReconciler sample_client (Some sample_config) None (sample_group "master") = Ok r ∧
    secured (ConfigMapReconciler.Builder r) = true.
Proof.
  destruct (NewConfigMapReconciler_spec sample_client (Some sample_config) None
    (sample_group "master")) as (r & Hr & _ & Hs).
  exists r. split; [exact Hr|exact Hs].
Defined.
