(* ===== verification/StatefulSet.v ===== *)
(** * The stateful set of a role group: [internal/controller/common/statefulset.go]

    [StatefulSetBuilder] embeds operator-go's builder; [Build] fills it with the
    main container, the volumes, the affinity and the OIDC side-car, and adds
    the Vector side-car to the object the embedded builder returns.  Log lines
    are left out. *)

From S2P Require Import Prelude GoStrings K8s OperatorGo Fakes Api Affinity Krb5 Oidc Service.
From S2P Require Import Zookeeper ConfigMap.

(** A Go map literal read with a default. *)
Definition roleNameToCommandArg (roleName : string) : string :=
  default "" ((list_to_map [
    ("master", "master"); ("regionserver", "regionserver"); ("restserver", "rest")
  ] : gmap string string) !! roleName).

Definition HHbaseConfigVolumeName : string := "hbase-config".
Definition HbaseLogVolumeName : string := "log".

Section dirs.
Context `{!Platform}.

Definition HBaseConfigDir : string := PathJoin [KubedoopConfigDir].
Definition HDFSConfigDir : string := PathJoin [KubedoopConfigDir].
Definition HBaseMountConfigDir : string := PathJoin [KubedoopConfigDirMount; "hbase"].
Definition HDFSMountConfigDir : string := PathJoin [KubedoopConfigDirMount; "hdfs"].
End dirs.

Module StatefulSetBuilder.
Record t `{!Platform, !Builders} := mk {
  base : StatefulSetBase;
  Ports : list ContainerPort.t;
  ClusterConfig : option ClusterConfigSpec.t;
  RoleName : string;
  ClusterName : string;
  krb5Config : option HbaseKerberosConfig.t
}.
Arguments mk {_ _} _ _ _ _ _ _.
End StatefulSetBuilder.

Section statefulset.
Context `{!Platform, !Builders}.
Implicit Type b : StatefulSetBuilder.t.

(** Kerberos is configured when both secret classes are named, as in the config map. *)
Definition statefulset_krb5Config (client : Client.t CtrlClient) (o : Options.t)
  (krb5SecretClass tlsSecretClass : string) : option HbaseKerberosConfig.t :=
  if decide (krb5SecretClass ≠ "" ∧ tlsSecretClass ≠ "") then
    Some (NewHbaseKerberosConfig (GetOwnerNamespace client) (Options.ClusterName o)
            (Options.RoleName o) (Options.RoleGroupName o) krb5SecretClass tlsSecretClass)
  else None.

Definition NewStatefulSetBuilder (client : Client.t CtrlClient) (name : string)
  (clusterConfig : option ClusterConfigSpec.t) (replicas : option Z)
  (ports : list ContainerPort.t) (image : Image.t ImageRest)
  (krb5SecretClass tlsSecretClass : string) (overrides : option OverridesSpec)
  (roleGroupConfig : option RoleGroupConfigSpec.t)
  (options : list (Options.t → Options.t)) : StatefulSetBuilder.t :=
  let builderOpts := apply_options options in
  let krb5Config := statefulset_krb5Config client builderOpts krb5SecretClass tlsSecretClass in
  StatefulSetBuilder.mk
    (NewStatefulSetBase client name replicas image overrides roleGroupConfig options)
    ports clusterConfig (Options.RoleName builderOpts) (Options.ClusterName builderOpts)
    krb5Config.

(** The embedded builder's methods, on the outer builder. *)
Definition with_base (base : StatefulSetBase) b : StatefulSetBuilder.t :=
  StatefulSetBuilder.mk base (StatefulSetBuilder.Ports b) (StatefulSetBuilder.ClusterConfig b)
    (StatefulSetBuilder.RoleName b) (StatefulSetBuilder.ClusterName b)
    (StatefulSetBuilder.krb5Config b).

Definition on_base (f : StatefulSetBase → StatefulSetBase) : M StatefulSetBuilder.t unit :=
  modify (λ b, with_base (f (StatefulSetBuilder.base b)) b).

Definition b_GetObject : M StatefulSetBuilder.t (StatefulSetObject.t Quantity StatefulSetRest) :=
  on_part StatefulSetBuilder.base with_base GetObject.

Definition b_GetImage b : Image.t ImageRest := sts_GetImage (StatefulSetBuilder.base b).
Definition b_GetName b : string := sts_GetName (StatefulSetBuilder.base b).
Definition b_GetClient b : Client.t CtrlClient := sts_GetClient (StatefulSetBuilder.base b).

(** *** Volumes *)
Definition getVolumeMounts b : list VolumeMount.t :=
  [ VolumeMount.mk "hdfs-config" (PathJoin [KubedoopConfigDirMount; "hdfs"]);
    VolumeMount.mk "hbase-config" (PathJoin [KubedoopConfigDirMount; "hbase"]) ].

Definition config_map_volume (volume configMap : string) (mode : Z) : Volume.t Quantity :=
  Volume.mk volume (VolumeSource.mk (Some (ConfigMapVolumeSource.mk configMap (Some mode))) None).

Definition getVolumes b : outcome (list (Volume.t Quantity)) :=
  let defaultMode := 420%Z in
  do clusterConfig <- deref (StatefulSetBuilder.ClusterConfig b);;
  Ok [ config_map_volume "hdfs-config" (ClusterConfigSpec.HdfsConfigMapName clusterConfig) defaultMode;
       config_map_volume "hbase-config" (b_GetName b) defaultMode ].

(** *** The main container *)
Definition main_script (setupKrb5 hbaseSubArg : string) : string :=
  "mkdir -p " +:+ HBaseConfigDir +:+ "
cp " +:+ PathJoin [HBaseMountConfigDir; "*"] +:+ " " +:+ KubedoopConfigDir +:+ "
cp " +:+ PathJoin [HDFSMountConfigDir; "*"] +:+ " " +:+ KubedoopConfigDir +:+ "

" +:+ setupKrb5 +:+ "

prepare_signal_handlers()
{
	unset term_child_pid
	unset term_kill_needed
	trap 'handle_term_signal' TERM
}

handle_term_signal()
{
	if [ " +:+ dq +:+ "${term_child_pid}" +:+ dq +:+ " ]; then
		kill -TERM " +:+ dq +:+ "${term_child_pid}" +:+ dq +:+ " 2>/dev/null
	else
		term_kill_needed=" +:+ dq +:+ "yes" +:+ dq +:+ "
	fi
}

wait_for_termination()
{
	set +e
	term_child_pid=$1
	if [[ -v term_kill_needed ]]; then
		kill -TERM " +:+ dq +:+ "${term_child_pid}" +:+ dq +:+ " 2>/dev/null
	fi
	wait ${term_child_pid} 2>/dev/null
	trap - TERM
	wait ${term_child_pid} 2>/dev/null
	set -e
}

prepare_signal_handlers
bin/hbase " +:+ hbaseSubArg +:+ " start &
wait_for_termination $!
".

Definition GetMainContainerCommanArgs b : list string :=
  let hbaseSubArg := roleNameToCommandArg (StatefulSetBuilder.RoleName b) in
  let setupKrb5 :=
    match StatefulSetBuilder.krb5Config b with
    | Some c => GetContainerCommands c
    | None => ""
    end in
  let arg := main_script setupKrb5 hbaseSubArg in
  let intendedString := IndentTab4Spaces arg in
  [ intendedString ].

Definition getEnvVars b : list EnvVar.t :=
  [ EnvVar.mk "HBASE_CONF_DIR" HBaseConfigDir None;
    EnvVar.mk "HADOOP_CONF_DIR" HDFSConfigDir None ].

(** *** Probes: an unknown role has no handler, which the probes dereference *)
Definition tcp_probe (port : string) : option ProbeHandler.t :=
  Some (ProbeHandler.mk (Some (TCPSocketAction.mk (FromString port)))).

Definition getProbeHandler b : option ProbeHandler.t :=
  let roleName := StatefulSetBuilder.RoleName b in
  if decide (roleName = "master") then tcp_probe roleName
  else if decide (roleName = "regionserver") then tcp_probe roleName
  else if decide (roleName = "restserver") then tcp_probe "rest-http"
  else None.

Definition GetLivenessProbe b : outcome Probe.t :=
  do handler <- deref (getProbeHandler b);;
  Ok {| Probe.ProbeHandler := handler; Probe.InitialDelaySeconds := 10;
        Probe.PeriodSeconds := 10; Probe.FailureThreshold := 3; Probe.TimeoutSeconds := 10 |}.

Definition GetReadinessProbe b : outcome Probe.t :=
  do handler <- deref (getProbeHandler b);;
  Ok {| Probe.ProbeHandler := handler; Probe.InitialDelaySeconds := 0;
        Probe.PeriodSeconds := 10; Probe.FailureThreshold := 3; Probe.TimeoutSeconds := 10 |}.

Definition GetStartupProbe b : outcome Probe.t :=
  do handler <- deref (getProbeHandler b);;
  Ok {| Probe.ProbeHandler := handler; Probe.InitialDelaySeconds := 120;
        Probe.PeriodSeconds := 5; Probe.FailureThreshold := 3; Probe.TimeoutSeconds := 10 |}.

Definition main_container b (startup liveness readiness : Probe.t) : Container.t :=
  let mainContainerBuilder := NewContainer (StatefulSetBuilder.RoleName b) (b_GetImage b) in
  let mainContainerBuilder :=
    SetCommand mainContainerBuilder ["/bin/bash"; "-x"; "-euo"; "pipefail"; "-c"] in
  let mainContainerBuilder := SetArgs mainContainerBuilder (GetMainContainerCommanArgs b) in
  let mainContainerBuilder := AddVolumeMounts mainContainerBuilder (getVolumeMounts b) in
  let mainContainerBuilder := AddEnvVars mainContainerBuilder (getEnvVars b) in
  let mainContainerBuilder := AddPorts mainContainerBuilder (StatefulSetBuilder.Ports b) in
  let mainContainerBuilder := SetStartupProbe mainContainerBuilder (Some startup) in
  let mainContainerBuilder := SetLivenessProbe mainContainerBuilder (Some liveness) in
  let mainContainerBuilder := SetReadinessProbe mainContainerBuilder (Some readiness) in
  let mainContainerBuilder :=
    match StatefulSetBuilder.krb5Config b with
    | Some c =>
        let mainContainerBuilder := AddEnvVars mainContainerBuilder (GetContainerEnvvars c) in
        AddVolumeMounts mainContainerBuilder (GetVolumeMounts c)
    | None => mainContainerBuilder
    end in
  BuildContainer mainContainerBuilder.

Definition buildContainer b : outcome (list Container.t) :=
  do startup <- GetStartupProbe b;;
  do liveness <- GetLivenessProbe b;;
  do readiness <- GetReadinessProbe b;;
  Ok [ main_container b startup liveness readiness ].

(** *** Affinity *)
Definition GetDefaultAffinityBuilder b : AffinityBuilder.t :=
  let affinityLabels : gmap string string := list_to_map [
    (LabelKubernetesInstance, StatefulSetBuilder.ClusterName b);
    (LabelKubernetesName, "hbase") ] in
  let antiAffinityLabels : gmap string string := list_to_map [
    (LabelKubernetesInstance, StatefulSetBuilder.ClusterName b);
    (LabelKubernetesName, "hbase");
    (LabelKubernetesComponent, StatefulSetBuilder.RoleName b) ] in
  NewAffinityBuilder [
    Weight (NewPodAffinity affinityLabels false false) 20;
    Weight (NewPodAffinity antiAffinityLabels false true) 70 ].

(** *** The OIDC side-car *)
Definition upstream_port (ports : list ContainerPort.t) : Z :=
  match list_find (λ port, ContainerPort.Name port = "ui-http") ports with
  | Some (_, port) => ContainerPort.ContainerPort port
  | None => 0
  end.

Definition buildOidcContainer b : outcome (option Container.t) :=
  do clusterConfig <- deref (StatefulSetBuilder.ClusterConfig b);;
  match ClusterConfigSpec.Authentication clusterConfig with
  | None => Ok None
  | Some authentication =>
      if decide (AuthenticationSpec.AuthenticationClass authentication = "") then Ok None
      else
        do authClass <- GetAuthenticationClass (b_GetClient b)
          (AuthenticationSpec.AuthenticationClass authentication);;
        match AuthenticationClass.OIDC authClass, AuthenticationSpec.Oidc authentication with
        | Some provider, Some oidcSpec =>
            let upstreamPort := upstream_port (StatefulSetBuilder.Ports b) in
            let oidc := NewOidc (GetOwnerUID (b_GetClient b)) (b_GetImage b) upstreamPort
              (Some oidcSpec) (Some provider) in
            do container <- GetContainer oidc;;
            Ok (Some container)
        | _, _ => Ok None
        end
  end.

(** *** The object *)
Definition add_vector b (clusterConfig : ClusterConfigSpec.t)
  (obj : StatefulSetObject.t Quantity StatefulSetRest)
  : StatefulSetObject.t Quantity StatefulSetRest :=
  if decide (ClusterConfigSpec.VectorAggregatorConfigMapName clusterConfig = "") then obj
  else
    let vectorFactory := NewVector HHbaseConfigVolumeName HbaseLogVolumeName (b_GetImage b) in
    StatefulSetObject.mk (StatefulSetObject.Containers obj ++ [VectorContainer vectorFactory])
      (StatefulSetObject.Volumes obj ++ VectorVolumes vectorFactory)
      (StatefulSetObject.rest obj).

Definition Build : M StatefulSetBuilder.t (StatefulSetObject.t Quantity StatefulSetRest) :=
  do b <- get;;
  do containers <- lift (buildContainer b);;
  do! on_base (λ s, AddContainers s containers);;
  do b <- get;;
  do volumes <- lift (getVolumes b);;
  do! on_base (λ s, AddVolumes s volumes);;
  do! on_base (λ s, SetAffinity s (Affinity.Build (GetDefaultAffinityBuilder b)));;
  do! match StatefulSetBuilder.krb5Config b with
      | Some c => on_base (λ s, AddVolumes s (GetVolumes c))
      | None => mret tt
      end;;
  do b <- get;;
  do oidcContainer <- lift (buildOidcContainer b);;
  do! match oidcContainer with
      | Some c => on_base (λ s, AddContainer s c)
      | None => mret tt
      end;;
  do obj <- b_GetObject;;
  do b <- get;;
  do clusterConfig <- lift (deref (StatefulSetBuilder.ClusterConfig b));;
  mret (add_vector b clusterConfig obj).
End statefulset.

(** ** The reconciler: what [reconciler.NewStatefulSet] is called with *)
Module StatefulSetReconciler.
Record t `{!Platform, !Builders} := mk {
  Client : Client.t CtrlClient;
  Builder : StatefulSetBuilder.t;
  Stopped : bool
}.
Arguments mk {_ _} _ _ _.
End StatefulSetReconciler.

Definition NewStatefulSetReconciler `{!Platform, !Builders} (client : Client.t CtrlClient)
  (clusterConfig : option ClusterConfigSpec.t) (roleGroupInfo : RoleGroupInfo.t)
  (ports : list ContainerPort.t) (image : Image.t ImageRest) (stopped : bool)
  (replicas : option Z) (overrides : option OverridesSpec)
  (roleGroupConfig : option RoleGroupConfigSpec.t) : outcome StatefulSetReconciler.t :=
  do config <- deref clusterConfig;;
  let '(krb5SecretClass, tlsSecretClass) :=
    match ClusterConfigSpec.Authentication config with
    | Some a => (AuthenticationSpec.KerberosSecretClass a, AuthenticationSpec.TlsSecretClass a)
    | None => ("", "")
    end in
  let stsBuilder := NewStatefulSetBuilder client (GetFullName roleGroupInfo) clusterConfig
    replicas ports image krb5SecretClass tlsSecretClass overrides roleGroupConfig
    [ λ _, Options.mk (GetClusterName roleGroupInfo) (GetRoleName roleGroupInfo)
             (GetGroupName roleGroupInfo) (GetLabels roleGroupInfo)
             (GetAnnotations roleGroupInfo) ] in
  Ok (StatefulSetReconciler.mk client stsBuilder stopped).

(** ** Lemmas *)
Section container_lemmas.
Context `{!Platform, !Builders, !ContainerLaws}.
Implicit Type b : StatefulSetBuilder.t.

Definition krb5_env b : list EnvVar.t :=
  match StatefulSetBuilder.krb5Config b with Some c => GetContainerEnvvars c | None => [] end.
Definition krb5_mounts b : list VolumeMount.t :=
  match StatefulSetBuilder.krb5Config b with Some c => GetVolumeMounts c | None => [] end.
Definition krb5_volumes b : list (Volume.t Quantity) :=
  match StatefulSetBuilder.krb5Config b with Some c => GetVolumes c | None => [] end.

(** Each builder call changes one field of the container built in the end. *)
Section built.
Context (cb : ContainerBuilder) (n : string) (c a : list string) (p : list ContainerPort.t)
  (e : list EnvVar.t) (v : list VolumeMount.t) (l r s : option Probe.t).
Hypothesis Hcb : BuildContainer cb = Container.mk n c a p e v l r s.

Lemma built_SetCommand x : BuildContainer (SetCommand cb x) = Container.mk n x a p e v l r s.
Proof using All. by rewrite SetCommand_law, Hcb. Qed.
Lemma built_SetArgs x : BuildContainer (SetArgs cb x) = Container.mk n c x p e v l r s.
Proof using All. by rewrite SetArgs_law, Hcb. Qed.
Lemma built_AddPorts x : BuildContainer (AddPorts cb x) = Container.mk n c a (p ++ x) e v l r s.
Proof using All. by rewrite AddPorts_law, Hcb. Qed.
Lemma built_AddEnvVars x : BuildContainer (AddEnvVars cb x) = Container.mk n c a p (e ++ x) v l r s.
Proof using All. by rewrite AddEnvVars_law, Hcb. Qed.
Lemma built_AddVolumeMounts x :
  BuildContainer (AddVolumeMounts cb x) = Container.mk n c a p e (v ++ x) l r s.
Proof using All. by rewrite AddVolumeMounts_law, Hcb. Qed.
Lemma built_SetLivenessProbe x :
  BuildContainer (SetLivenessProbe cb x) = Container.mk n c a p e v x r s.
Proof using All. by rewrite SetLivenessProbe_law, Hcb. Qed.
Lemma built_SetReadinessProbe x :
  BuildContainer (SetReadinessProbe cb x) = Container.mk n c a p e v l x s.
Proof using All. by rewrite SetReadinessProbe_law, Hcb. Qed.
Lemma built_SetStartupProbe x :
  BuildContainer (SetStartupProbe cb x) = Container.mk n c a p e v l r x.
Proof using All. by rewrite SetStartupProbe_law, Hcb. Qed.
End built.

(** The main container, field by field. *)
Lemma main_container_eq b startup liveness readiness :
  main_container b startup liveness readiness = {|
    Container.Name := StatefulSetBuilder.RoleName b;
    Container.Command := ["/bin/bash"; "-x"; "-euo"; "pipefail"; "-c"];
    Container.Args := GetMainContainerCommanArgs b;
    Container.Ports := StatefulSetBuilder.Ports b;
    Container.Env := getEnvVars b ++ krb5_env b;
    Container.VolumeMounts := getVolumeMounts b ++ krb5_mounts b;
    Container.LivenessProbe := Some liveness;
    Container.ReadinessProbe := Some readiness;
    Container.StartupProbe := Some startup |}.
Proof.
  unfold main_container, krb5_env, krb5_mounts. cbv zeta.
  destruct (StatefulSetBuilder.krb5Config b) as [c|]; rewrite ?app_nil_r;
    (etrans; [try eapply built_AddVolumeMounts, built_AddEnvVars;
    eapply built_SetReadinessProbe, built_SetLivenessProbe, built_SetStartupProbe,
      built_AddPorts, built_AddEnvVars, built_AddVolumeMounts, built_SetArgs, built_SetCommand,
      NewContainer_law|]); done.
Qed.

Lemma buildContainer_eq b h :
  getProbeHandler b = Some h →
  buildContainer b = Ok [main_container b (Probe.mk h 120 10 5 3) (Probe.mk h 10 10 10 3)
                           (Probe.mk h 0 10 10 3)].
Proof.
  intros Hh. unfold buildContainer, GetStartupProbe, GetLivenessProbe, GetReadinessProbe.
  by rewrite Hh.
Qed.

Lemma buildContainer_unknown b :
  getProbeHandler b = None → buildContainer b = Panic nil_deref.
Proof. intros Hh. unfold buildContainer, GetStartupProbe. by rewrite Hh. Qed.

(** The handler of a known role is a TCP probe of a port of that role. *)
Lemma getProbeHandler_cases b :
  let roleName := StatefulSetBuilder.RoleName b in
  (∃ port ports, getProbeHandler b = tcp_probe port ∧ role_ports roleName = Some ports ∧
     port ∈ ContainerPort.Name <$> ports) ∨
  (getProbeHandler b = None ∧ role_ports roleName = None).
Proof.
  unfold getProbeHandler, role_ports, MASTER_ROLE, REGIONSERVER_ROLE, RESTSERVER_ROLE.
  cbv zeta. generalize (StatefulSetBuilder.RoleName b). intros role.
  destruct (decide (role = "master")) as [->|];
    [left; do 2 eexists; split_and!; [reflexivity..|by apply (bool_decide_unpack _)]|].
  destruct (decide (role = "regionserver")) as [->|];
    [left; do 2 eexists; split_and!; [reflexivity..|by apply (bool_decide_unpack _)]|].
  destruct (decide (role = "restserver")) as [->|];
    [left; do 2 eexists; split_and!; [reflexivity..|by apply (bool_decide_unpack _)]|].
  by right.
Qed.
End container_lemmas.

Section build_lemmas.
Context `{!Platform, !Builders, !ContainerLaws, !StatefulSetView, !StatefulSetLaws}.
Implicit Type b : StatefulSetBuilder.t.

(** What a builder is asked for, and what it has collected. *)
Definition fixed b :=
  (StatefulSetBuilder.Ports b, StatefulSetBuilder.ClusterConfig b, StatefulSetBuilder.RoleName b,
   StatefulSetBuilder.ClusterName b, StatefulSetBuilder.krb5Config b,
   b_GetImage b, b_GetName b, b_GetClient b, sts_Overrides (StatefulSetBuilder.base b)).
Definition collected b :=
  (sts_Containers (StatefulSetBuilder.base b), sts_Volumes (StatefulSetBuilder.base b),
   sts_Affinity (StatefulSetBuilder.base b)).

Lemma getVolumes_fixed b b' : fixed b' = fixed b → getVolumes b' = getVolumes b.
Proof. unfold fixed, getVolumes. intros Hf. by injection Hf as _ -> _ _ _ _ -> _ _. Qed.

Lemma affinity_fixed b b' :
  fixed b' = fixed b → GetDefaultAffinityBuilder b' = GetDefaultAffinityBuilder b.
Proof.
  unfold fixed, GetDefaultAffinityBuilder. intros Hf. by injection Hf as _ _ -> -> _ _ _ _ _.
Qed.

Lemma buildOidcContainer_fixed b b' :
  fixed b' = fixed b → buildOidcContainer b' = buildOidcContainer b.
Proof.
  unfold fixed, buildOidcContainer. intros Hf. by injection Hf as -> -> _ _ _ -> _ -> _.
Qed.

(** Each call on the embedded builder, seen through [fixed] and [collected]. *)
Lemma b_AddContainers b x :
  let b' := with_base (AddContainers (StatefulSetBuilder.base b) x) b in
  fixed b' = fixed b ∧ collected b' = ((collected b).1.1 ++ x, (collected b).1.2, (collected b).2).
Proof.
  unfold fixed, collected, b_GetImage, b_GetName, b_GetClient. cbn.
  by destruct (AddContainers_view (StatefulSetBuilder.base b) x) as (-> & -> & -> & -> & -> & -> & ->).
Qed.

Lemma b_AddContainer b x :
  let b' := with_base (AddContainer (StatefulSetBuilder.base b) x) b in
  fixed b' = fixed b ∧ collected b' = ((collected b).1.1 ++ [x], (collected b).1.2, (collected b).2).
Proof.
  unfold fixed, collected, b_GetImage, b_GetName, b_GetClient. cbn.
  by destruct (AddContainer_view (StatefulSetBuilder.base b) x) as (-> & -> & -> & -> & -> & -> & ->).
Qed.

Lemma b_AddVolumes b x :
  let b' := with_base (AddVolumes (StatefulSetBuilder.base b) x) b in
  fixed b' = fixed b ∧ collected b' = ((collected b).1.1, (collected b).1.2 ++ x, (collected b).2).
Proof.
  unfold fixed, collected, b_GetImage, b_GetName, b_GetClient. cbn.
  by destruct (AddVolumes_view (StatefulSetBuilder.base b) x) as (-> & -> & -> & -> & -> & -> & ->).
Qed.

Lemma b_SetAffinity b x :
  let b' := with_base (SetAffinity (StatefulSetBuilder.base b) x) b in
  fixed b' = fixed b ∧ collected b' = ((collected b).1.1, (collected b).1.2, Some x).
Proof.
  unfold fixed, collected, b_GetImage, b_GetName, b_GetClient. cbn.
  by destruct (SetAffinity_view (StatefulSetBuilder.base b) x) as (-> & -> & -> & -> & -> & -> & ->).
Qed.

(** The pod of a builder: the volumes, the main container, the affinity. *)
Definition pod_volumes b (cc : ClusterConfigSpec.t) : list (Volume.t Quantity) :=
  [ config_map_volume "hdfs-config" (ClusterConfigSpec.HdfsConfigMapName cc) 420;
    config_map_volume "hbase-config" (b_GetName b) 420 ] ++ krb5_volumes b.
Definition pod_main b (h : ProbeHandler.t) : Container.t :=
  main_container b (Probe.mk h 120 10 5 3) (Probe.mk h 10 10 10 3) (Probe.mk h 0 10 10 3).
Definition pod_affinity b : Affinity.t := Affinity.Build (GetDefaultAffinityBuilder b).

(** [b1] is [b] with [cs], [vs] and [a] collected. *)
Definition grown b b1 (cs : list Container.t) (vs : list (Volume.t Quantity))
  (a : option Affinity.t) : Prop :=
  fixed b1 = fixed b ∧ collected b1 = ((collected b).1.1 ++ cs, (collected b).1.2 ++ vs, a).

Lemma grown_refl b : grown b b [] [] (collected b).2.
Proof. split; [done|]. rewrite !app_nil_r. by destruct (collected b) as [[]]. Qed.

Lemma grown_containers b b1 cs vs a x :
  grown b b1 cs vs a →
  grown b (with_base (AddContainers (StatefulSetBuilder.base b1) x) b1) (cs ++ x) vs a.
Proof.
  intros [Hf Hc]. destruct (b_AddContainers b1 x) as [Hf1 Hc1]. split; [congruence|].
  rewrite Hc1, Hc. cbn. by rewrite app_assoc.
Qed.

Lemma grown_container b b1 cs vs a x :
  grown b b1 cs vs a →
  grown b (with_base (AddContainer (StatefulSetBuilder.base b1) x) b1) (cs ++ [x]) vs a.
Proof.
  intros [Hf Hc]. destruct (b_AddContainer b1 x) as [Hf1 Hc1]. split; [congruence|].
  rewrite Hc1, Hc. cbn. by rewrite app_assoc.
Qed.

Lemma grown_volumes b b1 cs vs a x :
  grown b b1 cs vs a →
  grown b (with_base (AddVolumes (StatefulSetBuilder.base b1) x) b1) cs (vs ++ x) a.
Proof.
  intros [Hf Hc]. destruct (b_AddVolumes b1 x) as [Hf1 Hc1]. split; [congruence|].
  rewrite Hc1, Hc. cbn. by rewrite app_assoc.
Qed.

Lemma grown_affinity b b1 cs vs a x :
  grown b b1 cs vs a →
  grown b (with_base (SetAffinity (StatefulSetBuilder.base b1) x) b1) cs vs (Some x).
Proof.
  intros [Hf Hc]. destruct (b_SetAffinity b1 x) as [Hf1 Hc1]. split; [congruence|].
  rewrite Hc1, Hc. done.
Qed.

(** The calls of [Build] before and after the side-car. *)
Definition build_first : M StatefulSetBuilder.t unit :=
  do b <- get;;
  do containers <- lift (buildContainer b);;
  do! on_base (λ s, AddContainers s containers);;
  do b <- get;;
  do volumes <- lift (getVolumes b);;
  do! on_base (λ s, AddVolumes s volumes);;
  do! on_base (λ s, SetAffinity s (Affinity.Build (GetDefaultAffinityBuilder b)));;
  match StatefulSetBuilder.krb5Config b with
  | Some c => on_base (λ s, AddVolumes s (GetVolumes c))
  | None => mret tt
  end.

Definition build_last : M StatefulSetBuilder.t (StatefulSetObject.t Quantity StatefulSetRest) :=
  do b <- get;;
  do oidcContainer <- lift (buildOidcContainer b);;
  do! match oidcContainer with
      | Some c => on_base (λ s, AddContainer s c)
      | None => mret tt
      end;;
  do obj <- b_GetObject;;
  do b <- get;;
  do clusterConfig <- lift (deref (StatefulSetBuilder.ClusterConfig b));;
  mret (add_vector b clusterConfig obj).

Lemma Build_split b : Build b = (build_first ≫= λ _, build_last) b.
Proof.
  unfold Build, build_first, mbind, M_bind, get, lift, on_base, modify.
  destruct (buildContainer b); [|done..]. cbn beta iota.
  destruct (getVolumes _); [|done..]. cbn beta iota.
  by destruct (StatefulSetBuilder.krb5Config _).
Qed.

Lemma build_first_run b h cc :
  getProbeHandler b = Some h → StatefulSetBuilder.ClusterConfig b = Some cc →
  ∃ b1, build_first b = (b1, Ok tt) ∧
    grown b b1 [pod_main b h] (pod_volumes b cc) (Some (pod_affinity b)).
Proof.
  intros Hh Hcc. unfold build_first, mbind, M_bind, get, lift, on_base, modify.
  rewrite (buildContainer_eq b h Hh). cbn beta iota. fold (pod_main b h).
  pose proof (grown_containers _ _ _ _ _ [pod_main b h] (grown_refl b)) as Hg.
  set (b1 := with_base _ b) in *.
  assert (StatefulSetBuilder.krb5Config b1 = StatefulSetBuilder.krb5Config b) as -> by done.
  rewrite (getVolumes_fixed b b1), (affinity_fixed b b1) by apply Hg. fold (pod_affinity b).
  unfold getVolumes at 1. rewrite Hcc. cbn [deref mbind outcome_bind]. cbn beta iota.
  apply (grown_volumes _ _ _ _ _ (take 2 (pod_volumes b cc))) in Hg.
  apply (grown_affinity _ _ _ _ _ (pod_affinity b)) in Hg.
  unfold pod_volumes, krb5_volumes in *. destruct (StatefulSetBuilder.krb5Config b) as [c|].
  - eexists. split; [reflexivity|]. by apply (grown_volumes _ _ _ _ _ (GetVolumes c)) in Hg.
  - eexists. split; [reflexivity|]. exact Hg.
Qed.

Lemma add_vector_image b b1 cc obj :
  b_GetImage b1 = b_GetImage b → add_vector b1 cc obj = add_vector b cc obj.
Proof. unfold add_vector. by intros ->. Qed.

Lemma build_last_run b cc :
  StatefulSetBuilder.ClusterConfig b = Some cc →
  match buildOidcContainer b with
  | Ok sidecar => ∃ b1,
      (∀ b0 cs vs a, grown b0 b cs vs a → grown b0 b1 (cs ++ option_list sidecar) vs a) ∧
      snd (build_last b) = add_vector b cc <$> snd (GetObject (StatefulSetBuilder.base b1))
  | Err e => build_last b = (b, Err e)
  | Panic m => build_last b = (b, Panic m)
  end.
Proof.
  intros Hcc.
  unfold build_last, mbind, M_bind, get, lift, on_base, modify, b_GetObject, on_part, mret, M_ret.
  destruct (buildOidcContainer b) as [sidecar|e|m]; [|done..]. cbn beta iota.
  assert (∀ b1, fixed b1 = fixed b → ∀ s o, GetObject (StatefulSetBuilder.base b1) = (s, Ok o) →
    add_vector (with_base s b1) cc o = add_vector b cc o) as Hvec.
  { intros b1 Hf s o Ho. apply add_vector_image. unfold fixed in Hf.
    injection Hf as _ _ _ _ _ <- _ _ _. unfold b_GetImage. cbn.
    rewrite <-(GetObject_view (StatefulSetBuilder.base b1)). by rewrite Ho. }
  destruct sidecar as [c|].
  - set (b1 := with_base (AddContainer (StatefulSetBuilder.base b) c) b). exists b1. split.
    { intros b0 cs vs a Hg. by apply grown_container. }
    specialize (Hvec b1 (proj1 (b_AddContainer b c))).
    destruct (GetObject (StatefulSetBuilder.base b1)) as [s [o|e|m]] eqn:Ho; [|done..].
    cbn. rewrite Hcc. cbn. by rewrite (Hvec s o).
  - exists b. split.
    { intros b0 cs vs a Hg. by rewrite app_nil_r. }
    specialize (Hvec b eq_refl).
    destruct (GetObject (StatefulSetBuilder.base b)) as [s [o|e|m]] eqn:Ho; [|done..].
    cbn. rewrite Hcc. cbn. by rewrite (Hvec s o).
Qed.

Lemma Build_run b h cc :
  getProbeHandler b = Some h → StatefulSetBuilder.ClusterConfig b = Some cc →
  match buildOidcContainer b with
  | Ok sidecar => ∃ b1,
      grown b b1 (pod_main b h :: option_list sidecar) (pod_volumes b cc) (Some (pod_affinity b)) ∧
      snd (Build b) = add_vector b cc <$> snd (GetObject (StatefulSetBuilder.base b1))
  | Err e => snd (Build b) = Err e
  | Panic m => snd (Build b) = Panic m
  end.
Proof.
  intros Hh Hcc. rewrite Build_split.
  destruct (build_first_run b h cc Hh Hcc) as (b1 & Hb1 & Hg).
  rewrite (M_bind_run _ _ _ _ _ Hb1).
  assert (fixed b1 = fixed b) as Hf by apply Hg.
  assert (StatefulSetBuilder.ClusterConfig b1 = Some cc) as Hcc1.
  { unfold fixed in Hf. by injection Hf as _ -> _ _ _ _ _ _ _. }
  assert (b_GetImage b1 = b_GetImage b) as Hi by (unfold fixed in Hf; congruence).
  pose proof (build_last_run b1 cc Hcc1) as Hlast. rewrite (buildOidcContainer_fixed b b1 Hf) in Hlast.
  destruct (buildOidcContainer b) as [sidecar|e|m]; [|by rewrite Hlast..].
  destruct Hlast as (b2 & Hg2 & ->). exists b2. split; [exact (Hg2 _ _ _ _ Hg)|].
  destruct (snd _); cbn; [|done..]. by rewrite (add_vector_image b b1 cc _ Hi).
Qed.

Lemma Build_panics b :
  getProbeHandler b = None ∨ StatefulSetBuilder.ClusterConfig b = None →
  snd (Build b) = Panic nil_deref.
Proof.
  intros Hor. rewrite Build_split. unfold build_first, mbind, M_bind, get, lift, on_base, modify.
  destruct (getProbeHandler b) as [h|] eqn:Hh.
  - destruct Hor as [?|Hcc]; [done|]. rewrite (buildContainer_eq b h Hh). cbn beta iota.
    unfold getVolumes at 1. cbn. by rewrite Hcc.
  - by rewrite (buildContainer_unknown b Hh).
Qed.

(** The side-car in every case: it needs an authentication class that is an OIDC
    provider, and the cluster's OIDC settings. *)
Lemma buildOidcContainer_eq b cc :
  StatefulSetBuilder.ClusterConfig b = Some cc →
  buildOidcContainer b =
    match ClusterConfigSpec.Authentication cc with
    | None => Ok None
    | Some a =>
        if decide (AuthenticationSpec.AuthenticationClass a = "") then Ok None
        else
          match GetAuthenticationClass (b_GetClient b) (AuthenticationSpec.AuthenticationClass a) with
          | Ok class =>
              match AuthenticationClass.OIDC class, AuthenticationSpec.Oidc a with
              | Some p, Some o =>
                  Some <$> GetContainer (NewOidc (GetOwnerUID (b_GetClient b)) (b_GetImage b)
                    (upstream_port (StatefulSetBuilder.Ports b)) (Some o) (Some p))
              | _, _ => Ok None
              end
          | Err e => Err e
          | Panic m => Panic m
          end
    end.
Proof.
  intros Hcc. unfold buildOidcContainer. rewrite Hcc. cbn [deref mbind outcome_bind].
  destruct (ClusterConfigSpec.Authentication cc) as [a|]; [|done].
  case_decide; [done|]. destruct (GetAuthenticationClass _ _) as [class|e|m]; [|done..].
  cbn [mbind outcome_bind].
  by destruct (AuthenticationClass.OIDC class), (AuthenticationSpec.Oidc a).
Qed.
End build_lemmas.

(** ** Properties of [Build] *)
Section build.
Context `{!Platform, !Builders, !ContainerLaws, !StatefulSetView, !StatefulSetLaws}.
Implicit Type b : StatefulSetBuilder.t.

Lemma mount_names b cc :
  VolumeMount.Name <$> getVolumeMounts b ++ krb5_mounts b = Volume.Name <$> pod_volumes b cc.
Proof.
  unfold krb5_mounts, pod_volumes, krb5_volumes. by destruct (StatefulSetBuilder.krb5Config b).
Qed.

Lemma mount_names_distinct b :
  NoDup (VolumeMount.Name <$> getVolumeMounts b ++ krb5_mounts b).
Proof.
  unfold krb5_mounts. destruct (StatefulSetBuilder.krb5Config b); by apply (bool_decide_unpack _).
Qed.

Lemma no_log_mount b : "log" ∉ VolumeMount.Name <$> getVolumeMounts b ++ krb5_mounts b.
Proof.
  unfold krb5_mounts. destruct (StatefulSetBuilder.krb5Config b); by apply (bool_decide_unpack _).
Qed.

(** Mount paths differ in their last element. *)
Lemma mount_paths_distinct b :
  NoDup (VolumeMount.MountPath <$> getVolumeMounts b ++ krb5_mounts b).
Proof.
  apply (NoDup_fmap_1 (λ p, head (clean_stack p))).
  assert (∀ d, bool_decide (d ≠ "" ∧ d ≠ "." ∧ has "/"%char d = false ∧ d ≠ "..") = true →
    ∀ root, head (clean_stack (PathJoin [root; d])) = Some d) as Hh.
  { intros d Hd root. by apply PathJoin_head, file_name_by_computation. }
  unfold krb5_mounts, getVolumeMounts. destruct (StatefulSetBuilder.krb5Config b) as [c|];
    unfold GetVolumeMounts, KerberosDir, TlsStoreDir;
    cbn [app fmap list_fmap VolumeMount.MountPath]; rewrite !Hh by reflexivity;
    by apply (bool_decide_unpack _).
Qed.

Lemma env_names_distinct b : NoDup (EnvVar.Name <$> getEnvVars b ++ krb5_env b).
Proof.
  unfold krb5_env. destruct (StatefulSetBuilder.krb5Config b); by apply (bool_decide_unpack _).
Qed.

(** C15: what building the object does in every case.  It panics exactly when
    the role is unknown (its probes have no handler) or the cluster has no
    [clusterConfig]; it fails when the authentication class cannot be read;
    otherwise the embedded builder has collected the main container, the side-car
    when there is one, the volumes and the default affinity, and the object is
    the embedded builder's with the Vector side-car appended when the cluster
    names an aggregator. *)
Theorem Build_spec b :
  match getProbeHandler b, StatefulSetBuilder.ClusterConfig b with
  | Some h, Some cc =>
      match buildOidcContainer b with
      | Ok sidecar => ∃ b1,
          sts_Containers (StatefulSetBuilder.base b1) =
            sts_Containers (StatefulSetBuilder.base b) ++ pod_main b h :: option_list sidecar ∧
          sts_Volumes (StatefulSetBuilder.base b1) =
            sts_Volumes (StatefulSetBuilder.base b) ++ pod_volumes b cc ∧
          sts_Affinity (StatefulSetBuilder.base b1) =
            Some (Affinity.Build (GetDefaultAffinityBuilder b)) ∧
          snd (Build b) = add_vector b cc <$> snd (GetObject (StatefulSetBuilder.base b1))
      | Err e => snd (Build b) = Err e
      | Panic m => snd (Build b) = Panic m
      end
  | _, _ => snd (Build b) = Panic nil_deref
  end.
Proof.
  destruct (getProbeHandler b) as [h|] eqn:Hh; [|by apply Build_panics; left].
  destruct (StatefulSetBuilder.ClusterConfig b) as [cc|] eqn:Hcc; [|by apply Build_panics; right].
  pose proof (Build_run b h cc Hh Hcc) as Hrun.
  destruct (buildOidcContainer b) as [sidecar|e|m]; [|done..].
  destruct Hrun as (b1 & [_ Hc] & Hobj). exists b1. unfold collected in Hc. by injection Hc as -> -> ->.
Qed.

Lemma pod_probes b h ports :
  getProbeHandler b = Some h → role_ports (StatefulSetBuilder.RoleName b) = Some ports →
  StatefulSetBuilder.Ports b = ports →
  ∃ port, port ∈ ContainerPort.Name <$> Container.Ports (pod_main b h) ∧
    Forall (λ p, Probe.ProbeHandler <$> p = tcp_probe port)
      [Container.StartupProbe (pod_main b h); Container.LivenessProbe (pod_main b h);
       Container.ReadinessProbe (pod_main b h)].
Proof.
  intros Hh Hr Hp0. unfold pod_main. rewrite main_container_eq. cbn. rewrite Hp0.
  destruct (getProbeHandler_cases b) as [(port & ps & Hp & Hr' & Hin)|[? ?]]; [|congruence].
  exists port. rewrite Hr in Hr'. injection Hr' as <-. split; [done|].
  rewrite <-Hp, Hh. by repeat constructor.
Qed.

Lemma GetContainer_eq o p oidc :
  Oidc.Oidc o = Some oidc → Oidc.OidcProvider o = Some p →
  ∃ env, Oidc.getEnvVars o = Ok env ∧
    GetContainer o = Ok (Container.mk "oidc" (getCommands o) [] [OidcContainerPort] env []
                           None None None).
Proof.
  intros Ho Hp. unfold GetContainer, Oidc.getEnvVars. rewrite Ho, Hp. cbn [deref mbind outcome_bind].
  eexists. split; [reflexivity|]. f_equal.
  etrans; [eapply built_AddPorts, built_SetCommand, built_AddEnvVars, NewContainer_law|]. done.
Qed.

(** The side-car of any role group: its name and port, and no volume mounts. *)
Lemma sidecar_container b c :
  buildOidcContainer b = Ok (Some c) →
  Container.Name c = "oidc" ∧ Container.Ports c = [OidcContainerPort] ∧
  Container.VolumeMounts c = [].
Proof.
  unfold buildOidcContainer. intros Hc. apply outcome_bind_Ok in Hc as (cc & _ & Hc).
  destruct (ClusterConfigSpec.Authentication cc) as [a|]; [|done]. case_decide; [done|].
  apply outcome_bind_Ok in Hc as (class & _ & Hc).
  destruct (AuthenticationClass.OIDC class) as [p|]; [|done].
  destruct (AuthenticationSpec.Oidc a) as [o|]; [|done].
  destruct (GetContainer_eq (NewOidc (GetOwnerUID (b_GetClient b)) (b_GetImage b)
    (upstream_port (StatefulSetBuilder.Ports b)) (Some o) (Some p)) p o) as (env & _ & Heq); [done..|].
  cbv zeta in Hc. rewrite Heq in Hc. by injection Hc as <-.
Qed.

(** The numbers of all ports the containers of a pod declare. *)
Definition port_numbers (cs : list Container.t) : list Z :=
  cs ≫= λ c, ContainerPort.ContainerPort <$> Container.Ports c.

(** The ports of a role differ from each other and from the side-car's. *)
Lemma role_ports_free role ports :
  role_ports role = Some ports →
  role ≠ "oidc" ∧ NoDup (ContainerPort.ContainerPort <$> ports ++ [OidcContainerPort]).
Proof.
  unfold role_ports. intros Hports.
  repeat (destruct (decide (role = _)) as [->|_];
    [injection Hports as <-; split; by apply (bool_decide_unpack _)|]). done.
Qed.

(** Main container and side-car share neither a name nor a port, and the side-car mounts
    nothing. *)
Lemma containers_distinct b sidecar main :
  role_ports (StatefulSetBuilder.RoleName b) = Some (Container.Ports main) →
  Container.Name main = StatefulSetBuilder.RoleName b → buildOidcContainer b = Ok sidecar →
  let cs := main :: option_list sidecar in
  NoDup (Container.Name <$> cs) ∧ NoDup (port_numbers cs) ∧
  Forall (λ c, Container.VolumeMounts c = []) (option_list sidecar).
Proof.
  intros [Hrole Hfree]%role_ports_free Hname Hc. cbv zeta. unfold port_numbers.
  rewrite fmap_app in Hfree. destruct sidecar as [c|]; cbn -[ContainerPort.ContainerPort].
  - destruct (sidecar_container b c Hc) as (Hn & Hp & Hv). rewrite Hn, Hp, Hname. split_and!.
    + apply NoDup_cons. split; [by intros [= ?]%list_elem_of_singleton|apply NoDup_singleton].
    + rewrite app_nil_r. exact Hfree.
    + by constructor.
  - rewrite app_nil_r. apply NoDup_app in Hfree as [Hfree _].
    split_and!; [apply NoDup_singleton|done|constructor].
Qed.

(** What Vector adds to the pod. *)
Definition vector_parts b (cc : ClusterConfigSpec.t) : list Container.t * list (Volume.t Quantity) :=
  let v := NewVector HHbaseConfigVolumeName HbaseLogVolumeName (b_GetImage b) in
  if decide (ClusterConfigSpec.VectorAggregatorConfigMapName cc = "") then ([], [])
  else ([VectorContainer v], VectorVolumes v).

(** The containers and volumes of the object itself, when there are no overrides. *)
Lemma Build_pod `{!PodTemplateLaws} b obj :
  sts_Containers (StatefulSetBuilder.base b) = [] → sts_Volumes (StatefulSetBuilder.base b) = [] →
  sts_Overrides (StatefulSetBuilder.base b) = None → snd (Build b) = Ok obj →
  ∃ h cc sidecar, getProbeHandler b = Some h ∧ StatefulSetBuilder.ClusterConfig b = Some cc ∧
    buildOidcContainer b = Ok sidecar ∧
    StatefulSetObject.Containers obj = pod_main b h :: option_list sidecar ++ (vector_parts b cc).1 ∧
    StatefulSetObject.Volumes obj = pod_volumes b cc ++ (vector_parts b cc).2.
Proof.
  intros Hc0 Hv0 Ho0 Hobj.
  destruct (getProbeHandler b) as [h|] eqn:Hh; [|rewrite Build_panics in Hobj by auto; done].
  destruct (StatefulSetBuilder.ClusterConfig b) as [cc|] eqn:Hcc;
    [|rewrite Build_panics in Hobj by auto; done].
  pose proof (Build_run b h cc Hh Hcc) as Hrun.
  destruct (buildOidcContainer b) as [sidecar|e|m]; [|congruence..].
  destruct Hrun as (b1 & [Hf Hc] & Hobj1). exists h, cc, sidecar. do 3 (split; [done|]).
  unfold collected in Hc. rewrite Hc0, Hv0 in Hc. injection Hc as Hcs Hvs _.
  unfold fixed in Hf. injection Hf as _ _ _ _ _ _ _ _ Hov. rewrite Ho0 in Hov.
  rewrite Hobj in Hobj1.
  destruct (GetObject (StatefulSetBuilder.base b1)) as [s' [obj'|e|m]] eqn:Hget; [|done..].
  destruct (GetObject_pod _ s' obj' Hov Hget) as [Hcs' Hvs']. injection Hobj1 as ->.
  unfold add_vector, vector_parts. case_decide; cbn [StatefulSetObject.Containers StatefulSetObject.Volumes fst snd];
    by rewrite Hcs', Hvs', Hcs, Hvs, ?app_nil_r.
Qed.

(** C16: the pod is consistent.  Whenever a builder of a known role with that role's ports
    and without overrides builds an object, the object's own containers are the
    main container, named after the role and with the role's ports, the OIDC
    side-car if there is one, and Vector if the cluster names an aggregator; its
    volumes are the pod's and then Vector's.  Main container and side-car have
    different names and no port in common.  Every volume the main container mounts is
    a volume of the object and every volume of the pod is mounted, in the same order;
    the side-car mounts nothing; the volume Vector is told to read its configuration
    from is the role group's config map, but the main container does not mount the
    volume it is told to read logs from.  Mount paths and environment variables do
    not repeat, and volume names do not either unless Vector brings one twice or one
    of the pod's.  The three probes check one port, which the main container declares. *)
Theorem pod_consistent `{!PodTemplateLaws} b ports obj
  (Hports : role_ports (StatefulSetBuilder.RoleName b) = Some ports)
  (Hb : StatefulSetBuilder.Ports b = ports ∧ sts_Containers (StatefulSetBuilder.base b) = [] ∧
        sts_Volumes (StatefulSetBuilder.base b) = [] ∧ sts_Overrides (StatefulSetBuilder.base b) = None)
  (Hobj : snd (Build b) = Ok obj) :
  ∃ cc main sidecar volumes,
    StatefulSetBuilder.ClusterConfig b = Some cc ∧ buildOidcContainer b = Ok sidecar ∧
    (let vector := NewVector "hbase-config" "log" (b_GetImage b) in
     let '(vector_containers, vector_volumes) :=
       if decide (ClusterConfigSpec.VectorAggregatorConfigMapName cc = "") then ([], [])
       else ([VectorContainer vector], VectorVolumes vector) in
     StatefulSetObject.Containers obj = main :: option_list sidecar ++ vector_containers ∧
     StatefulSetObject.Volumes obj = volumes ++ vector_volumes ∧
     (NoDup (Volume.Name <$> StatefulSetObject.Volumes obj) ↔
        NoDup (Volume.Name <$> vector_volumes) ∧
        ∀ n, n ∈ Volume.Name <$> volumes → n ∉ Volume.Name <$> vector_volumes)) ∧
    config_map_volume "hbase-config" (b_GetName b) 420 ∈ volumes ∧
    Container.Name main = StatefulSetBuilder.RoleName b ∧ Container.Ports main = ports ∧
    (NoDup (Container.Name <$> main :: option_list sidecar) ∧
     NoDup (port_numbers (main :: option_list sidecar)) ∧
     Forall (λ c, Container.VolumeMounts c = []) (option_list sidecar)) ∧
    VolumeMount.Name <$> Container.VolumeMounts main = Volume.Name <$> volumes ∧
    ("log" ∉ VolumeMount.Name <$> Container.VolumeMounts main) ∧
    NoDup (Volume.Name <$> volumes) ∧
    NoDup (VolumeMount.MountPath <$> Container.VolumeMounts main) ∧
    NoDup (EnvVar.Name <$> Container.Env main) ∧
    ∃ port, port ∈ ContainerPort.Name <$> Container.Ports main ∧
      Forall (λ p, Probe.ProbeHandler <$> p = tcp_probe port)
        [Container.StartupProbe main; Container.LivenessProbe main; Container.ReadinessProbe main].
Proof.
  destruct Hb as (Hp & Hc0 & Hv0 & Ho0).
  destruct (Build_pod b obj Hc0 Hv0 Ho0 Hobj) as (h & cc & sidecar & Hh & Hcc & Hside & Hcs & Hvs).
  assert (NoDup (Volume.Name <$> pod_volumes b cc)) as Hnd
    by (rewrite <-mount_names; apply mount_names_distinct).
  exists cc, (pod_main b h), sidecar, (pod_volumes b cc). split; [done|]. split; [done|]. split.
  { unfold vector_parts, HHbaseConfigVolumeName, HbaseLogVolumeName in Hcs, Hvs.
    cbv zeta in Hcs, Hvs |- *.
    case_decide; cbn [fst snd] in Hcs, Hvs; (split; [done|]); (split; [done|]);
      rewrite Hvs, fmap_app, NoDup_app; naive_solver. }
  split; [by right; left|]. pose proof (pod_probes b h ports Hh Hports Hp) as Hprobes.
  pose proof (containers_distinct b sidecar (pod_main b h)) as Hdistinct.
  clear Hcs Hvs Hobj. unfold pod_main in *. rewrite main_container_eq in *.
  split; [done|]. split; [done|].
  split; [apply Hdistinct; [by rewrite <-Hp in Hports|done..]|].
  split; [exact (mount_names b cc)|]. split; [exact (no_log_mount b)|].
  split; [done|]. split; [exact (mount_paths_distinct b)|].
  split; [exact (env_names_distinct b)|done].
Qed.

Lemma role_ports_known role :
  role_ports role ≠ None ↔ role ∈ [MASTER_ROLE; REGIONSERVER_ROLE; RESTSERVER_ROLE].
Proof. destruct (GetMetricsPort_cases role) as [(?&?&_&->&_&?)|(_&->&?)]; naive_solver. Qed.

Lemma roleNameToCommandArg_known role :
  roleNameToCommandArg role = "" ↔ role ∉ [MASTER_ROLE; REGIONSERVER_ROLE; RESTSERVER_ROLE].
Proof.
  unfold roleNameToCommandArg. split.
  - intros Harg Hin. repeat (apply elem_of_cons in Hin as [->|Hin]; [discriminate Harg|]).
    by apply elem_of_nil in Hin.
  - rewrite !not_elem_of_cons. intros (? & ? & ? & _). cbn [list_to_map foldr].
    by rewrite !lookup_insert_ne, lookup_empty by done.
Qed.

(** The tables keyed by the role name cover the same roles: exactly the
    names that have container ports have a command of [bin/hbase], a probe
    handler and a metrics port. *)
Theorem role_tables_agree b :
  let role := StatefulSetBuilder.RoleName b in
  (role_ports role = None ↔ roleNameToCommandArg role = "") ∧
  (role_ports role = None ↔ getProbeHandler b = None) ∧
  (role_ports role = None ↔ ¬ ∃ p, GetMetricsPort role = Ok p).
Proof.
  cbv zeta. split_and!.
  - rewrite roleNameToCommandArg_known, <-role_ports_known. destruct (role_ports _); naive_solver.
  - destruct (getProbeHandler_cases b) as [(?&?&->&->&_)|[-> ->]]; [|done]. by split.
  - destruct (GetMetricsPort_cases (StatefulSetBuilder.RoleName b))
      as [(p&?&->&->&_)|(->&->&_)]; naive_solver.
Qed.

(** C40: by default the pods of a cluster attract each other with weight 20 and
    the pods of one role repel each other with weight 70, both over host names
    and as preferences only. *)
Theorem default_affinity `{!PlatformLaws} b :
  ∃ near apart : gmap string string,
    Affinity.Build (GetDefaultAffinityBuilder b) = Affinity.mk
      (Some (PodAffinityTerms.mk [] [WeightedPodAffinityTerm.mk 20
         (PodAffinityTerm.mk (Some (LabelSelector.mk near)) LabelHostname)]))
      (Some (PodAffinityTerms.mk [] [WeightedPodAffinityTerm.mk 70
         (PodAffinityTerm.mk (Some (LabelSelector.mk apart)) LabelHostname)])) ∧
    dom near = {[LabelKubernetesInstance; LabelKubernetesName]} ∧
    near !! LabelKubernetesInstance = Some (StatefulSetBuilder.ClusterName b) ∧
    near !! LabelKubernetesName = Some "hbase" ∧
    near ⊆ apart ∧
    apart !! LabelKubernetesComponent = Some (StatefulSetBuilder.RoleName b) ∧
    dom apart = {[LabelKubernetesInstance; LabelKubernetesName; LabelKubernetesComponent]}.
Proof.
  pose proof labels_differ as Hnd.
  apply NoDup_cons in Hnd as [Hi Hnd]. apply NoDup_cons in Hnd as [Hn _].
  rewrite !not_elem_of_cons in Hi. rewrite not_elem_of_cons in Hn.
  destruct Hi as (Hin & Hic & _), Hn as [Hnc _].
  set (base := <[LabelKubernetesName := "hbase"]>
    (<[LabelKubernetesComponent := StatefulSetBuilder.RoleName b]> ∅) : gmap string string).
  exists (<[LabelKubernetesInstance := StatefulSetBuilder.ClusterName b]>
            (<[LabelKubernetesName := "hbase"]> ∅)),
    (<[LabelKubernetesInstance := StatefulSetBuilder.ClusterName b]> base).
  subst base. split; [reflexivity|]. split_and!.
  - rewrite !dom_insert_L, dom_empty_L. set_solver.
  - by rewrite lookup_insert_eq.
  - rewrite lookup_insert_ne by congruence. by rewrite lookup_insert_eq.
  - apply insert_mono, insert_mono, map_empty_subseteq.
  - rewrite !lookup_insert_ne by congruence. by rewrite lookup_insert_eq.
  - rewrite !dom_insert_L, dom_empty_L. set_solver.
Qed.

(** A cluster asks for the side-car when its authentication names a class, which
    is that of an OIDC provider, and it has OIDC settings. *)
Definition wants_sidecar b (cc : ClusterConfigSpec.t) (p : OIDCProvider.t) (o : OidcSpec.t) : Prop :=
  ∃ a class, ClusterConfigSpec.Authentication cc = Some a ∧
    AuthenticationSpec.AuthenticationClass a ≠ "" ∧
    GetAuthenticationClass (b_GetClient b) (AuthenticationSpec.AuthenticationClass a) = Ok class ∧
    AuthenticationClass.OIDC class = Some p ∧ AuthenticationSpec.Oidc a = Some o.

Lemma buildOidcContainer_wants b cc c :
  StatefulSetBuilder.ClusterConfig b = Some cc →
  buildOidcContainer b = Ok (Some c) ↔
    ∃ p o, wants_sidecar b cc p o ∧
      GetContainer (NewOidc (GetOwnerUID (b_GetClient b)) (b_GetImage b)
        (upstream_port (StatefulSetBuilder.Ports b)) (Some o) (Some p)) = Ok c.
Proof.
  intros Hcc. rewrite (buildOidcContainer_eq b cc Hcc). unfold wants_sidecar. split.
  - destruct (ClusterConfigSpec.Authentication cc) as [a|] eqn:Ha; [|done]. case_decide; [done|].
    destruct (GetAuthenticationClass _ _) as [class|e|m] eqn:Hclass; [|done..].
    destruct (AuthenticationClass.OIDC class) as [p|] eqn:Hp; [|done].
    destruct (AuthenticationSpec.Oidc a) as [o|] eqn:Ho; [|done].
    destruct (GetContainer _) as [c'|e|m] eqn:Hc; [|done..]. intros [= ->]. eauto 12.
  - intros (p & o & (a & class & -> & Hne & -> & -> & ->) & Hc).
    rewrite decide_False by done. by rewrite Hc.
Qed.

(** C22: a role group gets the OIDC side-car exactly when the cluster names an
    authentication class that is an OIDC provider and has OIDC settings; the
    only error is that of reading the class. *)
Theorem sidecar_iff b cc (Hcc : StatefulSetBuilder.ClusterConfig b = Some cc) :
  ((∃ c, buildOidcContainer b = Ok (Some c)) ↔ ∃ p o, wants_sidecar b cc p o) ∧
  (∀ e, buildOidcContainer b = Err e ↔
     ∃ a, ClusterConfigSpec.Authentication cc = Some a ∧
       AuthenticationSpec.AuthenticationClass a ≠ "" ∧
       GetAuthenticationClass (b_GetClient b) (AuthenticationSpec.AuthenticationClass a) = Err e).
Proof.
  split.
  - split.
    + intros [c Hc]. apply (buildOidcContainer_wants b cc c Hcc) in Hc as (p & o & ? & _). eauto.
    + intros (p & o & Hw).
      destruct (GetContainer_eq (NewOidc (GetOwnerUID (b_GetClient b)) (b_GetImage b)
        (upstream_port (StatefulSetBuilder.Ports b)) (Some o) (Some p)) p o) as (env & _ & Hc);
        [done..|].
      eexists. apply (buildOidcContainer_wants b cc _ Hcc). eauto.
  - intros e. rewrite (buildOidcContainer_eq b cc Hcc). split.
    + destruct (ClusterConfigSpec.Authentication cc) as [a|] eqn:Ha; [|done]. case_decide; [done|].
      destruct (GetAuthenticationClass _ _) as [class|e'|m] eqn:Hclass; [|naive_solver|done].
      destruct (AuthenticationClass.OIDC class) as [p|]; [|done].
      destruct (AuthenticationSpec.Oidc a) as [o|]; [|done].
      destruct (GetContainer_eq (NewOidc (GetOwnerUID (b_GetClient b)) (b_GetImage b)
        (upstream_port (StatefulSetBuilder.Ports b)) (Some o) (Some p)) p o) as (env & _ & ->); done.
    + intros (a & -> & Hne & ->). by rewrite decide_False.
Qed.

(** C23: the side-car of a known role proxies to the port its container calls
    [ui-http], which is the role's metrics port too, and listens on a port no
    port of the main container collides with. *)
Theorem sidecar_proxies_ui b cc c
  (Hcc : StatefulSetBuilder.ClusterConfig b = Some cc)
  (Hports : role_ports (StatefulSetBuilder.RoleName b) = Some (StatefulSetBuilder.Ports b))
  (Hc : buildOidcContainer b = Ok (Some c)) :
  Container.Name c = "oidc" ∧ Container.Ports c = [OidcContainerPort] ∧
  (ContainerPort.ContainerPort OidcContainerPort ∉
     ContainerPort.ContainerPort <$> StatefulSetBuilder.Ports b) ∧
  ∃ p, GetMetricsPort (StatefulSetBuilder.RoleName b) = Ok p ∧
    env_get (Container.Env c) "UPSTREAM" =
      Some (env_value "UPSTREAM" ("http://$(POD_IP):" +:+ Itoa p)).
Proof.
  apply (buildOidcContainer_wants b cc c Hcc) in Hc as (p & o & _ & Hc).
  destruct (GetContainer_eq (NewOidc (GetOwnerUID (b_GetClient b)) (b_GetImage b)
    (upstream_port (StatefulSetBuilder.Ports b)) (Some o) (Some p)) p o)
    as (env & Henv & Hc'); [done..|].
  rewrite Hc in Hc'. injection Hc' as ->. cbn [Container.Name Container.Ports Container.Env].
  split_and!; [done|done| |].
  - unfold role_ports in Hports.
    repeat (case_decide; [injection Hports as <-; by apply (bool_decide_unpack _)|]). done.
  - destruct (GetMetricsPort_cases (StatefulSetBuilder.RoleName b))
      as [(q & ports & -> & Hr & Hu & _)|(_ & Hr & _)]; [|congruence].
    exists q. split; [done|]. rewrite Hports in Hr. injection Hr as <-.
    assert (upstream_port (StatefulSetBuilder.Ports b) = q) as Hup.
    { unfold upstream_port, port_named in *. destruct (list_find _ _) as [[? ?]|]; cbn in Hu; congruence. }
    unfold Oidc.getEnvVars in Henv. cbn [Oidc.Oidc Oidc.OidcProvider NewOidc deref mbind outcome_bind] in Henv.
    injection Henv as <-. rewrite Hup. reflexivity.
Qed.
End build.

(** ** The two reconcilers of a role group *)
Section agree.
Context `{!Platform, !Builders, !MapRange, !StatefulSetView, !StatefulSetLaws, !ConfigMapView,
  !ConfigMapLaws}.

Definition secret_classes (cc : ClusterConfigSpec.t) : string * string :=
  match ClusterConfigSpec.Authentication cc with
  | Some a => (AuthenticationSpec.KerberosSecretClass a, AuthenticationSpec.TlsSecretClass a)
  | None => ("", "")
  end.

Definition group_options (info : RoleGroupInfo.t) : Options.t :=
  Options.mk (GetClusterName info) (GetRoleName info) (GetGroupName info) (GetLabels info)
    (GetAnnotations info).

Lemma NewStatefulSetReconciler_eq client cc info ports image stopped replicas ov rgc :
  NewStatefulSetReconciler client (Some cc) info ports image stopped replicas ov rgc =
    Ok (StatefulSetReconciler.mk client
      (NewStatefulSetBuilder client (GetFullName info) (Some cc) replicas ports image
         (secret_classes cc).1 (secret_classes cc).2 ov rgc [λ _, group_options info]) stopped).
Proof.
  unfold NewStatefulSetReconciler, secret_classes. cbn.
  by destruct (ClusterConfigSpec.Authentication cc).
Qed.

Lemma NewConfigMapReconciler_eq client cc lc info :
  NewConfigMapReconciler client (Some cc) lc info =
    Ok (ConfigMapReconciler.mk client
      (NewConfigMapBuilder client (GetFullName info) lc
         (ClusterConfigSpec.VectorAggregatorConfigMapName cc) (secret_classes cc).1
         (secret_classes cc).2 [λ _, group_options info]) (Some cc)).
Proof.
  unfold NewConfigMapReconciler, secret_classes. cbn.
  by destruct (ClusterConfigSpec.Authentication cc).
Qed.

Lemma tls_volume_iff_ssl (sb : StatefulSetBuilder.t) (cb : ConfigMapBuilder.t) cc :
  StatefulSetBuilder.krb5Config sb = ConfigMapBuilder.krb5Config cb →
  "tls" ∈ Volume.Name <$> pod_volumes sb cc ↔ ssl_server_keys cb = {[SSLServerFileName]}.
Proof.
  intros Hk. unfold pod_volumes, krb5_volumes, ssl_server_keys, secured. rewrite Hk.
  destruct (ConfigMapBuilder.krb5Config cb) as [c|]; split; intros Hin; try done.
  - by apply (bool_decide_unpack _).
  - repeat (apply elem_of_cons in Hin as [Hin|Hin]; [discriminate Hin|]). by apply elem_of_nil in Hin.
Qed.

(** C17: the stateful set and the config map of a role group agree.  Both or
    neither are configured for Kerberos, with the same settings; the volume
    [hbase-config] holds the config map the other reconciler builds; and the pod
    has a [tls] volume exactly when the config map has the SSL files. *)
Theorem reconcilers_agree client cc info ports image stopped replicas ov rgc lc sts cm
  (Hsts : NewStatefulSetReconciler client (Some cc) info ports image stopped replicas ov rgc = Ok sts)
  (Hcm : NewConfigMapReconciler client (Some cc) lc info = Ok cm) :
  let sb := StatefulSetReconciler.Builder sts in
  let cb := ConfigMapReconciler.Builder cm in
  StatefulSetBuilder.krb5Config sb = ConfigMapBuilder.krb5Config cb ∧
  (∃ volumes, getVolumes sb = Ok volumes ∧
     config_map_volume "hbase-config" (cm_Name (ConfigMapBuilder.base cb)) 420 ∈ volumes ∧
     VolumeMount.mk "hbase-config" HBaseMountConfigDir ∈ getVolumeMounts sb) ∧
  ("tls" ∈ Volume.Name <$> pod_volumes sb cc ↔ ssl_server_keys cb = {[SSLServerFileName]}).
Proof.
  rewrite NewStatefulSetReconciler_eq in Hsts. rewrite NewConfigMapReconciler_eq in Hcm.
  injection Hsts as <-. injection Hcm as <-. cbv zeta.
  cbn [StatefulSetReconciler.Builder ConfigMapReconciler.Builder].
  split; [done|]. split.
  - unfold getVolumes. cbn. eexists. split; [reflexivity|]. split; [|by right; left].
    unfold b_GetName. cbn.
    destruct (NewStatefulSet_view client (GetFullName info) replicas image ov rgc
      [λ _, group_options info]) as (_ & _ & _ & _ & -> & _).
    match goal with |- context [NewConfigMapBase ?c ?n ?o] =>
      destruct (NewConfigMap_view c n o) as (_ & _ & ->) end.
    by right; left.
  - by apply tls_volume_iff_ssl.
Qed.
End agree.

(** ** Witnesses *)
Definition sample_image : Image.t ImageRest := Image.mk "" (("hbase", "2.6.1"), ImageOptions.mk "" "" "").

(** The builder the reconciler of a role group of the sample cluster has. *)
Definition sample_builder (role : string) (ports : list ContainerPort.t) : StatefulSetBuilder.t :=
  NewStatefulSetBuilder sample_client ("hb-" +:+ role +:+ "-default") (Some sample_config) (Some 1%Z)
    ports sample_image "kerberos" "tls" None None
    [λ _, Options.mk "hb" role "default" ∅ ∅].

Example Build_spec_witness :
  snd (Build (sample_builder "thrift" [])) = Panic nil_deref ∧
  ∃ obj, snd (Build (sample_builder "master" MasterPorts.Ports)) = Ok obj ∧
    Container.Name <$> StatefulSetObject.Containers obj = ["master"; "oidc"; "vector"] ∧
    Volume.Name <$> StatefulSetObject.Volumes obj =
      ["hdfs-config"; "hbase-config"; "kerberos"; "tls"; "log"].
Proof.
  split; [exact (Build_spec (sample_builder "thrift" []))|].
  pose proof (Build_spec (sample_builder "master" MasterPorts.Ports)) as H. hnf in H.
  destruct H as (b1 & Hc & Hv & _ & Hobj).
  eexists. rewrite Hobj. split; [reflexivity|]. cbn in Hc, Hv.
  cbn. rewrite Hc, Hv. split; reflexivity.
Defined.

(** A master with Kerberos, the side-car and Vector. *)
Example pod_consistent_witness :
  ∃ obj main c v (volumes : list (Volume.t Quantity)),
    snd (Build (sample_builder "master" MasterPorts.Ports)) = Ok obj ∧
    StatefulSetObject.Containers obj = [main; c; v] ∧
    Container.Name main = "master" ∧ v = VectorContainer (NewVector "hbase-config" "log" sample_image) ∧
    VolumeMount.Name <$> Container.VolumeMounts main = Volume.Name <$> volumes ∧
    NoDup (port_numbers [main; c]).
Proof.
  assert (∃ c, buildOidcContainer (sample_builder "master" MasterPorts.Ports) = Ok (Some c)) as [c Hc]
    by (eexists; reflexivity).
  assert (∃ obj, snd (Build (sample_builder "master" MasterPorts.Ports)) = Ok obj) as [obj Hobj].
  { pose proof (Build_run (sample_builder "master" MasterPorts.Ports) _ _ eq_refl eq_refl) as Hrun.
    rewrite Hc in Hrun. destruct Hrun as (b1 & _ & Hobj). eexists. rewrite Hobj. reflexivity. }
  destruct (pod_consistent (sample_builder "master" MasterPorts.Ports) MasterPorts.Ports obj
    eq_refl ltac:(split_and!; reflexivity) Hobj)
    as (cc & main & sidecar & volumes & Hcc & Hside & Hv & _ & Hname & _ & (_ & Hports & _) & Hm & _).
  rewrite Hc in Hside. injection Hside as <-. injection Hcc as <-. destruct Hv as (Hcs & Hvs & Hnd).
  exists obj, main. do 2 eexists. exists volumes. split; [exact Hobj|]. split; [exact Hcs|].
  split; [exact Hname|]. split; [reflexivity|]. split; [exact Hm|exact Hports].
Defined.

Example default_affinity_witness :
  ∃ near apart : gmap string string,
    Affinity.Build (GetDefaultAffinityBuilder (sample_builder "master" [])) = Affinity.mk
      (Some (PodAffinityTerms.mk [] [WeightedPodAffinityTerm.mk 20
         (PodAffinityTerm.mk (Some (LabelSelector.mk near)) "kubernetes.io/hostname")]))
      (Some (PodAffinityTerms.mk [] [WeightedPodAffinityTerm.mk 70
         (PodAffinityTerm.mk (Some (LabelSelector.mk apart)) "kubernetes.io/hostname")])) ∧
    near ⊆ apart.
Proof.
  destruct (default_affinity (sample_builder "master" []))
    as (near & apart & H & _ & _ & _ & Hsub & _).
  exists near, apart. split; [exact H|exact Hsub].
Defined.

Example sidecar_iff_witness :
  (∃ p o, wants_sidecar (sample_builder "master" MasterPorts.Ports) sample_config p o) ∧
  ∃ c, buildOidcContainer (sample_builder "master" MasterPorts.Ports) = Ok (Some c).
Proof.
  destruct (sidecar_iff (sample_builder "master" MasterPorts.Ports) sample_config eq_refl)
    as [Hiff _].
  assert (∃ c, buildOidcContainer (sample_builder "master" MasterPorts.Ports) = Ok (Some c)) as Hc
    by (eexists; reflexivity).
  split; [exact (proj1 Hiff Hc)|exact Hc].
Defined.

Example sidecar_proxies_ui_witness :
  ∃ c, buildOidcContainer (sample_builder "restserver" RestServerPorts.Ports) = Ok (Some c) ∧
    env_get (Container.Env c) "UPSTREAM" = Some (env_value "UPSTREAM" "http://$(POD_IP):8085").
Proof.
  eexists. split; [reflexivity|].
  destruct (sidecar_proxies_ui (sample_builder "restserver" RestServerPorts.Ports) sample_config _
    eq_refl eq_refl eq_refl) as (_ & _ & _ & p & Hp & Henv).
  injection Hp as <-. exact Henv.
Defined.

Example reconcilers_agree_witness :
  ∃ sts cm,
    NewStatefulSetReconciler sample_client (Some sample_config) (sample_group "master")
      MasterPorts.Ports sample_image false (Some 1%Z) None None = Ok sts ∧
    NewConfigMapReconciler sample_client (Some sample_config) None (sample_group "master") = Ok cm ∧
    StatefulSetBuilder.krb5Config (StatefulSetReconciler.Builder sts) =
      ConfigMapBuilder.krb5Config (ConfigMapReconciler.Builder cm).
Proof.
  do 2 eexists. split; [reflexivity|]. split; [reflexivity|].
  exact (proj1 (reconcilers_agree sample_client sample_config (sample_group "master")
    MasterPorts.Ports sample_image false (Some 1%Z) None None None _ _ eq_refl eq_refl)).
Defined.
