(* ===== verification/Role.v ===== *)
(** * The role reconcilers: [internal/controller/{master,regionserver,restserver}/role.go]

    The three packages hold the same code over three sets of API types and
    ports.  The class [RoleAPI] is what they differ in, the operations are
    written once over it, and the modules [Master], [RegionServer] and
    [RestServer] are the three packages.  [GetRoleLoggingConfig] is
    [internal/controller/common/role.go].  Log lines are left out. *)

From S2P Require Import Prelude GoStrings K8s OperatorGo Fakes Api Krb5 Service Zookeeper.
From S2P Require Import ConfigMap StatefulSet.

Definition GetRoleLoggingConfig `{!Platform} (roleGroupConfig : option RoleGroupConfigSpec.t)
  (role : string) : option LoggingConfigSpec :=
  match roleGroupConfig with
  | Some config =>
      match RoleGroupConfigSpec.Logging config with
      | Some l => map_read (LoggingSpec.Containers l) role
      | None => None
      end
  | None => None
  end.

(** What a role adds to its reconciler: the type of [reconciler.Reconciler] values. *)
Inductive Resource `{!Platform, !Builders} :=
| StatefulSetResource (r : StatefulSetReconciler.t)
| ServiceResource (s : ServiceBuilder.t)
| ConfigMapResource (r : ConfigMapReconciler.t).

(** ** The API types of a role *)
Class RoleAPI `{!Platform} := {
  Spec : Type;
  GroupSpec : Type;
  Config : Type;
  spec_Config : Spec → option Config;
  spec_RoleGroups : Spec → option (gmap string GroupSpec);
  spec_OverridesSpec : Spec → option OverridesSpec;
  group_Replicas : GroupSpec → option Z;
  group_Config : GroupSpec → option Config;
  group_OverridesSpec : GroupSpec → option OverridesSpec;
  config_RoleGroupConfigSpec : Config → option RoleGroupConfigSpec.t;
  role_Ports : list ContainerPort.t
}.

Module Reconciler.
Record t `{!Platform, !Builders, !Bases, !RoleAPI} := mk {
  base : RoleBase Spec Resource;
  ClusterConfig : option ClusterConfigSpec.t;
  Image : Image.t ImageRest
}.
Arguments mk {_ _ _ _} _ _ _.
End Reconciler.

Section role.
Context `{!Platform, !Builders, !Bases, !Merge, !MapRange, !RoleAPI}.
Implicit Type r : Reconciler.t.

Definition NewReconciler (client : Client.t CtrlClient) (clusterStopped : bool)
  (clusterConfig : option ClusterConfigSpec.t) (roleInfo : RoleInfo.t)
  (image : Image.t ImageRest) (spec : option Spec) : Reconciler.t :=
  Reconciler.mk (NewBaseRoleReconciler client clusterStopped roleInfo spec) clusterConfig image.

Definition r_AddResource (x : Resource) : M Reconciler.t unit := modify (λ r,
  Reconciler.mk (rb_AddResource (Reconciler.base r) x) (Reconciler.ClusterConfig r)
    (Reconciler.Image r)).

Definition RegisterResourceWithRoleGroup r (replicas : option Z) (info : RoleGroupInfo.t)
  (overrides : option OverridesSpec) (roleGroupConfig : option RoleGroupConfigSpec.t)
  : outcome (list Resource) :=
  let base := Reconciler.base r in
  do statefulSetReconciler <- NewStatefulSetReconciler (rb_Client base)
    (Reconciler.ClusterConfig r) info role_Ports (Reconciler.Image r) (rb_ClusterStopped base)
    replicas overrides roleGroupConfig;;
  let serviceReconciler := ServiceBuilder.mk (rb_Client base) (GetFullName info) role_Ports
    [ λ sbo, ServiceBuilderOptions.mk (ServiceBuilderOptions.Headless sbo)
               (ServiceBuilderOptions.ListenerClass sbo) (rb_GetClusterName base)
               (RoleInfo.RoleName (rb_RoleInfo base)) (RoleGroupInfo.RoleGroupName info)
               (GetLabels info) (ServiceBuilderOptions.MatchingLabels sbo)
               (GetAnnotations info) ] in
  let roleLoggingConfig :=
    GetRoleLoggingConfig roleGroupConfig (RoleInfo.RoleName (RoleGroupInfo.RoleInfo info)) in
  do configMapReconciler <- NewConfigMapReconciler (rb_Client base)
    (Reconciler.ClusterConfig r) roleLoggingConfig info;;
  do metricsServiceReconciler <- NewRoleGroupMetricsService (rb_Client base) info;;
  Ok [ StatefulSetResource statefulSetReconciler; ServiceResource serviceReconciler;
       ConfigMapResource configMapReconciler; ServiceResource metricsServiceReconciler ].

Fixpoint add_resources (l : list Resource) : M Reconciler.t unit :=
  match l with
  | [] => mret tt
  | reconciler :: l' => do! r_AddResource reconciler;; add_resources l'
  end.

(** The body of the loop over [r.Spec.RoleGroups]. *)
Definition register_group (name : string) (roleGroup : GroupSpec) : M Reconciler.t unit :=
  do r <- get;;
  do spec <- lift (deref (rb_Spec (Reconciler.base r)));;
  do mergedConfig <- lift (MergeObject (spec_Config spec) (group_Config roleGroup));;
  do overrides <- lift (MergeObject (spec_OverridesSpec spec) (group_OverridesSpec roleGroup));;
  let info := RoleGroupInfo.mk (rb_RoleInfo (Reconciler.base r)) name in
  let roleGroupConfig := mergedConfig ≫= config_RoleGroupConfigSpec in
  do reconcilers <- lift (RegisterResourceWithRoleGroup r (group_Replicas roleGroup) info
                            overrides roleGroupConfig);;
  add_resources reconcilers.

Fixpoint register_groups (groups : list (string * GroupSpec)) : M Reconciler.t unit :=
  match groups with
  | [] => mret tt
  | (name, roleGroup) :: groups' =>
      do! register_group name roleGroup;; register_groups groups'
  end.

Definition RegisterResources : M Reconciler.t unit :=
  do r <- get;;
  do spec <- lift (deref (rb_Spec (Reconciler.base r)));;
  register_groups (map_range (default ∅ (spec_RoleGroups spec))).
End role.

(** ** The three packages *)
Section apis.
Context `{!Platform}.

Definition master_api : RoleAPI := {|
  Spec := MasterSpec.t; GroupSpec := MasterRoleGroupSpec.t; Config := MasterConfigSpec.t;
  spec_Config := MasterSpec.Config; spec_RoleGroups := MasterSpec.RoleGroups;
  spec_OverridesSpec := MasterSpec.OverridesSpec;
  group_Replicas := MasterRoleGroupSpec.Replicas; group_Config := MasterRoleGroupSpec.Config;
  group_OverridesSpec := MasterRoleGroupSpec.OverridesSpec;
  config_RoleGroupConfigSpec := MasterConfigSpec.RoleGroupConfigSpec;
  role_Ports := MasterPorts.Ports |}.

Definition regionserver_api : RoleAPI := {|
  Spec := RegionServerSpec.t; GroupSpec := RegionServerRoleGroupSpec.t;
  Config := RegionConfigSpec.t;
  spec_Config := RegionServerSpec.Config; spec_RoleGroups := RegionServerSpec.RoleGroups;
  spec_OverridesSpec := RegionServerSpec.OverridesSpec;
  group_Replicas := RegionServerRoleGroupSpec.Replicas;
  group_Config := RegionServerRoleGroupSpec.Config;
  group_OverridesSpec := RegionServerRoleGroupSpec.OverridesSpec;
  config_RoleGroupConfigSpec := RegionConfigSpec.RoleGroupConfigSpec;
  role_Ports := RegionServerPorts.Ports |}.

Definition restserver_api : RoleAPI := {|
  Spec := RestServerSpec.t; GroupSpec := RestServerRoleGroupSpec.t;
  Config := RestServerConfigSpec.t;
  spec_Config := RestServerSpec.Config; spec_RoleGroups := RestServerSpec.RoleGroups;
  spec_OverridesSpec := RestServerSpec.OverridesSpec;
  group_Replicas := RestServerRoleGroupSpec.Replicas;
  group_Config := RestServerRoleGroupSpec.Config;
  group_OverridesSpec := RestServerRoleGroupSpec.OverridesSpec;
  config_RoleGroupConfigSpec := RestServerConfigSpec.RoleGroupConfigSpec;
  role_Ports := RestServerPorts.Ports |}.
End apis.

Section packages.
Context `{!Platform, !Builders, !Bases, !Merge, !MapRange}.

Definition master_NewReconciler := @NewReconciler _ _ _ master_api.
Definition master_RegisterResources := @RegisterResources _ _ _ _ _ master_api.
Definition regionserver_NewReconciler := @NewReconciler _ _ _ regionserver_api.
Definition regionserver_RegisterResources := @RegisterResources _ _ _ _ _ regionserver_api.
Definition restserver_NewReconciler := @NewReconciler _ _ _ restserver_api.
Definition restserver_RegisterResources := @RegisterResources _ _ _ _ _ restserver_api.
End packages.

(** ** Lemmas *)
Section lemmas.
Context `{!Platform, !Builders, !Bases, !Merge, !RoleAPI, !BasesView, !BasesLaws}.
Implicit Type r : Reconciler.t.

Definition resources r : list Resource := rb_Resources (Reconciler.base r).

(** What adding resources does not change. *)
Definition role_fixed r :=
  (Reconciler.ClusterConfig r, Reconciler.Image r, rb_Client (Reconciler.base r),
   rb_ClusterStopped (Reconciler.base r), rb_RoleInfo (Reconciler.base r),
   rb_Spec (Reconciler.base r), rb_GetClusterName (Reconciler.base r)).

Lemma add_resources_run l r :
  ∃ r', add_resources l r = (r', Ok tt) ∧ role_fixed r' = role_fixed r ∧
    resources r' = resources r ++ l.
Proof.
  revert r. induction l as [|x l IH]; intros r; simpl.
  - exists r. by rewrite app_nil_r.
  - unfold r_AddResource, modify, mbind, M_bind.
    match goal with |- context [add_resources l ?r1] => destruct (IH r1) as (r' & -> & Hf & Hr) end.
    exists r'. split; [done|]. rewrite Hf, Hr. unfold role_fixed, resources. cbn.
    destruct (rb_AddResource_view (Reconciler.base r) x) as (-> & -> & -> & -> & -> & ->).
    by rewrite <-app_assoc.
Qed.

(** The resources of one role group, as the loop's body computes them. *)
Definition group_plan `{!MapRange} r (name : string) (roleGroup : GroupSpec)
  : outcome (list Resource) :=
  do spec <- deref (rb_Spec (Reconciler.base r));;
  do mergedConfig <- MergeObject (spec_Config spec) (group_Config roleGroup);;
  do overrides <- MergeObject (spec_OverridesSpec spec) (group_OverridesSpec roleGroup);;
  RegisterResourceWithRoleGroup r (group_Replicas roleGroup)
    (RoleGroupInfo.mk (rb_RoleInfo (Reconciler.base r)) name) overrides
    (mergedConfig ≫= config_RoleGroupConfigSpec).

Lemma group_plan_fixed `{!MapRange} r r' name g :
  role_fixed r' = role_fixed r → group_plan r' name g = group_plan r name g.
Proof.
  unfold role_fixed, group_plan, RegisterResourceWithRoleGroup. intros Hf.
  by injection Hf as -> -> -> -> -> -> ->.
Qed.

Lemma register_group_run `{!MapRange} r name g :
  match group_plan r name g with
  | Ok l => ∃ r', register_group name g r = (r', Ok tt) ∧ role_fixed r' = role_fixed r ∧
      resources r' = resources r ++ l
  | Err e => register_group name g r = (r, Err e)
  | Panic m => register_group name g r = (r, Panic m)
  end.
Proof.
  unfold register_group, group_plan, lift, get, mbind, M_bind, outcome_bind. cbn beta iota.
  destruct (deref _) as [spec|e|m]; [|done..].
  destruct (MergeObject (spec_Config spec) _) as [merged|e|m]; [|done..].
  destruct (MergeObject (spec_OverridesSpec spec) _) as [overrides|e|m]; [|done..].
  destruct (RegisterResourceWithRoleGroup _ _ _ _ _) as [l|e|m]; [|done..].
  apply add_resources_run.
Qed.

(** Reference definition: the resources of a list of plans up to the first that
    fails, and how the list ends. *)
Fixpoint collect {A} (plans : list (outcome (list A))) : list A * outcome unit :=
  match plans with
  | [] => ([], Ok tt)
  | Ok l :: plans' => let '(l', o) := collect plans' in (l ++ l', o)
  | Err e :: _ => ([], Err e)
  | Panic m :: _ => ([], Panic m)
  end.

Definition plans `{!MapRange} r (groups : list (string * GroupSpec))
  : list (outcome (list Resource)) :=
  (λ g, group_plan r g.1 g.2) <$> groups.

Lemma plans_fixed `{!MapRange} r r' groups :
  role_fixed r' = role_fixed r → plans r' groups = plans r groups.
Proof.
  intros Hf. unfold plans. apply list_fmap_ext. intros i [n g] _. by apply group_plan_fixed.
Qed.

Lemma register_groups_run `{!MapRange} groups r :
  ∃ r', register_groups groups r = (r', snd (collect (plans r groups))) ∧
    role_fixed r' = role_fixed r ∧
    resources r' = resources r ++ fst (collect (plans r groups)).
Proof.
  revert r. induction groups as [|[name g] groups IH]; intros r.
  - exists r. cbn. by rewrite app_nil_r.
  - cbn [register_groups plans fmap list_fmap collect fst snd].
    pose proof (register_group_run r name g) as Hrun. unfold mbind, M_bind.
    destruct (group_plan r name g) as [l|e|m].
    + destruct Hrun as (r1 & -> & Hf1 & Hr1). destruct (IH r1) as (r2 & -> & Hf2 & Hr2).
      rewrite (plans_fixed r r1 groups Hf1) in *. fold (plans r groups).
      destruct (collect (plans r groups)) as [l' o]. cbn [fst snd] in *.
      exists r2. split_and!; [done|congruence|]. by rewrite Hr2, Hr1, app_assoc.
    + rewrite Hrun. exists r. cbn. by rewrite app_nil_r.
    + rewrite Hrun. exists r. cbn. by rewrite app_nil_r.
Qed.

Lemma collect_ok_iff {A} (ps : list (outcome (list A))) :
  snd (collect ps) = Ok tt ↔ Forall (λ p, ∃ l, p = Ok l) ps.
Proof.
  induction ps as [|[l|e|m] ps IH]; cbn.
  - split; [constructor|done].
  - rewrite Forall_cons. destruct (collect ps) as [l' o]. cbn in *. naive_solver.
  - rewrite Forall_cons. naive_solver.
  - rewrite Forall_cons. naive_solver.
Qed.

Lemma collect_all {A} (ls : list (list A)) : collect (Ok <$> ls) = (concat ls, Ok tt).
Proof. induction ls as [|l ls IH]; [done|]. cbn. by rewrite IH. Qed.

Lemma Forall_Ok {A} (ps : list (outcome A)) :
  Forall (λ p, ∃ a, p = Ok a) ps → ∃ l, ps = Ok <$> l.
Proof.
  induction 1 as [|p ps [a ->] _ [l ->]]; [by exists []|]. by exists (a :: l).
Qed.

Lemma collect_perm {A} (ps ps' : list (outcome (list A))) :
  ps ≡ₚ ps' → snd (collect ps) = Ok tt →
  snd (collect ps') = Ok tt ∧ fst (collect ps) ≡ₚ fst (collect ps').
Proof.
  intros Hp Hok. rewrite collect_ok_iff in Hok.
  assert (Forall (λ p, ∃ l, p = Ok l) ps') as Hok' by (by rewrite <-Hp).
  apply Forall_Ok in Hok as [ls ->]. apply Forall_Ok in Hok' as [ls' ->].
  rewrite !collect_all. split; [done|]. cbn.
  assert (ls ≡ₚ ls') as Hls.
  { apply (Permutation_map (λ p, default [] (match p with Ok l => Some l | _ => None end))) in Hp.
    change (map ?f ?l) with (f <$> l) in Hp.
    rewrite <-!list_fmap_compose in Hp. change (id <$> ls ≡ₚ id <$> ls') in Hp.
    by rewrite !list_fmap_id in Hp. }
  by rewrite Hls.
Qed.
End lemmas.

(** The metrics service does not depend on the order maps are iterated in. *)
Lemma metrics_service_order `{!Platform} (m1 m2 : MapRange) client i :
  @NewRoleGroupMetricsService _ m1 client i = @NewRoleGroupMetricsService _ m2 client i.
Proof.
  unfold NewRoleGroupMetricsService. destruct (GetMetricsPort _) as [p|e|m]; [|done..].
  rewrite !metrics_labels_eq. unfold metrics_annotations. by rewrite !map_copy_union.
Qed.

Section properties.
Context `{!Platform, !Builders, !Bases, !Merge, !RoleAPI, !BasesView, !BasesLaws}.
Implicit Type r : Reconciler.t.

Lemma group_plan_order (m1 m2 : MapRange) r name g :
  @group_plan _ _ _ _ _ m1 r name g = @group_plan _ _ _ _ _ m2 r name g.
Proof.
  unfold group_plan, RegisterResourceWithRoleGroup, mbind, outcome_bind.
  destruct (deref _) as [spec|e|m]; [|done..].
  destruct (MergeObject (spec_Config spec) _) as [merged|e|m]; [|done..].
  destruct (MergeObject (spec_OverridesSpec spec) _) as [overrides|e|m]; [|done..].
  destruct (NewStatefulSetReconciler _ _ _ _ _ _ _ _ _); [|done..].
  destruct (NewConfigMapReconciler _ _ _ _); [|done..].
  by rewrite (metrics_service_order m1 m2).
Qed.

Lemma RegisterResources_run `{!MapRange} r spec :
  rb_Spec (Reconciler.base r) = Some spec →
  let ps := plans r (map_range (default ∅ (spec_RoleGroups spec))) in
  ∃ r', RegisterResources r = (r', snd (collect ps)) ∧ role_fixed r' = role_fixed r ∧
    resources r' = resources r ++ fst (collect ps).
Proof.
  intros Hspec ps. unfold RegisterResources, get, lift, mbind, M_bind. rewrite Hspec.
  apply register_groups_run.
Qed.

Lemma plans_perm (m1 m2 : MapRange) r (groups : gmap string GroupSpec) :
  @plans _ _ _ _ _ m1 r (@map_range m1 _ groups) ≡ₚ @plans _ _ _ _ _ m2 r (@map_range m2 _ groups).
Proof.
  unfold plans. rewrite (@map_range_perm m1 _ groups), <-(@map_range_perm m2 _ groups).
  erewrite list_fmap_ext; [reflexivity|]. intros i [n g] _. apply group_plan_order.
Qed.

Lemma NewConfigMapReconciler_None client lc info :
  NewConfigMapReconciler client None lc info = Panic nil_deref.
Proof. done. Qed.

(** A role group's four resources, when there is a cluster configuration and the
    role is known. *)
Lemma RegisterResourceWithRoleGroup_Ok `{!MapRange} r replicas info overrides config l :
  RegisterResourceWithRoleGroup r replicas info overrides config = Ok l →
  ∃ sts svc cm metrics, l = [StatefulSetResource sts; ServiceResource svc;
      ConfigMapResource cm; ServiceResource metrics] ∧
    NewStatefulSetReconciler (rb_Client (Reconciler.base r)) (Reconciler.ClusterConfig r) info
      role_Ports (Reconciler.Image r) (rb_ClusterStopped (Reconciler.base r)) replicas overrides
      config = Ok sts ∧
    NewConfigMapReconciler (rb_Client (Reconciler.base r)) (Reconciler.ClusterConfig r)
      (GetRoleLoggingConfig config (RoleInfo.RoleName (RoleGroupInfo.RoleInfo info))) info = Ok cm ∧
    NewRoleGroupMetricsService (rb_Client (Reconciler.base r)) info = Ok metrics ∧
    ServiceBuilder.Name svc = GetFullName info ∧ ServiceBuilder.Ports svc = role_Ports.
Proof.
  unfold RegisterResourceWithRoleGroup, mbind, outcome_bind.
  destruct (NewStatefulSetReconciler _ _ _ _ _ _ _ _ _) as [sts|e|m] eqn:Hs; [|done..].
  destruct (NewConfigMapReconciler _ _ _ _) as [cm|e|m] eqn:Hc; [|done..].
  destruct (NewRoleGroupMetricsService _ _) as [metrics|e|m] eqn:Hm; [|done..].
  intros [= <-]. eauto 12.
Qed.

Lemma group_plan_length `{!MapRange} r name g l : group_plan r name g = Ok l → length l = 4.
Proof.
  unfold group_plan. intros Hp. go_invert.
  apply RegisterResourceWithRoleGroup_Ok in Hp as (?&?&?&?&->&_). done.
Qed.

Lemma RegisterResourceWithRoleGroup_Ok_iff `{!PlatformLaws, !MapRange} r replicas info overrides
  config :
  RoleInfo.RoleName (RoleGroupInfo.RoleInfo info) ∈ [MASTER_ROLE; REGIONSERVER_ROLE; RESTSERVER_ROLE] →
  (∃ l, RegisterResourceWithRoleGroup r replicas info overrides config = Ok l) ↔
    Reconciler.ClusterConfig r ≠ None.
Proof.
  intros Hrole. unfold RegisterResourceWithRoleGroup, mbind, outcome_bind.
  destruct (Reconciler.ClusterConfig r) as [cc|]; [|naive_solver].
  rewrite NewStatefulSetReconciler_eq, NewConfigMapReconciler_eq.
  unfold NewRoleGroupMetricsService. rewrite GetRoleName_law.
  destruct (GetMetricsPort_cases (RoleInfo.RoleName (RoleGroupInfo.RoleInfo info)))
    as [(p & ports & -> & _)|(_ & _ & Hni)]; [|done]. split; [done|]. by eexists.
Qed.

(** The configuration and the overrides of a role group can be merged with its role's. *)
Definition group_merges (spec : Spec) (g : GroupSpec) : Prop :=
  (∃ merged, MergeObject (spec_Config spec) (group_Config g) = Ok merged) ∧
  ∃ overrides, MergeObject (spec_OverridesSpec spec) (group_OverridesSpec g) = Ok overrides.

Lemma group_merges_total `{!MergeTotal} spec g : group_merges spec g.
Proof. split; apply merge_total. Qed.

Lemma group_plan_Ok_iff `{!PlatformLaws, !MapRange} r spec name g :
  rb_Spec (Reconciler.base r) = Some spec →
  RoleInfo.RoleName (rb_RoleInfo (Reconciler.base r)) ∈
    [MASTER_ROLE; REGIONSERVER_ROLE; RESTSERVER_ROLE] →
  (∃ l, group_plan r name g = Ok l) ↔ group_merges spec g ∧ Reconciler.ClusterConfig r ≠ None.
Proof.
  intros Hspec Hrole. unfold group_plan, group_merges. rewrite Hspec. cbn [deref mbind outcome_bind].
  destruct (MergeObject (spec_Config spec) _) as [merged|e|m]; [|naive_solver..].
  cbn [mbind outcome_bind].
  destruct (MergeObject (spec_OverridesSpec spec) _) as [overrides|e|m]; [|naive_solver..].
  cbn [mbind outcome_bind]. rewrite RegisterResourceWithRoleGroup_Ok_iff by done. naive_solver.
Qed.

(** A registration succeeds exactly when every role group has a cluster configuration to
    use and merges. *)
Lemma RegisterResources_Ok_iff `{!PlatformLaws, !MapRange} r spec :
  rb_Spec (Reconciler.base r) = Some spec →
  RoleInfo.RoleName (rb_RoleInfo (Reconciler.base r)) ∈
    [MASTER_ROLE; REGIONSERVER_ROLE; RESTSERVER_ROLE] →
  snd (RegisterResources r) = Ok tt ↔
    ∀ name g, default ∅ (spec_RoleGroups spec) !! name = Some g →
      group_merges spec g ∧ Reconciler.ClusterConfig r ≠ None.
Proof.
  intros Hspec Hrole. destruct (RegisterResources_run r spec Hspec) as (r' & -> & _). cbn [snd].
  rewrite collect_ok_iff. unfold plans. rewrite map_range_perm, Forall_fmap, Forall_forall.
  setoid_rewrite <-(elem_of_map_to_list (default ∅ (spec_RoleGroups spec))). split.
  - intros Hall name g Hg. by apply (group_plan_Ok_iff r spec name g Hspec Hrole), (Hall (name, g)).
  - intros Hall [name g] Hg. by apply (group_plan_Ok_iff r spec name g Hspec Hrole), Hall with name.
Qed.

(** C7: registering a role's resources is the reference: going through the role
    groups in the order the map is iterated in, it appends the resources of each
    group until one fails, and ends as that group did; the rest of the
    reconciler is unchanged.  Without a role spec it panics. *)
Theorem RegisterResources_spec `{!MapRange} r :
  match rb_Spec (Reconciler.base r) with
  | None => RegisterResources r = (r, Panic nil_deref)
  | Some spec =>
      let ps := plans r (map_range (default ∅ (spec_RoleGroups spec))) in
      ∃ r', RegisterResources r = (r', snd (collect ps)) ∧ role_fixed r' = role_fixed r ∧
        resources r' = resources r ++ fst (collect ps)
  end.
Proof.
  destruct (rb_Spec (Reconciler.base r)) as [spec|] eqn:Hspec.
  - by apply RegisterResources_run.
  - unfold RegisterResources, get, lift, mbind, M_bind. by rewrite Hspec.
Qed.

(** C8: whether the registration succeeds does not depend on the order the role
    groups are iterated in, and neither does the set of resources: two orders
    give the same resources up to a permutation. *)
Theorem RegisterResources_order (m1 m2 : MapRange) r r1
  (Hrun : @RegisterResources _ _ _ _ m1 _ r = (r1, Ok tt)) :
  ∃ r2, @RegisterResources _ _ _ _ m2 _ r = (r2, Ok tt) ∧
    role_fixed r2 = role_fixed r1 ∧ resources r1 ≡ₚ resources r2.
Proof.
  destruct (rb_Spec (Reconciler.base r)) as [spec|] eqn:Hspec.
  2:{ unfold RegisterResources, get, lift, mbind, M_bind in Hrun. by rewrite Hspec in Hrun. }
  destruct (@RegisterResources_run m1 r spec Hspec) as (r1' & Hrun1 & Hf1 & Hr1).
  destruct (@RegisterResources_run m2 r spec Hspec) as (r2 & Hrun2 & Hf2 & Hr2).
  rewrite Hrun in Hrun1. injection Hrun1 as <- Hok.
  destruct (collect_perm _ _ (plans_perm m1 m2 r (default ∅ (spec_RoleGroups spec))) (eq_sym Hok))
    as [Hok2 Hp].
  exists r2. rewrite Hrun2, Hok2. split_and!; [done|congruence|]. by rewrite Hr1, Hr2, Hp.
Qed.

(** The resource lists a successful registration appends, one per role group. *)
Lemma RegisterResources_lists `{!MapRange} r r' spec :
  rb_Spec (Reconciler.base r) = Some spec → RegisterResources r = (r', Ok tt) →
  let groups := default ∅ (spec_RoleGroups spec) in
  ∃ ls, plans r (map_range groups) = Ok <$> ls ∧ resources r' = resources r ++ concat ls ∧
    Forall (λ l, length l = 4) ls ∧ length ls = size groups.
Proof.
  intros Hspec Hrun groups. destruct (RegisterResources_run r spec Hspec) as (r1 & Hrun1 & _ & Hr1).
  rewrite Hrun in Hrun1. injection Hrun1 as <- Hok. fold groups in Hok, Hr1.
  symmetry in Hok. apply collect_ok_iff, Forall_Ok in Hok as [ls Hls].
  rewrite Hls, collect_all in Hr1. exists ls. split_and!; [done|done| |].
  - apply Forall_forall. intros l Hl.
    assert (Ok l ∈ plans r (map_range groups)) as Hin by (rewrite Hls; by apply list_elem_of_fmap_2).
    apply list_elem_of_fmap in Hin as ([n g] & Hp & _). symmetry in Hp. by apply group_plan_length in Hp.
  - rewrite <-(length_fmap (@Ok (list Resource))), <-Hls. unfold plans. rewrite length_fmap.
    rewrite map_range_perm. apply length_map_to_list.
Qed.

Lemma length_concat_four {A} (ls : list (list A)) :
  Forall (λ l, length l = 4) ls → length (concat ls) = 4 * length ls.
Proof. induction 1 as [|l ls Hl _ IH]; [done|]. cbn. rewrite length_app, Hl, IH. lia. Qed.

Lemma RegisterResources_length `{!MapRange} r r' spec :
  rb_Spec (Reconciler.base r) = Some spec → RegisterResources r = (r', Ok tt) →
  length (resources r') = length (resources r) + 4 * size (default ∅ (spec_RoleGroups spec)).
Proof.
  intros Hspec Hrun. destruct (RegisterResources_lists r r' spec Hspec Hrun) as (ls & _ & -> & Hfour & <-).
  by rewrite length_app, length_concat_four.
Qed.

(** ** The names of the services of a role *)
Definition service_names (l : list Resource) : list string :=
  omap (λ x, match x with ServiceResource s => Some (ServiceBuilder.Name s) | _ => None end) l.

(** A list in which each element is followed by its image. *)
Definition with_image {A} (f : A → A) (l : list A) : list A := l ≫= λ n, [n; f n].

Lemma elem_of_with_image {A} (f : A → A) (l : list A) x :
  x ∈ with_image f l ↔ ∃ n, n ∈ l ∧ (x = n ∨ x = f n).
Proof.
  unfold with_image. rewrite list_elem_of_bind.
  setoid_rewrite elem_of_cons. setoid_rewrite list_elem_of_singleton. naive_solver.
Qed.

Lemma NoDup_with_image {A} (f : A → A) (l : list A) :
  Inj (=) (=) f → (∀ n, f n ≠ n) → NoDup l →
  (NoDup (with_image f l) ↔ ∀ n, n ∈ l → f n ∉ l).
Proof.
  intros Hinj Hne. induction l as [|a l IH]; intros Hnd.
  - split; [|constructor]. intros _ n Hn. by apply elem_of_nil in Hn.
  - apply NoDup_cons in Hnd as [Ha Hnd]. specialize (IH Hnd).
    change (with_image f (a :: l)) with (a :: f a :: with_image f l).
    rewrite !NoDup_cons, IH, elem_of_cons, !elem_of_with_image.
    setoid_rewrite elem_of_cons. pose proof (Hne a). split.
    + intros (Hna & Hnf & Hrest) n [->|Hn] [Heq|Hin]; naive_solver.
    + intros Hall. split_and!; [|intros (n & Hn & [Heq|Heq%Hinj])|]; naive_solver.
Qed.

Lemma group_plan_service_names `{!MapRange} r name g l :
  group_plan r name g = Ok l →
  let full := GetFullName (RoleGroupInfo.mk (rb_RoleInfo (Reconciler.base r)) name) in
  service_names l = [full; full +:+ "-metrics"].
Proof.
  unfold group_plan. intros Hp. go_invert.
  apply RegisterResourceWithRoleGroup_Ok in Hp
    as (sts & svc & cm & metrics & -> & _ & _ & Hm & Hname & _).
  cbn. rewrite Hname. unfold NewRoleGroupMetricsService in Hm.
  destruct (GetMetricsPort _); [|done..]. by injection Hm as <-.
Qed.

Lemma plans_service_names `{!MapRange} r groups ls :
  plans r groups = Ok <$> ls →
  service_names (concat ls) = with_image (λ s, s +:+ "-metrics")
    ((λ name, GetFullName (RoleGroupInfo.mk (rb_RoleInfo (Reconciler.base r)) name)) <$> groups.*1).
Proof.
  revert ls. induction groups as [|[name g] groups IH]; intros [|l ls]; try done.
  cbn. intros [= Hl Hls]. apply group_plan_service_names in Hl.
  unfold service_names in *. rewrite omap_app, Hl. cbn. do 2 f_equal. by apply IH.
Qed.

Lemma string_app_inj (p s t : string) : p +:+ s = p +:+ t → s = t.
Proof. induction p as [|c p IH]; [done|]. cbn. intros [= Heq]. by apply IH. Qed.

Lemma string_app_inj_r (s t p : string) : s +:+ p = t +:+ p → s = t.
Proof.
  intros Heq. assert (String.length s = String.length t) as Hlen.
  { apply (f_equal String.length) in Heq. rewrite !string_length_app in Heq. lia. }
  revert t Heq Hlen. induction s as [|c s IH]; intros [|d t]; cbn; try done.
  intros [= -> Heq] [= Hlen]. f_equal. by apply IH.
Qed.

Lemma metrics_name_ne (s : string) : s +:+ "-metrics" ≠ s.
Proof. intros Heq%(f_equal String.length). rewrite string_length_app in Heq. cbn in Heq. lia. Qed.

(** The full name of a role group of a role. *)
Definition group_full_name (role : RoleInfo.t) (name : string) : string :=
  GetFullName (RoleGroupInfo.mk role name).

(** Role groups none of which is called like another one with [-metrics] after its
    name. *)
Definition no_metrics_group {G} (groups : gmap string G) : Prop :=
  ∀ name, is_Some (groups !! name) → groups !! (name +:+ "-metrics") = None.

(** The names of the services of role groups: one of each role group, and one for its
    metrics. *)
Definition group_service_names (role : RoleInfo.t) (names : list string) : list string :=
  with_image (λ s, s +:+ "-metrics") (group_full_name role <$> names).

Lemma group_full_name_eq `{!FullNameLaw} role name :
  group_full_name role name = (ClusterInfo.ClusterName (RoleInfo.ClusterInfo role) +:+ "-") +:+
    RoleInfo.RoleName role +:+ "-" +:+ name.
Proof. unfold group_full_name. by rewrite GetFullName_law, !string_app_assoc. Qed.

Lemma group_service_names_NoDup `{!FullNameLaw, !MapRange} {G} role (groups : gmap string G) :
  NoDup (group_service_names role (map_range groups).*1) ↔ no_metrics_group groups.
Proof.
  assert (∀ s, group_full_name role (s +:+ "-metrics") = group_full_name role s +:+ "-metrics")
    as Hfull by (intros s; by rewrite !group_full_name_eq, !string_app_assoc).
  assert (Inj (=) (=) (group_full_name role)) as Hinj.
  { intros s t. rewrite !group_full_name_eq. by intros Heq%string_app_inj%string_app_inj%string_app_inj. }
  assert (∀ name, name ∈ (map_range groups).*1 ↔ is_Some (groups !! name)) as Hin.
  { intros name. rewrite map_range_perm, list_elem_of_fmap. split.
    - intros ([k g] & -> & Hg%elem_of_map_to_list). by exists g.
    - intros [g Hg]. exists (name, g). split; [done|]. by apply elem_of_map_to_list. }
  unfold group_service_names. rewrite NoDup_with_image.
  - setoid_rewrite list_elem_of_fmap. split.
    + intros Hno name Hname. apply eq_None_not_Some. intros Hsome.
      apply (Hno (group_full_name role name)).
      * exists name. by rewrite Hin.
      * exists (name +:+ "-metrics"). by rewrite Hin, Hfull.
    + intros Hno n (name & -> & Hname) (k & Heq & Hk). rewrite <- Hfull in Heq.
      apply Hinj in Heq as <-. rewrite Hin in Hname, Hk. rewrite Hno in Hk by done.
      by destruct Hk.
  - intros s t. apply string_app_inj_r.
  - apply metrics_name_ne.
  - apply NoDup_fmap_2; [done|]. rewrite map_range_perm. apply NoDup_fst_map_to_list.
Qed.

(** Every service of a role starts with the names of the cluster and of the role. *)
Lemma group_service_names_prefix `{!FullNameLaw} role names x :
  x ∈ group_service_names role names →
  ∃ s, x = (ClusterInfo.ClusterName (RoleInfo.ClusterInfo role) +:+ "-") +:+
    RoleInfo.RoleName role +:+ "-" +:+ s.
Proof.
  unfold group_service_names. rewrite elem_of_with_image.
  intros (n & (name & -> & _)%list_elem_of_fmap & [->| ->]); rewrite group_full_name_eq.
  - by exists name.
  - exists (name +:+ "-metrics"). by rewrite !string_app_assoc.
Qed.

(** The services a successful registration adds. *)
Lemma RegisterResources_service_names `{!MapRange} r r' spec :
  rb_Spec (Reconciler.base r) = Some spec → resources r = [] → RegisterResources r = (r', Ok tt) →
  service_names (resources r') = group_service_names (rb_RoleInfo (Reconciler.base r))
    (map_range (default ∅ (spec_RoleGroups spec))).*1.
Proof.
  intros Hspec Hempty Hrun.
  destruct (RegisterResources_lists r r' spec Hspec Hrun) as (ls & Hls & -> & _).
  rewrite Hempty. cbn [app]. by apply plans_service_names.
Qed.

(** C6: a successful registration is complete: it adds exactly four resources per
    role group, among them those of every group of the spec. *)
Theorem RegisterResources_complete `{!MapRange} r r' spec
  (Hspec : rb_Spec (Reconciler.base r) = Some spec)
  (Hrun : RegisterResources r = (r', Ok tt)) :
  let groups := default ∅ (spec_RoleGroups spec) in
  length (resources r') = length (resources r) + 4 * size groups ∧
  ∀ name g, groups !! name = Some g →
    ∃ l, group_plan r name g = Ok l ∧ l ⊆ resources r'.
Proof.
  cbv zeta. split; [by apply RegisterResources_length|].
  destruct (RegisterResources_lists r r' spec Hspec Hrun) as (ls & Hls & Hr1 & _).
  set (groups := default ∅ (spec_RoleGroups spec)) in *.
  intros name g Hg. assert (group_plan r name g ∈ plans r (map_range groups)) as Hin.
    { unfold plans. apply (list_elem_of_fmap_2 (λ g, group_plan r g.1 g.2) _ (name, g)).
      rewrite map_range_perm. by apply elem_of_map_to_list. }
    rewrite Hls in Hin. apply list_elem_of_fmap in Hin as (l & Hp & Hl).
    exists l. split; [done|]. rewrite Hr1. intros x Hx. apply elem_of_app. right.
    apply list_elem_of_In, in_concat. exists l. by rewrite <-!list_elem_of_In.
Qed.

(** C9: a role group gets a stateful set, a service, a config map and a metrics
    service, in that order, exactly when the cluster has a [clusterConfig] and
    the role is one of the three; otherwise the registration panics, and it never
    returns an error.  The service exposes the container ports under the role
    group's full name and the metrics service has the same name with [-metrics]. *)
Theorem role_group_spec `{!PlatformLaws, !MapRange} r replicas info overrides config :
  let role := RoleInfo.RoleName (RoleGroupInfo.RoleInfo info) in
  match RegisterResourceWithRoleGroup r replicas info overrides config with
  | Ok l => ∃ sts svc cm metrics, l = [StatefulSetResource sts; ServiceResource svc;
        ConfigMapResource cm; ServiceResource metrics] ∧
      StatefulSetBuilder.Ports (StatefulSetReconciler.Builder sts) = role_Ports ∧
      StatefulSetReconciler.Stopped sts = rb_ClusterStopped (Reconciler.base r) ∧
      ServiceBuilder.Name svc = GetFullName info ∧ ServiceBuilder.Ports svc = role_Ports ∧
      ConfigMapBuilder.LoggingConfig (ConfigMapReconciler.Builder cm) =
        GetRoleLoggingConfig config role ∧
      ServiceBuilder.Name metrics = GetFullName info +:+ "-metrics" ∧
      Reconciler.ClusterConfig r ≠ None ∧ role ∈ [MASTER_ROLE; REGIONSERVER_ROLE; RESTSERVER_ROLE]
  | Err _ => False
  | Panic _ => Reconciler.ClusterConfig r = None ∨
      (role ∉ [MASTER_ROLE; REGIONSERVER_ROLE; RESTSERVER_ROLE])
  end.
Proof.
  cbv zeta.
  destruct (RegisterResourceWithRoleGroup r replicas info overrides config) as [l|e|m] eqn:Hr.
  - apply RegisterResourceWithRoleGroup_Ok in Hr
      as (sts & svc & cm & metrics & -> & Hs & Hc & Hm & Hn & Hp).
    destruct (Reconciler.ClusterConfig r) as [cc|]; [|done].
    rewrite NewStatefulSetReconciler_eq in Hs. rewrite NewConfigMapReconciler_eq in Hc.
    injection Hs as <-. injection Hc as <-.
    unfold NewRoleGroupMetricsService in Hm. rewrite GetRoleName_law in Hm.
    destruct (GetMetricsPort_cases (RoleInfo.RoleName (RoleGroupInfo.RoleInfo info)))
      as [(p & ports & Hg & _ & _ & Hin)|(Hg & _)]; rewrite Hg in Hm; [|done].
    injection Hm as <-. do 4 eexists. split; [done|]. by split_and!.
  - unfold RegisterResourceWithRoleGroup, mbind, outcome_bind in Hr.
    destruct (Reconciler.ClusterConfig r) as [cc|]; [|done].
    rewrite NewStatefulSetReconciler_eq, NewConfigMapReconciler_eq in Hr.
    unfold NewRoleGroupMetricsService in Hr.
    by destruct (GetMetricsPort_cases (GetRoleName info)) as [(p & ports & Hg & _)|(Hg & _)];
      rewrite Hg in Hr.
  - unfold RegisterResourceWithRoleGroup, mbind, outcome_bind in Hr.
    destruct (Reconciler.ClusterConfig r) as [cc|]; [|by left].
    rewrite NewStatefulSetReconciler_eq, NewConfigMapReconciler_eq in Hr.
    unfold NewRoleGroupMetricsService in Hr. rewrite GetRoleName_law in Hr.
    destruct (GetMetricsPort_cases (RoleInfo.RoleName (RoleGroupInfo.RoleInfo info)))
      as [(p & ports & Hg & _)|(_ & _ & Hni)]; [by rewrite Hg in Hr|by right].
Qed.
End properties.

(** ** Witnesses *)
Definition sample_master_spec : MasterSpec.t :=
  MasterSpec.mk None (Some (list_to_map [
    ("default", MasterRoleGroupSpec.mk (Some 1%Z) None None);
    ("large", MasterRoleGroupSpec.mk (Some 3%Z) None None) ])) None None.

Definition sample_master (cc : option ClusterConfigSpec.t) : @Reconciler.t _ _ _ master_api :=
  master_NewReconciler sample_client false cc (RoleInfo.mk (ClusterInfo.mk None "hb") MASTER_ROLE)
    sample_image (Some sample_master_spec).

Example RegisterResources_spec_witness :
  ∃ r', @RegisterResources _ _ _ _ range_forward master_api (sample_master None) =
    (r', Panic nil_deref) ∧ resources r' = [].
Proof.
  pose proof (@RegisterResources_spec _ _ _ _ master_api _ _ range_forward (sample_master None)) as H.
  cbn [rb_Spec] in H. destruct H as (r' & H & _ & Hr). exists r'. split; [exact H|exact Hr].
Defined.

Example RegisterResources_order_witness :
  ∃ r1 r2,
    @RegisterResources _ _ _ _ range_forward master_api (sample_master (Some sample_config)) = (r1, Ok tt) ∧
    @RegisterResources _ _ _ _ range_backward master_api (sample_master (Some sample_config)) = (r2, Ok tt) ∧
    resources r1 ≡ₚ resources r2.
Proof.
  assert (snd (@RegisterResources _ _ _ _ range_forward master_api (sample_master (Some sample_config)))
    = Ok tt) as H1 by (vm_compute; reflexivity).
  apply M_run_snd in H1.
  destruct (@RegisterResources_order _ _ _ _ master_api _ _ range_forward range_backward
    (sample_master (Some sample_config)) _ H1) as (r2 & H2 & _ & Hp).
  eexists _, r2. split; [exact H1|]. split; [exact H2|exact Hp].
Defined.

Example RegisterResources_complete_witness :
  ∃ r', @RegisterResources _ _ _ _ range_forward master_api (sample_master (Some sample_config)) =
    (r', Ok tt) ∧ length (resources r') = 8.
Proof.
  assert (snd (@RegisterResources _ _ _ _ range_forward master_api (sample_master (Some sample_config)))
    = Ok tt) as H1 by (vm_compute; reflexivity).
  apply M_run_snd in H1. eexists. split; [exact H1|].
  exact (proj1 (@RegisterResources_complete _ _ _ _ master_api _ _ range_forward
    (sample_master (Some sample_config)) _ sample_master_spec eq_refl H1)).
Defined.

Example role_group_spec_witness :
  ∃ sts svc cm metrics,
    @RegisterResourceWithRoleGroup _ _ _ range_forward master_api (sample_master (Some sample_config))
      (Some 1%Z) (sample_group "master") None None =
      Ok [StatefulSetResource sts; ServiceResource svc; ConfigMapResource cm;
          ServiceResource metrics] ∧
    ServiceBuilder.Name svc = "hb-master-default".
Proof.
  pose proof (@role_group_spec _ _ _ master_api _ range_forward (sample_master (Some sample_config))
    (Some 1%Z) (sample_group "master") None None) as H.
  destruct (RegisterResourceWithRoleGroup _ _ _ _ _) as [l|e|m] eqn:Hr; [|destruct H|discriminate Hr].
  destruct H as (sts & svc & cm & metrics & -> & _ & _ & Hn & _).
  exists sts, svc, cm, metrics. split; [reflexivity|exact Hn].
Defined.
