(* ===== verification/Version.v ===== *)
(** * Version information: [internal/util/version/version.go]

    The three package variables are set by the linker, so they enter as the
    class [BuildVars], with the defaults of the source as one instance; what
    package [runtime] says is the class [GoRuntime].  [AppInfo.String] is
    [encoding/json.Marshal] of a struct of strings, modelled byte by byte. *)

From S2P Require Import Prelude GoStrings.

Class BuildVars := { BuildVersion : string; BuildTime : string; GitCommit : string }.

Definition default_build : BuildVars :=
  {| BuildVersion := "0.0.0-dev"; BuildTime := "N/A"; GitCommit := "N/A" |}.

Class GoRuntime := { Version : string; Compiler : string; GOOS : string; GOARCH : string }.

Module AppInfo.
Record t := mk {
  Name : string;
  AppVersion : string;
  BuildTime : string;
  GitCommit : string;
  GoVersion : string;
  Compiler : string;
  Platform : string
}.
End AppInfo.

Definition NewAppInfo `{!BuildVars, !GoRuntime} (name : string) : AppInfo.t := {|
  AppInfo.Name := name;
  AppInfo.AppVersion := BuildVersion;
  AppInfo.GitCommit := GitCommit;
  AppInfo.BuildTime := BuildTime;
  AppInfo.GoVersion := Version;
  AppInfo.Compiler := Compiler;
  AppInfo.Platform := GOOS +:+ "/" +:+ GOARCH |}.

(** ** [encoding/json]: strings

    [json.Marshal] escapes quotes, backslashes, control characters, [<], [>]
    and [&], and replaces what is not UTF-8. *)
Definition byte (c : ascii) : N := N_of_ascii c.
Definition hex_digit (n : N) : ascii :=
  if decide (n < 10)%N then ascii_of_N (48 + n) else ascii_of_N (87 + n).

Definition backslash : ascii := "\"%char.
Definition quote : ascii := ascii_of_N 34.

(** [\u00xy] *)
Definition u_escape (n : N) : list ascii :=
  [backslash; "u"%char; "0"%char; "0"%char; hex_digit (n / 16); hex_digit (n mod 16)].

Definition safe (n : N) : bool :=
  bool_decide (32 ≤ n)%N && bool_decide (n < 128)%N && negb (bool_decide (n ∈ [34; 38; 60; 62; 92]%N)).

Definition escape_ascii (c : ascii) : list ascii :=
  let n := byte c in
  if safe n then [c]
  else if decide (n = 92 ∨ n = 34)%N then [backslash; c]
  else if decide (n = 8)%N then [backslash; "b"%char]
  else if decide (n = 12)%N then [backslash; "f"%char]
  else if decide (n = 10)%N then [backslash; "n"%char]
  else if decide (n = 13)%N then [backslash; "r"%char]
  else if decide (n = 9)%N then [backslash; "t"%char]
  else u_escape n.

(** [utf8.DecodeRuneInString] accepts two, three and four bytes as follows. *)
Definition within (lo hi : N) (c : ascii) : bool := N.leb lo (byte c) && N.leb (byte c) hi.
Definition continuation : ascii → bool := within 128 191.

Definition rune2 (c1 c2 : ascii) : bool := within 194 223 c1 && continuation c2.

Definition rune3 (c1 c2 c3 : ascii) : bool :=
  ((within 224 224 c1 && within 160 191 c2) ||
   ((within 225 236 c1 || within 238 239 c1) && continuation c2) ||
   (within 237 237 c1 && within 128 159 c2)) && continuation c3.

Definition rune4 (c1 c2 c3 c4 : ascii) : bool :=
  ((within 240 240 c1 && within 144 191 c2) ||
   (within 241 243 c1 && continuation c2) ||
   (within 244 244 c1 && within 128 143 c2)) && continuation c3 && continuation c4.

(** U+2028 and U+2029. *)
Definition line_separator (c1 c2 c3 : ascii) : bool :=
  within 226 226 c1 && within 128 128 c2 && within 168 169 c3.

Definition replacement : list ascii :=
  [backslash; "u"%char; "f"%char; "f"%char; "f"%char; "d"%char].

Fixpoint quote_body (src : list ascii) : list ascii :=
  match src with
  | [] => []
  | c1 :: src1 =>
      if N.ltb (byte c1) 128 then escape_ascii c1 ++ quote_body src1
      else
        let invalid := replacement ++ quote_body src1 in
        match src1 with
        | [] => invalid
        | c2 :: src2 =>
            if rune2 c1 c2 then c1 :: c2 :: quote_body src2
            else
              match src2 with
              | [] => invalid
              | c3 :: src3 =>
                  if rune3 c1 c2 c3 then
                    (if line_separator c1 c2 c3 then
                       [backslash; "u"%char; "2"%char; "0"%char; "2"%char; hex_digit (byte c3 mod 16)]
                     else [c1; c2; c3]) ++ quote_body src3
                  else
                    match src3 with
                    | [] => invalid
                    | c4 :: src4 =>
                        if rune4 c1 c2 c3 c4 then c1 :: c2 :: c3 :: c4 :: quote_body src4
                        else invalid
                    end
              end
        end
  end.

Definition quote_string (s : string) : list ascii :=
  quote :: quote_body (String.list_ascii_of_string s) ++ [quote].

(** A member of the object, after the key of its [json] tag. *)
Definition member (key value : string) : list ascii :=
  quote :: String.list_ascii_of_string key ++ [quote; ":"%char] ++ quote_string value.

Definition members (a : AppInfo.t) : list (string * string) :=
  [ ("AppName", AppInfo.Name a); ("AppVersion", AppInfo.AppVersion a);
    ("BuildTime", AppInfo.BuildTime a); ("GitCommit", AppInfo.GitCommit a);
    ("GoVersion", AppInfo.GoVersion a); ("Compiler", AppInfo.Compiler a);
    ("Platform", AppInfo.Platform a) ].

Fixpoint join_members (l : list (string * string)) : list ascii :=
  match l with
  | [] => []
  | [(k, v)] => member k v
  | (k, v) :: l' => member k v ++ [","%char] ++ join_members l'
  end.

(** [json.Marshal] never fails on a struct of strings, so the error text of
    [String] is never returned. *)
Definition Marshal (a : AppInfo.t) : outcome (list ascii) :=
  Ok ("{"%char :: join_members (members a) ++ ["}"%char]).

Definition AppInfo_String (a : AppInfo.t) : string :=
  match Marshal a with
  | Ok data => String.string_of_list_ascii data
  | _ => "Error marshaling AppInfo"
  end.

(** ** A reader of such objects *)
Definition hex_value (c : ascii) : option N :=
  if within 48 57 c then Some (byte c - 48)%N
  else if within 97 102 c then Some (byte c - 87)%N else None.

Definition simple_escape (c : ascii) : option ascii :=
  if decide (c ∈ [quote; backslash]) then Some c
  else if decide (c = "b"%char) then Some (ascii_of_N 8)
  else if decide (c = "f"%char) then Some (ascii_of_N 12)
  else if decide (c = "n"%char) then Some (ascii_of_N 10)
  else if decide (c = "r"%char) then Some (ascii_of_N 13)
  else if decide (c = "t"%char) then Some (ascii_of_N 9) else None.

(** The characters up to the closing quote, and what follows it. *)
Fixpoint unquote (l : list ascii) : option (list ascii * list ascii) :=
  match l with
  | [] => None
  | c :: l1 =>
      if decide (c = quote) then Some ([], l1)
      else if decide (c = backslash) then
        match l1 with
        | [] => None
        | e :: l2 =>
            if decide (e = "u"%char) then
              match l2 with
              | z1 :: z2 :: h :: d :: l3 =>
                  if decide (z1 = "0"%char ∧ z2 = "0"%char) then
                    x ← hex_value h; y ← hex_value d;
                    '(s, rest) ← unquote l3;
                    Some (ascii_of_N (16 * x + y) :: s, rest)
                  else None
              | _ => None
              end
            else
              c' ← simple_escape e; '(s, rest) ← unquote l2; Some (c' :: s, rest)
        end
      else '(s, rest) ← unquote l1; Some (c :: s, rest)
  end.

(** The given characters, then the rest. *)
Fixpoint expect (s l : list ascii) : option (list ascii) :=
  match s, l with
  | [], _ => Some l
  | c :: s', d :: l' => if decide (c = d) then expect s' l' else None
  | _, _ => None
  end.

Definition read_member (key : string) (l : list ascii) : option (string * list ascii) :=
  l1 ← expect (quote :: String.list_ascii_of_string key ++ [quote; ":"%char; quote]) l;
  '(s, rest) ← unquote l1;
  Some (String.string_of_list_ascii s, rest).

Definition read_app_info (text : string) : option AppInfo.t :=
  l ← expect ["{"%char] (String.list_ascii_of_string text);
  '(name, l) ← read_member "AppName" l; l ← expect [","%char] l;
  '(version, l) ← read_member "AppVersion" l; l ← expect [","%char] l;
  '(time, l) ← read_member "BuildTime" l; l ← expect [","%char] l;
  '(commit, l) ← read_member "GitCommit" l; l ← expect [","%char] l;
  '(go, l) ← read_member "GoVersion" l; l ← expect [","%char] l;
  '(compiler, l) ← read_member "Compiler" l; l ← expect [","%char] l;
  '(platform, l) ← read_member "Platform" l;
  l ← expect ["}"%char] l;
  if decide (l = []) then Some (AppInfo.mk name version time commit go compiler platform)
  else None.

(** ** Lemmas *)
Definition is_ascii (c : ascii) : bool := N.ltb (byte c) 128.

Lemma unquote_escape c l :
  is_ascii c = true →
  unquote (escape_ascii c ++ l) = ('(s, rest) ← unquote l; Some (c :: s, rest)).
Proof.
  intros Hc. destruct c as [[] [] [] [] [] [] [] []]; first [discriminate Hc|reflexivity].
Qed.

Lemma unquote_body s l :
  forallb is_ascii s = true →
  unquote (quote_body s ++ quote :: l) = Some (s, l).
Proof.
  induction s as [|c s IH]; [done|]. cbn [forallb]. intros [Hc Hs]%andb_true_iff.
  cbn [quote_body]. unfold is_ascii in Hc. rewrite Hc.
  rewrite <-app_assoc, unquote_escape by done. by rewrite IH.
Qed.

Lemma expect_app s l : expect s (s ++ l) = Some l.
Proof. induction s as [|c s IH]; [done|]. cbn. by rewrite decide_True. Qed.

Definition ascii_string (s : string) : bool := forallb is_ascii (String.list_ascii_of_string s).

Lemma read_member_eq key value l :
  ascii_string value = true → read_member key (member key value ++ l) = Some (value, l).
Proof.
  intros Hv. unfold read_member, member, quote_string.
  replace ((quote :: String.list_ascii_of_string key ++ [quote; ":"%char] ++
      quote :: quote_body (String.list_ascii_of_string value) ++ [quote]) ++ l)
    with ((quote :: String.list_ascii_of_string key ++ [quote; ":"%char; quote]) ++
      quote_body (String.list_ascii_of_string value) ++ quote :: l)
    by (cbn; by rewrite <-!app_assoc; cbn; rewrite <-app_assoc).
  rewrite expect_app. cbn [mbind option_bind]. rewrite unquote_body by done.
  cbn [mbind option_bind]. by rewrite String.string_of_list_ascii_of_string.
Qed.

(** ** Properties *)

(** C38: the version text of an application whose fields are ASCII can be read
    back, field by field; quotes, backslashes, control characters and the
    characters HTML gives a meaning are escaped so that no field ends early. *)
Theorem AppInfo_String_roundtrip a
  (Hascii : forallb (λ kv, ascii_string kv.2) (members a) = true) :
  read_app_info (AppInfo_String a) = Some a.
Proof.
  destruct a as [name version time commit go compiler platform].
  unfold members in Hascii. cbn [forallb snd AppInfo.Name AppInfo.AppVersion AppInfo.BuildTime
    AppInfo.GitCommit AppInfo.GoVersion AppInfo.Compiler AppInfo.Platform] in Hascii.
  rewrite !andb_true_iff in Hascii. destruct Hascii as (H1 & H2 & H3 & H4 & H5 & H6 & H7 & _).
  unfold AppInfo_String, read_app_info. cbn [Marshal].
  rewrite String.list_ascii_of_string_of_list_ascii. cbn [join_members members].
  change ("{"%char :: ?l) with (["{"%char] ++ l). rewrite expect_app. cbn [mbind option_bind].
  rewrite <-!app_assoc.
  do 6 (rewrite read_member_eq by done; cbn [mbind option_bind]; rewrite <-?app_assoc, expect_app;
    cbn [mbind option_bind]).
  rewrite read_member_eq by done. cbn [mbind option_bind].
  change ["}"%char] with (["}"%char] ++ []). rewrite expect_app. cbn [mbind option_bind].
  by rewrite decide_True.
Qed.

(** ** Witnesses *)
Definition sample_runtime : GoRuntime :=
  {| Version := "go1.25.5"; Compiler := "gc"; GOOS := "linux"; GOARCH := "amd64" |}.

Example AppInfo_String_roundtrip_witness :
  let a := @NewAppInfo default_build sample_runtime ("a<b" +:+ dq +:+ "\") in
  AppInfo_String a =
    "{" +:+ dq +:+ "AppName" +:+ dq +:+ ":" +:+ dq +:+ "a\u003cb\" +:+ dq +:+ "\\" +:+ dq +:+
    "," +:+ dq +:+ "AppVersion" +:+ dq +:+ ":" +:+ dq +:+ "0.0.0-dev" +:+ dq +:+
    "," +:+ dq +:+ "BuildTime" +:+ dq +:+ ":" +:+ dq +:+ "N/A" +:+ dq +:+
    "," +:+ dq +:+ "GitCommit" +:+ dq +:+ ":" +:+ dq +:+ "N/A" +:+ dq +:+
    "," +:+ dq +:+ "GoVersion" +:+ dq +:+ ":" +:+ dq +:+ "go1.25.5" +:+ dq +:+
    "," +:+ dq +:+ "Compiler" +:+ dq +:+ ":" +:+ dq +:+ "gc" +:+ dq +:+
    "," +:+ dq +:+ "Platform" +:+ dq +:+ ":" +:+ dq +:+ "linux/amd64" +:+ dq +:+ "}" ∧
  read_app_info (AppInfo_String a) = Some a.
Proof.
  intros a. split; [reflexivity|]. apply (AppInfo_String_roundtrip a). reflexivity.
Defined.
