(* ===== verification/Cluster.v ===== *)
(** * The cluster reconciler: [internal/controller/cluster/cluster.go]

    [RegisterResources] builds the reconcilers of the master, the region server
    and the REST server in this order, lets each register its role groups and
    adds it to the cluster. *)

From S2P Require Import Prelude GoStrings K8s OperatorGo Fakes Api Krb5 Service Zookeeper.
From S2P Require Import ConfigMap StatefulSet Version Role.

(** What a cluster adds to its reconciler. *)
Inductive RoleResource `{!Platform, !Builders, !Bases} :=
| MasterRole (r : @Reconciler.t _ _ _ master_api)
| RegionServerRole (r : @Reconciler.t _ _ _ regionserver_api)
| RestServerRole (r : @Reconciler.t _ _ _ restserver_api).

Module ClusterReconciler.
Record t `{!Platform, !Builders, !Bases} := mk {
  base : ClusterBase HbaseClusterSpec.t RoleResource;
  ClusterConfig : option ClusterConfigSpec.t
}.
Arguments mk {_ _ _} _ _.
End ClusterReconciler.

Section cluster.
Context `{!Platform, !Builders, !Bases, !Merge, !MapRange, !BuildVars}.
Implicit Type r : ClusterReconciler.t.

Definition NewClusterReconciler (client : Client.t CtrlClient) (clusterInfo : ClusterInfo.t)
  (spec : option HbaseClusterSpec.t) : outcome ClusterReconciler.t :=
  do s <- deref spec;;
  Ok (ClusterReconciler.mk
        (NewBaseCluster client clusterInfo (HbaseClusterSpec.ClusterOperationSpec s) spec)
        (HbaseClusterSpec.ClusterConfigSpec s)).

(** The option and the assignment after it both dereference [r.Spec.Image]. *)
Definition GetImage r : outcome (Image.t ImageRest) :=
  do spec <- deref (cb_Spec (ClusterReconciler.base r));;
  do specImage <- deref (HbaseClusterSpec.Image spec);;
  let image := NewImage DefaultProductName BuildVersion DefaultProductVersion
    [ λ _, ImageOptions.mk (ImageSpec.Custom specImage) (ImageSpec.Repo specImage)
             (ImageSpec.PullPolicy specImage) ] in
  if decide (ImageSpec.KubedoopVersion specImage = "") then Ok image
  else Ok (Image.mk (ImageSpec.KubedoopVersion specImage) (Image.rest image)).

Definition c_AddResource (x : RoleResource) : M ClusterReconciler.t unit := modify (λ r,
  ClusterReconciler.mk (cb_AddResource (ClusterReconciler.base r) x)
    (ClusterReconciler.ClusterConfig r)).

(** Call [RegisterResources] on a reconciler the caller has just made. *)
Definition registered {S} (run : M S unit) (s : S) : outcome S :=
  match run s with
  | (s', Ok _) => Ok s'
  | (_, Err e) => Err e
  | (_, Panic m) => Panic m
  end.

(** One of the three parts of the body: make the reconciler of a role, register
    its resources, add it. *)
Definition register_role (api : RoleAPI) (wrap : @Reconciler.t _ _ _ api → RoleResource)
  (roleName : string) (roleSpec : HbaseClusterSpec.t → option (@Spec _ api))
  : M ClusterReconciler.t unit :=
  do r <- get;;
  let base := ClusterReconciler.base r in
  do image <- lift (GetImage r);;
  do spec <- lift (deref (cb_Spec base));;
  let reconciler := @NewReconciler _ _ _ api (cb_Client base) (cb_IsStopped base)
    (ClusterReconciler.ClusterConfig r) (RoleInfo.mk (cb_ClusterInfo base) roleName)
    image (roleSpec spec) in
  do reconciler <- lift (registered (@RegisterResources _ _ _ _ _ api) reconciler);;
  c_AddResource (wrap reconciler).

Definition RegisterClusterResources : M ClusterReconciler.t unit :=
  do! register_role master_api MasterRole "master" HbaseClusterSpec.MasterSpec;;
  do! register_role regionserver_api RegionServerRole "regionserver"
        HbaseClusterSpec.RegionServerSpec;;
  register_role restserver_api RestServerRole "restserver" HbaseClusterSpec.RestServerSpec.
End cluster.

(** ** Lemmas *)
Section lemmas.
Context `{!Platform, !Builders, !Bases, !Merge, !MapRange, !BuildVars, !BasesView, !BasesLaws}.
Implicit Type r : ClusterReconciler.t.

Definition cluster_resources r : list RoleResource := cb_Resources (ClusterReconciler.base r).

(** What adding resources does not change. *)
Definition cluster_fixed r :=
  (ClusterReconciler.ClusterConfig r, cb_Client (ClusterReconciler.base r),
   cb_IsStopped (ClusterReconciler.base r), cb_ClusterInfo (ClusterReconciler.base r),
   cb_Spec (ClusterReconciler.base r)).

Lemma GetImage_fixed r r' : cluster_fixed r' = cluster_fixed r → GetImage r' = GetImage r.
Proof. unfold cluster_fixed, GetImage. intros Hf. by injection Hf as _ _ _ _ ->. Qed.

(** The reconciler of a role before its resources are registered. *)
Definition fresh_role (api : RoleAPI) r (image : Image.t ImageRest) (roleName : string)
  (spec : option (@Spec _ api)) : @Reconciler.t _ _ _ api :=
  @NewReconciler _ _ _ api (cb_Client (ClusterReconciler.base r))
    (cb_IsStopped (ClusterReconciler.base r)) (ClusterReconciler.ClusterConfig r)
    (RoleInfo.mk (cb_ClusterInfo (ClusterReconciler.base r)) roleName) image spec.

Lemma fresh_role_cluster_fixed api r r' image name spec :
  cluster_fixed r' = cluster_fixed r → fresh_role api r' image name spec = fresh_role api r image name spec.
Proof. unfold cluster_fixed, fresh_role. intros Hf. by injection Hf as -> -> -> -> _. Qed.

Lemma register_role_run api wrap name roleSpec r image spec :
  GetImage r = Ok image → cb_Spec (ClusterReconciler.base r) = Some spec →
  match registered (@RegisterResources _ _ _ _ _ api) (fresh_role api r image name (roleSpec spec)) with
  | Ok rr => ∃ r', register_role api wrap name roleSpec r = (r', Ok tt) ∧
      cluster_fixed r' = cluster_fixed r ∧
      cluster_resources r' = cluster_resources r ++ [wrap rr]
  | Err e => register_role api wrap name roleSpec r = (r, Err e)
  | Panic m => register_role api wrap name roleSpec r = (r, Panic m)
  end.
Proof.
  intros Hi Hs. unfold register_role, get, lift, mbind, M_bind. rewrite Hi, Hs. cbn [deref].
  fold (fresh_role api r image name (roleSpec spec)).
  destruct (registered _ _) as [rr|e|m]; [|done..].
  eexists. split; [reflexivity|]. unfold cluster_fixed, cluster_resources. cbn.
  by destruct (cb_AddResource_view (ClusterReconciler.base r) (wrap rr)) as (-> & -> & -> & -> & ->).
Qed.

(** A role without a spec panics. *)
Lemma registered_None api r image name :
  registered (@RegisterResources _ _ _ _ _ api) (fresh_role api r image name None) = Panic nil_deref.
Proof.
  unfold registered, RegisterResources, fresh_role, NewReconciler, get, lift, mbind, M_bind. cbn.
  match goal with |- context [rb_Spec (NewBaseRoleReconciler ?c ?s ?i ?p)] =>
    destruct (NewBaseRole_view (R := Resource) c s i p) as (_ & _ & _ & _ & -> & _) end. done.
Qed.

(** The settings of a role's reconciler are the cluster's. *)
Definition role_of (api : RoleAPI) r (image : Image.t ImageRest) (name : string)
  (rr : @Reconciler.t _ _ _ api) : Prop :=
  Reconciler.ClusterConfig rr = ClusterReconciler.ClusterConfig r ∧
  Reconciler.Image rr = image ∧
  rb_Client (Reconciler.base rr) = cb_Client (ClusterReconciler.base r) ∧
  rb_ClusterStopped (Reconciler.base rr) = cb_IsStopped (ClusterReconciler.base r) ∧
  rb_RoleInfo (Reconciler.base rr) =
    RoleInfo.mk (cb_ClusterInfo (ClusterReconciler.base r)) name.

Lemma fresh_role_of api r image name spec : role_of api r image name (fresh_role api r image name spec).
Proof.
  unfold role_of, fresh_role, NewReconciler. cbn.
  match goal with |- context [NewBaseRoleReconciler ?c ?s ?i ?p] =>
    destruct (NewBaseRole_view (R := Resource) c s i p) as (_ & -> & -> & -> & _) end. done.
Qed.


Lemma fresh_role_spec api r image name spec :
  rb_Spec (Reconciler.base (fresh_role api r image name spec)) = spec ∧
  resources (fresh_role api r image name spec) = [].
Proof.
  unfold fresh_role, NewReconciler, resources. cbn.
  match goal with |- context [NewBaseRoleReconciler ?c ?s ?i ?p] =>
    destruct (NewBaseRole_view (R := Resource) c s i p) as (-> & _ & _ & _ & -> & _) end. done.
Qed.


(** A role can be registered: it has a spec, and each of its role groups merges and has a
    cluster configuration to use. *)
Definition role_ready (api : RoleAPI) (clusterConfig : option ClusterConfigSpec.t)
  (spec : option (@Spec _ api)) : Prop :=
  match spec with
  | None => False
  | Some s => ∀ name g, default ∅ (@spec_RoleGroups _ api s) !! name = Some g →
      @group_merges _ _ api s g ∧ clusterConfig ≠ None
  end.

Lemma registered_Ok_iff `{!PlatformLaws} api r image name spec :
  name ∈ [MASTER_ROLE; REGIONSERVER_ROLE; RESTSERVER_ROLE] →
  (∃ rr, registered (@RegisterResources _ _ _ _ _ api) (fresh_role api r image name spec) = Ok rr) ↔
    role_ready api (ClusterReconciler.ClusterConfig r) spec.
Proof.
  intros Hname. destruct spec as [spec|]; [|rewrite registered_None; naive_solver].
  destruct (fresh_role_spec api r image name (Some spec)) as [Hs _].
  destruct (fresh_role_of api r image name (Some spec)) as (Hc & _ & _ & _ & Hi).
  cbn [role_ready]. rewrite <-Hc, <-(RegisterResources_Ok_iff _ spec Hs) by (by rewrite Hi).
  unfold registered. destruct (RegisterResources _) as [rr [[]|e|m]]; naive_solver.
Qed.

End lemmas.


(** ** Properties *)
Section properties.
Context `{!Platform, !Builders, !Bases, !Merge, !MapRange, !BuildVars, !BasesView, !BasesLaws}.
Implicit Type r : ClusterReconciler.t.

(** The three roles registered in a row, from the cluster's own settings. *)
Definition roles_of r (image : Image.t ImageRest) (spec : HbaseClusterSpec.t)
  : outcome (list RoleResource) :=
  do m <- registered (@RegisterResources _ _ _ _ _ master_api)
    (fresh_role master_api r image "master" (HbaseClusterSpec.MasterSpec spec));;
  do g <- registered (@RegisterResources _ _ _ _ _ regionserver_api)
    (fresh_role regionserver_api r image "regionserver" (HbaseClusterSpec.RegionServerSpec spec));;
  do t <- registered (@RegisterResources _ _ _ _ _ restserver_api)
    (fresh_role restserver_api r image "restserver" (HbaseClusterSpec.RestServerSpec spec));;
  Ok [MasterRole m; RegionServerRole g; RestServerRole t].

Lemma RegisterClusterResources_run r image spec :
  GetImage r = Ok image → cb_Spec (ClusterReconciler.base r) = Some spec →
  ∃ r', cluster_fixed r' = cluster_fixed r ∧
  match roles_of r image spec with
  | Ok l => RegisterClusterResources r = (r', Ok tt) ∧
      cluster_resources r' = cluster_resources r ++ l
  | Err e => RegisterClusterResources r = (r', Err e)
  | Panic m => RegisterClusterResources r = (r', Panic m)
  end.
Proof.
  intros Hi Hs. unfold roles_of, RegisterClusterResources.
  assert (∀ r', cluster_fixed r' = cluster_fixed r →
    GetImage r' = Ok image ∧ cb_Spec (ClusterReconciler.base r') = Some spec) as Hfix.
  { intros r' Hf. rewrite (GetImage_fixed r r' Hf). split; [done|].
    rewrite <-Hs. unfold cluster_fixed in Hf. by injection Hf. }
  pose proof (register_role_run master_api MasterRole "master" HbaseClusterSpec.MasterSpec
    r image spec Hi Hs) as Hrun1.
  unfold mbind, outcome_bind, M_bind.
  destruct (registered _ (fresh_role master_api _ _ _ _)) as [m|e|p];
    [|rewrite Hrun1; by exists r..].
  destruct Hrun1 as (r1 & -> & Hf1 & Hr1). destruct (Hfix r1 Hf1) as [Hi1 Hs1].
  pose proof (register_role_run regionserver_api RegionServerRole "regionserver"
    HbaseClusterSpec.RegionServerSpec r1 image spec Hi1 Hs1) as Hrun2.
  rewrite (fresh_role_cluster_fixed regionserver_api r r1) in Hrun2 by done.
  destruct (registered _ (fresh_role regionserver_api _ _ _ _)) as [g|e|p];
    [|rewrite Hrun2; by exists r1..].
  destruct Hrun2 as (r2 & -> & Hf2 & Hr2). assert (cluster_fixed r2 = cluster_fixed r) as Hf by congruence.
  destruct (Hfix r2 Hf) as [Hi2 Hs2].
  pose proof (register_role_run restserver_api RestServerRole "restserver"
    HbaseClusterSpec.RestServerSpec r2 image spec Hi2 Hs2) as Hrun3.
  rewrite (fresh_role_cluster_fixed restserver_api r r2) in Hrun3 by done.
  destruct (registered _ (fresh_role restserver_api _ _ _ _)) as [t|e|p];
    [|rewrite Hrun3; by exists r2..].
  destruct Hrun3 as (r3 & -> & Hf3 & Hr3). exists r3. split_and!; [congruence|done|].
  by rewrite Hr3, Hr2, Hr1, <-!app_assoc.
Qed.

(** All three roles can be registered. *)
Definition roles_ready (cc : option ClusterConfigSpec.t) (spec : HbaseClusterSpec.t) : Prop :=
  role_ready master_api cc (HbaseClusterSpec.MasterSpec spec) ∧
  role_ready regionserver_api cc (HbaseClusterSpec.RegionServerSpec spec) ∧
  role_ready restserver_api cc (HbaseClusterSpec.RestServerSpec spec).

(** The first role that cannot be registered is one without a spec. *)
Definition role_missing (cc : option ClusterConfigSpec.t) (spec : HbaseClusterSpec.t) : Prop :=
  HbaseClusterSpec.MasterSpec spec = None ∨
  (role_ready master_api cc (HbaseClusterSpec.MasterSpec spec) ∧
   (HbaseClusterSpec.RegionServerSpec spec = None ∨
    (role_ready regionserver_api cc (HbaseClusterSpec.RegionServerSpec spec) ∧
     HbaseClusterSpec.RestServerSpec spec = None))).

Lemma roles_of_Ok_iff `{!PlatformLaws} r image spec :
  (∃ l, roles_of r image spec = Ok l) ↔ roles_ready (ClusterReconciler.ClusterConfig r) spec.
Proof.
  unfold roles_ready.
  rewrite <-(registered_Ok_iff master_api r image "master"),
    <-(registered_Ok_iff regionserver_api r image "regionserver"),
    <-(registered_Ok_iff restserver_api r image "restserver") by (by apply (bool_decide_unpack _)).
  split.
  - intros [l Hl]. apply outcome_bind_Ok in Hl as (m & Hm & Hl).
    apply outcome_bind_Ok in Hl as (g & Hg & Hl). apply outcome_bind_Ok in Hl as (t & Ht & _).
    split_and!; by eexists.
  - intros ([m Hm] & [g Hg] & [t Ht]). unfold roles_of. rewrite Hm, Hg, Ht. by eexists.
Qed.

Lemma roles_of_missing `{!PlatformLaws} r image spec :
  role_missing (ClusterReconciler.ClusterConfig r) spec → roles_of r image spec = Panic nil_deref.
Proof.
  unfold role_missing, roles_of. intros [->|[Hm Hrest]]; [by rewrite registered_None|].
  apply (registered_Ok_iff master_api r image "master") in Hm as [m ->];
    [|by apply (bool_decide_unpack _)].
  cbn [mbind outcome_bind]. destruct Hrest as [->|[Hg ->]]; [by rewrite registered_None|].
  apply (registered_Ok_iff regionserver_api r image "regionserver") in Hg as [g ->];
    [|by apply (bool_decide_unpack _)].
  cbn [mbind outcome_bind]. by rewrite registered_None.
Qed.

Lemma RegisterClusterResources_Ok r image spec c :
  GetImage r = Ok image → cb_Spec (ClusterReconciler.base r) = Some spec →
  RegisterClusterResources r = (c, Ok tt) →
  length (cluster_resources c) = length (cluster_resources r) + 3 ∧
    ∃ l, roles_of r image spec = Ok l.
Proof.
  intros Hi Hs Hrun. destruct (RegisterClusterResources_run r image spec Hi Hs) as (r' & _ & Hres).
  destruct (roles_of r image spec) as [l|e|m] eqn:Hl; [|congruence..].
  destruct Hres as [Hrun' Hres]. rewrite Hrun in Hrun'. injection Hrun' as <-.
  split; [|by eexists]. rewrite Hres, length_app. f_equal. unfold roles_of in Hl.
  apply outcome_bind_Ok in Hl as (m & _ & Hl). apply outcome_bind_Ok in Hl as (g & _ & Hl).
  apply outcome_bind_Ok in Hl as (t & _ & Hl). by injection Hl as <-.
Qed.

(** The image of a cluster whose spec has the image [i]. *)
Lemma GetImage_eq r spec i :
  cb_Spec (ClusterReconciler.base r) = Some spec → HbaseClusterSpec.Image spec = Some i →
  ∃ image, GetImage r = Ok image ∧
    let made := NewImage DefaultProductName BuildVersion DefaultProductVersion
      [λ _, ImageOptions.mk (ImageSpec.Custom i) (ImageSpec.Repo i) (ImageSpec.PullPolicy i)] in
    Image.rest image = Image.rest made ∧
    Image.KubedoopVersion image =
      if decide (ImageSpec.KubedoopVersion i = "") then Image.KubedoopVersion made
      else ImageSpec.KubedoopVersion i.
Proof.
  intros Hs Hi. unfold GetImage. rewrite Hs. cbn. rewrite Hi. cbn. case_decide; eauto.
Qed.



(** ** The names of a cluster's services *)
Definition cluster_service_names (l : list RoleResource) : list string :=
  l ≫= λ x, match x with
    | MasterRole m => service_names (resources m)
    | RegionServerRole g => service_names (resources g)
    | RestServerRole t => service_names (resources t)
    end.

Lemma registered_service_names api r image name spec rr :
  registered (@RegisterResources _ _ _ _ _ api) (fresh_role api r image name (Some spec)) = Ok rr →
  service_names (resources rr) =
    group_service_names (RoleInfo.mk (cb_ClusterInfo (ClusterReconciler.base r)) name)
      (map_range (default ∅ (@spec_RoleGroups _ api spec))).*1.
Proof.
  unfold registered. destruct (fresh_role_spec api r image name (Some spec)) as [Hs Hr].
  destruct (RegisterResources _) as [rr' o] eqn:Hrun. destruct o as [[]|e|m]; [|done..].
  intros [= ->]. rewrite (RegisterResources_service_names _ _ _ Hs Hr Hrun).
  by destruct (fresh_role_of api r image name (Some spec)) as (_ & _ & _ & _ & ->).
Qed.

Lemma roles_service_names r image spec ms gs ts l :
  HbaseClusterSpec.MasterSpec spec = Some ms → HbaseClusterSpec.RegionServerSpec spec = Some gs →
  HbaseClusterSpec.RestServerSpec spec = Some ts → roles_of r image spec = Ok l →
  let names {G} role (groups : option (gmap string G)) := group_service_names
    (RoleInfo.mk (cb_ClusterInfo (ClusterReconciler.base r)) role) (map_range (default ∅ groups)).*1 in
  cluster_service_names l = names "master" (MasterSpec.RoleGroups ms) ++
    names "regionserver" (RegionServerSpec.RoleGroups gs) ++
    names "restserver" (RestServerSpec.RoleGroups ts).
Proof.
  unfold roles_of. intros -> -> -> Hl.
  apply outcome_bind_Ok in Hl as (m & Hm%registered_service_names & Hl).
  apply outcome_bind_Ok in Hl as (g & Hg%registered_service_names & Hl).
  apply outcome_bind_Ok in Hl as (t & Ht%registered_service_names & Hl). injection Hl as <-.
  unfold cluster_service_names. cbn -[service_names]. rewrite app_nil_r.
  by f_equal; [exact Hm|f_equal; [exact Hg|exact Ht]].
Qed.

(** C5: when the services of a cluster have different names.  Each role group has a service
    and one for its metrics; after a successful registration the names of all
    services of the cluster do not repeat exactly when in none of the three
    roles a role group is called like another one with [-metrics] after its name.
    Services of different roles never collide.  Nothing in the API forbids such
    names of role groups, and then two resources of a role write one service. *)
Theorem service_names_distinct `{!FullNameLaw} r r' spec image ms gs ts
  (Hspec : cb_Spec (ClusterReconciler.base r) = Some spec)
  (Himage : GetImage r = Ok image)
  (Hm : HbaseClusterSpec.MasterSpec spec = Some ms)
  (Hg : HbaseClusterSpec.RegionServerSpec spec = Some gs)
  (Ht : HbaseClusterSpec.RestServerSpec spec = Some ts)
  (Hempty : cluster_resources r = [])
  (Hrun : RegisterClusterResources r = (r', Ok tt)) :
  NoDup (cluster_service_names (cluster_resources r')) ↔
    no_metrics_group (default ∅ (MasterSpec.RoleGroups ms)) ∧
    no_metrics_group (default ∅ (RegionServerSpec.RoleGroups gs)) ∧
    no_metrics_group (default ∅ (RestServerSpec.RoleGroups ts)).
Proof.
  destruct (RegisterClusterResources_run r image spec Himage Hspec) as (r1 & _ & Hres).
  destruct (roles_of r image spec) as [l|e|m] eqn:Hl; [|congruence..].
  destruct Hres as [Hrun1 Hres]. rewrite Hrun in Hrun1. injection Hrun1 as <-.
  rewrite Hres, Hempty. cbn [app]. rewrite (roles_service_names r image spec ms gs ts l) by done.
  rewrite !NoDup_app, !group_service_names_NoDup.
  assert (∀ role role' names names' x,
    x ∈ group_service_names role names → x ∈ group_service_names role' names' →
    RoleInfo.ClusterInfo role = RoleInfo.ClusterInfo role' →
    ∃ s t, RoleInfo.RoleName role +:+ "-" +:+ s = RoleInfo.RoleName role' +:+ "-" +:+ t) as Hclash.
  { intros role role' names names' x (s & Hs)%group_service_names_prefix
      (t & Ht')%group_service_names_prefix Hc. exists s, t.
    rewrite Hc in Hs. rewrite Hs in Ht'. by apply string_app_inj in Ht'. }
  split; [tauto|]. intros (Hnm & Hng & Hnt). split_and!; try done.
  - intros x Hx [Hx'|Hx']%elem_of_app;
      destruct (Hclash _ _ _ _ x Hx Hx' eq_refl) as (s & t & Heq); discriminate Heq.
  - intros x Hx Hx'. destruct (Hclash _ _ _ _ x Hx Hx' eq_refl) as (s & t & Heq).
    discriminate Heq.
Qed.

(** C39: the image of a cluster.  It is an image of HBase 2.6.1, whatever product
    version the spec asks for; its Kubedoop version is the spec's, and the
    operator's own when the spec leaves it empty; the custom image, the repository
    and the pull policy are the spec's where it gives them.  Two specs that differ
    in the product version and the pull secret only get the same image.  A cluster
    without an [image] panics. *)
Theorem GetImage_spec `{!ImageView, !ImageLaws} r spec
  (Hspec : cb_Spec (ClusterReconciler.base r) = Some spec) :
  match HbaseClusterSpec.Image spec with
  | None => GetImage r = Panic nil_deref
  | Some i => ∃ image, GetImage r = Ok image ∧
      image_ProductName (Image.rest image) = "hbase" ∧
      image_ProductVersion (Image.rest image) = "2.6.1" ∧
      (ImageSpec.KubedoopVersion i ≠ "" → Image.KubedoopVersion image = ImageSpec.KubedoopVersion i) ∧
      (ImageSpec.KubedoopVersion i = "" → Image.KubedoopVersion image = BuildVersion) ∧
      (ImageSpec.Custom i ≠ "" → image_Custom (Image.rest image) = ImageSpec.Custom i) ∧
      (ImageSpec.Repo i ≠ "" → image_Repo (Image.rest image) = ImageSpec.Repo i) ∧
      (ImageSpec.PullPolicy i ≠ "" → image_PullPolicy (Image.rest image) = ImageSpec.PullPolicy i) ∧
      ∀ r2 spec2 productVersion pullSecretName,
        cb_Spec (ClusterReconciler.base r2) = Some spec2 →
        HbaseClusterSpec.Image spec2 = Some (ImageSpec.mk (ImageSpec.Custom i) (ImageSpec.Repo i)
          (ImageSpec.KubedoopVersion i) productVersion (ImageSpec.PullPolicy i) pullSecretName) →
        GetImage r2 = Ok image
  end.
Proof.
  destruct (HbaseClusterSpec.Image spec) as [i|] eqn:Hi.
  - destruct (GetImage_eq r spec i Hspec Hi) as (image & Himage & Hrest & Hk).
    destruct (NewImage_view DefaultProductName BuildVersion DefaultProductVersion
      (ImageOptions.mk (ImageSpec.Custom i) (ImageSpec.Repo i) (ImageSpec.PullPolicy i)))
      as (Hv & Hname & Hproduct & Hcustom & Hrepo & Hpolicy).
    exists image. rewrite Hrest. split_and!; try done.
    + intros. by rewrite Hk, decide_False.
    + intros. by rewrite Hk, decide_True, Hv.
    + intros r2 spec2 pv ps Hs2 Hi2.
      destruct (GetImage_eq r2 spec2 _ Hs2 Hi2) as (image2 & Himage2 & Hrest2 & Hk2).
      rewrite Himage2. f_equal. cbn in *. destruct image, image2. cbn in *. congruence.
  - unfold GetImage. rewrite Hspec. cbn. by rewrite Hi.
Qed.
End properties.

(** ** Witnesses *)
Definition sample_region_spec : RegionServerSpec.t :=
  RegionServerSpec.mk None (Some (list_to_map [
    ("default", RegionServerRoleGroupSpec.mk (Some 2%Z) None None) ])) None None.
Definition sample_rest_spec : RestServerSpec.t := RestServerSpec.mk None None None None.

Definition sample_spec (rest : option RestServerSpec.t) : HbaseClusterSpec.t :=
  HbaseClusterSpec.mk (Some (ImageSpec.mk "" "quay.io/zncdatadev" "1.2.0" "2.4.18" "IfNotPresent" ""))
    (Some sample_config) None (Some sample_master_spec) (Some sample_region_spec) rest.

Definition sample_cluster (spec : HbaseClusterSpec.t) : ClusterReconciler.t :=
  ClusterReconciler.mk (NewBaseCluster sample_client (ClusterInfo.mk None "hb") None (Some spec))
    (HbaseClusterSpec.ClusterConfigSpec spec).

Definition sample_cluster_image : Image.t ImageRest :=
  Image.mk "1.2.0" (("hbase", "2.6.1"), ImageOptions.mk "" "quay.io/zncdatadev" "IfNotPresent").


(** Two role groups whose services collide. *)
Definition colliding_spec : HbaseClusterSpec.t :=
  HbaseClusterSpec.mk (Some (ImageSpec.mk "" "quay.io/zncdatadev" "1.2.0" "2.4.18" "IfNotPresent" ""))
    (Some sample_config) None
    (Some (MasterSpec.mk None (Some (list_to_map [
      ("default", MasterRoleGroupSpec.mk (Some 1%Z) None None);
      ("default-metrics", MasterRoleGroupSpec.mk (Some 1%Z) None None) ])) None None))
    (Some sample_region_spec) (Some sample_rest_spec).

Example service_names_distinct_witness :
  ∃ r', @RegisterClusterResources _ _ _ _ range_forward default_build
      (sample_cluster colliding_spec) = (r', Ok tt) ∧
    ¬ NoDup (cluster_service_names (cluster_resources r')).
Proof.
  assert (snd (@RegisterClusterResources _ _ _ _ range_forward default_build
    (sample_cluster colliding_spec)) = Ok tt) as Hrun by (vm_compute; reflexivity).
  apply M_run_snd in Hrun. eexists. split; [exact Hrun|]. intros Hnd.
  pose proof (proj1 (proj1 (@service_names_distinct _ _ _ _ range_forward default_build _ _ _
    (sample_cluster colliding_spec) _ colliding_spec sample_cluster_image _ sample_region_spec
    sample_rest_spec eq_refl eq_refl eq_refl eq_refl eq_refl eq_refl Hrun) Hnd)
    "default" (ex_intro _ _ eq_refl)) as Hnone.
  discriminate Hnone.
Defined.

(** The sample image, and one without a Kubedoop version. *)
Definition unversioned_spec : HbaseClusterSpec.t :=
  HbaseClusterSpec.mk (Some (ImageSpec.mk "" "quay.io/zncdatadev" "" "2.4.18" "IfNotPresent" ""))
    (Some sample_config) None (Some sample_master_spec) (Some sample_region_spec) None.

Example GetImage_spec_witness :
  (∃ image, @GetImage _ _ _ default_build (sample_cluster (sample_spec None)) = Ok image ∧
    Image.KubedoopVersion image = "1.2.0" ∧ image_Repo (Image.rest image) = "quay.io/zncdatadev") ∧
  ∃ image, @GetImage _ _ _ default_build (sample_cluster unversioned_spec) = Ok image ∧
    Image.KubedoopVersion image = @BuildVersion default_build ∧
    image_ProductVersion (Image.rest image) = "2.6.1".
Proof.
  split.
  - destruct (@GetImage_spec _ _ _ default_build _ _ (sample_cluster (sample_spec None)) _ eq_refl)
      as (image & Himage & _ & _ & Hk & _ & _ & Hrepo & _).
    exists image. split; [exact Himage|]. split; [by apply Hk|by apply Hrepo].
  - destruct (@GetImage_spec _ _ _ default_build _ _ (sample_cluster unversioned_spec) _ eq_refl)
      as (image & Himage & _ & Hpv & _ & Hk & _).
    exists image. split; [exact Himage|]. split; [by apply Hk|exact Hpv].
Defined.
