(* ===== verification/Controller.v ===== *)
(** * The controller: [internal/controller/hbasecluster_controller.go]

    [Reconcile] runs in a [World]: it reads the cluster object, builds a fresh
    cluster reconciler, registers the resources in memory, reconciles them and
    checks that they are ready.  Log lines are left out. *)

From S2P Require Import Prelude GoStrings K8s OperatorGo Fakes Api Service Zookeeper ConfigMap.
From S2P Require Import StatefulSet Version Role Cluster.

(** Reading a cluster object through a controller-runtime client, and the
    methods [Reconcile] and [Ready] of [reconciler.BaseCluster], which may panic
    because they run the resources' own code. *)
Class ControllerRuntime `{!Platform, !Builders, !Bases, !Reconcilers} := {
  Get : CtrlClient → string → string → World → outcome HbaseCluster.t;
  IgnoreNotFound : error → option error;
  cb_Reconcile : ∀ {S R : Type}, ClusterBase S R → World → World * outcome (Result * option error);
  cb_Ready : ∀ {S R : Type}, ClusterBase S R → World → World * outcome (Result * option error)
}.

Module Request.
Record t := mk { Namespace : string; Name : string }.
End Request.

Module HbaseClusterReconciler.
Record t `{!Platform} := mk { Client : CtrlClient; Scheme : RuntimeScheme }.
Arguments mk {_} _ _.
End HbaseClusterReconciler.

Section controller.
Context `{!Platform, !Builders, !Bases, !Merge, !MapRange, !BuildVars, !Reconcilers,
  !ControllerRuntime}.
Implicit Types (r : HbaseClusterReconciler.t) (w : World).

(** The result type of a handler run in a world. *)
Definition Handled : Type := World * outcome (Result * option error).

(** [if result, err := c; err != nil { return Result{}, err } else if
    !result.IsZero() { return result, nil }], then [k]. *)
Definition proceed (step : Handled) (k : World → Handled) : Handled :=
  match step with
  | (w, Ok (result, Some e)) => (w, Ok (ZeroResult, Some e))
  | (w, Ok (result, None)) => if IsZero result then k w else (w, Ok (result, None))
  | (w, Err e) => (w, Err e)
  | (w, Panic m) => (w, Panic m)
  end.

(** The cluster reconciler of an instance. *)
Definition cluster_of r (instance : HbaseCluster.t) : outcome ClusterReconciler.t :=
  let resourceClient :=
    Client.mk (HbaseClusterReconciler.Client r) (HbaseCluster.ObjectMeta instance) in
  let gvk := HbaseCluster.TypeMeta instance in
  NewClusterReconciler resourceClient
    (ClusterInfo.mk
       (Some (GroupVersionKind.mk (GroupVersionKind.Group gvk) (GroupVersionKind.Version gvk)
                (GroupVersionKind.Kind gvk)))
       (ObjectMeta.Name (HbaseCluster.ObjectMeta instance)))
    (Some (HbaseCluster.Spec instance)).

Definition Reconcile r (req : Request.t) (w : World) : Handled :=
  match Get (HbaseClusterReconciler.Client r) (Request.Namespace req) (Request.Name req) w with
  | Err err =>
      match IgnoreNotFound err with
      | None => (w, Ok (ZeroResult, None))
      | Some _ => (w, Ok (ZeroResult, Some err))
      end
  | Panic m => (w, Panic m)
  | Ok instance =>
      match cluster_of r instance with
      | Err e => (w, Err e)
      | Panic m => (w, Panic m)
      | Ok clusterReconciler =>
          match RegisterClusterResources clusterReconciler with
          | (_, Err err) => (w, Ok (ZeroResult, Some err))
          | (_, Panic m) => (w, Panic m)
          | (clusterReconciler, Ok _) =>
              let base := ClusterReconciler.base clusterReconciler in
              proceed (cb_Reconcile base w) (λ w1,
              proceed (cb_Ready base w1) (λ w2, (w2, Ok (ZeroResult, None))))
          end
      end
  end.

(** ** The life of a request as a step relation *)

(** The cluster has been read and its resources registered in [c]. *)
Inductive registered_cluster r (req : Request.t) (w : World) : ClusterReconciler.t → Prop :=
| registered_intro instance c0 c :
    Get (HbaseClusterReconciler.Client r) (Request.Namespace req) (Request.Name req) w = Ok instance →
    cluster_of r instance = Ok c0 → RegisterClusterResources c0 = (c, Ok tt) →
    registered_cluster r req w c.

(** Reconciling the resources of [c], and then checking them, may go from [w] to
    [w'] with a result and an error. *)
Inductive run_cluster (c : ClusterReconciler.t) (w : World) : World → Result → option error → Prop :=
| reconcile_failed w' result e :
    cb_Reconcile (ClusterReconciler.base c) w = (w', Ok (result, Some e)) →
    run_cluster c w w' ZeroResult (Some e)
| reconcile_requeue w' result :
    cb_Reconcile (ClusterReconciler.base c) w = (w', Ok (result, None)) → IsZero result = false →
    run_cluster c w w' result None
| ready_failed w1 result1 w' result e :
    cb_Reconcile (ClusterReconciler.base c) w = (w1, Ok (result1, None)) → IsZero result1 = true →
    cb_Ready (ClusterReconciler.base c) w1 = (w', Ok (result, Some e)) →
    run_cluster c w w' ZeroResult (Some e)
| ready_requeue w1 result1 w' result :
    cb_Reconcile (ClusterReconciler.base c) w = (w1, Ok (result1, None)) → IsZero result1 = true →
    cb_Ready (ClusterReconciler.base c) w1 = (w', Ok (result, None)) → IsZero result = false →
    run_cluster c w w' result None
| ready w1 result1 w' result :
    cb_Reconcile (ClusterReconciler.base c) w = (w1, Ok (result1, None)) → IsZero result1 = true →
    cb_Ready (ClusterReconciler.base c) w1 = (w', Ok (result, None)) → IsZero result = true →
    run_cluster c w w' ZeroResult None.

(** A request in the world [w] may end in [w'] with a result and an error. *)
Inductive run r (req : Request.t) (w : World) : World → Result → option error → Prop :=
| run_not_found err :
    Get (HbaseClusterReconciler.Client r) (Request.Namespace req) (Request.Name req) w = Err err →
    IgnoreNotFound err = None →
    run r req w w ZeroResult None
| run_get_failed err e :
    Get (HbaseClusterReconciler.Client r) (Request.Namespace req) (Request.Name req) w = Err err →
    IgnoreNotFound err = Some e →
    run r req w w ZeroResult (Some err)
| run_register_failed instance c c' err :
    Get (HbaseClusterReconciler.Client r) (Request.Namespace req) (Request.Name req) w = Ok instance →
    cluster_of r instance = Ok c → RegisterClusterResources c = (c', Err err) →
    run r req w w ZeroResult (Some err)
| run_registered c w' result err :
    registered_cluster r req w c → run_cluster c w w' result err → run r req w w' result err.

(** ** Lemmas *)
Lemma cluster_of_Ok r instance : ∃ c, cluster_of r instance = Ok c.
Proof. by eexists. Qed.

Lemma phases_iff c w w' result err :
  proceed (cb_Reconcile (ClusterReconciler.base c) w) (λ w1,
    proceed (cb_Ready (ClusterReconciler.base c) w1) (λ w2, (w2, Ok (ZeroResult, None)))) =
    (w', Ok (result, err)) ↔ run_cluster c w w' result err.
Proof.
  unfold proceed. split.
  - destruct (cb_Reconcile _ w) as [w1 [[r1 [e|]]|e|m]] eqn:Hrec; [|destruct (IsZero r1) eqn:Hz1|done..].
    + intros [= <- <- <-]. by eapply reconcile_failed.
    + destruct (cb_Ready _ w1) as [w2 [[r2 [e|]]|e|m]] eqn:Hready; [|destruct (IsZero r2) eqn:Hz2|done..];
        intros [= <- <- <-];
        [by eapply ready_failed|by eapply ready|by eapply ready_requeue].
    + intros [= <- <- <-]. by eapply reconcile_requeue.
  - intros Hrun. destruct Hrun as [? ? ? Hstep1|? ? Hstep1 Hstep2|? ? ? ? ? Hstep1 Hstep2 Hstep3|? ? ? ? Hstep1 Hstep2 Hstep3 Hstep4
      |? ? ? ? Hstep1 Hstep2 Hstep3 Hstep4]; rewrite Hstep1, ?Hstep2; try done; rewrite Hstep3, ?Hstep4; done.
Qed.

Lemma Reconcile_run r req w w' result err :
  Reconcile r req w = (w', Ok (result, err)) ↔ run r req w w' result err.
Proof.
  unfold Reconcile. split.
  - destruct (Get _ _ _ w) as [instance|e|m] eqn:Hget; [| |done].
    + destruct (cluster_of r instance) as [c|e|m] eqn:Hc; [|done..].
      destruct (RegisterClusterResources c) as [c' [[]|e|m]] eqn:Hreg; [| |done].
      * intros Hp%phases_iff. eapply run_registered; [|done]. by econstructor.
      * intros [= <- <- <-]. by eapply run_register_failed.
    + destruct (IgnoreNotFound e) as [e'|] eqn:Hnf; intros [= <- <- <-].
      * by eapply run_get_failed.
      * by eapply run_not_found.
  - intros Hrun. destruct Hrun as [e Hg Hi|e e' Hg Hi|instance c c' e Hg Hc Hr
      |c w' result err Hreg Hrun].
    + by rewrite Hg, Hi.
    + by rewrite Hg, Hi.
    + by rewrite Hg, Hc, Hr.
    + destruct Hreg as [instance c0 c Hg Hc Hr]. rewrite Hg, Hc, Hr. by apply phases_iff.
Qed.

(** ** Properties *)

(** C2: the handler refines the step relation: it returns a result and an error
    exactly when the relation allows it. *)
Theorem Reconcile_refines r req w w' result err :
  Reconcile r req w = (w', Ok (result, err)) ↔ run r req w w' result err.
Proof. apply Reconcile_run. Qed.

(** C1: a request that returns never mixes an error with a result, reports no
    error of a deleted cluster, and changes the world only after all the
    resources of the cluster were registered: when registration fails nothing
    has been applied.  It is done, with neither an error nor a requeue, only for
    a cluster that is gone or whose reconciliation and readiness check passed. *)
Theorem Reconcile_safety r req w w' result err
  (Hrun : Reconcile r req w = (w', Ok (result, err))) :
  (err ≠ None → result = ZeroResult) ∧
  (w' ≠ w → ∃ c, registered_cluster r req w c) ∧
  (result = ZeroResult → IsZero ZeroResult = true → err = None →
    (∃ e, Get (HbaseClusterReconciler.Client r) (Request.Namespace req) (Request.Name req) w = Err e ∧
       IgnoreNotFound e = None ∧ w' = w) ∨
    ∃ c w1 result1 result2, registered_cluster r req w c ∧
      cb_Reconcile (ClusterReconciler.base c) w = (w1, Ok (result1, None)) ∧ IsZero result1 = true ∧
      cb_Ready (ClusterReconciler.base c) w1 = (w', Ok (result2, None)) ∧ IsZero result2 = true).
Proof.
  apply Reconcile_run in Hrun.
  destruct Hrun as [e Hg Hi|e e' Hg Hi|instance c c' e Hg Hc Hr|c w' result err Hreg Hrun].
  - split_and!; [done|done|]. left. eauto.
  - by split_and!.
  - by split_and!.
  - split_and!; [|by exists c|].
    + by destruct Hrun.
    + intros Hres Hz Herr. right.
      destruct Hrun as [| ? ? ? Hnz| |? ? ? ? ? ? ? Hnz|w1 r1 w' r2 Hstep1 Hstep2 Hstep3 Hstep4];
        try done; [congruence..|]. by exists c, w1, r1, r2.
Qed.

Section roles.
Context `{!BasesView, !BasesLaws, !PlatformLaws}.

(** A fresh cluster reconciler has the spec and the configuration of the object, and no
    resources. *)
Lemma cluster_of_view r instance c :
  cluster_of r instance = Ok c →
  cb_Spec (ClusterReconciler.base c) = Some (HbaseCluster.Spec instance) ∧
  ClusterReconciler.ClusterConfig c = HbaseClusterSpec.ClusterConfigSpec (HbaseCluster.Spec instance) ∧
  cluster_resources c = [].
Proof.
  unfold cluster_of, NewClusterReconciler, cluster_resources. cbn [deref mbind outcome_bind].
  intros [= <-]. cbn.
  match goal with |- context [NewBaseCluster ?c ?i ?o ?s] =>
    destruct (NewBaseCluster_view (R := RoleResource) c i o s) as (-> & _ & _ & ->) end. done.
Qed.

(** The resources of a cluster can be registered: it has an image, and all three
    roles, whose role groups merge and find a cluster configuration. *)
Definition registrable (spec : HbaseClusterSpec.t) : Prop :=
  HbaseClusterSpec.Image spec ≠ None ∧ roles_ready (HbaseClusterSpec.ClusterConfigSpec spec) spec.

(** The first thing that keeps a cluster from being registered is one left out. *)
Definition part_missing (spec : HbaseClusterSpec.t) : Prop :=
  HbaseClusterSpec.Image spec = None ∨ role_missing (HbaseClusterSpec.ClusterConfigSpec spec) spec.

Lemma registration r instance c0 :
  cluster_of r instance = Ok c0 →
  let spec := HbaseCluster.Spec instance in
  (snd (RegisterClusterResources c0) = Ok tt ↔ registrable spec) ∧
  (part_missing spec → snd (RegisterClusterResources c0) = Panic nil_deref) ∧
  ∀ c, RegisterClusterResources c0 = (c, Ok tt) → length (cluster_resources c) = 3.
Proof.
  intros Hc spec. destruct (cluster_of_view r instance c0 Hc) as (Hs & Hcfg & Hempty).
  fold spec in Hs, Hcfg. unfold registrable, part_missing. rewrite <-Hcfg.
  destruct (HbaseClusterSpec.Image spec) as [i|] eqn:Hi.
  - destruct (GetImage_eq c0 spec i Hs Hi) as (image & Himage & _).
    rewrite <-(roles_of_Ok_iff c0 image spec).
    destruct (RegisterClusterResources_run c0 image spec Himage Hs) as (c & _ & Hrun). split_and!.
    + destruct (roles_of c0 image spec) as [l|e|m]; [destruct Hrun as [-> _]|rewrite Hrun..];
        naive_solver.
    + intros [|Hmissing%(roles_of_missing c0 image)]; [done|]. rewrite Hmissing in Hrun. by rewrite Hrun.
    + intros c' Hok. destruct (RegisterClusterResources_Ok c0 image spec c' Himage Hs Hok) as [-> _].
      by rewrite Hempty.
  - assert (snd (RegisterClusterResources c0) = Panic nil_deref) as Hpanic.
    { unfold RegisterClusterResources, register_role, get, lift, mbind, M_bind, GetImage.
      rewrite Hs. cbn. by rewrite Hi. }
    rewrite Hpanic. split_and!; [naive_solver|done|]. intros c Hok. by rewrite Hok in Hpanic.
Qed.

(** C3: when a request goes on to its cluster's resources.  Once the cluster object is
    read, the resources are registered exactly when the object has an image, the
    specs of all three roles, a cluster configuration if there is any role group,
    and every role group's configuration and overrides merge with its role's.  Then
    there are three roles, and the request reconciles them and, when that is done,
    checks that they are ready.  Otherwise the world is untouched, and the handler
    panics or returns an error with the zero result; it panics with a nil
    dereference if what is wrong first, in the order image, master, region
    server, REST server, is that the part is left out, although the API makes each
    of them optional. *)
Theorem Reconcile_registers_iff r req w instance
  (Hget : Get (HbaseClusterReconciler.Client r) (Request.Namespace req) (Request.Name req) w =
    Ok instance) :
  let spec := HbaseCluster.Spec instance in
  ((∃ c, registered_cluster r req w c) ↔ registrable spec) ∧
  (∀ c, registered_cluster r req w c →
    length (cluster_resources c) = 3 ∧
    Reconcile r req w =
      proceed (cb_Reconcile (ClusterReconciler.base c) w) (λ w1,
      proceed (cb_Ready (ClusterReconciler.base c) w1) (λ w2, (w2, Ok (ZeroResult, None))))) ∧
  (¬ registrable spec →
    (∃ m, Reconcile r req w = (w, Panic m)) ∨ ∃ e, Reconcile r req w = (w, Ok (ZeroResult, Some e))) ∧
  (part_missing spec → Reconcile r req w = (w, Panic nil_deref)).
Proof.
  intros spec. destruct (cluster_of_Ok r instance) as [c0 Hc].
  destruct (registration r instance c0 Hc) as (Hiff & Hmissing & Hthree). fold spec in Hiff, Hmissing.
  assert (∀ c, registered_cluster r req w c ↔ RegisterClusterResources c0 = (c, Ok tt)) as Hreg.
  { intros c. split; [|by econstructor]. intros [instance' c0' c' Hget' Hc' Hrun]. congruence. }
  unfold Reconcile. rewrite Hget, Hc.
  destruct (RegisterClusterResources c0) as [c1 o] eqn:Hrun. cbn [snd] in Hiff, Hmissing. split_and!.
  - setoid_rewrite Hreg. rewrite <-Hiff. split; [by intros [c [= _ ->]]|]. intros ->. by exists c1.
  - intros c [= -> ->]%Hreg. split; [by apply Hthree|done].
  - intros Hnot. destruct o as [[]|e|m]; [by destruct Hnot; apply Hiff|eauto..].
  - intros Hm%Hmissing. by rewrite Hm.
Qed.
End roles.
End controller.

(** ** Witnesses: an API server with two clusters, one without a REST server *)
Definition sample_instance (name : string) (rest : option RestServerSpec.t) : HbaseCluster.t :=
  HbaseCluster.mk (GroupVersionKind.mk GroupVersion.Group GroupVersion.Version "HbaseCluster")
    (ObjectMeta.mk name "default" "uid") (sample_spec rest) (HbaseClusterStatus.mk None).

#[local] Existing Instance range_forward.
#[local] Existing Instance default_build.

(** [Reconcile] applies one object; [Ready] asks for a requeue until two are there. *)
#[local] Instance fake_runtime : ControllerRuntime := {
  Get := λ _ ns n _,
    if decide (n = "hb") then Ok (sample_instance "hb" (Some sample_rest_spec))
    else if decide (n = "partial") then Ok (sample_instance "partial" None)
    else Err no_such_object;
  IgnoreNotFound := λ e, if decide (e = no_such_object) then None else Some e;
  cb_Reconcile := λ S R _ w, (w ++ [∅], Ok (0, None));
  cb_Ready := λ S R _ w, (w, Ok ((if decide (1 < length w) then 0 else 1), None))
}.

Definition sample_handler : HbaseClusterReconciler.t :=
  HbaseClusterReconciler.mk (Client.Client sample_client) [].

Definition sample_world (n : nat) : World := replicate n (∅ : gmap string string).

Example Reconcile_safety_witness :
  Reconcile sample_handler (Request.mk "default" "hb") (sample_world 1) = (sample_world 2, Ok (0, None)) ∧
  ∃ c, registered_cluster sample_handler (Request.mk "default" "hb") (sample_world 1) c.
Proof.
  assert (Reconcile sample_handler (Request.mk "default" "hb") (sample_world 1) = (sample_world 2, Ok (0, None))) as Hrun
    by (vm_compute; reflexivity).
  split; [exact Hrun|].
  destruct (Reconcile_safety sample_handler (Request.mk "default" "hb") (sample_world 1) _ _ _ Hrun)
    as (_ & Hreg & _).
  apply Hreg. discriminate.
Defined.

Lemma sample_registrable : registrable (sample_spec (Some sample_rest_spec)).
Proof.
  split; [discriminate|]. split_and!; intros name g _; (split; [apply group_merges_total|discriminate]).
Qed.

Example Reconcile_registers_iff_witness :
  Reconcile sample_handler (Request.mk "default" "partial") (sample_world 0) = (sample_world 0, Panic nil_deref) ∧
  ∃ c, registered_cluster sample_handler (Request.mk "default" "hb") (sample_world 0) c ∧
    length (cluster_resources c) = 3.
Proof.
  split.
  - assert (Get (HbaseClusterReconciler.Client sample_handler) "default" "partial" (sample_world 0) =
      Ok (sample_instance "partial" None)) as Hget by reflexivity.
    destruct (Reconcile_registers_iff sample_handler (Request.mk "default" "partial") (sample_world 0)
      _ Hget) as (_ & _ & _ & Hpanic). apply Hpanic. right. right. split; [exact (proj1 (proj2 sample_registrable))|].
    right. split; [exact (proj1 (proj2 (proj2 sample_registrable)))|reflexivity].
  - assert (Get (HbaseClusterReconciler.Client sample_handler) "default" "hb" (sample_world 0) =
      Ok (sample_instance "hb" (Some sample_rest_spec))) as Hget by reflexivity.
    destruct (Reconcile_registers_iff sample_handler (Request.mk "default" "hb") (sample_world 0)
      _ Hget) as (Hiff & Hthree & _).
    destruct (proj2 Hiff sample_registrable) as [c Hc]. exists c. split; [exact Hc|].
    exact (proj1 (Hthree c Hc)).
Defined.
