(* ===== verification/Main.v ===== *)
(** * The program: [cmd/main.go]

    [init] registers the API types with the scheme; [main] registers the flags,
    parses the arguments, and then either prints the version, or builds the
    options of the manager and starts it.  [program] is all of it, from the
    arguments of the process to how it ends.  The logger, the log lines and what
    package flag writes to the standard error are left out. *)

From S2P Require Import Prelude GoStrings GoFlag K8s OperatorGo Fakes Api Version Controller.

(** ** The variables the flags set, with their defaults *)
Module Flags.
Record t := mk {
  metricsAddr : string;
  probeAddr : string;
  enableLeaderElection : bool;
  secureMetrics : bool;
  webhookCertPath : string;
  webhookCertName : string;
  webhookCertKey : string;
  metricsCertPath : string;
  metricsCertName : string;
  metricsCertKey : string;
  enableHTTP2 : bool;
  showVersion : bool
}.
Definition defaults : t := {|
  metricsAddr := "0"; probeAddr := ":8081"; enableLeaderElection := false;
  secureMetrics := true;
  webhookCertPath := ""; webhookCertName := "tls.crt"; webhookCertKey := "tls.key";
  metricsCertPath := ""; metricsCertName := "tls.crt"; metricsCertKey := "tls.key";
  enableHTTP2 := false; showVersion := false |}.

(** The variable behind each pointer given to package flag. *)
Definition set_metricsAddr (x : string) (v : t) : t :=
  mk x (probeAddr v) (enableLeaderElection v) (secureMetrics v) (webhookCertPath v)
    (webhookCertName v) (webhookCertKey v) (metricsCertPath v) (metricsCertName v)
    (metricsCertKey v) (enableHTTP2 v) (showVersion v).
Definition set_probeAddr (x : string) (v : t) : t :=
  mk (metricsAddr v) x (enableLeaderElection v) (secureMetrics v) (webhookCertPath v)
    (webhookCertName v) (webhookCertKey v) (metricsCertPath v) (metricsCertName v)
    (metricsCertKey v) (enableHTTP2 v) (showVersion v).
Definition set_enableLeaderElection (x : bool) (v : t) : t :=
  mk (metricsAddr v) (probeAddr v) x (secureMetrics v) (webhookCertPath v) (webhookCertName
    v) (webhookCertKey v) (metricsCertPath v) (metricsCertName v) (metricsCertKey v)
    (enableHTTP2 v) (showVersion v).
Definition set_secureMetrics (x : bool) (v : t) : t :=
  mk (metricsAddr v) (probeAddr v) (enableLeaderElection v) x (webhookCertPath v)
    (webhookCertName v) (webhookCertKey v) (metricsCertPath v) (metricsCertName v)
    (metricsCertKey v) (enableHTTP2 v) (showVersion v).
Definition set_webhookCertPath (x : string) (v : t) : t :=
  mk (metricsAddr v) (probeAddr v) (enableLeaderElection v) (secureMetrics v) x
    (webhookCertName v) (webhookCertKey v) (metricsCertPath v) (metricsCertName v)
    (metricsCertKey v) (enableHTTP2 v) (showVersion v).
Definition set_webhookCertName (x : string) (v : t) : t :=
  mk (metricsAddr v) (probeAddr v) (enableLeaderElection v) (secureMetrics v)
    (webhookCertPath v) x (webhookCertKey v) (metricsCertPath v) (metricsCertName v)
    (metricsCertKey v) (enableHTTP2 v) (showVersion v).
Definition set_webhookCertKey (x : string) (v : t) : t :=
  mk (metricsAddr v) (probeAddr v) (enableLeaderElection v) (secureMetrics v)
    (webhookCertPath v) (webhookCertName v) x (metricsCertPath v) (metricsCertName v)
    (metricsCertKey v) (enableHTTP2 v) (showVersion v).
Definition set_metricsCertPath (x : string) (v : t) : t :=
  mk (metricsAddr v) (probeAddr v) (enableLeaderElection v) (secureMetrics v)
    (webhookCertPath v) (webhookCertName v) (webhookCertKey v) x (metricsCertName v)
    (metricsCertKey v) (enableHTTP2 v) (showVersion v).
Definition set_metricsCertName (x : string) (v : t) : t :=
  mk (metricsAddr v) (probeAddr v) (enableLeaderElection v) (secureMetrics v)
    (webhookCertPath v) (webhookCertName v) (webhookCertKey v) (metricsCertPath v) x
    (metricsCertKey v) (enableHTTP2 v) (showVersion v).
Definition set_metricsCertKey (x : string) (v : t) : t :=
  mk (metricsAddr v) (probeAddr v) (enableLeaderElection v) (secureMetrics v)
    (webhookCertPath v) (webhookCertName v) (webhookCertKey v) (metricsCertPath v)
    (metricsCertName v) x (enableHTTP2 v) (showVersion v).
Definition set_enableHTTP2 (x : bool) (v : t) : t :=
  mk (metricsAddr v) (probeAddr v) (enableLeaderElection v) (secureMetrics v)
    (webhookCertPath v) (webhookCertName v) (webhookCertKey v) (metricsCertPath v)
    (metricsCertName v) (metricsCertKey v) x (showVersion v).
Definition set_showVersion (x : bool) (v : t) : t :=
  mk (metricsAddr v) (probeAddr v) (enableLeaderElection v) (secureMetrics v)
    (webhookCertPath v) (webhookCertName v) (webhookCertKey v) (metricsCertPath v)
    (metricsCertName v) (metricsCertKey v) (enableHTTP2 v) x.
End Flags.

(** ** The flags [main] registers *)
Definition main_flags : list (Flag.t Flags.t) := [
  StringVar "metrics-bind-address" Flags.set_metricsAddr;
  StringVar "health-probe-bind-address" Flags.set_probeAddr;
  BoolVar "leader-elect" Flags.set_enableLeaderElection;
  BoolVar "metrics-secure" Flags.set_secureMetrics;
  StringVar "webhook-cert-path" Flags.set_webhookCertPath;
  StringVar "webhook-cert-name" Flags.set_webhookCertName;
  StringVar "webhook-cert-key" Flags.set_webhookCertKey;
  StringVar "metrics-cert-path" Flags.set_metricsCertPath;
  StringVar "metrics-cert-name" Flags.set_metricsCertName;
  StringVar "metrics-cert-key" Flags.set_metricsCertKey;
  BoolVar "enable-http2" Flags.set_enableHTTP2;
  BoolVar "version" Flags.set_showVersion ].

(** The flags of other packages on the same flag set: those registered when the
    packages are imported, and zap's [BindFlags]. *)
Class ForeignFlags := {
  ForeignVars : Type;
  foreign_defaults : ForeignVars;
  imported_flags : list (Flag.t ForeignVars);
  zap_flags : list (Flag.t ForeignVars)
}.

Section flag_set.
Context `{!ForeignFlags}.

(** All variables behind the flags of the command line. *)
Definition Vars : Type := Flags.t * ForeignVars.

Definition on_ours (f : Flag.t Flags.t) : Flag.t Vars :=
  Flag.mk (Flag.Name f) (Flag.IsBoolFlag f)
    (λ s v, let '(x, ok) := Flag.Set_ f s v.1 in ((x, v.2), ok)).
Definition on_theirs (f : Flag.t ForeignVars) : Flag.t Vars :=
  Flag.mk (Flag.Name f) (Flag.IsBoolFlag f)
    (λ s v, let '(x, ok) := Flag.Set_ f s v.2 in ((v.1, x), ok)).

Definition CommandLine : outcome (gmap string (Flag.t Vars)) :=
  do formal <- register (on_theirs <$> imported_flags) ∅;;
  do formal <- register (on_ours <$> main_flags) formal;;
  register (on_theirs <$> zap_flags) formal.
End flag_set.

(** ** Options *)

(** [tls.Config]: the field the source assigns, and the others. *)
Module TLSConfig.
Record t {Rest : Type} := mk { NextProtos : list string; rest : Rest }.
Arguments t : clear implicits.
Arguments mk {_} _ _.
End TLSConfig.

(** The code [main] calls: the types of a TLS configuration's other fields, of a
    manager and of a Kubernetes configuration, and the calls that can fail. *)
Class ManagerPackage `{!Platform} := {
  TLSRest : Type;
  Process : Type;
  RestConfig : Type;
  WebhookServer : Type;
  Manager : Type;
  (* the file names, the directory, and the TLS options *)
  NewServer : string → string → string → list (TLSConfig.t TLSRest → TLSConfig.t TLSRest) →
    WebhookServer;
  GetConfigOrDie : Process → Process * option RestConfig;
  mgr_GetClient : Manager → CtrlClient;
  mgr_GetScheme : Manager → RuntimeScheme;
  ControllerBuilder : Type;
  NewControllerManagedBy : Manager → ControllerBuilder;
  For_ : ControllerBuilder → RuntimeObject → ControllerBuilder;
  Complete : ControllerBuilder → HbaseClusterReconciler.t → Process → Process * option error;
  AddHealthzCheck : Manager → string → Process → Process * option error;
  AddReadyzCheck : Manager → string → Process → Process * option error;
  Start : Manager → Process → Process * option error
}.

Module WebhookOptions.
Record t `{!Platform, !ManagerPackage} := mk {
  TLSOpts : list (TLSConfig.t TLSRest → TLSConfig.t TLSRest);
  CertDir : string;
  CertName : string;
  KeyName : string
}.
Arguments mk {_ _} _ _ _ _.
End WebhookOptions.

(** [FilterProvider] is nil or [filters.WithAuthenticationAndAuthorization]. *)
Inductive FilterProvider := NoFilter | WithAuthenticationAndAuthorization.

Module MetricsOptions.
Record t `{!Platform, !ManagerPackage} := mk {
  BindAddress : string;
  SecureServing : bool;
  TLSOpts : list (TLSConfig.t TLSRest → TLSConfig.t TLSRest);
  FilterProvider : FilterProvider;
  CertDir : string;
  CertName : string;
  KeyName : string
}.
Arguments mk {_ _} _ _ _ _ _ _ _.
End MetricsOptions.

Module ManagerOptions.
Record t `{!Platform, !ManagerPackage} := mk {
  Scheme : RuntimeScheme;
  Metrics : MetricsOptions.t;
  HealthProbeBindAddress : string;
  LeaderElection : bool;
  WebhookServer : WebhookServer;
  LeaderElectionID : string
}.
Arguments mk {_ _} _ _ _ _ _ _.
End ManagerOptions.

Class NewManagerFunction `{!Platform, !ManagerPackage} := {
  NewManager : RestConfig → ManagerOptions.t → Process → Process * (Manager + error)
}.

(** The schemes [init] starts from. *)
Class InitPackages `{!Platform} := {
  NewScheme : RuntimeScheme;
  clientgoscheme_AddToScheme : RuntimeScheme → RuntimeScheme * option error;
  authv1alpha1_AddToScheme : RuntimeScheme → RuntimeScheme * option error
}.

(** How the process ends: [os.Exit], a panic, or [main] returns. *)
Inductive ending := Exit (code : Z) | Panicked (msg : string) | Returned.

Section main.
Context `{!Platform, !ManagerPackage, !NewManagerFunction, !BuildVars, !GoRuntime}.
Implicit Type f : Flags.t.

Definition disableHTTP2 (c : TLSConfig.t TLSRest) : TLSConfig.t TLSRest :=
  TLSConfig.mk ["http/1.1"] (TLSConfig.rest c).

Definition tlsOpts f : list (TLSConfig.t TLSRest → TLSConfig.t TLSRest) :=
  if Flags.enableHTTP2 f then [] else [disableHTTP2].

Definition webhookServerOptions f : WebhookOptions.t :=
  let webhookTLSOpts := tlsOpts f in
  if decide (Flags.webhookCertPath f = "") then WebhookOptions.mk webhookTLSOpts "" "" ""
  else WebhookOptions.mk webhookTLSOpts (Flags.webhookCertPath f) (Flags.webhookCertName f)
         (Flags.webhookCertKey f).

Definition metricsServerOptions f : MetricsOptions.t :=
  let filter :=
    if Flags.secureMetrics f then WithAuthenticationAndAuthorization else NoFilter in
  if decide (Flags.metricsCertPath f = "") then
    MetricsOptions.mk (Flags.metricsAddr f) (Flags.secureMetrics f) (tlsOpts f) filter "" "" ""
  else
    MetricsOptions.mk (Flags.metricsAddr f) (Flags.secureMetrics f) (tlsOpts f) filter
      (Flags.metricsCertPath f) (Flags.metricsCertName f) (Flags.metricsCertKey f).

Definition managerOptions (scheme : RuntimeScheme) f : ManagerOptions.t :=
  let w := webhookServerOptions f in
  let webhookServer := NewServer (WebhookOptions.CertDir w) (WebhookOptions.CertName w)
    (WebhookOptions.KeyName w) (WebhookOptions.TLSOpts w) in
  ManagerOptions.mk scheme (metricsServerOptions f) (Flags.probeAddr f) (Flags.enableLeaderElection f)
    webhookServer "8a493e83.kubedoop.dev".

(** [if err := step; err != nil { os.Exit(1) }], then [k]. *)
Definition or_exit (step : Process → Process * option error)
  (k : Process → Process * ending) (p : Process) : Process * ending :=
  match step p with
  | (p', Some _) => (p', Exit 1)
  | (p', None) => k p'
  end.

(** [SetupWithManager] of the controller *)
Definition SetupWithManager (r : HbaseClusterReconciler.t) (mgr : Manager)
  : Process → Process * option error :=
  Complete (For_ (NewControllerManagedBy mgr) EmptyHbaseCluster) r.

Definition start_manager (mgr : Manager) : Process → Process * ending :=
  or_exit (SetupWithManager (HbaseClusterReconciler.mk (mgr_GetClient mgr) (mgr_GetScheme mgr)) mgr)
    (or_exit (AddHealthzCheck mgr "healthz")
      (or_exit (AddReadyzCheck mgr "readyz")
        (or_exit (Start mgr) (λ p, (p, Returned))))).

(** [main] once the flags are parsed: the lines printed, and how the process ends. *)
Definition main (scheme : RuntimeScheme) f (p : Process) : list string * (Process * ending) :=
  if Flags.showVersion f then
    ([AppInfo_String (NewAppInfo "zookeeper-operator")], (p, Exit 0))
  else
    ([], match GetConfigOrDie p with
         | (p', None) => (p', Exit 1)
         | (p', Some config) =>
             match NewManager config (managerOptions scheme f) p' with
             | (p'', inr err) => (p'', Exit 1)
             | (p'', inl mgr) => start_manager mgr p''
             end
         end).

(** ** From the start of the process *)
Context `{!SchemePackage, !InitPackages, !ForeignFlags}.

(** [utilruntime.Must]: panic with the error. *)
Definition Must (step : RuntimeScheme → RuntimeScheme * option error) (scheme : RuntimeScheme)
  : outcome RuntimeScheme :=
  match step scheme with
  | (scheme', None) => Ok scheme'
  | (_, Some (GoError msg)) => Panic msg
  | (_, Some (ExtError msg)) => Panic msg
  end.

Definition init : outcome RuntimeScheme :=
  do scheme <- Must clientgoscheme_AddToScheme NewScheme;;
  do scheme <- Must authv1alpha1_AddToScheme scheme;;
  Must AddToScheme scheme.

(** The program run with [args], without the name it was called by.  There is a
    result for all arguments ([program_panics_iff]). *)
Definition run_main (scheme : RuntimeScheme) (result : parsed Vars) (p : Process)
  : list string * (Process * ending) :=
  match result with
  | inl (_, (f, _)) => main scheme f p
  | inr ErrHelp => ([], (p, Exit 0))
  | inr _ => ([], (p, Exit 2))
  end.

(** A computation made before [main] can return: a panic ends the process. *)
Definition or_panic {A} (o : outcome A) (p : Process)
  (k : A → option (list string * (Process * ending))) : option (list string * (Process * ending)) :=
  match o with
  | Ok a => k a
  | Err (GoError msg) | Err (ExtError msg) | Panic msg => Some ([], (p, Panicked msg))
  end.

Definition program (args : list string) (p : Process)
  : option (list string * (Process * ending)) :=
  or_panic init p (λ scheme,
  or_panic CommandLine p (λ formal,
    (λ result, run_main scheme result p) <$>
      Parse formal args (Flags.defaults, foreign_defaults))).

(** ** Properties *)

(** HTTP/2 is off unless asked for.  Whatever the flags are, the TLS
    options of the metrics server and of the webhook server are the same; applied
    to any configuration they leave HTTP/1.1 as the only protocol when
    [enable-http2] is not set, and change nothing when it is. *)
Theorem http2_off_by_default f c :
  let apply opts := foldl (λ c o, o c) c opts in
  MetricsOptions.TLSOpts (metricsServerOptions f) = WebhookOptions.TLSOpts (webhookServerOptions f) ∧
  apply (MetricsOptions.TLSOpts (metricsServerOptions f)) =
    TLSConfig.mk (if Flags.enableHTTP2 f then TLSConfig.NextProtos c else ["http/1.1"])
      (TLSConfig.rest c) ∧
  Flags.enableHTTP2 Flags.defaults = false.
Proof.
  unfold metricsServerOptions, webhookServerOptions, tlsOpts.
  destruct (Flags.enableHTTP2 f); repeat case_decide; cbn; by destruct c.
Qed.

(** The metrics endpoint is authenticated and authorised exactly when it is
    served securely, which it is by default, and the certificate files are
    given to it only with a directory: the default names alone have no effect. *)
Theorem metrics_protected f :
  let o := metricsServerOptions f in
  (MetricsOptions.FilterProvider o = WithAuthenticationAndAuthorization ↔
     MetricsOptions.SecureServing o = true) ∧
  Flags.secureMetrics Flags.defaults = true ∧
  (MetricsOptions.CertDir o = "" → MetricsOptions.CertName o = "" ∧ MetricsOptions.KeyName o = "") ∧
  MetricsOptions.CertDir o = Flags.metricsCertPath f.
Proof.
  unfold metricsServerOptions. destruct (Flags.secureMetrics f); case_decide as Hp; cbn;
    rewrite ?Hp; naive_solver.
Qed.

(** The calls of [start_manager] in order, up to the first that fails. *)
Fixpoint run_steps (steps : list (Process → Process * option error)) (p : Process)
  : Process * option error :=
  match steps with
  | [] => (p, None)
  | s :: steps' => match s p with (p', None) => run_steps steps' p' | r => r end
  end.

Lemma start_manager_steps mgr p :
  start_manager mgr p =
    let '(p', err) := run_steps [SetupWithManager (HbaseClusterReconciler.mk (mgr_GetClient mgr) (mgr_GetScheme mgr)) mgr;
      AddHealthzCheck mgr "healthz"; AddReadyzCheck mgr "readyz"; Start mgr] p in
    (p', match err with Some _ => Exit 1 | None => Returned end).
Proof.
  unfold start_manager, or_exit. cbn.
  destruct (SetupWithManager _ _ p) as [p1 [e|]]; [done|].
  destruct (AddHealthzCheck _ _ p1) as [p2 [e|]]; [done|].
  destruct (AddReadyzCheck _ _ p2) as [p3 [e|]]; [done|].
  by destruct (Start mgr p3) as [p4 [e|]].
Qed.

(** C37: the exit status of the program.  With [version] it prints one line and
    exits with 0 without touching anything; otherwise it prints nothing, runs
    configuration, manager, controller, the two checks and the manager's loop in
    this order until one fails, and exits with 1 exactly when one failed. *)
Theorem main_exit_status scheme f p :
  if Flags.showVersion f then
    main scheme f p = ([AppInfo_String (NewAppInfo "zookeeper-operator")], (p, Exit 0))
  else
    ∃ p' e, main scheme f p = ([], (p', e)) ∧ (e = Returned ∨ e = Exit 1) ∧
    (e = Returned ↔ ∃ p1 config p2 mgr,
       GetConfigOrDie p = (p1, Some config) ∧
       NewManager config (managerOptions scheme f) p1 = (p2, inl mgr) ∧
       run_steps [SetupWithManager (HbaseClusterReconciler.mk (mgr_GetClient mgr) (mgr_GetScheme mgr)) mgr;
         AddHealthzCheck mgr "healthz"; AddReadyzCheck mgr "readyz"; Start mgr] p2 = (p', None)).
Proof.
  unfold main. destruct (Flags.showVersion f); [done|].
  destruct (GetConfigOrDie p) as [p1 [config|]]; [|do 2 eexists; split; [done|naive_solver]].
  destruct (NewManager config (managerOptions scheme f) p1) as [p2 [mgr|err]] eqn:Hm;
    [|do 2 eexists; split; [done|split; [by right|split; [done|]]];
      intros (? & ? & ? & ? & [= <- <-] & Hm' & _); congruence].
  rewrite start_manager_steps.
  destruct (run_steps _ p2) as [p3 [err|]] eqn:Hrun.
  - do 2 eexists. split; [done|]. split; [by right|]. split; [done|].
    intros (? & ? & ? & ? & [= <- <-] & Hm' & Hrun'). rewrite Hm in Hm'. injection Hm' as <- <-.
    congruence.
  - do 2 eexists. split; [done|]. split; [by left|]. split; [|done]. intros _.
    by exists p1, config, p2, mgr.
Qed.

(** ** The command line *)
Lemma CommandLine_lookup formal (g : Flag.t Flags.t) :
  CommandLine = Ok formal → g ∈ main_flags → formal !! Flag.Name g = Some (on_ours g).
Proof.
  intros Hcl Hf. unfold CommandLine in Hcl.
  apply outcome_bind_Ok in Hcl as (formal1 & _ & Hcl).
  apply outcome_bind_Ok in Hcl as (formal2 & Hours & Hzap).
  apply register_Ok in Hours as [_ Hours]. apply register_Ok in Hzap as [Hsub _].
  eapply lookup_weaken; [|exact Hsub]. apply (Hours (on_ours g)).
  apply list_elem_of_fmap. by exists g.
Qed.

(** One argument [--name=value] sets one variable. *)
Lemma Parse_ours formal (g : Flag.t Flags.t) value args x x' w :
  CommandLine = Ok formal → g ∈ main_flags → good_name (Flag.Name g) →
  Flag.Set_ g value x = (x', true) →
  Parse formal (("--" +:+ Flag.Name g +:+ "=" +:+ value) :: args) (x, w) =
    Parse formal args (x', w).
Proof.
  intros Hcl Hf Hgood Hset. rewrite Parse_step, parseOne_equals by done.
  unfold parse_named. rewrite (CommandLine_lookup formal g) by done.
  cbn [on_ours Flag.IsBoolFlag default]. unfold set_flag. cbn. rewrite Hset. by destruct (Flag.IsBoolFlag g).
Qed.

Lemma Parse_ours_bare formal (g : Flag.t Flags.t) args x x' w :
  CommandLine = Ok formal → g ∈ main_flags → good_name (Flag.Name g) → Flag.IsBoolFlag g = true →
  Flag.Set_ g "true" x = (x', true) →
  Parse formal (("--" +:+ Flag.Name g) :: args) (x, w) = Parse formal args (x', w).
Proof.
  intros Hcl Hf Hgood Hbool Hset. rewrite Parse_step, parseOne_bare by done.
  unfold parse_named. rewrite (CommandLine_lookup formal g) by done.
  cbn [on_ours Flag.IsBoolFlag default]. rewrite Hbool. unfold set_flag. cbn. by rewrite Hset.
Qed.

(** The arguments that ask for the variables [f]. *)
Definition fmt_bool (b : bool) : string := if b then "true" else "false".
Definition argument (name value : string) : string := "--" +:+ name +:+ "=" +:+ value.

Definition render (f : Flags.t) : list string := [
  argument "metrics-bind-address" (Flags.metricsAddr f);
  argument "health-probe-bind-address" (Flags.probeAddr f);
  argument "leader-elect" (fmt_bool (Flags.enableLeaderElection f));
  argument "metrics-secure" (fmt_bool (Flags.secureMetrics f));
  argument "webhook-cert-path" (Flags.webhookCertPath f);
  argument "webhook-cert-name" (Flags.webhookCertName f);
  argument "webhook-cert-key" (Flags.webhookCertKey f);
  argument "metrics-cert-path" (Flags.metricsCertPath f);
  argument "metrics-cert-name" (Flags.metricsCertName f);
  argument "metrics-cert-key" (Flags.metricsCertKey f);
  argument "enable-http2" (fmt_bool (Flags.enableHTTP2 f));
  argument "version" (fmt_bool (Flags.showVersion f)) ].

Lemma BoolVar_fmt name set b (x : Flags.t) :
  Flag.Set_ (BoolVar name set) (fmt_bool b) x = (set b x, true).
Proof. by destruct b. Qed.
End main.

(** Membership of a flag in the list of [main]. *)
Ltac in_main_flags := unfold main_flags; repeat first [by left|right].

(** Consume the first argument, of a given flag. *)
Ltac string_flag Hcl name set :=
  erewrite (Parse_ours _ (StringVar name set) _ _ _ _ _ Hcl); [|in_main_flags|done|reflexivity].
Ltac bool_flag Hcl name set :=
  erewrite (Parse_ours _ (BoolVar name set) _ _ _ _ _ Hcl); [|in_main_flags|done|apply BoolVar_fmt].

Section command_line.
Context `{!Platform, !ManagerPackage, !NewManagerFunction, !BuildVars, !GoRuntime}.
Context `{!SchemePackage, !InitPackages, !ForeignFlags}.
Implicit Type f : Flags.t.

(** C34: the command line can express every setting.  Given one argument
    [--name=value] for each flag, with any values (empty ones and ones that
    contain dashes or equals signs included), parsing consumes all arguments and
    sets the variables to exactly those values, whatever they were before,
    and leaves the variables of other packages alone. *)
Theorem flags_roundtrip formal f x w :
  CommandLine = Ok formal → Parse formal (render f) (x, w) = Some (inl ([], (f, w))).
Proof.
  intros Hcl. unfold render, argument.
  string_flag Hcl "metrics-bind-address" Flags.set_metricsAddr.
  string_flag Hcl "health-probe-bind-address" Flags.set_probeAddr.
  bool_flag Hcl "leader-elect" Flags.set_enableLeaderElection.
  bool_flag Hcl "metrics-secure" Flags.set_secureMetrics.
  string_flag Hcl "webhook-cert-path" Flags.set_webhookCertPath.
  string_flag Hcl "webhook-cert-name" Flags.set_webhookCertName.
  string_flag Hcl "webhook-cert-key" Flags.set_webhookCertKey.
  string_flag Hcl "metrics-cert-path" Flags.set_metricsCertPath.
  string_flag Hcl "metrics-cert-name" Flags.set_metricsCertName.
  string_flag Hcl "metrics-cert-key" Flags.set_metricsCertKey.
  bool_flag Hcl "enable-http2" Flags.set_enableHTTP2.
  bool_flag Hcl "version" Flags.set_showVersion.
  by destruct f.
Qed.

(** The schemes of the three packages can be built one on the other. *)
Definition schemes_registered : Prop :=
  ∃ s1 s2 s3, clientgoscheme_AddToScheme NewScheme = (s1, None) ∧
    authv1alpha1_AddToScheme s1 = (s2, None) ∧ AddToScheme s2 = (s3, None).

(** The flags of other packages have names of their own, which package flag accepts and
    [main] does not use. *)
Definition foreign_names : list string := Flag.Name <$> imported_flags ++ zap_flags.

Definition foreign_flags_fit : Prop :=
  NoDup foreign_names ∧ Forall (λ n, accepted_name n = true) foreign_names ∧
  ∀ n, n ∈ foreign_names → n ∉ ["metrics-bind-address"; "health-probe-bind-address"; "leader-elect";
    "metrics-secure"; "webhook-cert-path"; "webhook-cert-name"; "webhook-cert-key";
    "metrics-cert-path"; "metrics-cert-name"; "metrics-cert-key"; "enable-http2"; "version"].

Lemma init_Ok_iff : (∃ scheme, init = Ok scheme) ↔ schemes_registered.
Proof.
  assert (∀ step scheme scheme', Must step scheme = Ok scheme' ↔ step scheme = (scheme', None)) as HMust.
  { intros step scheme scheme'. unfold Must.
    destruct (step scheme) as [s [[]|]]; naive_solver. }
  unfold init, schemes_registered. split.
  - intros [s3 Hinit]. apply outcome_bind_Ok in Hinit as (s1 & Hs1%HMust & Hinit).
    apply outcome_bind_Ok in Hinit as (s2 & Hs2%HMust & Hs3%HMust). by exists s1, s2, s3.
  - intros (s1 & s2 & s3 & Hs1%HMust & Hs2%HMust & Hs3%HMust). exists s3.
    by rewrite Hs1; cbn [mbind outcome_bind]; rewrite Hs2; cbn [mbind outcome_bind].
Qed.

Lemma CommandLine_Ok_iff : (∃ formal, CommandLine = Ok formal) ↔ foreign_flags_fit.
Proof.
  set (ours := Flag.Name <$> main_flags).
  assert (NoDup ours) as Hnd by (by apply (bool_decide_unpack _)).
  assert (Forall (λ n, accepted_name n = true) ours) as Hours by (by repeat constructor).
  assert (CommandLine = register ((on_theirs <$> imported_flags) ++ (on_ours <$> main_flags) ++
    (on_theirs <$> zap_flags)) ∅) as ->.
  { unfold CommandLine. rewrite register_app. destruct (register _ ∅); [|done..]. cbn [mbind outcome_bind]. by rewrite register_app. }
  rewrite register_Ok_iff. unfold foreign_flags_fit, foreign_names.
  rewrite !fmap_app, <-!list_fmap_compose. change (Flag.Name ∘ on_theirs) with (@Flag.Name ForeignVars).
  change (Flag.Name ∘ on_ours) with (@Flag.Name Flags.t). fold ours.
  change [_; _; _; _; _; _; _; _; _; _; _; "version"] with ours.
  rewrite !Forall_app, !NoDup_app. setoid_rewrite elem_of_app. setoid_rewrite lookup_empty.
  clearbody ours. naive_solver.
Qed.

(** A start before [main] is called ends without a panic when it succeeds. *)
Lemma run_main_no_panic scheme r p lines p' m : run_main scheme r p ≠ (lines, (p', Panicked m)).
Proof.
  destruct r as [[rest [f w]]|[]]; cbn; try congruence. unfold main.
  destruct (Flags.showVersion f); [congruence|].
  destruct (GetConfigOrDie p) as [p1 [config|]]; [|congruence].
  destruct (NewManager _ _ _) as [p2 [mgr|]]; [|congruence].
  rewrite start_manager_steps. destruct (run_steps _ _) as [p3 [|]]; congruence.
Qed.

(** C32: the program has an outcome for all arguments, and what makes it panic.  It panics
    exactly when the types of one of the three packages cannot be registered, in
    the order Kubernetes, authentication, HBase, each with what the ones before it
    made, or when the flags of other packages clash with each other or with one of
    its twelve; then it has printed nothing and touched nothing.  No argument makes it
    panic. *)
Theorem program_panics_iff args p :
  ∃ lines p' e, program args p = Some (lines, (p', e)) ∧
    ((∃ m, e = Panicked m) ↔ ¬ (schemes_registered ∧ foreign_flags_fit)) ∧
    ((∃ m, e = Panicked m) → lines = [] ∧ p' = p).
Proof.
  unfold program, or_panic. setoid_rewrite <-init_Ok_iff. setoid_rewrite <-CommandLine_Ok_iff.
  destruct init as [scheme|[msg|msg]|msg]; [|by do 3 eexists; split; [reflexivity|naive_solver]..].
  destruct CommandLine as [formal|[msg|msg]|msg];
    [|by do 3 eexists; split; [reflexivity|naive_solver]..].
  destruct (Parse_total formal args (Flags.defaults, foreign_defaults)) as [r ->]. cbn.
  destruct (run_main scheme r p) as [lines [p' e]] eqn:Hrun. exists lines, p', e. split; [done|].
  assert (¬ ∃ m, e = Panicked m) as Hno by (intros [m ->]; by apply run_main_no_panic in Hrun).
  naive_solver.
Qed.

(** The result of parsing the arguments, when there are no panics before. *)
Definition arguments_parse (args : list string) (r : parsed Vars) : Prop :=
  ∃ formal, CommandLine = Ok formal ∧ Parse formal args (Flags.defaults, foreign_defaults) = Some r.

Lemma program_parsed scheme args r p :
  init = Ok scheme → arguments_parse args r → program args p = Some (run_main scheme r p).
Proof. intros Hinit (formal & Hcl & Hparse). unfold program, or_panic. by rewrite Hinit, Hcl, Hparse. Qed.

(** [main] exits with 0 or 1, or returns: 2 is the status of package flag. *)
Lemma main_not_2 scheme f p lines p' : main scheme f p ≠ (lines, (p', Exit 2)).
Proof.
  unfold main. destruct (Flags.showVersion f); [congruence|].
  destruct (GetConfigOrDie p) as [p1 [config|]]; [|congruence].
  destruct (NewManager _ _ _) as [p2 [mgr|]]; [|congruence].
  rewrite start_manager_steps. destruct (run_steps _ _) as [p3 [|]]; congruence.
Qed.

(** C33: the exit status tells a wrong command line from a failed start.  Once the
    types and the flags are registered, the program exits with 2 exactly when an
    argument is wrong, and then it has printed nothing and touched nothing; it
    exits with 0 when help is asked for; otherwise it does what [main] does with
    the variables the arguments set. *)
Theorem program_exit_status scheme args r p :
  init = Ok scheme → arguments_parse args r →
  ((∃ lines p', program args p = Some (lines, (p', Exit 2))) ↔ ∃ e, r = inr e ∧ e ≠ ErrHelp) ∧
  match r with
  | inr ErrHelp => program args p = Some ([], (p, Exit 0))
  | inr _ => program args p = Some ([], (p, Exit 2))
  | inl (_, (f, _)) => program args p = Some (main scheme f p)
  end.
Proof.
  intros Hinit Hparse. rewrite (program_parsed scheme args r p) by done.
  destruct r as [[rest [f w]]|e]; cbn.
  - split; [|done]. split; [|by intros (? & ? & _)].
    intros (lines & p' & [= Hmain]). by apply main_not_2 in Hmain.
  - destruct e; (split; [|done]); split; naive_solver.
Qed.

(** C35: parsing stops at the first argument that is not a flag, without an error.  If
    the arguments before it are flags, the program behaves as if it and all
    arguments after it were not there.  So a boolean flag must be set with an
    equals sign: after [--metrics-secure false] the metrics are still secure,
    and the flags that follow have no effect. *)
Theorem arguments_after_positional scheme args s more p v :
  init = Ok scheme → arguments_parse args (inl ([], v)) → positional s →
  program (args ++ s :: more) p = program args p ∧
  program ("--metrics-secure" :: "false" :: more) p = Some (main scheme Flags.defaults p).
Proof.
  intros Hinit (formal & Hcl & Hparse) Hs.
  assert (∀ args v s, Parse formal args (Flags.defaults, foreign_defaults) = Some (inl ([], v)) →
    positional s → program (args ++ s :: more) p = Some (main scheme v.1 p)) as Hstop.
  { intros args' v' s' Hparse' Hs'. rewrite (program_parsed scheme _ (inl (s' :: more, v')) p);
      [by destruct v'|done|].
    exists formal. split; [done|]. by apply Parse_positional. }
  split.
  - rewrite (Hstop args v s) by done. symmetry.
    rewrite (program_parsed scheme _ (inl ([], v)) p); [by destruct v|done|by exists formal].
  - apply (Hstop ["--metrics-secure"] (Flags.defaults, foreign_defaults)); [|done].
    rewrite (Parse_ours_bare formal (BoolVar "metrics-secure" Flags.set_secureMetrics) _ _
      Flags.defaults _ Hcl); [done|in_main_flags|done..].
Qed.

(** C36: the arguments of the deployments mean what they say.  Those of
    [config/manager] with the patch of [config/default] turn on leader election
    and serve metrics on port 8443, authenticated; those of the Helm chart serve
    metrics on the port given, and authenticate them exactly when asked to.
    HTTP/2 stays off in both. *)
Theorem deployment_arguments formal (port health : string) (secure : bool) w :
  CommandLine = Ok formal →
  (∃ f, Parse formal ["--metrics-bind-address=:8443"; "--leader-elect";
      "--health-probe-bind-address=:8081"] (Flags.defaults, w) = Some (inl ([], (f, w))) ∧
    Flags.enableLeaderElection f = true ∧ Flags.probeAddr f = ":8081" ∧
    Flags.enableHTTP2 f = false ∧ Flags.showVersion f = false ∧
    MetricsOptions.BindAddress (metricsServerOptions f) = ":8443" ∧
    MetricsOptions.FilterProvider (metricsServerOptions f) = WithAuthenticationAndAuthorization) ∧
  (∃ f, Parse formal [argument "metrics-bind-address" (":" +:+ port);
      argument "metrics-secure" (fmt_bool secure);
      argument "health-probe-bind-address" health] (Flags.defaults, w) = Some (inl ([], (f, w))) ∧
    Flags.enableLeaderElection f = false ∧ Flags.probeAddr f = health ∧
    Flags.enableHTTP2 f = false ∧ Flags.showVersion f = false ∧
    MetricsOptions.BindAddress (metricsServerOptions f) = ":" +:+ port ∧
    MetricsOptions.FilterProvider (metricsServerOptions f) =
      (if secure then WithAuthenticationAndAuthorization else NoFilter)).
Proof.
  intros Hcl. split;
    [exists (Flags.set_probeAddr ":8081" (Flags.set_enableLeaderElection true
       (Flags.set_metricsAddr ":8443" Flags.defaults)))
    |exists (Flags.set_probeAddr health (Flags.set_secureMetrics secure
       (Flags.set_metricsAddr (":" +:+ port) Flags.defaults)))];
    (split; [|repeat split; by destruct secure]).
  - change "--metrics-bind-address=:8443" with ("--" +:+ "metrics-bind-address" +:+ "=" +:+ ":8443").
    change "--health-probe-bind-address=:8081" with
      ("--" +:+ "health-probe-bind-address" +:+ "=" +:+ ":8081").
    string_flag Hcl "metrics-bind-address" Flags.set_metricsAddr.
    erewrite (Parse_ours_bare _ (BoolVar "leader-elect" Flags.set_enableLeaderElection)
      _ _ _ _ Hcl); [|in_main_flags|done|done|reflexivity].
    string_flag Hcl "health-probe-bind-address" Flags.set_probeAddr. done.
  - unfold argument. string_flag Hcl "metrics-bind-address" Flags.set_metricsAddr.
    bool_flag Hcl "metrics-secure" Flags.set_secureMetrics.
    string_flag Hcl "health-probe-bind-address" Flags.set_probeAddr. done.
Qed.
End command_line.

(** ** Witnesses: a process that logs its calls *)
#[local] Instance fake_manager : ManagerPackage := {
  TLSRest := unit;
  Process := list string;
  RestConfig := unit;
  WebhookServer := string;
  Manager := string;
  NewServer := λ name key dir _, dir +:+ name +:+ key;
  GetConfigOrDie := λ p, (p ++ ["config"], Some tt);
  mgr_GetClient := λ _, (λ _, Err (ExtError "no config map"), λ _, Err (ExtError "no class"));
  mgr_GetScheme := λ _, [];
  ControllerBuilder := string;
  NewControllerManagedBy := λ m, m;
  For_ := λ b _, b;
  Complete := λ _ _ p, (p ++ ["controller"], None);
  AddHealthzCheck := λ _ name p, (p ++ [name], None);
  AddReadyzCheck := λ _ name p, (p ++ [name], None);
  Start := λ _ p, (p ++ ["start"], None)
}.

#[local] Instance fake_new_manager : NewManagerFunction := {
  NewManager := λ _ o p, (p ++ [ManagerOptions.LeaderElectionID o], inl "manager")
}.

#[local] Instance fake_schemes : SchemePackage := {
  Builder := list (string * string);
  NewBuilder := λ group version, [(group, version)];
  Register_ := λ b _, b;
  Builder_AddToScheme := λ b scheme, (scheme ++ b, None)
}.

#[local] Instance fake_init : InitPackages := {
  NewScheme := [];
  clientgoscheme_AddToScheme := λ s, (s ++ [("", "v1")], None);
  authv1alpha1_AddToScheme := λ s, (s ++ [("authentication.kubedoop.dev", "v1alpha1")], None)
}.

(** The flags of the other packages collect their texts. *)
Definition collect (s : string) (l : list string) : list string := l ++ [s].
#[local] Instance fake_flags : ForeignFlags := {
  ForeignVars := list string;
  foreign_defaults := [];
  imported_flags := [StringVar "kubeconfig" collect];
  zap_flags := [BoolVar "zap-devel" (λ _ l, l); StringVar "zap-encoder" collect;
    StringVar "zap-log-level" collect; StringVar "zap-stacktrace-level" collect;
    StringVar "zap-time-encoding" collect]
}.
#[local] Existing Instance default_build.
#[local] Instance fake_runtime : GoRuntime := {
  Version := "go1.25"; Compiler := "gc"; GOOS := "linux"; GOARCH := "amd64"
}.

Definition sample_flags : gmap string (Flag.t Vars) :=
  match CommandLine with Ok formal => formal | _ => ∅ end.

Lemma sample_command_line : CommandLine = Ok sample_flags.
Proof. reflexivity. Qed.

Lemma sample_init : init = Ok [("", "v1"); ("authentication.kubedoop.dev", "v1alpha1");
  (GroupVersion.Group, GroupVersion.Version)].
Proof. reflexivity. Qed.

(** Values with equals signs and dashes, and empty ones. *)
Definition odd_flags : Flags.t :=
  Flags.mk "a=b" "" true false "--version" "=" "-" "" "x y" "--" true true.

Lemma flags_roundtrip_witness :
  Parse sample_flags (render odd_flags) (Flags.defaults, []) = Some (inl ([], (odd_flags, []))).
Proof. exact (flags_roundtrip sample_flags odd_flags Flags.defaults [] sample_command_line). Defined.

Definition no_calls : Process := @nil string.

Lemma sample_schemes : schemes_registered.
Proof. do 3 eexists. split; [reflexivity|]. split; reflexivity. Qed.

Lemma sample_foreign_flags : foreign_flags_fit.
Proof. apply CommandLine_Ok_iff. exists sample_flags. apply sample_command_line. Qed.

Lemma program_panics_iff_witness :
  ∃ lines p' e, program ["--metrics-secure"; "--unknown"] no_calls = Some (lines, (p', e)) ∧
    ¬ ∃ m, e = Panicked m.
Proof.
  destruct (program_panics_iff ["--metrics-secure"; "--unknown"] no_calls)
    as (lines & p' & e & Hrun & Hiff & _).
  exists lines, p', e. split; [exact Hrun|]. intros Hpanic.
  exact (proj1 Hiff Hpanic (conj sample_schemes sample_foreign_flags)).
Defined.

Lemma program_exit_status_witness :
  program ["--leader-elect"; "--metrics-secure=maybe"] no_calls = Some ([], (no_calls, Exit 2)).
Proof.
  exact (proj2 (program_exit_status _ ["--leader-elect"; "--metrics-secure=maybe"]
    (inr (InvalidBoolean "maybe" "metrics-secure")) no_calls sample_init
    (ex_intro _ sample_flags (conj sample_command_line eq_refl)))).
Defined.

Lemma arguments_after_positional_witness :
  program ["--leader-elect"; "now"; "--version"] no_calls = program ["--leader-elect"] no_calls.
Proof.
  exact (proj1 (arguments_after_positional _ ["--leader-elect"] "now" ["--version"] no_calls
    (Flags.set_enableLeaderElection true Flags.defaults, []) sample_init
    (ex_intro _ sample_flags (conj sample_command_line eq_refl)) I)).
Defined.

Lemma deployment_arguments_witness :
  ∃ f, Parse sample_flags [argument "metrics-bind-address" (":" +:+ "8080");
      argument "metrics-secure" (fmt_bool false);
      argument "health-probe-bind-address" ":8081"] (Flags.defaults, []) = Some (inl ([], (f, []))) ∧
    Flags.enableLeaderElection f = false ∧ Flags.probeAddr f = ":8081" ∧
    Flags.enableHTTP2 f = false ∧ Flags.showVersion f = false ∧
    MetricsOptions.BindAddress (metricsServerOptions f) = ":" +:+ "8080" ∧
    MetricsOptions.FilterProvider (metricsServerOptions f) = NoFilter.
Proof.
  exact (proj2 (deployment_arguments sample_flags "8080" ":8081" false [] sample_command_line)).
Defined.
